(** * LNCD-Agent: crawl, enrichment, classification gate and compliance merge

    A shallow embedding of the crawl/orchestration core of LNCD-Agent
    (coarse_search/, data_process/, fine_filter/, compliance_check/) and the
    properties of its specification; then of the license formalization, the
    nodes and the graph of agent.py, the citation matcher and the statistics
    scripts (license_extract/, agent.py, compliance_check/, scripts/), with
    further properties of the code.

    Python values are JSON-shaped ([json]); a dict is an association list
    in insertion order, because [json.dump] writes keys in that order.
    Everything outside the process (HTTP replies, completions of the chat
    model, files, the clock) lives in a [world] that the code threads through
    a small state-and-exception monad. *)

From Stdlib Require Import ZArith Lia Ascii String List Bool.
From Stdlib Require Import Numbers.DecimalString.
From Stdlib Require QArith.
From stdpp Require Import base option list strings gmap sorting.

Local Open Scope Z_scope.

(** ** Strings the way Python sees them *)

Module Py.

Definition dquote : ascii := Ascii.ascii_of_nat 34.

(** Writes a text with apostrophes where it has double quotes, so that
    JSON examples stay readable. *)
Fixpoint dq (s : string) : string :=
  match s with
  | String c s' => String (if Ascii.eqb c "'" then dquote else c) (dq s')
  | EmptyString => EmptyString
  end.

Definition isdigit (c : ascii) : bool :=
  let n := Ascii.nat_of_ascii c in ((48 <=? n) && (n <=? 57))%nat.

(** [s.startswith(p)], returning the rest of [s] behind the prefix. *)
Fixpoint strip_prefix (p s : string) : option string :=
  match p, s with
  | EmptyString, _ => Some s
  | String a p', String b s' =>
      if Ascii.eqb a b then strip_prefix p' s' else None
  | String _ _, EmptyString => None
  end.

Definition startswith (s p : string) : bool :=
  match strip_prefix p s with Some _ => true | None => false end.

(** A text is held as the bytes of its UTF-8 encoding: a character up to
    U+007F is one byte, any other character two to four bytes of 128 and
    more. [utf8] is the encoding of a character below U+10000. *)
Definition byte (n : Z) : ascii := Ascii.ascii_of_N (Z.to_N n).

Definition utf8 (n : Z) : string :=
  if n <? 0x80 then String (byte n) EmptyString
  else if n <? 0x800 then
    String (byte (0xC0 + n / 0x40))
      (String (byte (0x80 + n mod 0x40)) EmptyString)
  else
    String (byte (0xE0 + n / 0x1000))
      (String (byte (0x80 + (n / 0x40) mod 0x40))
         (String (byte (0x80 + n mod 0x40)) EmptyString)).

(** The characters of which [str.isspace] holds; they are also what [\s]
    matches in [re], and what [str.strip] takes away. *)
Definition whitespace : list string :=
  map utf8
    [0x9; 0xA; 0xB; 0xC; 0xD; 0x1C; 0x1D; 0x1E; 0x1F; 0x20; 0x85; 0xA0;
     0x1680; 0x2000; 0x2001; 0x2002; 0x2003; 0x2004; 0x2005; 0x2006;
     0x2007; 0x2008; 0x2009; 0x200A; 0x2028; 0x2029; 0x202F; 0x205F;
     0x3000].

(** The white-space character that [s] begins with, if it begins with
    one. *)
Definition leading_space (s : string) : option string :=
  List.find (startswith s) whitespace.

(** [s.lstrip()]: the white-space characters that [s] begins with are
    taken away one by one. Each is at least one byte, so the length of [s]
    bounds their number. *)
Fixpoint lstrip_upto (n : nat) (s : string) : string :=
  match n with
  | O => s
  | S n' =>
      match leading_space s with
      | Some c =>
          match strip_prefix c s with
          | Some rest => lstrip_upto n' rest
          | None => s
          end
      | None => s
      end
  end.

Definition lstrip (s : string) : string := lstrip_upto (String.length s) s.

(** [s] is empty or white space only. *)
Definition blank (s : string) : bool := String.eqb (lstrip s) EmptyString.

Fixpoint rev_onto (s acc : string) : string :=
  match s with
  | String c s' => rev_onto s' (String c acc)
  | EmptyString => acc
  end.

Definition rev (s : string) : string := rev_onto s EmptyString.

(** [s.rstrip()]: [s] up to where only white space follows. No byte inside
    a character begins a white-space character, so that place is between
    two characters. *)
Fixpoint rstrip (s : string) : string :=
  match s with
  | EmptyString => EmptyString
  | String c s' => if blank s then EmptyString else String c (rstrip s')
  end.

(** [s.strip()] *)
Definition strip (s : string) : string := rstrip (lstrip s).

Definition lower_char (c : ascii) : ascii :=
  let n := Ascii.nat_of_ascii c in
  if ((65 <=? n) && (n <=? 90))%nat then Ascii.ascii_of_nat (n + 32) else c.

(** [s.lower()] *)
Fixpoint lower (s : string) : string :=
  match s with
  | String c s' => String (lower_char c) (lower s')
  | EmptyString => EmptyString
  end.

(** [p in s] *)
Fixpoint contains (p s : string) : bool :=
  if startswith s p then true
  else match s with
       | String _ s' => contains p s'
       | EmptyString => false
       end.

(** [s.replace(p, empty)] for a non-empty [p]: every occurrence, left to
    right, without overlap. The recursion is on a bound for the length. *)
Fixpoint remove_all_aux (n : nat) (p s : string) : string :=
  match n with
  | O => s
  | S n' =>
      match strip_prefix p s with
      | Some rest => remove_all_aux n' p rest
      | None =>
          match s with
          | String c s' => String c (remove_all_aux n' p s')
          | EmptyString => EmptyString
          end
      end
  end.

Definition remove_all (p s : string) : string :=
  remove_all_aux (S (String.length s)) p s.

Fixpoint digits_value (s : string) (acc : Z) : option Z :=
  match s with
  | EmptyString => Some acc
  | String c s' =>
      if isdigit c
      then digits_value s' (10 * acc + Z.of_nat (Ascii.nat_of_ascii c) - 48)
      else None
  end.

Definition unsigned_value (s : string) : option Z :=
  match s with
  | EmptyString => None
  | _ => digits_value s 0
  end.

(** [int(s)] for a string: surrounding white space, an optional sign and
    decimal digits; [None] stands for [ValueError]. Digit-group
    underscores are not modelled. *)
Definition int_of_str (s : string) : option Z :=
  match strip s with
  | String "-" s' => Z.opp <$> unsigned_value s'
  | String "+" s' => unsigned_value s'
  | s' => unsigned_value s'
  end.

(** [str(n)] for an integer. *)
Definition str_of_int (z : Z) : string :=
  NilEmpty.string_of_int (Z.to_int z).

(** [sep.join(parts)] *)
Fixpoint join (sep : string) (parts : list string) : string :=
  match parts with
  | [] => EmptyString
  | [p] => p
  | p :: rest => p +:+ sep +:+ join sep rest
  end.

(** [s[:n]] *)
Fixpoint take (n : nat) (s : string) : string :=
  match n, s with
  | S n', String c s' => String c (take n' s')
  | _, _ => EmptyString
  end.

End Py.

(** ** JSON-shaped Python values *)

#[warnings="-register-all"]
Inductive json : Type :=
| JNull
| JBool (b : bool)
| JNum (z : Z)
| JStr (s : string)
| JArr (items : list json)
| JObj (fields : list (string * json)).

(** A dict keeps its keys in insertion order. *)
Abbreviation dict := (list (string * json)).

Module Dict.

(** [k in d] and [d[k]] *)
Fixpoint lookup (k : string) (d : dict) : option json :=
  match d with
  | [] => None
  | (k', v) :: d' => if String.eqb k k' then Some v else lookup k d'
  end.

(** [d.get(k, dflt)] *)
Definition get_default (k : string) (dflt : json) (d : dict) : json :=
  match lookup k d with Some v => v | None => dflt end.

(** [d.get(k)] *)
Definition get (k : string) (d : dict) : json := get_default k JNull d.

(** [d[k] = v]: an existing key keeps its place, a new key goes last. *)
Fixpoint set (k : string) (v : json) (d : dict) : dict :=
  match d with
  | [] => [(k, v)]
  | (k', v') :: d' =>
      if String.eqb k k' then (k', v) :: d' else (k', v') :: set k v d'
  end.

Definition mem (k : string) (d : dict) : bool :=
  match lookup k d with Some _ => true | None => false end.

End Dict.

(** [bool(v)] *)
Definition truthy (v : json) : bool :=
  match v with
  | JNull => false
  | JBool b => b
  | JNum z => negb (z =? 0)
  | JStr s => negb (String.eqb s EmptyString)
  | JArr l => match l with [] => false | _ => true end
  | JObj d => match d with [] => false | _ => true end
  end.

(** [v == True] *)
Definition eq_True (v : json) : bool :=
  match v with
  | JBool b => b
  | JNum z => z =? 1
  | _ => false
  end.

(** [a or b] *)
Definition py_or (a b : json) : json := if truthy a then a else b.

(** ** The [json] library on the integer fragment of JSON

    [loads] and [dumps] stand for [json.loads] and [json.dumps(.., indent=n)].
    Floating-point literals and [\u] escapes are outside the fragment and
    are answered like a text that does not parse. The pipeline below takes
    its loader and printer as parameters; these are the ones used to run
    it on concrete artifacts. *)

Module Json.

Definition is_ws (c : ascii) : bool :=
  match Ascii.nat_of_ascii c with
  | 32%nat | 9%nat | 10%nat | 13%nat => true
  | _ => false
  end.

Fixpoint skip_ws (s : string) : string :=
  match s with
  | String c s' => if is_ws c then skip_ws s' else s
  | EmptyString => EmptyString
  end.

Definition unescape (c : ascii) : option ascii :=
  match c with
  | "\"%char => Some "\"%char
  | "/"%char => Some "/"%char
  | "b"%char => Some (Ascii.ascii_of_nat 8)
  | "f"%char => Some (Ascii.ascii_of_nat 12)
  | "n"%char => Some (Ascii.ascii_of_nat 10)
  | "r"%char => Some (Ascii.ascii_of_nat 13)
  | "t"%char => Some (Ascii.ascii_of_nat 9)
  | _ => if Ascii.eqb c Py.dquote then Some Py.dquote else None
  end.

(** The text behind an opening quote, up to the closing one. *)
Fixpoint parse_string_body (s : string) : option (string * string) :=
  match s with
  | EmptyString => None
  | String c s' =>
      if Ascii.eqb c Py.dquote then Some (EmptyString, s')
      else if Ascii.eqb c "\" then
        match s' with
        | String e s'' =>
            match unescape e, parse_string_body s'' with
            | Some ch, Some (body, rest) => Some (String ch body, rest)
            | _, _ => None
            end
        | EmptyString => None
        end
      else if (Ascii.nat_of_ascii c <? 32)%nat then None
      else
        match parse_string_body s' with
        | Some (body, rest) => Some (String c body, rest)
        | None => None
        end
  end.

Fixpoint span_digits (s : string) : string * string :=
  match s with
  | String c s' =>
      if Py.isdigit c
      then let '(d, r) := span_digits s' in (String c d, r)
      else (EmptyString, s)
  | EmptyString => (EmptyString, EmptyString)
  end.

Definition starts_fraction (s : string) : bool :=
  match s with
  | String c _ => Ascii.eqb c "." || Ascii.eqb c "e" || Ascii.eqb c "E"
  | EmptyString => false
  end.

Definition parse_unsigned (s : string) : option (Z * string) :=
  let '(d, r) := span_digits s in
  match d with
  | EmptyString => None
  | String "0" (String _ _) => None
  | _ => if starts_fraction r then None
         else (fun z => (z, r)) <$> Py.digits_value d 0
  end.

Definition parse_number (s : string) : option (Z * string) :=
  match s with
  | String "-" s' => (fun '(z, r) => (- z, r)) <$> parse_unsigned s'
  | _ => parse_unsigned s
  end.

Section Containers.
Variable parse_value : string -> option (json * string).

(** Items of an array, the text standing at the first item. *)
Fixpoint parse_items (fuel : nat) (s : string)
  : option (list json * string) :=
  match fuel with
  | O => None
  | S fuel' =>
      match parse_value s with
      | Some (v, r) =>
          match skip_ws r with
          | String "," r' =>
              (fun '(vs, r'') => (v :: vs, r'')) <$> parse_items fuel' r'
          | String "]" r' => Some ([v], r')
          | _ => None
          end
      | None => None
      end
  end.

(** Members of an object, the text standing at the first key. *)
Fixpoint parse_members (fuel : nat) (s : string)
  : option (list (string * json) * string) :=
  match fuel with
  | O => None
  | S fuel' =>
      match skip_ws s with
      | String c r =>
          if negb (Ascii.eqb c Py.dquote) then None else
          match parse_string_body r with
          | Some (k, r1) =>
              match skip_ws r1 with
              | String ":" r2 =>
                  match parse_value r2 with
                  | Some (v, r3) =>
                      match skip_ws r3 with
                      | String "," r4 =>
                          (fun '(kvs, r5) => ((k, v) :: kvs, r5))
                            <$> parse_members fuel' r4
                      | String "}" r4 => Some ([(k, v)], r4)
                      | _ => None
                      end
                  | None => None
                  end
              | _ => None
              end
          | None => None
          end
      | EmptyString => None
      end
  end.
End Containers.

(** A repeated key keeps its first place and its last value. *)
Definition dict_of_members (kvs : list (string * json)) : dict :=
  fold_left (fun d '(k, v) => Dict.set k v d) kvs [].

Fixpoint parse_value (fuel : nat) (s : string) : option (json * string) :=
  match fuel with
  | O => None
  | S fuel' =>
      match skip_ws s with
      | String "n" r => (fun r' => (JNull, r')) <$> Py.strip_prefix "ull" r
      | String "t" r =>
          (fun r' => (JBool true, r')) <$> Py.strip_prefix "rue" r
      | String "f" r =>
          (fun r' => (JBool false, r')) <$> Py.strip_prefix "alse" r
      | String "[" r =>
          match skip_ws r with
          | String "]" r' => Some (JArr [], r')
          | r' => (fun '(vs, r'') => (JArr vs, r''))
                    <$> parse_items (parse_value fuel') fuel' r'
          end
      | String "{" r =>
          match skip_ws r with
          | String "}" r' => Some (JObj [], r')
          | r' => (fun '(kvs, r'') => (JObj (dict_of_members kvs), r''))
                    <$> parse_members (parse_value fuel') fuel' r'
          end
      | String c r as s' =>
          if Ascii.eqb c Py.dquote
          then (fun '(b, r') => (JStr b, r')) <$> parse_string_body r
          else (fun '(z, r') => (JNum z, r')) <$> parse_number s'
      | EmptyString => None
      end
  end.

(** [json.loads(s)]; [None] stands for [JSONDecodeError]. *)
Definition loads (s : string) : option json :=
  match parse_value (S (String.length s)) s with
  | Some (v, r) =>
      match skip_ws r with EmptyString => Some v | _ => None end
  | None => None
  end.

Definition hex_digit (n : nat) : ascii :=
  Ascii.ascii_of_nat (if (n <? 10)%nat then 48 + n else 87 + n).

Definition escape_char (c : ascii) : string :=
  let n := Ascii.nat_of_ascii c in
  if Ascii.eqb c Py.dquote then String "\" (String Py.dquote EmptyString)
  else if Ascii.eqb c "\" then "\\"
  else if (n =? 10)%nat then "\n"
  else if (n =? 13)%nat then "\r"
  else if (n =? 9)%nat then "\t"
  else if (n =? 8)%nat then "\b"
  else if (n =? 12)%nat then "\f"
  else if (n <? 32)%nat
       then "\u00" +:+ String (hex_digit (n / 16))
                         (String (hex_digit (n mod 16)) EmptyString)
  else String c EmptyString.

Fixpoint escape (s : string) : string :=
  match s with
  | String c s' => escape_char c +:+ escape s'
  | EmptyString => EmptyString
  end.

Definition quote (s : string) : string :=
  String Py.dquote (escape s +:+ String Py.dquote EmptyString).

Fixpoint spaces (n : nat) : string :=
  match n with
  | O => EmptyString
  | S n' => String " " (spaces n')
  end.

Definition newline (indent level : nat) : string :=
  String (Ascii.ascii_of_nat 10) (spaces (indent * level)).

Fixpoint dumps_at (indent level : nat) (v : json) : string :=
  match v with
  | JNull => "null"
  | JBool true => "true"
  | JBool false => "false"
  | JNum z => Py.str_of_int z
  | JStr s => quote s
  | JArr [] => "[]"
  | JArr l =>
      "[" +:+ newline indent (S level)
      +:+ Py.join ("," +:+ newline indent (S level))
                  (map (dumps_at indent (S level)) l)
      +:+ newline indent level +:+ "]"
  | JObj [] => "{}"
  | JObj d =>
      "{" +:+ newline indent (S level)
      +:+ Py.join ("," +:+ newline indent (S level))
                  (map (fun kv => quote (fst kv) +:+ ": "
                                  +:+ dumps_at indent (S level) (snd kv)) d)
      +:+ newline indent level +:+ "}"
  end.

(** [json.dumps(v, indent=indent)] *)
Definition dumps (indent : nat) (v : json) : string := dumps_at indent 0 v.

End Json.



(** ** Calendar dates

    A [datetime] is a count of microseconds since 1970-01-01T00:00; the
    civil-date conversions are the usual ones for the proleptic Gregorian
    calendar. *)

Module Date.

Definition day : Z := 86400000000.

(** [timedelta(days=n)] *)
Definition timedelta_days (n : Z) : Z := n * day.

Definition days_from_civil (y m d : Z) : Z :=
  let y' := if m <=? 2 then y - 1 else y in
  let era := y' / 400 in
  let yoe := y' - era * 400 in
  let doy := (153 * (if m >? 2 then m - 3 else m + 9) + 2) / 5 + d - 1 in
  let doe := yoe * 365 + yoe / 4 - yoe / 100 + doy in
  era * 146097 + doe - 719468.

(** [datetime(y, m, d)] *)
Definition datetime (y m d : Z) : Z := days_from_civil y m d * day.

Definition civil_from_days (z : Z) : Z * Z * Z :=
  let z' := z + 719468 in
  let era := z' / 146097 in
  let doe := z' - era * 146097 in
  let yoe := (doe - doe / 1460 + doe / 36524 - doe / 146096) / 365 in
  let doy := doe - (365 * yoe + yoe / 4 - yoe / 100) in
  let mp := (5 * doy + 2) / 153 in
  let d := doy - (153 * mp + 2) / 5 + 1 in
  let m := if mp <? 10 then mp + 3 else mp - 9 in
  (if m <=? 2 then yoe + era * 400 + 1 else yoe + era * 400, m, d).

Definition pad (width : nat) (z : Z) : string :=
  let s := Py.str_of_int z in
  (fix zeros (n : nat) : string :=
     match n with O => s | S n' => String "0" (zeros n') end)
    (width - String.length s)%nat.

(** [t.strftime("%Y-%m-%d")] *)
Definition strftime_ymd (t : Z) : string :=
  let '(y, m, d) := civil_from_days (t / day) in
  pad 4 y +:+ "-" +:+ pad 2 m +:+ "-" +:+ pad 2 d.

End Date.

(** ** Library functions the code calls

    The theorems hold for any JSON loader and printer and any date
    formatter; [fragment] is the instance used to run the code. *)

Class Library := {
  json_loads : string -> option json;
  json_dumps : nat -> json -> string;
  strftime : Z -> string
}.

Definition fragment : Library :=
  {| json_loads := Json.loads;
     json_dumps := Json.dumps;
     strftime := Date.strftime_ymd |}.

(** ** The outside world *)

Record response := {
  status_code : Z;
  headers : list (string * string);
  text : string
}.

Inductive exn :=
| FileNotFoundError
| JSONDecodeError
| AttributeError
| KeyError
| TypeError
| ValueError
| ConnectTimeout        (* requests.exceptions.ConnectTimeout *)
| ConnectionError       (* any other requests.RequestException of the network *)
| InvalidJSONError      (* requests.exceptions.JSONDecodeError, from response.json() *)
| APIError (msg : string). (* raised by the chat client *)

(** [isinstance(e, requests.RequestException)] *)
Definition is_RequestException (e : exn) : bool :=
  match e with
  | ConnectTimeout | ConnectionError | InvalidJSONError => true
  | _ => false
  end.

(** [isinstance(e, json.JSONDecodeError)] *)
Definition is_JSONDecodeError (e : exn) : bool :=
  match e with
  | JSONDecodeError | InvalidJSONError => true
  | _ => false
  end.

Definition is_ConnectTimeout (e : exn) : bool :=
  match e with ConnectTimeout => true | _ => false end.

(** [isinstance(e, Exception)] *)
Definition is_Exception (e : exn) : bool := true.

Inductive http_outcome :=
| Reply (r : response)
| NetworkFails (e : exn).

(** What becomes of a chat call: an answer with a text, an answer whose
    [content] is [None], or an exception, of the client or of taking the
    first choice of its answer, with its text. *)
Inductive chat_outcome :=
| Completion (content : string)
| NoContent
| ChatFails (msg : string).

Inductive event :=
| Requested (url : string) (params : list (string * string))
| Prompted (model prompt : string)
| Slept (seconds : Z)
| Printed (msg : string)
| Wrote (filename : string).

(** What the process meets outside of the file system: the replies its
    coming HTTP requests and chat calls get, in order, the clock in seconds,
    the module global [_last_request_time] of data_process/process_kaggle.py,
    and the trace of what it has done so far, oldest first. *)
Record world := {
  replies : list http_outcome;
  completions : list chat_outcome;
  clock : Z;
  last_request_time : Z;
  trace : list event
}.

(** The world together with the artifact directory. *)
Record system := {
  outside : world;
  files : gmap string string
}.

Definition emit (e : event) (w : world) : world :=
  {| replies := replies w; completions := completions w; clock := clock w;
     last_request_time := last_request_time w; trace := trace w ++ [e] |}.

Definition set_replies (rs : list http_outcome) (w : world) : world :=
  {| replies := rs; completions := completions w; clock := clock w;
     last_request_time := last_request_time w; trace := trace w |}.

Definition set_completions (cs : list chat_outcome) (w : world) : world :=
  {| replies := replies w; completions := cs; clock := clock w;
     last_request_time := last_request_time w; trace := trace w |}.

Definition set_clock (t : Z) (w : world) : world :=
  {| replies := replies w; completions := completions w; clock := t;
     last_request_time := last_request_time w; trace := trace w |}.

Definition set_last_request_time (t : Z) (w : world) : world :=
  {| replies := replies w; completions := completions w; clock := clock w;
     last_request_time := t; trace := trace w |}.

(** ** Computations: state, exceptions, and waiting for a world that has
    stopped answering *)

Inductive outcome (A : Type) :=
| Returns (a : A)
| Raises (e : exn)
| Hangs.
Arguments Returns {A} a.
Arguments Raises {A} e.
Arguments Hangs {A}.

Definition M (S A : Type) : Type := S -> outcome A * S.

(** Code that talks to the network and the clock only, and code that also
    reads and writes artifacts. *)
Abbreviation Net := (M world).
Abbreviation Sys := (M system).

Definition ret {S A} (a : A) : M S A := fun w => (Returns a, w).

Definition bind {S A B} (m : M S A) (k : A -> M S B) : M S B :=
  fun w =>
    match m w with
    | (Returns a, w') => k a w'
    | (Raises e, w') => (Raises e, w')
    | (Hangs, w') => (Hangs, w')
    end.

Definition raise {S A} (e : exn) : M S A := fun w => (Raises e, w).

Definition hang {S A} : M S A := fun w => (Hangs, w).

(** [try: m  except <class> as e: handler e] *)
Definition try_except {S A} (m : M S A) (class : exn -> bool)
  (handler : exn -> M S A) : M S A :=
  fun w =>
    match m w with
    | (Raises e, w') => if class e then handler e w' else (Raises e, w')
    | r => r
    end.

(** Network code run where there are files as well. *)
Definition lift {A} (m : Net A) : Sys A :=
  fun s =>
    let '(r, w') := m (outside s) in
    (r, {| outside := w'; files := files s |}).

Declare Scope py_scope.
Delimit Scope py_scope with py.
Notation "x <- m ;; k" := (bind m (fun x => k))
  (at level 100, m at next level, right associativity) : py_scope.
Notation "m ;; k" := (bind m (fun _ => k))
  (at level 100, right associativity) : py_scope.
Local Open Scope py_scope.

(** An option read as a value or an exception. *)
Definition or_raise {S A} (e : exn) (o : option A) : M S A :=
  match o with Some a => ret a | None => raise e end.

(** A [while True] loop takes at least one reply per turn that goes on, so
    one turn more than there are replies left is enough. *)
Definition replies_left : Net nat :=
  fun w => (Returns (S (length (replies w))), w).

Definition print (msg : string) : Net unit :=
  fun w => (Returns tt, emit (Printed msg) w).

(** [time.time()] *)
Definition time_time : Net Z := fun w => (Returns (clock w), w).

(** [time.sleep(s)] *)
Definition time_sleep (s : Z) : Net unit :=
  fun w =>
    if s <? 0 then (Raises ValueError, w)
    else (Returns tt, emit (Slept s) (set_clock (clock w + s) w)).

(** [requests.get(url, params=params, ...)] *)
Definition requests_get (url : string) (params : list (string * string))
  : Net response :=
  fun w =>
    match replies w with
    | [] => (Hangs, emit (Requested url params) w)
    | Reply r :: rest =>
        (Returns r, emit (Requested url params) (set_replies rest w))
    | NetworkFails e :: rest =>
        (Raises e, emit (Requested url params) (set_replies rest w))
    end.

(** [client.chat.completions.create(...).choices[0].message.content],
    which is a text or [None]. *)
Definition chat_create (model prompt : string) : Net (option string) :=
  fun w =>
    match completions w with
    | [] => (Hangs, emit (Prompted model prompt) w)
    | Completion c :: rest =>
        (Returns (Some c),
         emit (Prompted model prompt) (set_completions rest w))
    | NoContent :: rest =>
        (Returns None, emit (Prompted model prompt) (set_completions rest w))
    | ChatFails msg :: rest =>
        (Raises (APIError msg),
         emit (Prompted model prompt) (set_completions rest w))
    end.

(** [content.strip()]; [None] has no such attribute. *)
Definition py_strip {S} (content : option string) : M S string :=
  match content with
  | Some s => ret (Py.strip s)
  | None => raise AttributeError
  end.

(** [str(e)] for what a chat call and the [strip] of its content raise. *)
Definition chat_error (e : exn) : string :=
  match e with
  | APIError msg => msg
  | AttributeError => "'NoneType' object has no attribute 'strip'"
  | _ => EmptyString
  end.

(** [open(here(name), 'r').read()] *)
Definition read_file (name : string) : Sys string :=
  fun s =>
    match files s !! name with
    | Some content => (Returns content, s)
    | None => (Raises FileNotFoundError, s)
    end.

(** [open(here(name), 'w').write(content)]: the file is replaced. *)
Definition write_file (name content : string) : Sys unit :=
  fun s =>
    (Returns tt,
     {| outside := emit (Wrote name) (outside s);
        files := <[name := content]> (files s) |}).

Section Builtins.
Context {lib : Library}.

(** [json.load(open(here(name)))] *)
Definition json_load (name : string) : Sys json :=
  content <- read_file name ;;
  or_raise JSONDecodeError (json_loads content).

(** [json.dump(v, open(here(name), 'w'), indent=indent)] *)
Definition json_dump (v : json) (name : string) (indent : nat) : Sys unit :=
  write_file name (json_dumps indent v).

(** [response.json()] *)
Definition response_json {S} (r : response) : M S json :=
  or_raise InvalidJSONError (json_loads (text r)).
End Builtins.

(** [headers.get(name)] on the case-insensitive headers of a response. *)
Fixpoint header (name : string) (hs : list (string * string)) : option string :=
  match hs with
  | [] => None
  | (k, v) :: hs' =>
      if String.eqb (Py.lower k) (Py.lower name) then Some v else header name hs'
  end.

(** [int(headers.get(name, dflt))] *)
Definition header_int {S} (name : string) (dflt : Z) (hs : list (string * string))
  : M S Z :=
  match header name hs with
  | Some v => or_raise ValueError (Py.int_of_str v)
  | None => ret dflt
  end.

(** [v.get(k, dflt)]: only a dict has [get]. *)
Definition py_get_default {S} (k : string) (dflt : json) (v : json) : M S json :=
  match v with
  | JObj d => ret (Dict.get_default k dflt d)
  | _ => raise AttributeError
  end.

(** [v.get(k)] *)
Definition py_get {S} (k : string) (v : json) : M S json := py_get_default k JNull v.

(** [len(v)] *)
Definition py_len {S} (v : json) : M S nat :=
  match v with
  | JArr l => ret (length l)
  | JObj d => ret (length d)
  | JStr s => ret (String.length s)
  | _ => raise TypeError
  end.

Fixpoint chars (s : string) : list json :=
  match s with
  | String c s' => JStr (String c EmptyString) :: chars s'
  | EmptyString => []
  end.

(** [iter(v)]: the items of a list, the keys of a dict, the characters of
    a string. *)
Definition py_iter {S} (v : json) : M S (list json) :=
  match v with
  | JArr l => ret l
  | JObj d => ret (map (fun kv => JStr (fst kv)) d)
  | JStr s => ret (chars s)
  | _ => raise TypeError
  end.

(** [str(v)] inside an f-string. Prompts and messages only pass through
    the model, so a list or a dict is shown the way [json.dumps] shows it. *)
Definition py_str {lib : Library} (v : json) : string :=
  match v with
  | JStr s => s
  | JNull => "None"
  | JBool true => "True"
  | JBool false => "False"
  | JNum z => Py.str_of_int z
  | v => json_dumps 0 v
  end.

Fixpoint strings_of (l : list json) : option (list string) :=
  match l with
  | [] => Some []
  | JStr s :: l' => (fun ss => s :: ss) <$> strings_of l'
  | _ :: _ => None
  end.

(** [sep.join(v)]: [v] has to be an iterable of strings. *)
Definition py_join {S} (sep : string) (v : json) : M S string :=
  items <- py_iter v ;;
  ss <- or_raise TypeError (strings_of items) ;;
  ret (Py.join sep ss).

(** ** coarse_search/crawl_github.py *)

Module CrawlGithub.
Section Code.
Context {lib : Library}.

Definition GITHUB_SEARCH_URL : string :=
  "https://api.github.com/search/repositories".

Definition check_rate_limit (hs : list (string * string)) : Net bool :=
  remaining <- header_int "X-RateLimit-Remaining" 1 hs ;;
  now <- time_time ;;
  reset_time <- header_int "X-RateLimit-Reset" (now + 60) hs ;;
  if remaining =? 0 then
    now' <- time_time ;;
    let wait_seconds := Z.max (reset_time - now') 0 in
    print ("Rate limit exceeded. Sleeping for "
           +:+ Py.str_of_int wait_seconds +:+ " seconds...") ;;
    time_sleep (wait_seconds + 5) ;;
    ret true
  else ret false.

Definition rate_limited (r : response) : bool :=
  (status_code r =? 403) && Py.contains "rate limit" (Py.lower (text r)).

(** The [while True] loop around one page request. [None] is the
    [return all_repos] inside the loop, [Some r] the response the loop
    is left with at [break]. *)
Fixpoint request_page (fuel : nat) (params : list (string * string))
  : Net (option response) :=
  match fuel with
  | O => hang
  | S fuel' =>
      r <- requests_get GITHUB_SEARCH_URL params ;;
      if rate_limited r then
        waited <- check_rate_limit (headers r) ;;
        if waited : bool then request_page fuel' params
        else ret (Some r)
      else if negb (status_code r =? 200) then
        print ("Error " +:+ Py.str_of_int (status_code r) +:+ ": "
               +:+ text r) ;;
        ret None
      else ret (Some r)
  end.

Definition search_params (keyword start_date end_date : string)
  (per_page page : Z) : list (string * string) :=
  [("q", keyword +:+ " created:" +:+ start_date +:+ ".." +:+ end_date);
   ("sort", "stars"); ("order", "desc");
   ("per_page", Py.str_of_int per_page); ("page", Py.str_of_int page)].

(** The [for page in range(1, max_pages + 1)] loop, [pages] turns from
    [page] on. *)
Fixpoint search_pages (pages : nat) (page : Z)
  (keyword start_date end_date : string) (per_page : Z)
  (all_repos : list json) : Net (list json) :=
  match pages with
  | O => ret all_repos
  | S pages' =>
      fuel <- replies_left ;;
      got <- request_page fuel
               (search_params keyword start_date end_date per_page page) ;;
      match got with
      | None => ret all_repos
      | Some r =>
          body <- response_json r ;;
          items <- py_get_default "items" (JArr []) body ;;
          if negb (truthy items) then ret all_repos
          else
            new <- py_iter items ;;
            n <- py_len items ;;
            print ("Fetched " +:+ Py.str_of_int (Z.of_nat n)
                   +:+ " repos on page " +:+ Py.str_of_int page
                   +:+ " (" +:+ start_date +:+ " to " +:+ end_date +:+ ")") ;;
            search_pages pages' (page + 1) keyword start_date end_date
              per_page (all_repos ++ new)
      end
  end.

Definition search_repositories_with_date_range
  (keyword github_token start_date end_date : string)
  (per_page : Z) (max_pages : nat) : Net (list json) :=
  search_pages max_pages 1 keyword start_date end_date per_page [].

(** The [while current < end_date] loop. *)
Fixpoint partition_loop (fuel : nat) (keyword github_token : string)
  (current end_date interval_days : Z) (all_results : list json)
  : Net (list json) :=
  match fuel with
  | O => hang
  | S fuel' =>
      if current <? end_date then
        let next_date :=
          Z.min (current + Date.timedelta_days interval_days) end_date in
        print ("Searching from " +:+ strftime current +:+ " to "
               +:+ strftime next_date) ;;
        repos <- search_repositories_with_date_range keyword github_token
                   (strftime current) (strftime next_date) 100 10 ;;
        partition_loop fuel' keyword github_token next_date end_date
          interval_days (all_results ++ repos)
      else
        print ("Total repositories fetched: "
               +:+ Py.str_of_int (Z.of_nat (length all_results))) ;;
        ret all_results
  end.

Definition partition_and_search (keyword github_token : string)
  (start_date end_date interval_days : Z) : Net (list json) :=
  fuel <- replies_left ;;
  partition_loop fuel keyword github_token start_date end_date
    interval_days [].

Definition save_repositories_to_file (repositories : list json)
  (filename : string) : Sys unit :=
  json_dump (JArr repositories) filename 2 ;;
  lift (print ("Saved " +:+ Py.str_of_int (Z.of_nat (length repositories))
               +:+ " repositories to " +:+ filename)).

Definition search_github (KEYWORD : string) : Sys unit :=
  let GITHUB_TOKEN := "ghp_xxx" in
  let OUTPUT_FILE := "github_repos_" +:+ KEYWORD +:+ ".json" in
  let START_DATE := Date.datetime 2025 1 1 in
  let END_DATE := Date.datetime 2025 4 15 in
  repos <- lift (partition_and_search KEYWORD GITHUB_TOKEN START_DATE
                   END_DATE 30) ;;
  save_repositories_to_file repos OUTPUT_FILE.

End Code.
End CrawlGithub.

(** ** coarse_search/crawl_huggingface.py *)

Module CrawlHuggingface.
Section Code.
Context {lib : Library}.

Definition HUGGINGFACE_DATASETS_URL : string :=
  "https://huggingface.co/api/datasets".

(** What follows the [for] loop when it ends or is left by [break]. *)
Definition report_failure (keyword : string) (max_retries : nat) : Net json :=
  print ("[FAIL] Could not fetch datasets for keyword '" +:+ keyword
         +:+ "' after " +:+ Py.str_of_int (Z.of_nat max_retries)
         +:+ " attempts.") ;;
  ret (JArr []).

(** The [for attempt in range(max_retries)] loop, [left] turns from
    [attempt] on. *)
Fixpoint attempts (left : nat) (attempt : Z) (keyword : string)
  (max_retries : nat) : Net json :=
  match left with
  | O => report_failure keyword max_retries
  | S left' =>
      r <- requests_get HUGGINGFACE_DATASETS_URL [("search", keyword)] ;;
      if status_code r =? 200 then
        items <- response_json r ;;
        n <- py_len items ;;
        print ("Fetched " +:+ Py.str_of_int (Z.of_nat n)
               +:+ " datasets for keyword: '" +:+ keyword +:+ "'") ;;
        ret items
      else if status_code r =? 429 then
        retry_after <- header_int "Retry-After" 5 (headers r) ;;
        let wait_time := Z.min (retry_after * 2 ^ attempt) 60 in
        print ("[WARN] Rate limit hit (429). Sleeping "
               +:+ Py.str_of_int wait_time +:+ "s... (Attempt "
               +:+ Py.str_of_int (attempt + 1) +:+ "/"
               +:+ Py.str_of_int (Z.of_nat max_retries) +:+ ")") ;;
        time_sleep wait_time ;;
        attempts left' (attempt + 1) keyword max_retries
      else
        print ("[ERROR] Failed with status "
               +:+ Py.str_of_int (status_code r) +:+ ": " +:+ text r) ;;
        report_failure keyword max_retries
  end.

Definition search_datasets_by_keyword (keyword : string)
  (hf_token : option string) (max_retries : nat) : Net json :=
  attempts max_retries 0 keyword max_retries.

Definition save_datasets_to_file (datasets : json) (filename : string)
  : Sys unit :=
  json_dump datasets filename 4 ;;
  n <- py_len datasets ;;
  lift (print ("Saved " +:+ Py.str_of_int (Z.of_nat n) +:+ " datasets to "
               +:+ filename)).

Definition search_huggingface (KEYWORD : string) : Sys unit :=
  let HF_TOKEN := "hf_xxx" in
  let OUTPUT_FILE := "huggingface_datasets_" +:+ KEYWORD +:+ ".json" in
  datasets <- lift (search_datasets_by_keyword KEYWORD (Some HF_TOKEN) 5) ;;
  save_datasets_to_file datasets OUTPUT_FILE.

End Code.
End CrawlHuggingface.

(** ** coarse_search/crawl_kaggle.py *)

Module CrawlKaggle.
Section Code.
Context {lib : Library}.

Definition KAGGLE_DATASETS_URL : string :=
  "https://www.kaggle.com/api/v1/datasets/list".

(** How one turn of the inner [while True] loop ends. *)
Inductive step :=
| Return (all_datasets : list json)   (* a [return all_datasets] *)
| Break (all_datasets : list json)    (* page fetched: [page += 1; break] *)
| Again.                              (* slept, [attempt += 1] *)

(** [if max_pages and page > max_pages] *)
Definition past_limit (max_pages : option Z) (page : Z) : bool :=
  match max_pages with
  | Some m => negb (m =? 0) && (page >? m)
  | None => false
  end.

(** The body of the [try] of one turn. *)
Definition try_page (keyword : string) (per_page page attempt : Z)
  (all_datasets : list json) : Net step :=
  r <- requests_get KAGGLE_DATASETS_URL
         [("search", keyword); ("page", Py.str_of_int page);
          ("pageSize", Py.str_of_int per_page)] ;;
  if status_code r =? 200 then
    items <- response_json r ;;
    if negb (truthy items) then
      print ("[DONE] No more datasets at page " +:+ Py.str_of_int page
             +:+ ".") ;;
      ret (Return all_datasets)
    else
      new <- py_iter items ;;
      n <- py_len items ;;
      print ("[INFO] Fetched " +:+ Py.str_of_int (Z.of_nat n)
             +:+ " datasets from page " +:+ Py.str_of_int page
             +:+ ". Total: "
             +:+ Py.str_of_int (Z.of_nat (length (all_datasets ++ new)))) ;;
      ret (Break (all_datasets ++ new))
  else if status_code r =? 429 then
    retry_after <- header_int "Retry-After" 5 (headers r) ;;
    let wait_time := Z.max (retry_after * 2 ^ attempt) 5 in
    print ("[WARN] 429 Rate limit hit. Sleeping "
           +:+ Py.str_of_int wait_time +:+ "s...") ;;
    time_sleep wait_time ;;
    ret Again
  else if status_code r =? 503 then
    let wait_time := 5 * 2 ^ attempt in
    print ("[WARN] 503 Service Unavailable. Sleeping "
           +:+ Py.str_of_int wait_time +:+ "s...") ;;
    time_sleep wait_time ;;
    ret Again
  else
    print ("[ERROR] Status " +:+ Py.str_of_int (status_code r) +:+ ": "
           +:+ text r) ;;
    ret (Return all_datasets).

(** Both [while True] loops: a turn of the inner loop, and at its
    [break] the test that opens the next turn of the outer one. *)
Fixpoint crawl (fuel : nat) (keyword : string) (per_page : Z)
  (max_pages : option Z) (page attempt : Z) (all_datasets : list json)
  : Net (list json) :=
  match fuel with
  | O => hang
  | S fuel' =>
      s <- try_except (try_page keyword per_page page attempt all_datasets)
             is_RequestException
             (fun _ =>
                print "[EXCEPTION] Request error. Sleeping 10s before retry..." ;;
                time_sleep 10 ;;
                ret Again) ;;
      match s with
      | Return result => ret result
      | Break all_datasets' =>
          if past_limit max_pages (page + 1) then ret all_datasets'
          else crawl fuel' keyword per_page max_pages (page + 1) 0
                 all_datasets'
      | Again =>
          crawl fuel' keyword per_page max_pages page (attempt + 1)
            all_datasets
      end
  end.

Definition search_datasets_by_keyword (keyword kaggle_username
  kaggle_key : string) (per_page : Z) (max_pages : option Z)
  : Net (list json) :=
  if past_limit max_pages 1 then ret []
  else
    fuel <- replies_left ;;
    crawl fuel keyword per_page max_pages 1 0 [].

Definition save_datasets_to_file (datasets : list json) (filename : string)
  : Sys unit :=
  json_dump (JArr datasets) filename 4 ;;
  lift (print ("Saved " +:+ Py.str_of_int (Z.of_nat (length datasets))
               +:+ " datasets to " +:+ filename)).

Definition search_kaggle (KEYWORD : string) : Sys unit :=
  let KAGGLE_USERNAME := "xxx" in
  let KAGGLE_KEY := "xxx" in
  let OUTPUT_FILE := "kaggle_datasets_" +:+ KEYWORD +:+ ".json" in
  lift (print ("[START] Crawling Kaggle datasets for keyword: '"
               +:+ KEYWORD +:+ "'")) ;;
  start_time <- lift time_time ;;
  datasets <- lift (search_datasets_by_keyword KEYWORD KAGGLE_USERNAME
                      KAGGLE_KEY 100 None) ;;
  save_datasets_to_file datasets OUTPUT_FILE ;;
  now <- lift time_time ;;
  let duration := now - start_time in
  lift (print ("[DONE] Total datasets fetched: "
               +:+ Py.str_of_int (Z.of_nat (length datasets)) +:+ " in "
               +:+ Py.str_of_int duration +:+ "s")).

End Code.
End CrawlKaggle.

(** [v[k]] for a string key. *)
Definition py_index {S} (k : string) (v : json) : M S json :=
  match v with
  | JObj d => or_raise KeyError (Dict.lookup k d)
  | _ => raise TypeError
  end.

(** [v == s] for a string literal [s]. *)
Definition eq_str (v : json) (s : string) : bool :=
  match v with JStr s' => String.eqb s' s | _ => false end.

(** ** data_process/process_github.py *)

Module ProcessGithub.
Section Code.
Context {lib : Library}.

Definition GITHUB_API_BASE : string := "https://api.github.com".

(** The [while True] loop of [fetch_repo_readme]. *)
Fixpoint fetch_loop (fuel : nat) (repo_full_name readme_url : string)
  : Net (option string) :=
  match fuel with
  | O => hang
  | S fuel' =>
      bind
        (try_except
           (r <- requests_get readme_url [] ;;
            remaining <- header_int "X-RateLimit-Remaining" 1 (headers r) ;;
            now <- time_time ;;
            reset <- header_int "X-RateLimit-Reset" now (headers r) ;;
            if (remaining =? 0) || (status_code r =? 403)
               || (status_code r =? 429) then
              now' <- time_time ;;
              let wait_time := Z.max (reset - now') 0 in
              print ("[INFO] Rate limit hit or throttled. Sleeping for "
                     +:+ Py.str_of_int (wait_time + 5) +:+ " seconds...") ;;
              time_sleep (wait_time + 5) ;;
              ret None
            else if status_code r =? 200 then ret (Some (Some (text r)))
            else if status_code r =? 404 then ret (Some None)
            else
              print ("[ERROR] Failed to fetch README for " +:+ repo_full_name
                     +:+ " (status " +:+ Py.str_of_int (status_code r)
                     +:+ ")") ;;
              ret (Some None))
           is_RequestException
           (fun e =>
              print ((if is_ConnectTimeout e
                      then "[TIMEOUT] Connection timeout for "
                      else "[EXCEPTION] Network error for ")
                     +:+ repo_full_name +:+ ". Retrying in 10 seconds...") ;;
              time_sleep 10 ;;
              ret None))
        (fun done =>
           match done with
           | Some result => ret result
           | None => fetch_loop fuel' repo_full_name readme_url
           end)
  end.

Definition fetch_repo_readme (repo_full_name : json) (github_token : string)
  : Net (option string) :=
  let name := py_str repo_full_name in
  let readme_url := GITHUB_API_BASE +:+ "/repos/" +:+ name +:+ "/readme" in
  fuel <- replies_left ;;
  fetch_loop fuel name readme_url.

Definition process_repository (repo : json) (github_token : string)
  : Net json :=
  name <- py_get "name" repo ;;
  full_name <- py_get "full_name" repo ;;
  lic <- py_get "license" repo ;;
  license <- (if truthy lic
              then (l <- py_get_default "license" (JObj []) repo ;;
                    py_get "name" l)
              else ret JNull) ;;
  topics <- py_get_default "topics" (JArr []) repo ;;
  let processed :=
    [("name", name); ("full_name", full_name); ("license", license);
     ("topics", topics)] in
  arg <- py_get_default "full_name" (JStr EmptyString) repo ;;
  readme_content <- fetch_repo_readme arg github_token ;;
  let readme :=
    match readme_content with
    | Some s => if String.eqb s EmptyString then JNull else JStr s
    | None => JNull
    end in
  ret (JObj (Dict.set "readme" readme processed)).

(** The [for i, repo in enumerate(repos, 1)] loop. *)
Fixpoint process_each (repos : list json) (i total : Z)
  (github_token : string) (processed_all : list json) : Net (list json) :=
  match repos with
  | [] => ret processed_all
  | repo :: rest =>
      processed <- process_repository repo github_token ;;
      (if (i mod 10 =? 0) || (i =? total)
       then print ("[PROGRESS] Processed " +:+ Py.str_of_int i +:+ "/"
                   +:+ Py.str_of_int total +:+ " repositories")
       else ret tt) ;;
      process_each rest (i + 1) total github_token
        (processed_all ++ [processed])
  end.

Definition process_repositories (repos : json) (github_token : string)
  : Net (list json) :=
  total <- py_len repos ;;
  items <- py_iter repos ;;
  process_each items 1 (Z.of_nat total) github_token [].

Definition save_processed_repositories (processed_repos : list json)
  (filename : string) : Sys unit :=
  json_dump (JArr processed_repos) filename 4 ;;
  lift (print ("Saved "
               +:+ Py.str_of_int (Z.of_nat (length processed_repos))
               +:+ " processed repositories to " +:+ filename)).

Definition clean_github_data (KEYWORD : string) : Sys unit :=
  let GITHUB_TOKEN := "ghp_xxx" in
  let input_file := "github_repos_" +:+ KEYWORD +:+ ".json" in
  let output_file := "processed_github_repos_" +:+ KEYWORD +:+ ".json" in
  repos_data <- try_except (json_load input_file) is_Exception
                  (fun _ =>
                     lift (print ("[ERROR] Failed to load " +:+ input_file)) ;;
                     ret (JArr [])) ;;
  if truthy repos_data then
    n <- py_len repos_data ;;
    lift (print ("[INFO] Loaded " +:+ Py.str_of_int (Z.of_nat n)
                 +:+ " repositories.")) ;;
    processed_data <- lift (process_repositories repos_data GITHUB_TOKEN) ;;
    save_processed_repositories processed_data output_file
  else lift (print "No repository data to process.").

End Code.
End ProcessGithub.

(** ** data_process/process_huggingface.py *)

Module ProcessHuggingface.
Section Code.
Context {lib : Library}.

Definition HF_CARD_URL (dataset_id : string) : string :=
  "https://huggingface.co/datasets/" +:+ dataset_id +:+ "/raw/main/README.md".

Definition HF_TREE_BASE_URL (dataset_id : string) : string :=
  "https://huggingface.co/api/datasets/" +:+ dataset_id +:+ "/tree/main".

(** How one turn of the loop of [safe_request] ends. *)
Inductive step :=
| Return (r : option response)
| Again (attempt : Z).

(** The [while True] loop of [safe_request]. *)
Fixpoint request_loop (fuel : nat) (url : string) (backoff_factor attempt : Z)
  : Net (option response) :=
  match fuel with
  | O => hang
  | S fuel' =>
      s <- try_except
             (r <- requests_get url [] ;;
              if status_code r =? 200 then ret (Return (Some r))
              else if status_code r =? 429 then
                retry_after <- header_int "Retry-After" 5 (headers r) ;;
                let wait_time := retry_after * backoff_factor in
                print ("[WARN] 429 Rate limit hit for " +:+ url
                       +:+ ". Sleeping " +:+ Py.str_of_int wait_time
                       +:+ "s...") ;;
                time_sleep wait_time ;;
                ret (Again attempt)
              else if (status_code r =? 500) || (status_code r =? 503) then
                let wait_time := backoff_factor ^ attempt in
                print ("[WARN] Server error "
                       +:+ Py.str_of_int (status_code r) +:+ " on " +:+ url
                       +:+ ". Retrying in " +:+ Py.str_of_int wait_time
                       +:+ "s...") ;;
                time_sleep wait_time ;;
                ret (Again (attempt + 1))
              else
                print ("[ERROR] Failed request to " +:+ url +:+ ". Status: "
                       +:+ Py.str_of_int (status_code r)) ;;
                ret (Return None))
             is_RequestException
             (fun e =>
                print ((if is_ConnectTimeout e
                        then "[TIMEOUT] Connection timeout for "
                        else "[EXCEPTION] Network error for ")
                       +:+ url +:+ ". Retrying in 10 seconds...") ;;
                time_sleep 10 ;;
                ret (Again attempt)) ;;
      match s with
      | Return r => ret r
      | Again attempt' => request_loop fuel' url backoff_factor attempt'
      end
  end.

Definition safe_request (url : string) (backoff_factor : Z)
  : Net (option response) :=
  fuel <- replies_left ;;
  request_loop fuel url backoff_factor 0.

(** [for tag in tags: if tag.startswith(..): return tag.replace(..)] *)
Fixpoint first_license (tags : list json) : Net json :=
  match tags with
  | [] => ret JNull
  | JStr tag :: rest =>
      if Py.startswith tag "license:"
      then ret (JStr (Py.remove_all "license:" tag))
      else first_license rest
  | _ :: _ => raise AttributeError
  end.

Definition extract_license (tags : json) : Net json :=
  items <- py_iter tags ;;
  first_license items.

Definition fetch_dataset_card (dataset_id : json) : Net json :=
  let url := HF_CARD_URL (py_str dataset_id) in
  response <- safe_request url 2 ;;
  match response with
  | Some r => ret (JStr (text r))
  | None =>
      print ("[INFO] No README found for " +:+ py_str dataset_id) ;;
      ret JNull
  end.

(** One call takes at least one reply, so the depth of the recursion is
    bounded by the replies left at the first call. *)
Fixpoint fetch_paths (fuel : nat) (dataset_id : json) (path : json)
  : Net (list json) :=
  match fuel with
  | O => hang
  | S fuel' =>
      let url := HF_TREE_BASE_URL (py_str dataset_id) in
      let url := if truthy path then url +:+ "/" +:+ py_str path else url in
      response <- safe_request url 2 ;;
      match response with
      | None =>
          print ("[WARN] Failed to fetch files for " +:+ py_str dataset_id
                 +:+ " at path '" +:+ py_str path +:+ "'") ;;
          ret []
      | Some r =>
          items <- response_json r ;;
          its <- py_iter items ;;
          (fix each (its : list json) (all_files : list json)
             : Net (list json) :=
             match its with
             | [] => ret all_files
             | item :: rest =>
                 ty <- py_index "type" item ;;
                 if eq_str ty "file" then
                   p <- py_index "path" item ;;
                   each rest (all_files ++ [p])
                 else if eq_str ty "directory" then
                   sub_path <- py_index "path" item ;;
                   sub <- fetch_paths fuel' dataset_id sub_path ;;
                   each rest (all_files ++ sub)
                 else each rest all_files
             end) its []
      end
  end.

Definition fetch_recursive_file_paths (dataset_id : json) : Net (list json) :=
  fuel <- replies_left ;;
  fetch_paths fuel dataset_id (JStr EmptyString).

(** The [for idx, entry in enumerate(data, 1)] loop. *)
Fixpoint process_each (data : list json) (idx total : Z)
  (result : list json) : Net (list json) :=
  match data with
  | [] => ret result
  | entry :: rest =>
      dataset_id <- py_get "id" entry ;;
      tags <- py_get_default "tags" (JArr []) entry ;;
      license_name <- extract_license tags ;;
      readme <- fetch_dataset_card dataset_id ;;
      all_files <- fetch_recursive_file_paths dataset_id ;;
      print ("[PROGRESS] Processed " +:+ Py.str_of_int idx +:+ "/"
             +:+ Py.str_of_int total +:+ ": " +:+ py_str dataset_id) ;;
      process_each rest (idx + 1) total
        (result ++ [JObj [("id", dataset_id); ("license", license_name);
                          ("dataset_card", readme);
                          ("files", JArr all_files)]])
  end.

Definition process_datasets (data : json) : Net (list json) :=
  total <- py_len data ;;
  items <- py_iter data ;;
  process_each items 1 (Z.of_nat total) [].

Definition save_to_json (data : list json) (filename : string) : Sys unit :=
  json_dump (JArr data) filename 2 ;;
  lift (print ("Saved " +:+ Py.str_of_int (Z.of_nat (length data))
               +:+ " entries to " +:+ filename)).

Definition clean_huggingface_data (KEYWORD : string) : Sys unit :=
  let INPUT_FILE := "huggingface_datasets_" +:+ KEYWORD +:+ ".json" in
  let OUTPUT_FILE := "processed_huggingface_" +:+ KEYWORD +:+ ".json" in
  datasets <- try_except (json_load INPUT_FILE) is_Exception
                (fun _ =>
                   lift (print "[ERROR] Failed to load input file") ;;
                   ret (JArr [])) ;;
  if truthy datasets then
    n <- py_len datasets ;;
    lift (print ("[INFO] Loaded " +:+ Py.str_of_int (Z.of_nat n)
                 +:+ " datasets to process.")) ;;
    processed <- lift (process_datasets datasets) ;;
    save_to_json processed OUTPUT_FILE
  else lift (print "No datasets to process.").

End Code.
End ProcessHuggingface.

(** ** data_process/process_kaggle.py *)

Module ProcessKaggle.
Section Code.
Context {lib : Library}.

Definition RATE_LIMIT_INTERVAL : Z := 3.

Definition get_last_request_time : Net Z :=
  fun w => (Returns (last_request_time w), w).

Definition put_last_request_time (t : Z) : Net unit :=
  fun w => (Returns tt, set_last_request_time t w).

(** The whole body runs under [with _rate_lock]. The handler of a network
    error calls [rate_limited_get] again while the lock is still held;
    [threading.Lock] is not re-entrant, so that call never gets it. *)
Definition rate_limited_get (url : string) : Net response :=
  now <- time_time ;;
  last <- get_last_request_time ;;
  let elapsed := now - last in
  (if elapsed <? RATE_LIMIT_INTERVAL then
     let sleep_time := RATE_LIMIT_INTERVAL - elapsed in
     print ("[RATE] Sleeping " +:+ Py.str_of_int sleep_time
            +:+ "s before next request...") ;;
     time_sleep sleep_time
   else ret tt) ;;
  response <- try_except (requests_get url []) is_RequestException
                (fun _ =>
                   print ("[ERROR] Network error on " +:+ url
                          +:+ ". Retrying in 10s...") ;;
                   time_sleep 10 ;;
                   hang) ;;
  now' <- time_time ;;
  put_last_request_time now' ;;
  ret response.

(** The [while True] loop of [robust_request]. *)
Fixpoint request_loop (fuel : nat) (url : string) (delay attempt : Z)
  : Net json :=
  match fuel with
  | O => hang
  | S fuel' =>
      response <- rate_limited_get url ;;
      if status_code response =? 200 then
        try_except (response_json response) is_Exception
          (fun _ => print "[ERROR] JSON parse error" ;; ret (JObj []))
      else if status_code response =? 429 then
        retry_after <- header_int "Retry-After" delay (headers response) ;;
        let wait_time := retry_after * 2 ^ attempt in
        print ("[RATE LIMIT] 429 Too Many Requests. Retrying in "
               +:+ Py.str_of_int wait_time +:+ "s...") ;;
        time_sleep wait_time ;;
        request_loop fuel' url delay (attempt + 1)
      else if status_code response =? 503 then
        let wait_time := delay * 2 ^ attempt in
        print ("[WARN] 503 Service Unavailable. Retrying in "
               +:+ Py.str_of_int wait_time +:+ "s...") ;;
        time_sleep wait_time ;;
        request_loop fuel' url delay (attempt + 1)
      else
        print ("[ERROR] HTTP " +:+ Py.str_of_int (status_code response)
               +:+ " for " +:+ url) ;;
        ret (JObj [])
  end.

Definition robust_request (url : string) (initial_delay : Z) : Net json :=
  fuel <- replies_left ;;
  request_loop fuel url initial_delay 0.

Definition view_url (dataset_ref : json) : string :=
  "https://www.kaggle.com/api/v1/datasets/view/" +:+ py_str dataset_ref.

Definition get_kaggle_dataset_card (dataset_ref : json) : Net json :=
  data <- robust_request (view_url dataset_ref) 10 ;;
  py_get_default "description" (JStr EmptyString) data.

(** [[file["name"] for file in files]] *)
Fixpoint names (files : list json) : Net (list json) :=
  match files with
  | [] => ret []
  | file :: rest =>
      n <- py_index "name" file ;;
      ns <- names rest ;;
      ret (n :: ns)
  end.

Definition get_kaggle_dataset_files (dataset_ref : json) : Net (list json) :=
  data <- robust_request (view_url dataset_ref) 10 ;;
  files <- py_get_default "datasetFiles" (JArr []) data ;;
  items <- py_iter files ;;
  names items.

(** [d.get(a) or d.get(b, "")] *)
Definition get_or (a b : string) (d : json) : Net json :=
  x <- py_get a d ;;
  if truthy x then ret x else py_get_default b (JStr EmptyString) d.

Definition process_kaggle_dataset (dataset : json) : Net json :=
  dataset_ref <- py_get_default "ref" (JStr EmptyString) dataset ;;
  print ("[PROCESS] Fetching dataset: " +:+ py_str dataset_ref) ;;
  card <- get_kaggle_dataset_card dataset_ref ;;
  time_sleep 1 ;;
  files <- get_kaggle_dataset_files dataset_ref ;;
  title <- get_or "titleNullable" "title" dataset ;;
  subtitle <- get_or "subtitleNullable" "subtitle" dataset ;;
  licenseName <- get_or "licenseNameNullable" "licenseName" dataset ;;
  ret (JObj [("ref", dataset_ref); ("title", title); ("subtitle", subtitle);
             ("licenseName", licenseName); ("dataset_card", card);
             ("files", JArr files)]).

(** The worker pool. The tasks are the calls of [process_kaggle_dataset]
    on the datasets, numbered from 0; [completed] lists them in the order
    in which [as_completed] hands them over, which the scheduler decides.
    A task is run as a whole when its turn comes: the pacing lock lets
    one request through at a time, and which task a reply goes to is
    not told apart any finer. *)
Fixpoint collect (completed : list nat) (datasets : list json)
  (processed_datasets : list json) : Net (list json) :=
  match completed with
  | [] => ret processed_datasets
  | i :: rest =>
      match datasets !! i with
      | Some ds =>
          result <- try_except
                      (r <- process_kaggle_dataset ds ;; ret (Some r))
                      is_Exception
                      (fun _ =>
                         print "[ERROR] Dataset processing failed" ;;
                         ret None) ;;
          collect rest datasets
            (processed_datasets ++ match result with
                                   | Some r => [r]
                                   | None => []
                                   end)
      | None => collect rest datasets processed_datasets
      end
  end.

Definition process_kaggle_datasets_file (input_filename
  output_filename : string) (completed : list nat) : Sys unit :=
  loaded <- try_except (d <- json_load input_filename ;; ret (Some d))
              is_Exception
              (fun _ =>
                 lift (print ("[ERROR] Failed to load " +:+ input_filename)) ;;
                 ret None) ;;
  match loaded with
  | None => ret tt
  | Some datasets =>
      tasks <- py_iter datasets ;;
      processed_datasets <- lift (collect completed tasks []) ;;
      try_except
        (json_dump (JArr processed_datasets) output_filename 4 ;;
         lift (print ("Processed "
                      +:+ Py.str_of_int
                            (Z.of_nat (length processed_datasets))
                      +:+ " datasets and saved to " +:+ output_filename)))
        is_Exception
        (fun _ =>
           lift (print ("[ERROR] Failed to save " +:+ output_filename)))
  end.

Definition clean_kaggle_data (KEYWORD : string) (completed : list nat)
  : Sys unit :=
  let INPUT_FILE := "kaggle_datasets_" +:+ KEYWORD +:+ ".json" in
  let OUTPUT_FILE := "processed_kaggle_" +:+ KEYWORD +:+ ".json" in
  process_kaggle_datasets_file INPUT_FILE OUTPUT_FILE completed.

End Code.
End ProcessKaggle.

(** ** The two regular expressions of the code

    Both are used with [re.search(.., re.DOTALL)]: the leftmost place where
    the pattern matches, and there the first match in backtracking order.
    A fence is three backquotes. Neither a brace nor a backquote is white
    space, so the greedy [\s*] always takes the whole run of white space. *)

Module Re.

Definition fence : string := "```".
Definition json_fence : string := "```json".

(** [\s*```] at the head of [s] *)
Definition closes (s : string) : bool := Py.startswith (Py.lstrip s) fence.

(** [(.*?)\s*```]: the shortest text after which the fence closes. *)
Fixpoint lazy_text (s : string) : option string :=
  if closes s then Some EmptyString
  else match s with
       | String c s' => String c <$> lazy_text s'
       | EmptyString => None
       end.

(** [.*?\}\s*```]: the shortest text that ends with a closing brace after
    which the fence closes. *)
Fixpoint lazy_brace (s : string) : option string :=
  match s with
  | EmptyString => None
  | String c s' =>
      if Ascii.eqb c "}" && closes s'
      then Some (String c EmptyString)
      else String c <$> lazy_brace s'
  end.

(** Group 1 of [```json\s*(\{.*?\})\s*```] matched at the head of [s]. *)
Definition object_block_at (s : string) : option string :=
  match Py.strip_prefix json_fence s with
  | Some r =>
      match Py.lstrip r with
      | String "{" r' => String "{" <$> lazy_brace r'
      | _ => None
      end
  | None => None
  end.

(** Group 1 of [```json\s*(.*?)\s*```] matched at the head of [s]. *)
Definition block_at (s : string) : option string :=
  match Py.strip_prefix json_fence s with
  | Some r => lazy_text (Py.lstrip r)
  | None => None
  end.

(** [re.search]: group 1 of the leftmost match. *)
Fixpoint search (at_head : string -> option string) (s : string)
  : option string :=
  match at_head s with
  | Some g => Some g
  | None =>
      match s with
      | String _ s' => search at_head s'
      | EmptyString => None
      end
  end.

End Re.

(** ** fine_filter/fine_filter_github.py *)

Module FineFilterGithub.
Section Code.
Context {lib : Library}.

Definition extract_json_from_text (text : string) : Net json :=
  match Re.search Re.object_block_at text with
  | Some json_str =>
      try_except (or_raise JSONDecodeError (json_loads json_str))
        is_Exception
        (fun _ => print "Error parsing JSON from code block" ;;
                  ret (JObj []))
  | None =>
      try_except (or_raise JSONDecodeError (json_loads text))
        is_Exception
        (fun _ => print "Error parsing JSON from full text" ;;
                  ret (JObj []))
  end.

(** The f-string of the prompt; its parts are evaluated left to right. *)
Definition build_prompt (repo_info dataset_info : json) : Net string :=
  name <- py_get "name" repo_info ;;
  topics <- py_get_default "topics" (JArr []) repo_info ;;
  topics <- py_join ", " topics ;;
  readme <- py_get "readme" repo_info ;;
  title <- py_get "title" dataset_info ;;
  dtopics <- py_get_default "topics" (JArr []) dataset_info ;;
  dtopics <- py_join ", " dtopics ;;
  dname <- py_get "name" dataset_info ;;
  words <- py_get_default "representative_words" (JArr []) dataset_info ;;
  words <- py_join ", " words ;;
  website <- py_get "website" dataset_info ;;
  ret ("You are an expert in analyzing dataset usage. "
       +:+ "Given the following repository information: "
       +:+ "Repository Name: " +:+ py_str name
       +:+ " Repository Topics: " +:+ topics
       +:+ " Repository README: " +:+ py_str readme
       +:+ " And the original dataset information: "
       +:+ "Dataset Title: " +:+ py_str title
       +:+ " Dataset Topics: " +:+ dtopics
       +:+ " Dataset Name: " +:+ py_str dname
       +:+ " Representative Words: " +:+ words
       +:+ " Website: " +:+ py_str website
       +:+ " Determine whether the repository is a downstream usage of"
       +:+ " the original dataset. Return your answer in valid JSON"
       +:+ " format with the following keys: is_downstream, reason.").

Definition api_failure (e : exn) : json :=
  JObj [("is_downstream", JBool false);
        ("reason", JStr ("Error calling OpenAI API: " +:+ chat_error e))].

Definition check_downstream_usage (repo_info dataset_info : json)
  (openai_api_key : string) : Net json :=
  prompt <- build_prompt repo_info dataset_info ;;
  try_except
    (content <- chat_create "gpt-4o" prompt ;;
     output_text <- py_strip content ;;
     result <- extract_json_from_text output_text ;;
     ret result)
    is_Exception
    (fun e => ret (api_failure e)).

(** [repo[k] = v] *)
Definition py_setitem {S} (k : string) (v : json) (o : json) : M S json :=
  match o with
  | JObj d => ret (JObj (Dict.set k v d))
  | _ => raise TypeError
  end.

(** The [for index, repo in enumerate(repos_data, 1)] loop; [done] are
    the repositories already passed, with their verdicts. *)
Fixpoint classify_each (repos : list json) (index total : Z)
  (dataset_info : json) (openai_api_key : string) (done : list json)
  : Net (list json) :=
  match repos with
  | [] => ret done
  | repo :: rest =>
      full_name <- py_get "full_name" repo ;;
      print ("Processing repo " +:+ Py.str_of_int index +:+ "/"
             +:+ Py.str_of_int total +:+ ": " +:+ py_str full_name) ;;
      downstream_result <- check_downstream_usage repo dataset_info
                             openai_api_key ;;
      repo' <- py_setitem "downstream_usage" downstream_result repo ;;
      classify_each rest (index + 1) total dataset_info openai_api_key
        (done ++ [repo'])
  end.

(** What [repos_data] holds after the loop: the items of a list are
    updated in place; anything else that can be iterated without the
    body raising was empty. *)
Definition after_loop (repos_data : json) (done : list json) : json :=
  match repos_data with
  | JArr _ => JArr done
  | other => other
  end.

Definition process_repos_file (input_filename output_filename
  openai_api_key : string) (dataset_info : json) : Sys unit :=
  loaded <- try_except (d <- json_load input_filename ;; ret (Some d))
              is_Exception
              (fun _ =>
                 lift (print ("Error loading " +:+ input_filename)) ;;
                 ret None) ;;
  match loaded with
  | None => ret tt
  | Some repos_data =>
      repos <- py_iter repos_data ;;
      total <- py_len repos_data ;;
      done <- lift (classify_each repos 1 (Z.of_nat total) dataset_info
                      openai_api_key []) ;;
      let repos_data' := after_loop repos_data done in
      try_except
        (json_dump repos_data' output_filename 4 ;;
         n <- py_len repos_data' ;;
         lift (print ("Processed " +:+ Py.str_of_int (Z.of_nat n)
                      +:+ " repositories. Saved results to "
                      +:+ output_filename)))
        is_Exception
        (fun _ => lift (print ("Error saving to " +:+ output_filename)))
  end.

Definition filter_github (INPUT_FILE OUTPUT_FILE OPENAI_API_KEY : string)
  (dataset_info : json) : Sys unit :=
  process_repos_file INPUT_FILE OUTPUT_FILE OPENAI_API_KEY dataset_info.

End Code.
End FineFilterGithub.

(** ** fine_filter/fine_filter_huggingface.py *)

Module FineFilterHuggingface.
Section Code.
Context {lib : Library}.

(** The function has the same text as in fine_filter_github.py. *)
Definition extract_json_from_text : string -> Net json :=
  FineFilterGithub.extract_json_from_text.

Definition truncated : string :=
  String (Ascii.ascii_of_nat 10) "... [truncated]".

(** [if v and len(v) > limit: v = v[:limit] + marker] *)
Definition trim {S} (limit : nat) (v : json) : M S json :=
  if truthy v then
    n <- py_len v ;;
    if (limit <? n)%nat then
      match v with
      | JStr s => ret (JStr (Py.take limit s +:+ truncated))
      | _ => raise TypeError
      end
    else ret v
  else ret v.

Definition MAX_DATASET_CARD_LENGTH : nat := Z.to_nat 5000.
Definition MAX_FILE_LIST_LENGTH : nat := Z.to_nat 2000.

Definition build_prompt (dataset_info original_dataset_info : json)
  : Net string :=
  card <- py_get_default "dataset_card" (JStr EmptyString) dataset_info ;;
  hf_dataset_card <- trim MAX_DATASET_CARD_LENGTH card ;;
  files_list <- py_get_default "files" (JArr []) dataset_info ;;
  joined <- py_join ", " files_list ;;
  let hf_files :=
    if (MAX_FILE_LIST_LENGTH <? String.length joined)%nat
    then Py.take MAX_FILE_LIST_LENGTH joined +:+ truncated
    else joined in
  id <- py_get "id" dataset_info ;;
  title <- py_get "title" original_dataset_info ;;
  topics <- py_get_default "topics" (JArr []) original_dataset_info ;;
  topics <- py_join ", " topics ;;
  name <- py_get "name" original_dataset_info ;;
  words <- py_get_default "representative_words" (JArr [])
             original_dataset_info ;;
  words <- py_join ", " words ;;
  website <- py_get "website" original_dataset_info ;;
  ret ("You are an expert in analyzing dataset usage. "
       +:+ "Given the following Hugging Face dataset information: "
       +:+ "Dataset ID: " +:+ py_str id
       +:+ " Dataset Card: " +:+ py_str hf_dataset_card
       +:+ " File List: " +:+ hf_files
       +:+ " And the original dataset information: "
       +:+ "Dataset Title: " +:+ py_str title
       +:+ " Dataset Topics: " +:+ topics
       +:+ " Dataset Name: " +:+ py_str name
       +:+ " Representative Words: " +:+ words
       +:+ " Website: " +:+ py_str website
       +:+ " Determine whether this dataset is a true downstream usage of"
       +:+ " the original dataset. Return your answer in valid JSON"
       +:+ " format with the following keys: is_downstream, reason.").

Definition check_downstream_usage_hf (dataset_info
  original_dataset_info : json) (openai_api_key : string) : Net json :=
  prompt <- build_prompt dataset_info original_dataset_info ;;
  try_except
    (content <- chat_create "gpt-4o-mini" prompt ;;
     output_text <- py_strip content ;;
     result <- extract_json_from_text output_text ;;
     ret result)
    is_Exception
    (fun e => ret (FineFilterGithub.api_failure e)).

(** The [for index, ds in enumerate(datasets, 1)] loop. *)
Fixpoint classify_each (datasets : list json) (index total : Z)
  (original_dataset_info : json) (openai_api_key : string)
  (processed_datasets : list json) : Net (list json) :=
  match datasets with
  | [] => ret processed_datasets
  | ds :: rest =>
      id <- py_get "id" ds ;;
      print ("Processing dataset " +:+ Py.str_of_int index +:+ "/"
             +:+ Py.str_of_int total +:+ ": " +:+ py_str id) ;;
      downstream_result <- check_downstream_usage_hf ds
                             original_dataset_info openai_api_key ;;
      id <- py_get "id" ds ;;
      license <- py_get "license" ds ;;
      card <- py_get "dataset_card" ds ;;
      classify_each rest (index + 1) total original_dataset_info
        openai_api_key
        (processed_datasets
         ++ [JObj [("id", id); ("license", license);
                   ("dataset_card", card);
                   ("downstream_usage", downstream_result)]])
  end.

Definition process_datasets_file (input_filename output_filename
  openai_api_key : string) (original_dataset_info : json) : Sys unit :=
  loaded <- try_except (d <- json_load input_filename ;; ret (Some d))
              is_Exception
              (fun _ =>
                 lift (print ("Error loading " +:+ input_filename)) ;;
                 ret None) ;;
  match loaded with
  | None => ret tt
  | Some datasets =>
      items <- py_iter datasets ;;
      total <- py_len datasets ;;
      processed_datasets <-
        lift (classify_each items 1 (Z.of_nat total) original_dataset_info
                openai_api_key []) ;;
      try_except
        (json_dump (JArr processed_datasets) output_filename 4 ;;
         lift (print ("Processed "
                      +:+ Py.str_of_int
                            (Z.of_nat (length processed_datasets))
                      +:+ " datasets. Saved results to "
                      +:+ output_filename)))
        is_Exception
        (fun _ => lift (print ("Error saving to " +:+ output_filename)))
  end.

Definition filter_huggingface (INPUT_FILE OUTPUT_FILE
  OPENAI_API_KEY : string) (dataset_info : json) : Sys unit :=
  process_datasets_file INPUT_FILE OUTPUT_FILE OPENAI_API_KEY dataset_info.

End Code.
End FineFilterHuggingface.

(** ** fine_filter/fine_filter_kaggle.py *)

Module FineFilterKaggle.
Section Code.
Context {lib : Library}.

(** The function has the same text as in fine_filter_github.py. *)
Definition extract_json_from_text : string -> Net json :=
  FineFilterGithub.extract_json_from_text.

Definition MAX_DATASET_CARD_LENGTH : nat := Z.to_nat 8000.

Definition build_prompt (dataset_info original_dataset_info : json)
  : Net string :=
  card <- py_get_default "dataset_card" (JStr EmptyString) dataset_info ;;
  dataset_card <- FineFilterHuggingface.trim MAX_DATASET_CARD_LENGTH card ;;
  ref <- py_get "ref" dataset_info ;;
  dtitle <- py_get "title" dataset_info ;;
  subtitle <- py_get "subtitle" dataset_info ;;
  licenseName <- py_get "licenseName" dataset_info ;;
  title <- py_get "title" original_dataset_info ;;
  topics <- py_get_default "topics" (JArr []) original_dataset_info ;;
  topics <- py_join ", " topics ;;
  name <- py_get "name" original_dataset_info ;;
  words <- py_get_default "representative_words" (JArr [])
             original_dataset_info ;;
  words <- py_join ", " words ;;
  website <- py_get "website" original_dataset_info ;;
  ret ("You are an expert in analyzing dataset usage. "
       +:+ "Given the following Kaggle dataset information: "
       +:+ "Dataset Ref: " +:+ py_str ref
       +:+ " Title: " +:+ py_str dtitle
       +:+ " Subtitle: " +:+ py_str subtitle
       +:+ " License: " +:+ py_str licenseName
       +:+ " Dataset Card: " +:+ py_str dataset_card
       +:+ " And the original dataset information: "
       +:+ "Dataset Title: " +:+ py_str title
       +:+ " Dataset Topics: " +:+ topics
       +:+ " Dataset Name: " +:+ py_str name
       +:+ " Representative Words: " +:+ words
       +:+ " Website: " +:+ py_str website
       +:+ " Determine whether this Kaggle dataset is a true downstream"
       +:+ " usage of the original dataset. Return your answer in valid"
       +:+ " JSON format with the following keys: is_downstream, reason.").

Definition check_downstream_usage_kaggle (dataset_info
  original_dataset_info : json) (openai_api_key : string) : Net json :=
  prompt <- build_prompt dataset_info original_dataset_info ;;
  try_except
    (content <- chat_create "gpt-4o-mini" prompt ;;
     output_text <- py_strip content ;;
     extract_json_from_text output_text)
    is_Exception
    (fun e => ret (FineFilterGithub.api_failure e)).

(** The [for index, ds in enumerate(datasets, 1)] loop. *)
Fixpoint classify_each (datasets : list json) (index total : Z)
  (original_dataset_info : json) (openai_api_key : string)
  (processed_datasets : list json) : Net (list json) :=
  match datasets with
  | [] => ret processed_datasets
  | ds :: rest =>
      ref <- py_get "ref" ds ;;
      print ("Processing dataset " +:+ Py.str_of_int index +:+ "/"
             +:+ Py.str_of_int total +:+ ": " +:+ py_str ref) ;;
      downstream_result <- check_downstream_usage_kaggle ds
                             original_dataset_info openai_api_key ;;
      ref <- py_get "ref" ds ;;
      title <- py_get "title" ds ;;
      license <- py_get "licenseName" ds ;;
      classify_each rest (index + 1) total original_dataset_info
        openai_api_key
        (processed_datasets
         ++ [JObj [("ref", ref); ("title", title); ("license", license);
                   ("downstream_usage", downstream_result)]])
  end.

Definition process_kaggle_datasets_file (input_filename output_filename
  openai_api_key : string) (original_dataset_info : json) : Sys unit :=
  loaded <- try_except (d <- json_load input_filename ;; ret (Some d))
              is_Exception
              (fun _ =>
                 lift (print ("Error loading " +:+ input_filename)) ;;
                 ret None) ;;
  match loaded with
  | None => ret tt
  | Some datasets =>
      items <- py_iter datasets ;;
      total <- py_len datasets ;;
      processed_datasets <-
        lift (classify_each items 1 (Z.of_nat total) original_dataset_info
                openai_api_key []) ;;
      try_except
        (json_dump (JArr processed_datasets) output_filename 4 ;;
         lift (print ("Processed "
                      +:+ Py.str_of_int
                            (Z.of_nat (length processed_datasets))
                      +:+ " datasets. Saved results to "
                      +:+ output_filename)))
        is_Exception
        (fun _ => lift (print ("Error saving to " +:+ output_filename)))
  end.

Definition filter_kaggle (input_filename output_filename
  openai_api_key : string) (original_dataset_info : json) : Sys unit :=
  process_kaggle_datasets_file input_filename output_filename
    openai_api_key original_dataset_info.

End Code.
End FineFilterKaggle.

(** ** compliance_check/compliance_github.py *)

Module ComplianceGithub.
Section Code.
Context {lib : Library}.

Definition no_violation : json :=
  JObj [("has_violation", JBool false); ("violations", JArr [])].

(** [isinstance(result, dict) and "has_violation" in result and
    "violations" in result] *)
Definition well_shaped (result : json) : bool :=
  match result with
  | JObj d => Dict.mem "has_violation" d && Dict.mem "violations" d
  | _ => false
  end.

Definition build_prompt (dataset_record original_info : json) : string :=
  "You are a dataset licensing compliance auditor. "
  +:+ "Original dataset licensing requirements: "
  +:+ json_dumps 2 original_info
  +:+ " Downstream dataset record: "
  +:+ json_dumps 2 dataset_record
  +:+ " Return only the JSON object.".

(** The body of the [try] of [check_license_violation_with_openai]. *)
Definition ask (model : string) (dataset_record original_info : json)
  : Net json :=
  content <- chat_create model (build_prompt dataset_record original_info) ;;
  answer <- py_strip content ;;
  if String.eqb answer EmptyString then
    id <- py_get "id" dataset_record ;;
    print ("Empty response from OpenAI API for dataset: " +:+ py_str id) ;;
    ret no_violation
  else
    let json_str :=
      match Re.search Re.block_at answer with
      | Some g => Py.strip g
      | None => Py.strip answer
      end in
    parsed <- try_except
                (r <- or_raise JSONDecodeError (json_loads json_str) ;;
                 ret (Some r))
                is_JSONDecodeError
                (fun _ =>
                   print ("Failed to parse JSON response. "
                          +:+ "Extracted content was: " +:+ json_str) ;;
                   ret None) ;;
    match parsed with
    | None => ret no_violation
    | Some result =>
        if well_shaped result then ret result
        else
          print "Unexpected JSON format." ;;
          ret no_violation
    end.

Definition check_license_violation_with_openai (dataset_record
  original_info : json) : Net json :=
  try_except (ask "gpt-4o" dataset_record original_info) is_Exception
    (fun _ => print "Error calling OpenAI API" ;; ret no_violation).

(** [not record.get("downstream_usage", {}).get("is_downstream", False)] *)
Definition not_downstream {S} (dataset_record : json) : M S bool :=
  usage <- py_get_default "downstream_usage" (JObj []) dataset_record ;;
  flag <- py_get_default "is_downstream" (JBool false) usage ;;
  ret (negb (truthy flag)).

(** The [for idx, dataset_record in enumerate(downstream_datasets, 1)]
    loop. *)
Fixpoint analyze_each (records : list json) (idx total : Z)
  (original_info : json) (updated_records : list json)
  : Net (list json) :=
  match records with
  | [] => ret updated_records
  | dataset_record :: rest =>
      skip <- not_downstream dataset_record ;;
      if skip : bool then
        analyze_each rest (idx + 1) total original_info updated_records
      else
        name <- py_get "name" dataset_record ;;
        print ("Processing record " +:+ Py.str_of_int idx +:+ "/"
               +:+ Py.str_of_int total +:+ ": " +:+ py_str name) ;;
        violation_info <- check_license_violation_with_openai
                            dataset_record original_info ;;
        has_violation <- py_get_default "has_violation" (JBool false)
                           violation_info ;;
        r1 <- FineFilterGithub.py_setitem "has_violation" has_violation
                dataset_record ;;
        violations <- py_get_default "violations" (JArr [])
                        violation_info ;;
        r2 <- FineFilterGithub.py_setitem "violations" violations r1 ;;
        citation <- py_get "citation" r2 ;;
        r3 <- (if negb (truthy citation)
               then (c <- py_get_default "citation" (JStr EmptyString)
                           original_info ;;
                     FineFilterGithub.py_setitem "citation" c r2)
               else ret r2) ;;
        analyze_each rest (idx + 1) total original_info
          (updated_records ++ [r3])
  end.

Definition analyze_downstream_usage (downstream_datasets
  original_info : json) : Net (list json) :=
  total <- py_len downstream_datasets ;;
  records <- py_iter downstream_datasets ;;
  analyze_each records 1 (Z.of_nat total) original_info [].

Definition save_violations_to_file (updated_records : list json)
  (filename : string) : Sys unit :=
  json_dump (JArr updated_records) filename 4.

Definition check_github (KEYWORD : string) : Sys unit :=
  original_info <-
    json_load ("extracted_dataset_info_with_license_analysis_"
               +:+ KEYWORD +:+ ".json") ;;
  downstream_datasets <-
    json_load ("final_processed_repos_" +:+ KEYWORD +:+ ".json") ;;
  updated_records <-
    lift (analyze_downstream_usage downstream_datasets original_info) ;;
  save_violations_to_file updated_records
    ("violations_github_" +:+ KEYWORD +:+ ".json") ;;
  lift (print ("Analysis complete. Updated records saved to "
               +:+ "violations_github_" +:+ KEYWORD +:+ ".json")) ;;
  if negb (length updated_records =? 0)%nat
  then lift (print ("Total downstream records processed: "
                    +:+ Py.str_of_int (Z.of_nat (length updated_records))))
  else lift (print "No downstream records processed.").

End Code.
End ComplianceGithub.

(** ** compliance_check/compliance_huggingface.py *)

Module ComplianceHuggingface.
Section Code.
Context {lib : Library}.

(** Same text as in compliance_github.py, but for the [temperature]
    argument of the chat call, which this file leaves out. *)
Definition check_license_violation_with_openai (dataset_record
  original_info : json) : Net json :=
  try_except
    (ComplianceGithub.ask "gpt-4o" dataset_record original_info)
    is_Exception
    (fun _ => print "Error calling OpenAI API" ;;
              ret ComplianceGithub.no_violation).

(** The [for idx, dataset_record in enumerate(downstream_datasets, 1)]
    loop. *)
Fixpoint analyze_each (records : list json) (idx total : Z)
  (original_info : json) (updated_records : list json)
  : Net (list json) :=
  match records with
  | [] => ret updated_records
  | dataset_record :: rest =>
      skip <- ComplianceGithub.not_downstream dataset_record ;;
      if skip : bool then
        analyze_each rest (idx + 1) total original_info updated_records
      else
        id <- py_get "id" dataset_record ;;
        print ("Processing record " +:+ Py.str_of_int idx +:+ "/"
               +:+ Py.str_of_int total +:+ ": " +:+ py_str id) ;;
        violation_info <- check_license_violation_with_openai
                            dataset_record original_info ;;
        has_violation <- py_get_default "has_violation" (JBool false)
                           violation_info ;;
        r1 <- FineFilterGithub.py_setitem "has_violation" has_violation
                dataset_record ;;
        violations <- py_get_default "violations" (JArr [])
                        violation_info ;;
        r2 <- FineFilterGithub.py_setitem "violations" violations r1 ;;
        analyze_each rest (idx + 1) total original_info
          (updated_records ++ [r2])
  end.

Definition analyze_downstream_usage (downstream_datasets
  original_info : json) : Net (list json) :=
  total <- py_len downstream_datasets ;;
  records <- py_iter downstream_datasets ;;
  analyze_each records 1 (Z.of_nat total) original_info [].

Definition save_violations_to_file (updated_records : list json)
  (filename : string) : Sys unit :=
  json_dump (JArr updated_records) filename 4.

Definition check_huggingface (KEYWORD : string) : Sys unit :=
  original_info <-
    json_load ("extracted_dataset_info_with_license_analysis_"
               +:+ KEYWORD +:+ ".json") ;;
  downstream_datasets <-
    json_load ("final_processed_huggingface_" +:+ KEYWORD +:+ ".json") ;;
  updated_records <-
    lift (analyze_downstream_usage downstream_datasets original_info) ;;
  save_violations_to_file updated_records
    ("violations_huggingface_" +:+ KEYWORD +:+ ".json") ;;
  lift (print ("Analysis complete. Updated records saved to "
               +:+ "violations_huggingface_" +:+ KEYWORD +:+ ".json")) ;;
  if negb (length updated_records =? 0)%nat
  then lift (print ("Total downstream records processed: "
                    +:+ Py.str_of_int (Z.of_nat (length updated_records))))
  else lift (print "No downstream records processed.").

End Code.
End ComplianceHuggingface.

(** ** More of Python's strings, and file names *)

Module Str.

(** [c in cs] *)
Definition mem (c : ascii) (cs : string) : bool :=
  existsb (Ascii.eqb c) (list_ascii_of_string cs).

Fixpoint lstrip_in (cs : string) (l : list ascii) : list ascii :=
  match l with
  | c :: l' => if mem c cs then lstrip_in cs l' else l
  | [] => []
  end.

Definition rstrip_in (cs : string) (l : list ascii) : list ascii :=
  rev (lstrip_in cs (rev l)).

(** [s.strip(cs)] *)
Definition strip (cs s : string) : string :=
  string_of_list_ascii
    (rstrip_in cs (lstrip_in cs (list_ascii_of_string s))).

(** [s.rstrip(cs)] *)
Definition rstrip (cs s : string) : string :=
  string_of_list_ascii (rstrip_in cs (list_ascii_of_string s)).

(** [s[:n]], where a negative [n] counts from the end. *)
Definition slice_to (n : Z) (s : string) : string :=
  if 0 <=? n then Py.take (Z.to_nat n) s
  else Py.take (String.length s - Z.to_nat (- n)) s.

(** [s.endswith(p)] *)
Definition endswith (s p : string) : bool :=
  Py.startswith (Py.rev s) (Py.rev p).

(** [s.rfind(c)] from position [i] on, [last] being the last place seen
    before. *)
Fixpoint rfind (c : ascii) (l : list ascii) (i : nat) (last : option nat)
  : option nat :=
  match l with
  | [] => last
  | x :: l' => rfind c l' (S i) (if Ascii.eqb x c then Some i else last)
  end.

(** [Path(name).stem] for a file name: the name without its last suffix,
    which begins at a dot that is neither the first nor the last
    character. *)
Definition stem (name : string) : string :=
  match rfind "." (list_ascii_of_string name) 0 None with
  | Some i =>
      if ((0 <? i) && (i <? String.length name - 1))%nat
      then Py.take i name
      else name
  | None => name
  end.

(** Text all of whose characters are ASCII; there a character is a byte,
    as in the strings of this development. *)
Definition is_ascii (s : string) : bool :=
  forallb (fun c => (Ascii.nat_of_ascii c <? 128)%nat)
    (list_ascii_of_string s).

End Str.

(** ** What the two scripts of scripts/ share

    [safe_name], [collect_files], [infer_keyword_from_filename] and
    [normalize_items] have the same text in statistics_huggingface.py and
    in statistics_kaggle_violations.py, but for the prefix of the file
    names and the first key tried. *)

Module Scripts.

Definition isalnum (c : ascii) : bool :=
  let n := Ascii.nat_of_ascii c in
  ((48 <=? n) && (n <=? 57) || (65 <=? n) && (n <=? 90)
   || (97 <=? n) && (n <=? 122))%nat.

(** The class [[\w\-.]] on ASCII text. *)
Definition kept (c : ascii) : bool :=
  isalnum c || Ascii.eqb c "_" || Ascii.eqb c "-" || Ascii.eqb c ".".

(** [re.sub(r"[^\w\-.]+", "_", s)]: every maximal run of other characters
    becomes one underscore; [in_run] tells that the character before was
    one of them. *)
Fixpoint sub_runs (in_run : bool) (l : list ascii) : list ascii :=
  match l with
  | [] => []
  | c :: l' =>
      if kept c then c :: sub_runs false l'
      else if in_run then sub_runs true l'
      else "_"%char :: sub_runs true l'
  end.

Definition safe_name (s : string) (maxlen : Z) : string :=
  let s := string_of_list_ascii (sub_runs false (list_ascii_of_string s)) in
  Str.strip "._-" (Str.slice_to maxlen s).

(** [fnmatch] of a name against [prefix*.json]. *)
Definition matches (prefix name : string) : bool :=
  match Py.strip_prefix prefix name with
  | Some rest => Str.endswith rest ".json"
  | None => false
  end.

(** [sorted] on paths of one directory: by name, character by character. *)
Definition sorted (names : list string) : list string :=
  merge_sort (fun a b => Is_true (String.leb a b)) names.

(** [base_dir] is the directory, as the names and contents of its files.
    The paths returned are all in it and are given by their names. *)
Definition collect_files {S} (prefix keyword : string)
  (base_dir : gmap string string) : M S (list string) :=
  if negb (String.eqb keyword EmptyString) then
    let fname := prefix +:+ safe_name keyword 100 +:+ ".json" in
    match base_dir !! fname with
    | None => raise FileNotFoundError
    | Some _ => ret [fname]
    end
  else
    let files :=
      sorted (List.filter (matches prefix) (map fst (map_to_list base_dir))) in
    match files with
    | [] => raise FileNotFoundError
    | _ => ret files
    end.

Definition infer_keyword_from_filename (prefix path : string) : string :=
  let stem := Str.stem path in
  match Py.strip_prefix prefix stem with
  | Some rest => rest
  | None => stem
  end.

(** The [for key in (first, "items", "data")] loop. *)
Fixpoint first_list (keys : list string) (data : dict) : option (list json) :=
  match keys with
  | [] => None
  | key :: rest =>
      match Dict.get key data with
      | JArr l => Some l
      | _ => first_list rest data
      end
  end.

Definition normalize_items (first : string) (data : json) : list json :=
  match data with
  | JArr l => l
  | JObj d =>
      match first_list [first; "items"; "data"] d with
      | Some l => l
      | None => [data]
      end
  | _ => []
  end.

End Scripts.

(** ** scripts/statistics_huggingface.py *)

Module StatisticsHuggingface.

Definition prefix : string := "final_processed_huggingface_".

Definition safe_name : string -> Z -> string := Scripts.safe_name.

Definition collect_files {S} : string -> gmap string string
  -> M S (list string) :=
  Scripts.collect_files prefix.

Definition infer_keyword_from_filename : string -> string :=
  Scripts.infer_keyword_from_filename prefix.

Definition normalize_items : json -> list json :=
  Scripts.normalize_items "huggingface".

(** The [for repo in items] loop. *)
Fixpoint count_fine {S} (items : list json) (fine : nat) : M S nat :=
  match items with
  | [] => ret fine
  | JObj d :: rest =>
      usage <- ret (Dict.get_default "downstream_usage" (JObj []) d) ;;
      flag <- py_get_default "is_downstream" (JBool false) usage ;;
      count_fine rest (if truthy flag then (fine + 1)%nat else fine)
  | _ :: rest => count_fine rest fine
  end.

Definition count_coarse_and_fine {S} (items : list json) : M S (nat * nat) :=
  let coarse := length items in
  fine <- count_fine items 0 ;;
  ret (coarse, fine).

End StatisticsHuggingface.

(** ** scripts/statistics_kaggle_violations.py *)

Module StatisticsKaggleViolations.

Definition prefix : string := "violations_kaggle_".

Definition RULES : list string :=
  ["non_commercial"; "sharealike"; "no_derivatives"; "give_credit"].

Definition safe_name : string -> Z -> string := Scripts.safe_name.

Definition collect_files {S} : string -> gmap string string
  -> M S (list string) :=
  Scripts.collect_files prefix.

Definition infer_keyword_from_filename : string -> string :=
  Scripts.infer_keyword_from_filename prefix.

Definition normalize_items : json -> list json :=
  Scripts.normalize_items "kaggle".

(** A [Counter]: its keys in insertion order, with their counts. *)
Definition Counter := list (string * Z).

(** [cnt[r] += 1] for a key [r] that [cnt] has. *)
Fixpoint increment (r : string) (cnt : Counter) : Counter :=
  match cnt with
  | [] => [(r, 1)]
  | (k, n) :: cnt' =>
      if String.eqb r k then (k, n + 1) :: cnt' else (k, n) :: increment r cnt'
  end.

(** [r in RULES] *)
Definition in_RULES (r : json) : option string :=
  match r with
  | JStr s => if existsb (String.eqb s) RULES then Some s else None
  | _ => None
  end.

(** The [for v in violations] loop. *)
Fixpoint count_entries (violations : list json) (cnt : Counter) : Counter :=
  match violations with
  | [] => cnt
  | JObj v :: rest =>
      match in_RULES (Dict.get "rule" v) with
      | Some r => count_entries rest (increment r cnt)
      | None => count_entries rest cnt
      end
  | _ :: rest => count_entries rest cnt
  end.

(** The [for repo in items] loop. *)
Fixpoint count_items (items : list json) (cnt : Counter) : Counter :=
  match items with
  | [] => cnt
  | JObj repo :: rest =>
      match py_or (Dict.get "violations" repo) (JArr []) with
      | JArr violations => count_items rest (count_entries violations cnt)
      | _ => count_items rest cnt
      end
  | _ :: rest => count_items rest cnt
  end.

Definition count_rule_violations (items : list json) : Counter :=
  count_items items (map (fun r => (r, 0)) RULES).

End StatisticsKaggleViolations.

(** ** compliance_check/compliance_open_source.py

    Of this file, [check_open_source_intro]. The functions around it read
    PDF files and data frames, which this development has no model of. *)

Module ComplianceOpenSource.

Definition open_pattern : list string :=
  ["physionet"; "github"; "huggingface"; "kaggle"; "zenodo"; "tfhub";
   "monai"].

(** The [for i in open_pattern] loop. *)
Fixpoint scan (patterns : list string) (content open_string : string)
  : string :=
  match patterns with
  | [] => open_string
  | i :: rest =>
      scan rest content
        (if Py.contains i content then open_string +:+ i +:+ ", "
         else open_string)
  end.

Definition check_open_source_intro (content : string) : string :=
  let open_string := scan open_pattern content EmptyString in
  if negb (String.eqb open_string EmptyString)
  then Str.rstrip ", " open_string
  else "N/A".

End ComplianceOpenSource.

(** ** license_extract/license_term_extract.py

    [html_to_text], a chain of regular-expression substitutions and
    [html.unescape], is not looked into: the code that calls it takes it as
    it is, together with the text of the error that [json.loads] raises on
    a text that does not parse and the text of the [TypeError] that
    [re.search] raises on [None]. *)

Class Texts := {
  html_to_text : string -> string;
  decode_error : string -> string;
  search_error : string
}.

(** [response.raise_for_status()]. [HTTPError] is a [RequestException]
    that is neither a timeout nor a JSON error; the exceptions of this
    development have one constructor for those. *)
Definition raise_for_status {S} (r : response) : M S unit :=
  if (400 <=? status_code r) && (status_code r <? 600)
  then raise ConnectionError
  else ret tt.

Module LicenseTermExtract.
Section Code.
Context {lib : Library} {texts : Texts}.

Definition nl : string := String (Ascii.ascii_of_nat 10) EmptyString.

(** A key of the JSON sample of the prompt, in double quotes. *)
Definition quoted (k : string) : string :=
  String Py.dquote (k +:+ String Py.dquote EmptyString).

Definition extract_license_text (url : string) : Net string :=
  response <- requests_get url [] ;;
  raise_for_status response ;;
  let raw_html := text response in
  ret (html_to_text raw_html).

Definition extract_json_from_text (data : string) : json :=
  match Re.search Re.object_block_at data with
  | Some json_text =>
      match json_loads json_text with
      | Some v => v
      | None => JStr ("JSON decoding error: " +:+ decode_error json_text)
      end
  | None =>
      match json_loads data with
      | Some v => v
      | None => JStr "No valid JSON found in input text."
      end
  end.

Definition prompt (license_text : string) : string :=
  "You are an assistant specialized in analyzing dataset licenses. "
  +:+ "Analyze the license text below and return ONLY valid JSON with these keys: "
  +:+ "non_commercial, sharealike, no_derivatives, attribution, open_source, distribution_platform, naming. "
  +:+ "Each value must be true or false. If a rule is not mentioned, return false."
  +:+ nl +:+ nl
  +:+ "Interpretation rules:" +:+ nl
  +:+ "- Non-commercial (NC): return true if the license prohibits commercial use OR restricts use to "
  +:+ "  non-commercial contexts such as 'research-only', 'educational use only', 'academic use only', "
  +:+ "  'scientific research and no other', or 'non-profit use only'. These phrases count as NC even if the word "
  +:+ "  'commercial' is not used." +:+ nl
  +:+ "- Share-Alike (SA): true if derivatives must use the same license terms."
  +:+ nl
  +:+ "- No Derivatives (ND): true if modifications/derivatives are not allowed."
  +:+ nl
  +:+ "- Attribution (BY): true if credit/citation is required." +:+ nl
  +:+ "- Open Source (OS): true if the license requires downstream users to release code or derivatives openly."
  +:+ nl
  +:+ "- Distribution Platform (DP): true if redistribution must occur on specified platforms or channels only."
  +:+ nl
  +:+ "- Naming: true if the license requires specific naming for derivative datasets."
  +:+ nl +:+ nl
  +:+ "Return JSON exactly like:" +:+ nl
  +:+ "{" +:+ nl
  +:+ "  " +:+ quoted "non_commercial" +:+ ": true/false," +:+ nl
  +:+ "  " +:+ quoted "sharealike" +:+ ": true/false," +:+ nl
  +:+ "  " +:+ quoted "no_derivatives" +:+ ": true/false," +:+ nl
  +:+ "  " +:+ quoted "attribution" +:+ ": true/false," +:+ nl
  +:+ "  " +:+ quoted "open_source" +:+ ": true/false," +:+ nl
  +:+ "  " +:+ quoted "distribution_platform" +:+ ": true/false," +:+ nl
  +:+ "  " +:+ quoted "naming" +:+ ": true/false" +:+ nl
  +:+ "}" +:+ nl +:+ nl
  +:+ "License text:" +:+ nl
  +:+ license_text +:+ nl +:+ nl
  +:+ "JSON:".

Definition api_failure (e : exn) : json :=
  JStr ("Error calling OpenAI API: "
        +:+ match e with
            | APIError msg => msg
            | TypeError => search_error
            | _ => EmptyString
            end).

Definition detect_license_rules (license_text : string) : Net json :=
  try_except
    (output_text <- chat_create "gpt-4o" (prompt license_text) ;;
     data <- or_raise TypeError output_text ;;
     let result := extract_json_from_text data in
     ret result)
    is_Exception
    (fun e => ret (api_failure e)).

Definition LICENSE_TERMS : string := "license_extract/license_terms.json".

(** [list(v.keys())] *)
Definition py_keys {S} (v : json) : M S (list string) :=
  match v with
  | JObj d => ret (map fst d)
  | _ => raise AttributeError
  end.

(** [license in existing_licenses], for a list of strings. *)
Definition listed (license : json) (existing_licenses : list string) : bool :=
  match license with
  | JStr l => existsb (String.eqb l) existing_licenses
  | _ => false
  end.

Definition extract_license_terms (license : json) : Sys json :=
  existing_license_terms <- json_load LICENSE_TERMS ;;
  existing_licenses <- py_keys existing_license_terms ;;
  if listed license existing_licenses then
    license_analysis <- py_index (py_str license) existing_license_terms ;;
    ret (JObj [("license", license); ("license_analysis", license_analysis)])
  else
    match license with
    | JStr l =>
        license_text <- (if Py.startswith l "http"
                         then lift (extract_license_text l)
                         else ret l) ;;
        license_term <- lift (detect_license_rules license_text) ;;
        ret (JObj [("license", JStr "Custom License");
                   ("license_analysis", license_term)])
    | _ => raise AttributeError
    end.

End Code.
End LicenseTermExtract.

(** ** agent.py

    The state of the graph is a [TypedDict] of seven strings. Of the
    nodes, [compliance_kaggle] calls a module that is not in the
    repository and is left out; [crawl_citation] and [check_open_source],
    which [compliance_citation] calls, work on data frames and are taken as
    they are. *)

Record State := {
  RepresentativeTerm : string;
  Title : string;
  Website : string;
  Keywords : string;
  Description : string;
  Citation : string;
  License : string
}.

Module Agent.
Section Code.
Context {lib : Library} {texts : Texts}.
Variable crawl_citation : string -> string -> Sys unit.
Variable check_open_source : string -> Sys unit.

Definition OPENAI_API_KEY : string := "sk-xxx".

Definition coarse_search_huggingface (State : State) : Sys unit :=
  let search_keyword := RepresentativeTerm State in
  CrawlHuggingface.search_huggingface search_keyword.

Definition coarse_search_github (State : State) : Sys unit :=
  let search_keyword := RepresentativeTerm State in
  CrawlGithub.search_github search_keyword.

Definition coarse_search_kaggle (State : State) : Sys unit :=
  let search_keyword := RepresentativeTerm State in
  CrawlKaggle.search_kaggle search_keyword.

(** The second argument is the order in which the workers of the pool
    complete. *)
Definition process_kaggle (State : State) (completed : list nat)
  : Sys unit :=
  let representative_term := RepresentativeTerm State in
  ProcessKaggle.clean_kaggle_data representative_term completed.

Definition process_huggingface (State : State) : Sys unit :=
  let representative_term := RepresentativeTerm State in
  ProcessHuggingface.clean_huggingface_data representative_term.

Definition process_github (State : State) : Sys unit :=
  let representative_term := RepresentativeTerm State in
  ProcessGithub.clean_github_data representative_term.

(** The [dataset_info] that the three classification nodes build. *)
Definition dataset_info (State : State) : json :=
  JObj [("title", JStr (Title State));
        ("topics", JStr (Description State));
        ("name", JStr (RepresentativeTerm State));
        ("representative_term", JStr (RepresentativeTerm State));
        ("keywords", JStr (Keywords State));
        ("website", JStr (Website State))].

Definition fine_filter_kaggle (State : State) : Sys unit :=
  let representative_term := RepresentativeTerm State in
  let INPUT_FILE := "processed_kaggle_" +:+ representative_term +:+ ".json" in
  let OUTPUT_FILE :=
    "final_processed_kaggle_" +:+ representative_term +:+ ".json" in
  FineFilterKaggle.filter_kaggle INPUT_FILE OUTPUT_FILE OPENAI_API_KEY
    (dataset_info State).

Definition fine_filter_huggingface (State : State) : Sys unit :=
  let representative_term := RepresentativeTerm State in
  let INPUT_FILE :=
    "processed_huggingface_datasets_" +:+ representative_term +:+ ".json" in
  let OUTPUT_FILE :=
    "final_processed_datasets_" +:+ representative_term +:+ ".json" in
  FineFilterHuggingface.filter_huggingface INPUT_FILE OUTPUT_FILE
    OPENAI_API_KEY (dataset_info State).

Definition fine_filter_github (State : State) : Sys unit :=
  let representative_term := RepresentativeTerm State in
  let INPUT_FILE :=
    "processed_github_repos_" +:+ representative_term +:+ ".json" in
  let OUTPUT_FILE :=
    "final_processed_repos_" +:+ representative_term +:+ ".json" in
  FineFilterGithub.filter_github INPUT_FILE OUTPUT_FILE OPENAI_API_KEY
    (dataset_info State).

Definition profile_name (representative_term : string) : string :=
  "extracted_dataset_info_with_license_analysis_" +:+ representative_term
  +:+ ".json".

Definition original_license_formalization (State : State) : Sys unit :=
  let title := Title State in
  let license_text := License State in
  license_terms <- LicenseTermExtract.extract_license_terms
                     (JStr license_text) ;;
  license <- py_index "license" license_terms ;;
  license_analysis <- py_index "license_analysis" license_terms ;;
  let representative_term := RepresentativeTerm State in
  let website := Website State in
  let citation := Citation State in
  let output_file := profile_name representative_term in
  let processed_data :=
    JObj [("title", JStr title); ("license", license);
          ("representative word", JStr representative_term);
          ("website", JStr website); ("citation", JStr citation);
          ("license_analysis", license_analysis)] in
  json_dump processed_data output_file 2 ;;
  lift (print ("Processed and saved results to " +:+ output_file)).

Definition compliance_huggingface (State : State) : Sys unit :=
  let representative_term := RepresentativeTerm State in
  ComplianceHuggingface.check_huggingface representative_term.

Definition compliance_github (State : State) : Sys unit :=
  let representative_term := RepresentativeTerm State in
  ComplianceGithub.check_github representative_term.

Definition compliance_citation (State : State) : Sys unit :=
  let representative_term := RepresentativeTerm State in
  let title := Title State in
  original_info <- json_load (profile_name representative_term) ;;
  license_analysis <- py_index "license_analysis" original_info ;;
  open_source <- py_index "open_source" license_analysis ;;
  if truthy open_source then
    crawl_citation representative_term title ;;
    check_open_source representative_term
  else ret tt.

(** The graph as it is wired: the license formalization, then the
    open-source compliance node. *)
Definition graph (State : State) : Sys unit :=
  original_license_formalization State ;;
  compliance_citation State.

End Code.
End Agent.

(** ** compliance_check/crawl_citation.py

    Of this file, the choice of the search result that matches a title.
    [fuzz.ratio] of rapidfuzz and the search of SerpAPI are taken as they
    are: a similarity score is a floating-point number, and every
    floating-point number that is one is a rational. The crawl itself,
    which fills a data frame, is not modelled. *)

Class Scholar := {
  ratio : string -> string -> QArith_base.Q;
  (* [str(score)], as an f-string shows it *)
  str_of_score : QArith_base.Q -> string;
  (* [GoogleSearch(params).get_dict()] *)
  get_dict : list (string * string) -> Net dict
}.

(** [logging.info(msg)] and [logging.error(msg)]: the record goes to the
    stream and to debug.log; the trace keeps its message. *)
Definition logging_info (msg : string) : Net unit := print msg.
Definition logging_error (msg : string) : Net unit := print msg.

(** [v.lower()]: only a string has it. *)
Definition py_lower {S} (v : json) : M S string :=
  match v with
  | JStr s => ret (Py.lower s)
  | _ => raise AttributeError
  end.

Module CrawlCitation.
Section Code.
Context {lib : Library} {scholar : Scholar}.

Definition hundred : QArith_base.Q := QArith_base.inject_Z 100.

(** The [for result in results] loop, returning [best_match] and
    [highest_score] as it is left. *)
Fixpoint scan (results : list json) (paper_title : string)
  (best_match : json) (highest_score : QArith_base.Q)
  : Net (json * QArith_base.Q) :=
  match results with
  | [] => ret (best_match, highest_score)
  | result :: rest =>
      title <- py_get_default "title" (JStr EmptyString) result ;;
      title <- py_lower title ;;
      let similarity_score := ratio (Py.lower paper_title) title in
      if negb (QArith_base.Qle_bool similarity_score highest_score) then
        if QArith_base.Qeq_bool similarity_score hundred
        then ret (result, similarity_score)
        else scan rest paper_title result similarity_score
      else scan rest paper_title best_match highest_score
  end.

Definition get_most_similar_result (results : json) (paper_title : string)
  : Net json :=
  items <- py_iter results ;;
  found <- scan items paper_title JNull (QArith_base.inject_Z 0) ;;
  let '(best_match, highest_score) := found in
  (if truthy best_match then
     title <- py_get_default "title" (JStr "N/A") best_match ;;
     logging_info ("Best match: " +:+ py_str title +:+ " with score: "
                   +:+ str_of_score highest_score)
   else logging_info "No exact match found.") ;;
  ret (if QArith_base.Qeq_bool highest_score hundred then best_match
       else JNull).

Definition get_paper_result_id (paper_title api_key : string)
  : Net (json * json * json) :=
  results <- get_dict [("q", paper_title); ("engine", "google_scholar");
                       ("api_key", api_key)] ;;
  found <- (if Dict.mem "organic_results" results then
              organic_results <- py_index "organic_results" (JObj results) ;;
              most_similar_result <- get_most_similar_result organic_results
                                       paper_title ;;
              if truthy most_similar_result then
                title <- py_get_default "title" (JStr "N/A")
                           most_similar_result ;;
                result_id <- py_get "result_id" most_similar_result ;;
                inline_links <- py_get_default "inline_links" (JObj [])
                                  most_similar_result ;;
                cited_by <- py_get_default "cited_by" (JObj [])
                              inline_links ;;
                cited_count <- py_get_default "total" (JNum 0) cited_by ;;
                ret (Some (title, result_id, cited_count))
              else ret None
            else ret None) ;;
  match found with
  | Some answer => ret answer
  | None =>
      logging_error ("No results found for: " +:+ paper_title) ;;
      ret (JNull, JNull, JNum 0)
  end.

End Code.
End CrawlCitation.

(** * Vocabulary of the statements *)

(** ** The verdict of a classified record *)

(** [record.get("downstream_usage", {})] and, in it,
    [.get("is_downstream", False)], where both are defined. *)
Definition usage_of (r : json) : json :=
  match r with
  | JObj d => Dict.get_default "downstream_usage" (JObj []) d
  | _ => JNull
  end.

Definition flag_of (r : json) : json :=
  match usage_of r with
  | JObj u => Dict.get_default "is_downstream" (JBool false) u
  | _ => JNull
  end.

(** The test of the specification: [is_downstream == true]. *)
Definition is_downstream (r : json) : bool := eq_True (flag_of r).

(** The test of the code: the flag is truthy. *)
Definition marked (r : json) : bool := truthy (flag_of r).

(** A classified record of the data model: an object whose verdict, when it
    has one, is an object whose [is_downstream], when it has one, is a
    boolean. *)
Definition classified (r : json) : bool :=
  match r with
  | JObj _ =>
      match usage_of r with
      | JObj _ => match flag_of r with JBool _ => true | _ => false end
      | _ => false
      end
  | _ => false
  end.

(** A record whose verdict can be looked up without an error. *)
Definition readable (r : json) : bool :=
  match r with
  | JObj _ => match usage_of r with JObj _ => true | _ => false end
  | _ => false
  end.

(** What the code-host compliance merge makes of a record [d]: the two
    fields of the violation report, and the citation of the license profile
    unless the record carries a citation of its own. *)
Definition profile_citation (original_info : json) : json :=
  match original_info with
  | JObj i => Dict.get_default "citation" (JStr EmptyString) i
  | _ => JNull
  end.

Definition with_report (has_violation violations : json) (d : dict) : dict :=
  Dict.set "violations" violations (Dict.set "has_violation" has_violation d).

Definition with_citation (original_info : json) (d : dict) : dict :=
  if truthy (Dict.get "citation" d) then d
  else Dict.set "citation" (profile_citation original_info) d.

(** [r'] is the record [r] as the code-host merge writes it. *)
Definition merged (original_info : json) (r r' : json) : Prop :=
  exists d has_violation violations,
    r = JObj d
    /\ r' = JObj (with_citation original_info
                    (with_report has_violation violations d)).

(** [r'] is the record [r] as the hub merge writes it. *)
Definition reported (r r' : json) : Prop :=
  exists d has_violation violations,
    r = JObj d /\ r' = JObj (with_report has_violation violations d).

(** [record.get("citation")] *)
Definition citation_of (r : json) : json :=
  match r with
  | JObj d => Dict.get "citation" d
  | _ => JNull
  end.

(** The three ways of the claim in which a record has no verdict: no
    [downstream_usage], the empty object, an object without
    [is_downstream]. *)
Definition lacks_verdict (r : json) : Prop :=
  exists d,
    r = JObj d
    /\ (Dict.lookup "downstream_usage" d = None
        \/ Dict.lookup "downstream_usage" d = Some (JObj [])
        \/ exists u, Dict.lookup "downstream_usage" d = Some (JObj u)
                     /\ Dict.lookup "is_downstream" u = None).

(** [r'] has the fields of [r], but for those in [added]. *)
Definition extends (added : list string) (r r' : json) : Prop :=
  exists d d',
    r = JObj d /\ r' = JObj d'
    /\ forall k, ~ In k added -> Dict.lookup k d' = Dict.lookup k d.

(** ** Shapes of texts *)

(** A run of white-space characters, possibly empty. *)
Inductive all_space : string -> Prop :=
| no_space : all_space EmptyString
| more_space c ws :
    In c Py.whitespace -> all_space ws -> all_space (c +:+ ws).

(** A text with a fenced block: any text, the opening fence, white space,
    the block, white space, the closing fence, and any text. *)
Definition fenced (before space1 block space2 after : string) : string :=
  before +:+ Re.json_fence +:+ space1 +:+ block +:+ space2 +:+ Re.fence
  +:+ after.

(** An object literal as the pattern of the code sees it: a brace, any
    text, a brace. *)
Definition braced (body : string) : string :=
  String "{" (body +:+ "}").

(** The pattern [```json\s*(\{.*?\})\s*```] matches in [text] behind
    [before], with [body] between the braces of its group. *)
Definition object_match (text before body : string) : Prop :=
  exists ws1 ws2 after,
    all_space ws1 /\ all_space ws2
    /\ text = fenced before ws1 (braced body) ws2 after.

(** The match that [re.search] reports: the leftmost one and, [.*?] being
    lazy, of those that begin there the one with the shortest body. *)
Definition first_object_match (text before body : string) : Prop :=
  object_match text before body
  /\ forall before' body',
       object_match text before' body' ->
       (String.length before < String.length before')%nat
       \/ (String.length before = String.length before'
           /\ String.length body <= String.length body')%nat.

(** ** Classes of replies *)

Definition is_2xx (status : Z) : bool := (200 <=? status) && (status <? 300).

(** The retryable classes of the specification: 429, 503, and a 403 whose
    body speaks of a rate limit. *)
Definition retryable (r : response) : bool :=
  (status_code r =? 429) || (status_code r =? 503)
  || CrawlGithub.rate_limited r.

(** A reply that is neither a success nor retryable. *)
Definition fatal (r : response) : bool :=
  negb (is_2xx (status_code r)) && negb (retryable r).

(** [int(response.headers.get("Retry-After", dflt))], where it is defined. *)
Definition hint_of (dflt : Z) (r : response) : option Z :=
  match header "Retry-After" (headers r) with
  | Some v => Py.int_of_str v
  | None => Some dflt
  end.

(** A 429 reply whose retry hint, given or defaulted, is [h]. *)
Definition throttled (dflt h : Z) (r : response) : Prop :=
  status_code r = 429 /\ hint_of dflt r = Some h.

(** The waits of the hub search and of the competition-catalog search over
    [n] throttled replies in a row with hint [h], from attempt [a] on. *)
Definition hub_backoff (h a : Z) (n : nat) : list Z :=
  map (fun k => Z.min (h * 2 ^ (a + Z.of_nat k)) 60) (seq 0 n).

Definition kaggle_backoff (h a : Z) (n : nat) : list Z :=
  map (fun k => Z.max (h * 2 ^ (a + Z.of_nat k)) 5) (seq 0 n).

(** No element is greater than a later one. *)
Definition nondecreasing (l : list Z) : Prop :=
  forall i j x y,
    (i <= j)%nat -> l !! i = Some x -> l !! j = Some y -> x <= y.

(** ** Date partitions *)

(** The sub-intervals the search window is cut into: from [current] on,
    steps of [step], the last one cut at [end_date]; [n] bounds their
    number. *)
Fixpoint slices (n : nat) (current end_date step : Z) : list (Z * Z) :=
  match n with
  | O => []
  | S n' =>
      if current <? end_date then
        let next_date := Z.min (current + step) end_date in
        (current, next_date) :: slices n' next_date end_date step
      else []
  end.

Definition sub_intervals (start_date end_date interval_days : Z)
  : list (Z * Z) :=
  let step := Date.timedelta_days interval_days in
  slices (Z.to_nat ((end_date - start_date) / step + 1)) start_date end_date
    step.

(** [sl] is a chain of non-empty intervals, each starting where the one
    before ends, from [a] to [b]. *)
Fixpoint covers (a b : Z) (sl : list (Z * Z)) : Prop :=
  match sl with
  | [] => a = b
  | (x, y) :: rest => x = a /\ a < y /\ covers y b rest
  end.

Section SearchAll.
Context {lib : Library}.

(** One paged keyword search per sub-interval, in the order of the list,
    the results appended in that order. *)
Fixpoint search_all (keyword github_token : string) (sl : list (Z * Z))
  (all_results : list json) : Net (list json) :=
  match sl with
  | [] =>
      print ("Total repositories fetched: "
             +:+ Py.str_of_int (Z.of_nat (length all_results))) ;;
      ret all_results
  | (a, b) :: rest =>
      print ("Searching from " +:+ strftime a +:+ " to " +:+ strftime b) ;;
      repos <- CrawlGithub.search_repositories_with_date_range keyword
                 github_token (strftime a) (strftime b) 100 10 ;;
      search_all keyword github_token rest (all_results ++ repos)
  end.
End SearchAll.

(** ** Failed fetches and enriched records *)

(** [int(headers.get(name, dflt))], where it is defined. *)
Definition header_value (name : string) (dflt : Z)
  (hs : list (string * string)) : option Z :=
  match header name hs with
  | Some v => Py.int_of_str v
  | None => Some dflt
  end.

(** A reply that settles the readme fetch of the code-host worker at
    once, as a success or as a failure: neither a 403 nor a 429, and with
    rate-limit headers, where it has them, that read as integers and say
    that requests remain. *)
Definition settled (r : response) : bool :=
  negb (status_code r =? 403) && negb (status_code r =? 429)
  && match header_value "X-RateLimit-Remaining" 1 (headers r),
           header_value "X-RateLimit-Reset" 0 (headers r) with
     | Some remaining, Some _ => negb (remaining =? 0)
     | _, _ => false
     end.

(** A reply by which a fetch of the hub worker fails for good: no 200,
    and none of the statuses on which [safe_request] asks again. *)
Definition dead_hub (r : response) : bool :=
  negb (status_code r =? 200) && negb (status_code r =? 429)
  && negb (status_code r =? 500) && negb (status_code r =? 503).

(** A reply by which a fetch of the competition-catalog worker fails for
    good: no 200, and none of the statuses on which [robust_request] asks
    again. *)
Definition dead_catalog (r : response) : bool :=
  negb (status_code r =? 200) && negb (status_code r =? 429)
  && negb (status_code r =? 503).

(** The workers that the pool of the competition-catalog enrichment has
    logged as failed: the lines that begin as its message does. *)
Fixpoint pool_failures (t : list event) : nat :=
  match t with
  | [] => 0
  | Printed msg :: t' =>
      (if Py.startswith msg "[ERROR] Dataset processing failed"
       then 1 else 0)
      + pool_failures t'
  | _ :: t' => pool_failures t'
  end.

(** [m] logs no worker as failed. *)
Definition quiet {A} (m : Net A) : Prop :=
  forall w o w', m w = (o, w') ->
    pool_failures (trace w') = pool_failures (trace w).

(** The readme field the code-host worker makes of a settling reply. *)
Definition readme_of (r : response) : json :=
  if (status_code r =? 200) && negb (String.eqb (text r) EmptyString)
  then JStr (text r)
  else JNull.

(** The license of a raw repository is null (or missing, or empty) or an
    object. *)
Definition license_ok (d : dict) : bool :=
  match Dict.get "license" d with
  | JObj _ => true
  | v => negb (truthy v)
  end.

Definition license_name (d : dict) : json :=
  match Dict.get "license" d with
  | JObj l => if truthy (JObj l) then Dict.get "name" l else JNull
  | _ => JNull
  end.

(** The enriched record of the raw repository [d] with the given readme. *)
Definition enriched_repo (d : dict) (readme : json) : json :=
  JObj [("name", Dict.get "name" d); ("full_name", Dict.get "full_name" d);
        ("license", license_name d);
        ("topics", Dict.get_default "topics" (JArr []) d);
        ("readme", readme)].

(** [d.get(a) or d.get(b, "")] *)
Definition get_or (a b : string) (d : dict) : json :=
  py_or (Dict.get a d) (Dict.get_default b (JStr EmptyString) d).

(** The enriched record of the raw competition-catalog dataset [d]. *)
Definition enriched_kaggle (d : dict) (card : json) (files : list json)
  : json :=
  JObj [("ref", Dict.get_default "ref" (JStr EmptyString) d);
        ("title", get_or "titleNullable" "title" d);
        ("subtitle", get_or "subtitleNullable" "subtitle" d);
        ("licenseName", get_or "licenseNameNullable" "licenseName" d);
        ("dataset_card", card); ("files", JArr files)].

(** ** Running a stage again *)

(** The state in which a stage is run a second time: the outside world as
    it was before the first run (the mocked dependency answers the same),
    the files as the first run left them. *)
Definition restarted (s after : system) : system :=
  {| outside := outside s; files := files after |}.

(** Run again on what it left, the stage leaves the same files. *)
Definition idempotent (stage : Sys unit) : Prop :=
  forall s,
    files (snd (stage (restarted s (snd (stage s)))))
    = files (snd (stage s)).

(** What a stage does to the file [out]: nothing, or replace it. *)
Definition put (out : string) (wr : option string)
  (fs : gmap string string) : gmap string string :=
  match wr with
  | Some content => <[out := content]> fs
  | None => fs
  end.

(** [m] reads no file named [out] and writes no other: on all file systems
    that differ at [out] only it ends the same way, in the same world, and
    does the same to [out]. *)
Definition replaces {A} (out : string) (m : Sys A) : Prop :=
  forall s, exists r o' wr,
    forall fs',
      (forall n, n <> out -> fs' !! n = files s !! n) ->
      m {| outside := outside s; files := fs' |}
      = (r, {| outside := o'; files := put out wr fs' |}).

(** ** Worlds to run the code in *)

Definition world_with (rs : list http_outcome) (cs : list chat_outcome)
  : world :=
  {| replies := rs; completions := cs; clock := 0; last_request_time := 0;
     trace := [] |}.

Definition system_with (rs : list http_outcome) (cs : list chat_outcome)
  (fs : list (string * string)) : system :=
  {| outside := world_with rs cs; files := list_to_map fs |}.

(** ** Sample artifacts *)

Definition verdict (b : bool) (reason : string) : json :=
  JObj [("is_downstream", JBool b); ("reason", JStr reason)].

Definition repo_record (name : string) (extra : dict) : json :=
  JObj ([("name", JStr name); ("full_name", JStr ("lab/" +:+ name));
         ("license", JNull); ("topics", JArr []); ("readme", JNull)]
        ++ extra).

(** Five classified repositories, the second and the third downstream, the
    third with a citation of its own, the last two without a usable
    verdict. *)
Definition five_records : list json :=
  [repo_record "atlas" [("downstream_usage", verdict false "unrelated")];
   repo_record "brset-seg" [("downstream_usage", verdict true "trains on it")];
   repo_record "retina" [("citation", JStr "Doe 2024");
                         ("downstream_usage", verdict true "evaluates on it")];
   repo_record "misc" [("downstream_usage", JObj [])];
   repo_record "raw" []].

Definition license_profile : dict :=
  [("title", JStr "A Brazilian Multilabel Ophthalmological Dataset (BRSET)");
   ("license", JStr "PhysioNet Credentialed Health Data License 1.5.0");
   ("citation", JStr "Nakayama et al. 2023");
   ("license_analysis", JObj [("non_commercial", JBool true);
                              ("attribution", JBool true)])].

(** Two answers of the violation check: a fenced report and plain prose. *)
Definition two_answers : list chat_outcome :=
  [Completion (Py.dq ("```json {'has_violation': true, 'violations': "
                      +:+ "[{'rule': 'attribution', 'detail': 'no credit'}]}"
                      +:+ " ```"));
   Completion "I found no violation."].

(** The slept seconds of a trace, in order. *)
Fixpoint sleeps (t : list event) : list Z :=
  match t with
  | [] => []
  | Slept s :: t' => s :: sleeps t'
  | _ :: t' => sleeps t'
  end.

(** The requests of a trace, in order. *)
Fixpoint requests (t : list event) : list (string * list (string * string)) :=
  match t with
  | [] => []
  | Requested url params :: t' => (url, params) :: requests t'
  | _ :: t' => requests t'
  end.

(** ** What a computation touches *)

(** [m] leaves every file outside [names] as it is. *)
Definition writes_within {A} (names : list string) (m : Sys A) : Prop :=
  forall s n, ~ In n names -> files (snd (m s)) !! n = files s !! n.

(** [m] leaves no more replies than it finds, however it ends. *)
Definition shrinking {A} (m : Net A) : Prop :=
  forall w o w', m w = (o, w') ->
    (length (replies w') <= length (replies w))%nat.

(** [m] returns only after taking a reply. *)
Definition taking {A} (m : Net A) : Prop :=
  forall w a w', m w = (Returns a, w') ->
    (length (replies w') < length (replies w))%nat.

(** ** Sample replies and artifact directories *)

Definition not_found : response :=
  {| status_code := 404; headers := []; text := "Not Found" |}.

Definition a_readme : response :=
  {| status_code := 200; headers := []; text := "# Atlas" |}.

Definition too_many_requests (retry_after : string) : response :=
  {| status_code := 429; headers := [("Retry-After", retry_after)];
     text := "Too Many Requests" |}.

Definition no_datasets : response :=
  {| status_code := 200; headers := []; text := "[]" |}.

Definition found (names : list string) : response :=
  {| status_code := 200; headers := [];
     text := Json.dumps 0
               (JObj [("total_count", JNum (Z.of_nat (length names)));
                      ("items",
                       JArr (map (fun n => JObj [("name", JStr n);
                                                 ("full_name",
                                                  JStr ("lab/" +:+ n))])
                               names))]) |}.

(** Three repositories over two date partitions, two and one. *)
Definition two_partitions : list http_outcome :=
  [Reply (found ["brset-seg"; "retina"]); Reply (found []);
   Reply (found ["atlas"]); Reply (found [])].

Definition raw_repos : list dict :=
  [[("name", JStr "atlas"); ("full_name", JStr "lab/atlas");
    ("license", JObj [("key", JStr "mit"); ("name", JStr "MIT License")]);
    ("topics", JArr [JStr "retina"])];
   [("name", JStr "brset-seg"); ("full_name", JStr "lab/brset-seg");
    ("license", JNull)]].

(** The rate-limit headers of the code host, and replies that carry
    them. *)
Definition quota : list (string * string) :=
  [("X-RateLimit-Remaining", "57"); ("X-RateLimit-Reset", "1700000000")].

Definition a_readme_with_quota : response :=
  {| status_code := 200; headers := quota; text := "# Atlas" |}.

Definition not_found_with_quota : response :=
  {| status_code := 404; headers := quota; text := "Not Found" |}.

(** The raw listing of the two sample repositories, with the replies to
    the two readme fetches to come. *)
Definition raw_listing : system :=
  system_with [Reply a_readme_with_quota; Reply not_found_with_quota] []
    [("github_repos_BRSET.json", Json.dumps 4 (JArr (map JObj raw_repos)))].

Definition two_datasets : system :=
  system_with [Reply not_found; Reply not_found; Reply not_found; Reply not_found] []
    [("kaggle_datasets_BRSET.json",
      Py.dq "[{'ref': 'lab/brset'}, {'ref': 'lab/retina'}]")].

Definition sample_dataset_info : json :=
  JObj [("title", JStr "A Brazilian Multilabel Ophthalmological Dataset");
        ("topics", JArr [JStr "BRSET"]); ("name", JStr "BRSET");
        ("representative_words", JArr [JStr "BRSET"]);
        ("website", JStr "https://physionet.org/")].

Definition classification_input : system :=
  system_with [] [Completion (Py.dq "{'is_downstream': true, 'reason': 'x'}")]
    [("processed_github_repos_BRSET.json",
      Py.dq "[{'name': 'brset-seg', 'full_name': 'lab/brset-seg'}]")].

Definition no_artifacts : system := system_with [] [] [].

Definition only_the_license_profile : system :=
  system_with [] []
    [("extracted_dataset_info_with_license_analysis_BRSET.json",
      Json.dumps 2 (JObj license_profile))].

(** The license profile and the five classified records, with the two
    answers of the violation check to come. *)
Definition compliance_input : system :=
  system_with [] two_answers
    [("extracted_dataset_info_with_license_analysis_BRSET.json",
      Json.dumps 2 (JObj license_profile));
     ("final_processed_repos_BRSET.json", Json.dumps 4 (JArr five_records))].


(** ** Vocabulary of the scripts *)

(** A dict item whose verdict is not an object makes the counting loop
    fail; anything that is not a dict is passed over. *)
Definition countable (r : json) : bool :=
  match r with
  | JObj _ => readable r
  | _ => true
  end.

(** The violation entries the counter looks at: the items of the lists
    that the dict items have under [violations]. *)
Definition violation_entries (items : list json) : list json :=
  flat_map (fun repo =>
              match repo with
              | JObj d =>
                  match py_or (Dict.get "violations" d) (JArr []) with
                  | JArr vs => vs
                  | _ => []
                  end
              | _ => []
              end) items.

(** The entry [v] is a dict whose [rule] is [r]. *)
Definition breaks (r : string) (v : json) : bool :=
  match v with
  | JObj e => eq_str (Dict.get "rule" e) r
  | _ => false
  end.

Definition add_counts (a b : StatisticsKaggleViolations.Counter)
  : StatisticsKaggleViolations.Counter :=
  zip_with (fun x y => (fst x, snd x + snd y)) a b.

(** ** Vocabulary of the license formalization *)

Section Formalization.
Context {lib : Library} {texts : Texts}.

(** What the license analysis makes of the answer of the chat model, or
    of the failure of the call. *)
Definition analysis_of (c : chat_outcome) : json :=
  match c with
  | Completion output_text =>
      LicenseTermExtract.extract_json_from_text output_text
  | NoContent => JStr ("Error calling OpenAI API: " +:+ search_error)
  | ChatFails msg => JStr ("Error calling OpenAI API: " +:+ msg)
  end.

(** The world after the one chat call of the license analysis. *)
Definition prompted (license_text : string) (cs : list chat_outcome)
  (w : world) : world :=
  emit (Prompted "gpt-4o" (LicenseTermExtract.prompt license_text))
    (set_completions cs w).

(** The license profile of a graph state. *)
Definition profile_of (st : State) (license license_analysis : json) : json :=
  JObj [("title", JStr (Title st)); ("license", license);
        ("representative word", JStr (RepresentativeTerm st));
        ("website", JStr (Website st)); ("citation", JStr (Citation st));
        ("license_analysis", license_analysis)].

(** The system after the license formalization has written [profile]
    from the outside world [w]. *)
Definition formalized (st : State) (profile : json) (w : world)
  (fs : gmap string string) : system :=
  {| outside :=
       emit (Printed ("Processed and saved results to "
                      +:+ Agent.profile_name (RepresentativeTerm st)))
         (emit (Wrote (Agent.profile_name (RepresentativeTerm st))) w);
     files := <[Agent.profile_name (RepresentativeTerm st)
                := json_dumps 2 profile]> fs |}.

End Formalization.

(** ** Samples for the license formalization *)

(** Pages that are plain text already, which the cleanup leaves as they
    are, and the message of [json.loads] on a text that starts with no
    JSON value. *)
Definition plain_texts : Texts :=
  {| html_to_text := fun raw_html => raw_html;
     decode_error := fun _ => "Expecting value: line 1 column 1 (char 0)";
     search_error := "expected string or bytes-like object, got 'NoneType'" |}.

Definition known_terms : dict :=
  [("CC-BY-NC-ND-4.0", JObj [("non_commercial", JBool true);
                             ("open_source", JBool false)])].

Definition license_table : string := Json.dumps 2 (JObj known_terms).

Definition with_license_table (cs : list chat_outcome) : system :=
  system_with [] cs [(LicenseTermExtract.LICENSE_TERMS, license_table)].

Definition brset : State :=
  {| RepresentativeTerm := "BRSET";
     Title := "A Brazilian Multilabel Ophthalmological Dataset (BRSET)";
     Website := "https://physionet.org/content/brazilian-ophthalmological/";
     Keywords := "retina, fundus";
     Description := "Retinal fundus photos";
     Citation := "Nakayama et al. 2023";
     License := "For research use only." |}.

(** A citation crawl and an open-source check that do nothing. *)
Definition no_crawl : string -> string -> Sys unit := fun _ _ => ret tt.
Definition no_check : string -> Sys unit := fun _ => ret tt.

(** The sample state with other keywords, another citation and another
    license. *)
Definition brset_otherwise : State :=
  {| RepresentativeTerm := RepresentativeTerm brset;
     Title := Title brset;
     Website := Website brset;
     Keywords := "ophthalmology";
     Description := Description brset;
     Citation := EmptyString;
     License := "CC-BY-NC-ND-4.0" |}.

(** ** Bounded runs *)

(** A run from the world [w] that made at most [n] requests, slept at
    most [cap] seconds at a time, and came to an end, by returning or by
    raising, if [n] replies were there to be had. *)
Definition bounded {A} (n : nat) (cap : Z) (w : world)
  (run : outcome A * world) : Prop :=
  exists t,
    trace (snd run) = trace w ++ t
    /\ (length (requests t) <= n)%nat
    /\ Forall (fun s => 0 <= s <= cap) (sleeps t)
    /\ ((n <= length (replies w))%nat -> fst run <> Hangs).

(** ** Vocabulary of the classification *)

(** The prompt of the record [r] can be built: none of its parts is of a
    type that the f-string cannot take. *)
Definition promptable (build : json -> json -> Net string)
  (info r : json) : Prop :=
  exists p, forall w, build r info w = (Returns p, w).

(** [r'] is the record [r] as the three classification stages write it:
    with its verdict under [downstream_usage], and, for the hub and the
    competition catalog, with three of its fields and no other. *)
Definition verdict_added (r r' : json) : Prop :=
  exists d v, r = JObj d /\ r' = JObj (Dict.set "downstream_usage" v d).

Definition hub_classified (r r' : json) : Prop :=
  exists d v,
    r = JObj d
    /\ r' = JObj [("id", Dict.get "id" d); ("license", Dict.get "license" d);
                  ("dataset_card", Dict.get "dataset_card" d);
                  ("downstream_usage", v)].

Definition kaggle_classified (r r' : json) : Prop :=
  exists d v,
    r = JObj d
    /\ r' = JObj [("ref", Dict.get "ref" d); ("title", Dict.get "title" d);
                  ("license", Dict.get "licenseName" d);
                  ("downstream_usage", v)].

(** The report that the violation check makes of what comes of its chat
    call. *)
Definition report_of {lib : Library} (c : chat_outcome) : json :=
  match c with
  | Completion content =>
      let answer := Py.strip content in
      if String.eqb answer EmptyString then ComplianceGithub.no_violation
      else
        match json_loads
                (match Re.search Re.block_at answer with
                 | Some inside => Py.strip inside
                 | None => Py.strip answer
                 end) with
        | Some result =>
            if ComplianceGithub.well_shaped result then result
            else ComplianceGithub.no_violation
        | None => ComplianceGithub.no_violation
        end
  | NoContent | ChatFails _ => ComplianceGithub.no_violation
  end.

(** ** Samples for the graph and the classification *)

(** A hub listing of one dataset, whose card and whose file tree are not
    found, and one answer of the chat model ready. *)
Definition hub_listing : system :=
  system_with [Reply not_found; Reply not_found]
    [Completion (Py.dq "{'is_downstream': true, 'reason': 'x'}")]
    [("huggingface_datasets_BRSET.json",
      Py.dq "[{'id': 'lab/brset', 'tags': ['license:mit']}]")].

Definition two_repos : list json :=
  [repo_record "atlas" []; repo_record "brset-seg" []].

Definition an_answer_and_a_failure : list chat_outcome :=
  [Completion (Py.dq "{'is_downstream': true, 'reason': 'trains on it'}");
   ChatFails "Request timed out."].

(** ** Pages of results *)

Section Pages.
Context {lib : Library}.

(** The reply [r] is a success whose body is the JSON list [items]: a
    page of the competition catalog. *)
Definition lists (r : response) (items : list json) : Prop :=
  status_code r = 200 /\ json_loads (text r) = Some (JArr items).

(** The reply [r] is a success whose body is a JSON object with the list
    [items] under [items]: a page of the code-host search. *)
Definition lists_items (r : response) (items : list json) : Prop :=
  status_code r = 200
  /\ exists body,
       json_loads (text r) = Some (JObj body)
       /\ Dict.get_default "items" (JArr []) body = JArr items.

End Pages.

(** The requests for the pages [page], [page + 1], ... of the two
    searches. *)
Definition kaggle_requests (keyword : string) (per_page page : Z) (n : nat)
  : list (string * list (string * string)) :=
  map (fun i => (CrawlKaggle.KAGGLE_DATASETS_URL,
                 [("search", keyword);
                  ("page", Py.str_of_int (page + Z.of_nat i));
                  ("pageSize", Py.str_of_int per_page)]))
    (seq 0 n).

Definition github_requests (keyword start_date end_date : string)
  (per_page page : Z) (n : nat) : list (string * list (string * string)) :=
  map (fun i => (CrawlGithub.GITHUB_SEARCH_URL,
                 CrawlGithub.search_params keyword start_date end_date
                   per_page (page + Z.of_nat i)))
    (seq 0 n).

(** A page of the competition catalog with one dataset, and a reply of
    the code host that its secondary rate limit is exceeded. *)
Definition a_page : response :=
  {| status_code := 200; headers := [];
     text := Py.dq "[{'ref': 'lab/brset'}]" |}.

Definition secondary_rate_limit : response :=
  {| status_code := 403;
     headers := [("Retry-After", "60"); ("X-RateLimit-Remaining", "17")];
     text := Py.dq "{'message': 'You have exceeded a secondary rate limit.'}" |}.

(** ** Refusals *)

(** A reply on which the readme fetch of the code-host worker sleeps and
    asks again: a 403 or a 429, here without rate-limit headers. *)
Definition refusal (r : response) : bool :=
  ((status_code r =? 403) || (status_code r =? 429))
  && match header "X-RateLimit-Remaining" (headers r),
           header "X-RateLimit-Reset" (headers r) with
     | None, None => true
     | _, _ => false
     end.

Definition forbidden : response :=
  {| status_code := 403; headers := []; text := "Forbidden" |}.

(** ** File trees of the hub *)

(** An entry of a file tree: the item that shows it in the listing of
    its directory and, under a directory, the entries of that directory. *)
#[warnings="-register-all"]
Inductive entry := Entry (item : dict) (under : list entry).

Definition item_of (e : entry) : json :=
  match e with Entry item _ => JObj item end.

Definition is_file (item : dict) : bool :=
  eq_str (Dict.get "type" item) "file".

Definition is_directory (item : dict) : bool :=
  eq_str (Dict.get "type" item) "directory".

(** Every item has a type, and a file or a directory has a path. *)
Fixpoint well_formed (e : entry) : bool :=
  match e with
  | Entry item under =>
      Dict.mem "type" item
      && (if is_file item then Dict.mem "path" item
          else if is_directory item
               then Dict.mem "path" item && forallb well_formed under
               else true)
  end.

(** The paths of the files, directory by directory, depth first. *)
Fixpoint paths_of (e : entry) : list json :=
  match e with
  | Entry item under =>
      if is_file item then [Dict.get "path" item]
      else if is_directory item then flat_map paths_of under
      else []
  end.

(** The listings that are asked for below an entry, in the order of a
    depth-first walk: the one of a directory, then those below its
    entries. *)
Fixpoint listings_under (e : entry) : list (list json) :=
  match e with
  | Entry item under =>
      if is_file item then []
      else if is_directory item
           then map item_of under :: flat_map listings_under under
           else []
  end.

(** How deep the directories are nested. *)
Fixpoint depth (e : entry) : nat :=
  match e with
  | Entry item under =>
      if is_file item then O
      else if is_directory item then S (list_max (map depth under))
      else O
  end.

Section Walk.
Context {lib : Library}.

(** The loop over the items of a listing in [fetch_paths], with the
    fuel [fuel] for the listings below. *)
Definition each_item (fuel : nat) (dataset_id : json)
  : list json -> list json -> Net (list json) :=
  fix each (its : list json) (all_files : list json) : Net (list json) :=
    match its with
    | [] => ret all_files
    | item :: rest =>
        ty <- py_index "type" item ;;
        if eq_str ty "file" then
          p <- py_index "path" item ;;
          each rest (all_files ++ [p])
        else if eq_str ty "directory" then
          sub_path <- py_index "path" item ;;
          sub <- ProcessHuggingface.fetch_paths fuel dataset_id sub_path ;;
          each rest (all_files ++ sub)
        else each rest all_files
    end.

End Walk.

(** The tree of a dataset with a readme and a directory of two images. *)
Definition small_tree : list entry :=
  [Entry [("type", JStr "file"); ("path", JStr "README.md")] [];
   Entry [("type", JStr "directory"); ("path", JStr "images")]
     [Entry [("type", JStr "file"); ("path", JStr "images/1.png")] [];
      Entry [("type", JStr "file"); ("path", JStr "images/2.png")] []]].

Definition small_tree_replies : list response :=
  [{| status_code := 200; headers := [];
      text := Json.dumps 0 (JArr (map item_of small_tree)) |};
   {| status_code := 200; headers := [];
      text := Py.dq ("[{'type': 'file', 'path': 'images/1.png'}, "
                     +:+ "{'type': 'file', 'path': 'images/2.png'}]") |}].

(** ** Vocabulary of the citation matcher *)

Section Matching.
Context {scholar : Scholar}.

(** A search result with a title, or with none. *)
Definition titled (r : json) : Prop :=
  exists d t, r = JObj d /\ Dict.get_default "title" (JStr EmptyString) d
                            = JStr t.

(** The similarity of the title of a result to the title looked for. *)
Definition score_of (paper_title : string) (r : json) : QArith_base.Q :=
  match r with
  | JObj d =>
      match Dict.get_default "title" (JStr EmptyString) d with
      | JStr t => ratio (Py.lower paper_title) (Py.lower t)
      | _ => QArith_base.inject_Z 0
      end
  | _ => QArith_base.inject_Z 0
  end.

Definition exact (paper_title : string) (r : json) : bool :=
  QArith_base.Qeq_bool (score_of paper_title r) CrawlCitation.hundred.

End Matching.

(** A similarity that tells equal titles from others and nothing more,
    and a search without results. *)
Definition equal_or_not : Scholar :=
  {| ratio := fun a b => QArith_base.inject_Z
                           (if String.eqb a b then 100 else 0);
     str_of_score := fun _ => "100.0";
     get_dict := fun _ => ret [] |}.

Definition three_results : list json :=
  [JObj [("title", JStr "BRSET: a survey"); ("result_id", JStr "a1")];
   JObj [("title", JStr "A Brazilian Multilabel Ophthalmological Dataset");
         ("result_id", JStr "b2")];
   JObj [("title", JStr "a brazilian multilabel ophthalmological dataset");
         ("result_id", JStr "c3")]].

(** * Properties *)

(** ** Running computations *)

Lemma bind_returns {S A B} (m : M S A) (k : A -> M S B) w a w' :
  m w = (Returns a, w') -> bind m k w = k a w'.
Proof. intros H. unfold bind. now rewrite H. Qed.

Lemma bind_raises {S A B} (m : M S A) (k : A -> M S B) w e w' :
  m w = (Raises e, w') -> bind m k w = (Raises e, w').
Proof. intros H. unfold bind. now rewrite H. Qed.

Lemma bind_hangs {S A B} (m : M S A) (k : A -> M S B) w w' :
  m w = (Hangs, w') -> bind m k w = (Hangs, w').
Proof. intros H. unfold bind. now rewrite H. Qed.

Lemma try_returns {S A} (m : M S A) class h w a w' :
  m w = (Returns a, w') -> try_except m class h w = (Returns a, w').
Proof. intros H. unfold try_except. now rewrite H. Qed.

Lemma lift_returns {A} (m : Net A) s a w' :
  m (outside s) = (Returns a, w') ->
  lift m s = (Returns a, {| outside := w'; files := files s |}).
Proof. intros H. unfold lift. now rewrite H. Qed.

Lemma classified_readable r : classified r = true -> readable r = true.
Proof.
  unfold classified, readable. destruct r; try discriminate.
  destruct (usage_of (JObj fields)); auto.
Qed.

Lemma classified_marked r : classified r = true -> marked r = is_downstream r.
Proof.
  unfold classified, marked, is_downstream. destruct r; try discriminate.
  destruct (usage_of (JObj fields)); try discriminate.
  destruct (flag_of (JObj fields)) eqn:E; try discriminate. reflexivity.
Qed.

(** ** Dicts *)

Lemma lookup_set_eq k v d : Dict.lookup k (Dict.set k v d) = Some v.
Proof.
  induction d as [|[k' v'] d IH]; cbn.
  - now rewrite String.eqb_refl.
  - destruct (String.eqb k k') eqn:E; cbn; rewrite E; auto.
Qed.

Lemma lookup_set_ne k k' v d :
  k <> k' -> Dict.lookup k (Dict.set k' v d) = Dict.lookup k d.
Proof.
  intros Hne. induction d as [|[k0 v0] d IH]; cbn.
  - destruct (String.eqb_spec k k'); [contradiction|reflexivity].
  - destruct (String.eqb_spec k' k0) as [->|Hk]; cbn.
    + destruct (String.eqb_spec k k0); [contradiction|reflexivity].
    + destruct (String.eqb k k0); auto.
Qed.

Lemma with_report_other k hv vs d :
  k <> "has_violation" -> k <> "violations" ->
  Dict.lookup k (with_report hv vs d) = Dict.lookup k d.
Proof.
  intros H1 H2. unfold with_report.
  rewrite lookup_set_ne by assumption. now apply lookup_set_ne.
Qed.

Lemma with_citation_other info k d :
  k <> "citation" ->
  Dict.lookup k (with_citation info d) = Dict.lookup k d.
Proof.
  intros H. unfold with_citation.
  destruct (truthy (Dict.get "citation" d)); auto using lookup_set_ne.
Qed.

Lemma merged_extends info r r' :
  merged info r r' ->
  extends ["has_violation"; "violations"; "citation"] r r'.
Proof.
  intros (d & hv & vs & -> & ->). exists d. eexists. repeat split.
  intros k Hk.
  rewrite with_citation_other by (intros ->; apply Hk; cbn; tauto).
  apply with_report_other; intros ->; apply Hk; cbn; tauto.
Qed.

Lemma reported_extends r r' :
  reported r r' -> extends ["has_violation"; "violations"] r r'.
Proof.
  intros (d & hv & vs & -> & ->). exists d. eexists. repeat split.
  intros k Hk. apply with_report_other; intros ->; apply Hk; cbn; tauto.
Qed.

Section ComplianceFacts.
Context {lib : Library}.

Lemma not_downstream_readable {S} r (w : S) :
  readable r = true ->
  ComplianceGithub.not_downstream r w = (Returns (negb (marked r)), w).
Proof.
  unfold readable, marked, flag_of, usage_of, ComplianceGithub.not_downstream.
  destruct r as [| | | | |d]; try discriminate. cbn.
  destruct (Dict.get_default "downstream_usage" (JObj []) d); try discriminate.
  reflexivity.
Qed.

(** The violation check always comes back with an object, whatever the
    chat model answers, as long as it answers. *)
Lemma check_license_violation_returns r info w c cs :
  completions w = c :: cs ->
  exists v w',
    ComplianceGithub.check_license_violation_with_openai r info w
    = (Returns (JObj v), w')
    /\ completions w' = cs /\ replies w' = replies w.
Proof.
  intros Hc.
  unfold ComplianceGithub.check_license_violation_with_openai,
    ComplianceGithub.ask, try_except, bind at 1, chat_create.
  rewrite Hc. destruct c as [content| |msg]; cbn.
  2,3: eexists _, _; (split; [reflexivity|]); cbn; auto.
  destruct (String.eqb (Py.strip content) EmptyString).
  { destruct r; cbn; eexists _, _; (split; [reflexivity|]); cbn; auto. }
  unfold bind, try_except, or_raise.
  destruct (json_loads _) as [res|]; cbn.
  2:{ eexists _, _. split; [reflexivity|]. cbn. auto. }
  destruct (ComplianceGithub.well_shaped res) eqn:Hs; cbn.
  - destruct res; try discriminate. eexists _, _.
    split; [reflexivity|]. cbn. auto.
  - eexists _, _. split; [reflexivity|]. cbn. auto.
Qed.

Lemma check_license_violation_hf_returns r info w c cs :
  completions w = c :: cs ->
  exists v w',
    ComplianceHuggingface.check_license_violation_with_openai r info w
    = (Returns (JObj v), w')
    /\ completions w' = cs /\ replies w' = replies w.
Proof. apply check_license_violation_returns. Qed.

(** The loop of the code-host merge, on records whose verdicts can be
    read and with a completion for every marked record. *)
Lemma analyze_each_github records : forall idx total i acc w,
  Forall (fun r => readable r = true) records ->
  (length (List.filter marked records) <= length (completions w))%nat ->
  exists out w',
    ComplianceGithub.analyze_each records idx total (JObj i) acc w
    = (Returns (acc ++ out), w')
    /\ Forall2 (merged (JObj i)) (List.filter marked records) out.
Proof.
  induction records as [|r records IH]; intros idx total i acc w Hr Hc.
  - exists [], w. cbn. rewrite app_nil_r. split; [reflexivity|constructor].
  - inversion Hr as [|? ? Hr1 Hr2]; subst.
    cbn [ComplianceGithub.analyze_each].
    rewrite (bind_returns _ _ _ _ _ (not_downstream_readable r w Hr1)).
    cbn [List.filter] in *. destruct (marked r) eqn:Hm; cbn [negb].
    + destruct r as [| | | | |d]; try discriminate.
      cbn [length] in Hc.
      destruct (completions w) as [|c cs] eqn:Ecs; [cbn in Hc; lia|].
      cbn [py_get py_get_default]. unfold bind at 1. cbn [ret].
      unfold bind at 1. cbn [print].
      destruct (check_license_violation_returns (JObj d) (JObj i)
                  (emit (Printed ("Processing record "
                     +:+ Py.str_of_int idx +:+ "/" +:+ Py.str_of_int total
                     +:+ ": " +:+ py_str (Dict.get "name" d))) w) c cs Ecs)
        as (v & w1 & Hv & Hcs & _).
      rewrite (bind_returns _ _ _ _ _ Hv).
      cbn -[String.append Py.str_of_int].
      set (d2 := Dict.set "violations" _ (Dict.set "has_violation" _ d)).
      destruct (IH (idx + 1) total i
                  (acc ++ [JObj (with_citation (JObj i) d2)]) w1 Hr2)
        as (out & w' & Hout & HF).
      { rewrite Hcs. cbn in Hc. lia. }
      exists (JObj (with_citation (JObj i) d2) :: out), w'. split.
      * unfold with_citation, Dict.get in *. cbn [profile_citation] in *.
        destruct (truthy (Dict.get_default "citation" JNull d2));
          cbn -[String.append Py.str_of_int];
          rewrite Hout, <- app_assoc; reflexivity.
      * constructor; [|exact HF]. exists d. eexists _, _.
        split; reflexivity.
    + destruct (IH (idx + 1) total i acc w Hr2 Hc) as (out & w' & Hout & HF).
      exists out, w'. split; assumption.
Qed.

(** The loop of the hub merge. *)
Lemma analyze_each_huggingface records : forall idx total info acc w,
  Forall (fun r => readable r = true) records ->
  (length (List.filter marked records) <= length (completions w))%nat ->
  exists out w',
    ComplianceHuggingface.analyze_each records idx total info acc w
    = (Returns (acc ++ out), w')
    /\ Forall2 reported (List.filter marked records) out.
Proof.
  induction records as [|r records IH]; intros idx total info acc w Hr Hc.
  - exists [], w. cbn. rewrite app_nil_r. split; [reflexivity|constructor].
  - inversion Hr as [|? ? Hr1 Hr2]; subst.
    cbn [ComplianceHuggingface.analyze_each].
    rewrite (bind_returns _ _ _ _ _ (not_downstream_readable r w Hr1)).
    cbn [List.filter] in *. destruct (marked r) eqn:Hm; cbn [negb].
    + destruct r as [| | | | |d]; try discriminate.
      cbn [length] in Hc.
      destruct (completions w) as [|c cs] eqn:Ecs; [cbn in Hc; lia|].
      cbn [py_get py_get_default]. unfold bind at 1. cbn [ret].
      unfold bind at 1. cbn [print].
      destruct (check_license_violation_hf_returns (JObj d) info
                  (emit (Printed ("Processing record "
                     +:+ Py.str_of_int idx +:+ "/" +:+ Py.str_of_int total
                     +:+ ": " +:+ py_str (Dict.get "id" d))) w) c cs Ecs)
        as (v & w1 & Hv & Hcs & _).
      rewrite (bind_returns _ _ _ _ _ Hv).
      cbn -[String.append Py.str_of_int].
      set (d2 := Dict.set "violations" _ (Dict.set "has_violation" _ d)).
      destruct (IH (idx + 1) total info (acc ++ [JObj d2]) w1 Hr2)
        as (out & w' & Hout & HF).
      { rewrite Hcs. cbn in Hc. lia. }
      exists (JObj d2 :: out), w'. split.
      * rewrite Hout, <- app_assoc; reflexivity.
      * constructor; [|exact HF]. exists d. eexists _, _.
        split; reflexivity.
    + destruct (IH (idx + 1) total info acc w Hr2 Hc)
        as (out & w' & Hout & HF).
      exists out, w'. split; assumption.
Qed.

End ComplianceFacts.

(** ** Which files a stage touches *)

Lemma writes_within_ret {A} names (a : A) : writes_within names (ret a).
Proof. intros s n _. reflexivity. Qed.

Lemma writes_within_raise {A} names e : writes_within (A := A) names (raise e).
Proof. intros s n _. reflexivity. Qed.

Lemma writes_within_lift {A} names (m : Net A) : writes_within names (lift m).
Proof. intros s n _. unfold lift. now destruct (m (outside s)). Qed.

Lemma writes_within_read names name : writes_within names (read_file name).
Proof. intros s n _. unfold read_file. now destruct (files s !! name). Qed.

Lemma writes_within_write names name content :
  In name names -> writes_within names (write_file name content).
Proof.
  intros Hin s n Hn. cbn. apply lookup_insert_ne. intros ->. contradiction.
Qed.

Lemma writes_within_bind {A B} names (m : Sys A) (k : A -> Sys B) :
  writes_within names m -> (forall a, writes_within names (k a)) ->
  writes_within names (bind m k).
Proof.
  intros Hm Hk s n Hn. unfold bind. specialize (Hm s n Hn).
  destruct (m s) as [[a|e|] s']; cbn in *; auto.
  rewrite (Hk a s' n Hn). exact Hm.
Qed.

Lemma writes_within_try {A} names (m : Sys A) class h :
  writes_within names m -> (forall e, writes_within names (h e)) ->
  writes_within names (try_except m class h).
Proof.
  intros Hm Hh s n Hn. unfold try_except. specialize (Hm s n Hn).
  destruct (m s) as [[a|e|] s']; cbn in *; auto.
  destruct (class e); cbn; auto. rewrite (Hh e s' n Hn). exact Hm.
Qed.

Lemma writes_within_or_raise {A} names e (o : option A) :
  writes_within names (or_raise e o).
Proof. destruct o; [apply writes_within_ret | apply writes_within_raise]. Qed.

Lemma writes_within_if {A} names (b : bool) (m1 m2 : Sys A) :
  writes_within names m1 -> writes_within names m2 ->
  writes_within names (if b then m1 else m2).
Proof. now destruct b. Qed.

Create HintDb frame.
#[local] Hint Resolve writes_within_ret writes_within_raise writes_within_lift
  writes_within_read writes_within_or_raise : frame.

Ltac frame :=
  repeat first
    [ apply writes_within_bind; [|intros ?]
    | apply writes_within_try; [|intros ?]
    | apply writes_within_if
    | apply writes_within_write; cbn; tauto
    | solve [auto with frame] ].

Section Frames.
Context {lib : Library}.

Lemma writes_within_json_load names name :
  writes_within names (json_load name).
Proof. unfold json_load. frame. Qed.

Lemma writes_within_json_dump names v name indent :
  In name names -> writes_within names (json_dump v name indent).
Proof. intros H. unfold json_dump. now apply writes_within_write. Qed.

Lemma check_github_writes KEYWORD :
  writes_within ["violations_github_" +:+ KEYWORD +:+ ".json"]
    (ComplianceGithub.check_github KEYWORD).
Proof.
  unfold ComplianceGithub.check_github,
    ComplianceGithub.save_violations_to_file.
  repeat first
    [ apply writes_within_json_load
    | apply writes_within_json_dump; cbn; tauto
    | apply writes_within_bind; [|intros ?]
    | apply writes_within_if
    | solve [auto with frame] ].
Qed.

Lemma check_huggingface_writes KEYWORD :
  writes_within ["violations_huggingface_" +:+ KEYWORD +:+ ".json"]
    (ComplianceHuggingface.check_huggingface KEYWORD).
Proof.
  unfold ComplianceHuggingface.check_huggingface,
    ComplianceHuggingface.save_violations_to_file.
  repeat first
    [ apply writes_within_json_load
    | apply writes_within_json_dump; cbn; tauto
    | apply writes_within_bind; [|intros ?]
    | apply writes_within_if
    | solve [auto with frame] ].
Qed.

End Frames.

(** ** The compliance merge *)

Lemma filter_marked_classified records :
  Forall (fun r => classified r = true) records ->
  List.filter marked records = List.filter is_downstream records.
Proof.
  induction 1 as [|r records Hr _ IH]; [reflexivity|].
  cbn. rewrite IH, (classified_marked r Hr). reflexivity.
Qed.

Lemma Forall_classified_readable records :
  Forall (fun r => classified r = true) records ->
  Forall (fun r => readable r = true) records.
Proof.
  induction 1 as [|r records Hr _ IH]; constructor;
    auto using classified_readable.
Qed.

Lemma Forall2_impl' {A B} (P Q : A -> B -> Prop) l k :
  (forall a b, P a b -> Q a b) -> Forall2 P l k -> Forall2 Q l k.
Proof. intros H. induction 1; constructor; auto. Qed.

Section Merge.
Context {lib : Library}.

Lemma json_load_found name content v s :
  files s !! name = Some content -> json_loads content = Some v ->
  json_load name s = (Returns v, s).
Proof.
  intros Hf Hj. unfold json_load, bind, read_file. now rewrite Hf, Hj.
Qed.

(** The code-host compliance stage on readable artifacts and a merge that
    returns. *)
Lemma check_github_saves KEYWORD s profile info listing records out w' :
  files s !! ("extracted_dataset_info_with_license_analysis_"
              +:+ KEYWORD +:+ ".json") = Some profile ->
  json_loads profile = Some info ->
  files s !! ("final_processed_repos_" +:+ KEYWORD +:+ ".json")
  = Some listing ->
  json_loads listing = Some records ->
  ComplianceGithub.analyze_downstream_usage records info (outside s)
  = (Returns out, w') ->
  exists s',
    ComplianceGithub.check_github KEYWORD s = (Returns tt, s')
    /\ files s'
       = <["violations_github_" +:+ KEYWORD +:+ ".json"
           := json_dumps 4 (JArr out)]> (files s).
Proof.
  intros Hp Hi Hl Hr Hout. unfold ComplianceGithub.check_github.
  rewrite (bind_returns _ _ _ _ _ (json_load_found _ _ _ _ Hp Hi)).
  rewrite (bind_returns _ _ _ _ _ (json_load_found _ _ _ _ Hl Hr)).
  unfold bind at 1, lift. rewrite Hout.
  unfold ComplianceGithub.save_violations_to_file, json_dump, write_file,
    bind, lift, print.
  cbn. destruct (negb (length out =? 0)%nat); eexists; split; reflexivity.
Qed.

Lemma check_huggingface_saves KEYWORD s profile info listing records out w' :
  files s !! ("extracted_dataset_info_with_license_analysis_"
              +:+ KEYWORD +:+ ".json") = Some profile ->
  json_loads profile = Some info ->
  files s !! ("final_processed_huggingface_" +:+ KEYWORD +:+ ".json")
  = Some listing ->
  json_loads listing = Some records ->
  ComplianceHuggingface.analyze_downstream_usage records info (outside s)
  = (Returns out, w') ->
  exists s',
    ComplianceHuggingface.check_huggingface KEYWORD s = (Returns tt, s')
    /\ files s'
       = <["violations_huggingface_" +:+ KEYWORD +:+ ".json"
           := json_dumps 4 (JArr out)]> (files s).
Proof.
  intros Hp Hi Hl Hr Hout. unfold ComplianceHuggingface.check_huggingface.
  rewrite (bind_returns _ _ _ _ _ (json_load_found _ _ _ _ Hp Hi)).
  rewrite (bind_returns _ _ _ _ _ (json_load_found _ _ _ _ Hl Hr)).
  unfold bind at 1, lift. rewrite Hout.
  unfold ComplianceHuggingface.save_violations_to_file, json_dump,
    write_file, bind, lift, print.
  cbn. destruct (negb (length out =? 0)%nat); eexists; split; reflexivity.
Qed.

(** C3. Downstream filtering. On classified records, and with an answer
    of the violation check for each downstream one, the code-host and the
    hub merge return, in the original order, exactly the records whose
    verdict has [is_downstream == true], each with its report (and, for
    the code host, the citation) added and its other fields as they
    were. Run on a license profile and a classified artifact that hold
    them, the two stages return and write these records, and no others,
    as their violation artifact. Of the files, a stage touches its
    violation artifact only, so the classified artifact keeps every
    record. *)
Theorem C3_downstream_filtering (records : list json) (i : dict) (w : world) :
  Forall (fun r => classified r = true) records ->
  (length (List.filter is_downstream records) <= length (completions w))%nat ->
  (exists out w',
      ComplianceGithub.analyze_downstream_usage (JArr records) (JObj i) w
      = (Returns out, w')
      /\ Forall2 (extends ["has_violation"; "violations"; "citation"])
           (List.filter is_downstream records) out)
  /\ (exists out w',
      ComplianceHuggingface.analyze_downstream_usage (JArr records) (JObj i) w
      = (Returns out, w')
      /\ Forall2 (extends ["has_violation"; "violations"])
           (List.filter is_downstream records) out)
  /\ (forall KEYWORD s,
      files (snd (ComplianceGithub.check_github KEYWORD s))
        !! ("final_processed_repos_" +:+ KEYWORD +:+ ".json")
      = files s !! ("final_processed_repos_" +:+ KEYWORD +:+ ".json"))
  /\ (forall KEYWORD s,
      files (snd (ComplianceHuggingface.check_huggingface KEYWORD s))
        !! ("final_processed_huggingface_" +:+ KEYWORD +:+ ".json")
      = files s !! ("final_processed_huggingface_" +:+ KEYWORD +:+ ".json"))
  /\ (forall KEYWORD s profile listing,
      outside s = w ->
      files s !! ("extracted_dataset_info_with_license_analysis_"
                  +:+ KEYWORD +:+ ".json") = Some profile ->
      json_loads profile = Some (JObj i) ->
      files s !! ("final_processed_repos_" +:+ KEYWORD +:+ ".json")
      = Some listing ->
      json_loads listing = Some (JArr records) ->
      exists out s',
        ComplianceGithub.check_github KEYWORD s = (Returns tt, s')
        /\ Forall2 (extends ["has_violation"; "violations"; "citation"])
             (List.filter is_downstream records) out
        /\ files s'
           = <["violations_github_" +:+ KEYWORD +:+ ".json"
               := json_dumps 4 (JArr out)]> (files s))
  /\ (forall KEYWORD s profile listing,
      outside s = w ->
      files s !! ("extracted_dataset_info_with_license_analysis_"
                  +:+ KEYWORD +:+ ".json") = Some profile ->
      json_loads profile = Some (JObj i) ->
      files s !! ("final_processed_huggingface_" +:+ KEYWORD +:+ ".json")
      = Some listing ->
      json_loads listing = Some (JArr records) ->
      exists out s',
        ComplianceHuggingface.check_huggingface KEYWORD s = (Returns tt, s')
        /\ Forall2 (extends ["has_violation"; "violations"])
             (List.filter is_downstream records) out
        /\ files s'
           = <["violations_huggingface_" +:+ KEYWORD +:+ ".json"
               := json_dumps 4 (JArr out)]> (files s)).
Proof.
  intros Hcl Hn.
  pose proof (Forall_classified_readable _ Hcl) as Hr.
  rewrite <- (filter_marked_classified _ Hcl) in *.
  destruct (analyze_each_github records 1 (Z.of_nat (length records)) i []
              w Hr Hn) as (gout & gw & Hgout & HgF).
  destruct (analyze_each_huggingface records 1
              (Z.of_nat (length records)) (JObj i) [] w Hr Hn)
    as (hout & hw & Hhout & HhF).
  split; [|split; [|split; [|split; [|split]]]].
  6:{ intros KEYWORD s profile listing <- Hp Hi Hl Hrec.
      destruct (check_huggingface_saves KEYWORD s profile (JObj i) listing
                  (JArr records) hout hw Hp Hi Hl Hrec Hhout)
        as (s' & Hrun & Hfiles).
      exists hout, s'. split; [exact Hrun|]. split; [|exact Hfiles].
      eapply Forall2_impl'; [|exact HhF]. apply reported_extends. }
  5:{ intros KEYWORD s profile listing <- Hp Hi Hl Hrec.
      destruct (check_github_saves KEYWORD s profile (JObj i) listing
                  (JArr records) gout gw Hp Hi Hl Hrec Hgout)
        as (s' & Hrun & Hfiles).
      exists gout, s'. split; [exact Hrun|]. split; [|exact Hfiles].
      eapply Forall2_impl'; [|exact HgF]. apply merged_extends. }
  - destruct (analyze_each_github records 1 (Z.of_nat (length records)) i []
                w Hr Hn) as (out & w' & Hout & HF).
    exists out, w'. split; [exact Hout|].
    eapply Forall2_impl'; [|exact HF]. apply merged_extends.
  - destruct (analyze_each_huggingface records 1
                (Z.of_nat (length records)) (JObj i) [] w Hr Hn)
      as (out & w' & Hout & HF).
    exists out, w'. split; [exact Hout|].
    eapply Forall2_impl'; [|exact HF]. apply reported_extends.
  - intros KEYWORD s. apply check_github_writes.
    cbn. intros [H|[]]. discriminate H.
  - intros KEYWORD s. apply check_huggingface_writes.
    cbn. intros [H|[]]. discriminate H.
Qed.

End Merge.

Lemma C3_witness :
  exists out s',
    ComplianceGithub.check_github (lib := fragment) "BRSET" compliance_input
    = (Returns tt, s')
    /\ length out = 2%nat
    /\ files s' !! "violations_github_BRSET.json"
       = Some (Json.dumps 4 (JArr out))
    /\ files s' !! "final_processed_repos_BRSET.json"
       = Some (Json.dumps 4 (JArr five_records)).
Proof.
  destruct (C3_downstream_filtering (lib := fragment) five_records
              license_profile (world_with [] two_answers))
    as (_ & _ & _ & _ & H & _).
  - repeat constructor.
  - vm_compute. lia.
  - destruct (H "BRSET" compliance_input _ _ eq_refl eq_refl eq_refl eq_refl
                eq_refl) as (out & s' & Hrun & HF & Hfiles).
    exists out, s'. split; [exact Hrun|]. split.
    { apply Forall2_length in HF. rewrite <- HF. reflexivity. }
    rewrite Hfiles. split; [apply lookup_insert_eq|].
    rewrite lookup_insert_ne by discriminate. reflexivity.
Defined.

(** The violation artifact of the five sample records: the two downstream
    ones, the first with the citation of the license profile, the second
    with its own. *)
Example five_records_merged :
  fst (ComplianceGithub.analyze_downstream_usage (lib := fragment)
         (JArr five_records) (JObj license_profile)
         (world_with [] two_answers))
  = Returns
      [repo_record "brset-seg"
         [("downstream_usage", verdict true "trains on it");
          ("has_violation", JBool true);
          ("violations",
           JArr [JObj [("rule", JStr "attribution");
                       ("detail", JStr "no credit")]]);
          ("citation", JStr "Nakayama et al. 2023")];
       repo_record "retina"
         [("citation", JStr "Doe 2024");
          ("downstream_usage", verdict true "evaluates on it");
          ("has_violation", JBool false);
          ("violations", JArr [])]].
Proof. vm_compute. reflexivity. Qed.

Lemma citation_merged info d hv vs :
  Dict.get "citation" (with_citation info (with_report hv vs d))
  = if truthy (Dict.get "citation" d) then Dict.get "citation" d
    else profile_citation info.
Proof.
  assert (H : Dict.get "citation" (with_report hv vs d)
              = Dict.get "citation" d).
  { unfold Dict.get, Dict.get_default.
    now rewrite with_report_other by discriminate. }
  unfold with_citation. rewrite H.
  destruct (truthy (Dict.get "citation" d)); [exact H|].
  unfold Dict.get, Dict.get_default. now rewrite lookup_set_eq.
Qed.

Lemma citation_reported d hv vs :
  Dict.lookup "citation" (with_report hv vs d) = Dict.lookup "citation" d.
Proof. now apply with_report_other. Qed.

(** C7, as stated, fails on the hub merge: a downstream record without a
    citation leaves it without one, while the license profile has one. *)
Lemma C7_hub_merge_adds_no_citation :
  let r := repo_record "brset-seg"
             [("downstream_usage", verdict true "trains on it")] in
  exists r',
    fst (ComplianceHuggingface.analyze_downstream_usage (lib := fragment)
           (JArr [r]) (JObj license_profile) (world_with [] two_answers))
    = Returns [r']
    /\ citation_of r = JNull
    /\ profile_citation (JObj license_profile) = JStr "Nakayama et al. 2023"
    /\ citation_of r' <> profile_citation (JObj license_profile).
Proof.
  cbv zeta. eexists. split; [vm_compute; reflexivity|].
  repeat split; try reflexivity. vm_compute. discriminate.
Qed.

Section Citation.
Context {lib : Library}.

(** C7, amended. Citation merge. For every record in the output of the
    code-host compliance merge: a record that came without a citation, or
    with an empty one, has the citation of the license profile (the empty
    string when the profile has none), and a record that came with a
    citation keeps it. The hub merge leaves the citation field of every
    record as it came. *)
Theorem C7_citation_merge (records : list json) (i : dict) (w : world) :
  Forall (fun r => readable r = true) records ->
  (length (List.filter marked records) <= length (completions w))%nat ->
  (exists out w',
      ComplianceGithub.analyze_downstream_usage (JArr records) (JObj i) w
      = (Returns out, w')
      /\ Forall2 (fun r r' =>
                    citation_of r'
                    = if truthy (citation_of r) then citation_of r
                      else Dict.get_default "citation" (JStr EmptyString) i)
           (List.filter marked records) out)
  /\ (exists out w',
      ComplianceHuggingface.analyze_downstream_usage (JArr records) (JObj i) w
      = (Returns out, w')
      /\ Forall2 (fun r r' => citation_of r' = citation_of r)
           (List.filter marked records) out).
Proof.
  intros Hr Hn. split.
  - destruct (analyze_each_github records 1 (Z.of_nat (length records)) i []
                w Hr Hn) as (out & w' & Hout & HF).
    exists out, w'. split; [exact Hout|].
    eapply Forall2_impl'; [|exact HF].
    intros r r' (d & hv & vs & -> & ->). cbn [citation_of].
    apply citation_merged.
  - destruct (analyze_each_huggingface records 1
                (Z.of_nat (length records)) (JObj i) [] w Hr Hn)
      as (out & w' & Hout & HF).
    exists out, w'. split; [exact Hout|].
    eapply Forall2_impl'; [|exact HF].
    intros r r' (d & hv & vs & -> & ->). cbn [citation_of].
    unfold Dict.get, Dict.get_default. now rewrite citation_reported.
Qed.

Lemma lacks_verdict_readable r : lacks_verdict r -> readable r = true.
Proof.
  intros (d & -> & H). unfold readable, usage_of, Dict.get_default.
  destruct H as [->|[->|(u & -> & _)]]; reflexivity.
Qed.

Lemma lacks_verdict_marked r : lacks_verdict r -> marked r = false.
Proof.
  intros (d & -> & H).
  unfold marked, flag_of, usage_of, Dict.get_default.
  destruct H as [->|[->|(u & -> & ->)]]; reflexivity.
Qed.

(** C10. A record without a verdict is treated as not downstream. A
    classified record whose [downstream_usage] is missing, is the empty
    object, or has no [is_downstream] is passed over by the loop of the
    code-host and of the hub merge without an error and without any
    effect, so it is not in the violation artifact; the empty object is
    what the classification stage stores when the answer of the chat model
    does not parse. *)
Theorem C10_missing_verdict_is_not_downstream (r : json) :
  lacks_verdict r ->
  (forall rest idx total info acc w,
      ComplianceGithub.analyze_each (r :: rest) idx total info acc w
      = ComplianceGithub.analyze_each rest (idx + 1) total info acc w)
  /\ (forall rest idx total info acc w,
      ComplianceHuggingface.analyze_each (r :: rest) idx total info acc w
      = ComplianceHuggingface.analyze_each rest (idx + 1) total info acc w)
  /\ (forall info w,
      ComplianceGithub.analyze_downstream_usage (JArr [r]) info w
      = (Returns [], w))
  /\ (forall info w,
      ComplianceHuggingface.analyze_downstream_usage (JArr [r]) info w
      = (Returns [], w))
  /\ (forall text w d,
      Re.search Re.object_block_at text = None ->
      json_loads text = None ->
      exists w' r',
        FineFilterGithub.extract_json_from_text text w
        = (Returns (JObj []), w')
        /\ FineFilterGithub.py_setitem "downstream_usage" (JObj [])
             (JObj d) w'
           = (Returns r', w')
        /\ lacks_verdict r').
Proof.
  intros Hl.
  pose proof (lacks_verdict_readable r Hl) as Hr.
  pose proof (lacks_verdict_marked r Hl) as Hm.
  assert (Hg : forall rest idx total info acc w,
             ComplianceGithub.analyze_each (r :: rest) idx total info acc w
             = ComplianceGithub.analyze_each rest (idx + 1) total info acc w).
  { intros. cbn [ComplianceGithub.analyze_each].
    rewrite (bind_returns _ _ _ _ _ (not_downstream_readable r w Hr)).
    now rewrite Hm. }
  assert (Hh : forall rest idx total info acc w,
             ComplianceHuggingface.analyze_each (r :: rest) idx total info
               acc w
             = ComplianceHuggingface.analyze_each rest (idx + 1) total info
                 acc w).
  { intros. cbn [ComplianceHuggingface.analyze_each].
    rewrite (bind_returns _ _ _ _ _ (not_downstream_readable r w Hr)).
    now rewrite Hm. }
  repeat split; auto.
  - intros info w. unfold ComplianceGithub.analyze_downstream_usage.
    cbn [py_len py_iter]. unfold bind at 1. cbn [ret].
    unfold bind at 1. cbn [ret]. now rewrite Hg.
  - intros info w. unfold ComplianceHuggingface.analyze_downstream_usage.
    cbn [py_len py_iter]. unfold bind at 1. cbn [ret].
    unfold bind at 1. cbn [ret]. now rewrite Hh.
  - intros text w d Hs Hj.
    unfold FineFilterGithub.extract_json_from_text. rewrite Hs, Hj.
    eexists _, _. split; [reflexivity|]. split; [reflexivity|].
    eexists. split; [reflexivity|]. right. left. apply lookup_set_eq.
Qed.

End Citation.

Lemma C7_witness :
  exists out w',
    ComplianceGithub.analyze_downstream_usage (lib := fragment)
      (JArr five_records) (JObj license_profile) (world_with [] two_answers)
    = (Returns out, w')
    /\ map citation_of out
       = [JStr "Nakayama et al. 2023"; JStr "Doe 2024"].
Proof.
  destruct (C7_citation_merge (lib := fragment) five_records
              license_profile (world_with [] two_answers))
    as [(out & w' & Hrun & HF) _].
  - repeat constructor.
  - vm_compute. lia.
  - exists out, w'. split; [exact Hrun|].
    vm_compute in Hrun. injection Hrun as <- _. reflexivity.
Defined.

Lemma C10_witness :
  lacks_verdict (repo_record "misc" [("downstream_usage", JObj [])])
  /\ ComplianceGithub.analyze_downstream_usage (lib := fragment)
       (JArr [repo_record "misc" [("downstream_usage", JObj [])]])
       (JObj license_profile) (world_with [] two_answers)
     = (Returns [], world_with [] two_answers).
Proof.
  assert (H : lacks_verdict (repo_record "misc" [("downstream_usage", JObj [])])).
  { eexists. split; [reflexivity|]. right. left. reflexivity. }
  split; [exact H|].
  apply (C10_missing_verdict_is_not_downstream (lib := fragment) _ H).
Defined.

(** ** The classification gate *)

Lemma app_cons c s t : String c s +:+ t = String c (s +:+ t).
Proof. reflexivity. Qed.

Lemma app_nil t : EmptyString +:+ t = t.
Proof. reflexivity. Qed.

Lemma app_assoc_string (a b c : string) : (a +:+ b) +:+ c = a +:+ b +:+ c.
Proof.
  induction a as [|x a IH]; [reflexivity|]. rewrite !app_cons. now rewrite IH.
Qed.

Lemma length_app_string a b :
  String.length (a +:+ b) = (String.length a + String.length b)%nat.
Proof.
  induction a as [|c a IH]; [reflexivity|].
  rewrite app_cons. cbn. now rewrite IH.
Qed.

Lemma strip_prefix_Some p : forall s r,
  Py.strip_prefix p s = Some r -> s = p +:+ r.
Proof.
  induction p as [|a p IH]; intros s r H; cbn in *.
  - now inversion H.
  - destruct s as [|b s]; [discriminate|].
    destruct (Ascii.eqb a b) eqn:E; [|discriminate].
    apply Ascii.eqb_eq in E. subst b. rewrite app_cons. f_equal.
    now apply IH.
Qed.

Lemma strip_prefix_app p r : Py.strip_prefix p (p +:+ r) = Some r.
Proof.
  induction p as [|a p IH]; [reflexivity|].
  rewrite app_cons. cbn. now rewrite Ascii.eqb_refl.
Qed.

Lemma app_inv_head_string a b c : a +:+ b = a +:+ c -> b = c.
Proof.
  induction a as [|x a IH]; [now rewrite !app_nil|].
  rewrite !app_cons. intros H. inversion H. auto.
Qed.

Lemma app_eq_length a : forall b c d,
  a +:+ b = c +:+ d -> String.length a = String.length c -> a = c /\ b = d.
Proof.
  induction a as [|x a IH]; intros b [|y c] d H Hl; try discriminate.
  - rewrite !app_nil in H. auto.
  - rewrite !app_cons in H. inversion H. subst y.
    destruct (IH b c d) as [-> ->]; auto.
Qed.

(** *** White space *)

Lemma whitespace_leads c t :
  In c Py.whitespace -> Py.leading_space (c +:+ t) = Some c.
Proof.
  intros H. cbv in H.
  repeat (destruct H as [<-|H]; [vm_compute; reflexivity|]).
  destruct H.
Qed.

Lemma whitespace_nonempty c :
  In c Py.whitespace -> exists a c', c = String a c'.
Proof.
  intros H. cbv in H.
  repeat (destruct H as [<-|H]; [eexists _, _; reflexivity|]).
  destruct H.
Qed.

Lemma leading_space_In s c :
  Py.leading_space s = Some c ->
  In c Py.whitespace /\ exists rest, s = c +:+ rest.
Proof.
  unfold Py.leading_space. intros H. apply List.find_some in H as [Hin Hs].
  split; [exact Hin|]. unfold Py.startswith in Hs.
  destruct (Py.strip_prefix c s) as [rest|] eqn:E; [|discriminate].
  apply strip_prefix_Some in E. eauto.
Qed.

Lemma leading_space_empty : Py.leading_space EmptyString = None.
Proof. reflexivity. Qed.

Lemma lstrip_upto_enough n : forall m s,
  (String.length s <= n)%nat -> (String.length s <= m)%nat ->
  Py.lstrip_upto n s = Py.lstrip_upto m s.
Proof.
  induction n as [|n IH]; intros m s Hn Hm.
  - destruct s; [|cbn in Hn; lia]. destruct m; reflexivity.
  - destruct m as [|m].
    { destruct s; [|cbn in Hm; lia]. reflexivity. }
    cbn [Py.lstrip_upto].
    destruct (Py.leading_space s) as [c|] eqn:E; [|reflexivity].
    destruct (leading_space_In _ _ E) as (Hin & rest & ->).
    rewrite strip_prefix_app.
    destruct (whitespace_nonempty c Hin) as (a & c' & ->).
    rewrite length_app_string in Hn, Hm. cbn [String.length] in Hn, Hm.
    apply IH; lia.
Qed.

Lemma lstrip_whitespace c t :
  In c Py.whitespace -> Py.lstrip (c +:+ t) = Py.lstrip t.
Proof.
  intros H. unfold Py.lstrip.
  destruct (whitespace_nonempty c H) as (a & c' & Hc).
  rewrite length_app_string. rewrite Hc at 1. cbn [String.length Nat.add].
  cbn [Py.lstrip_upto]. rewrite whitespace_leads, strip_prefix_app by exact H.
  apply lstrip_upto_enough; lia.
Qed.

Lemma lstrip_no_space s : Py.leading_space s = None -> Py.lstrip s = s.
Proof.
  unfold Py.lstrip. intros H.
  destruct (String.length s); cbn [Py.lstrip_upto]; [reflexivity|].
  now rewrite H.
Qed.

Lemma lstrip_all_space ws t :
  all_space ws -> Py.lstrip (ws +:+ t) = Py.lstrip t.
Proof.
  induction 1 as [|c ws Hc _ IH]; [reflexivity|].
  rewrite app_assoc_string, lstrip_whitespace; auto.
Qed.

Lemma lstrip_spec s :
  exists ws,
    all_space ws /\ s = ws +:+ Py.lstrip s
    /\ Py.leading_space (Py.lstrip s) = None.
Proof.
  unfold Py.lstrip. generalize (Nat.le_refl (String.length s)).
  generalize (String.length s) at 2 3 4 as n. intros n; revert s.
  induction n as [|n IH]; intros s Hn.
  - destruct s; [|cbn in Hn; lia]. exists EmptyString.
    split; [constructor|]. split; reflexivity.
  - cbn [Py.lstrip_upto].
    destruct (Py.leading_space s) as [c|] eqn:E.
    + destruct (leading_space_In _ _ E) as (Hin & rest & ->).
      rewrite strip_prefix_app.
      destruct (whitespace_nonempty c Hin) as (a & c' & Hc).
      destruct (IH rest) as (ws & Hws & Hr & Hl).
      { rewrite length_app_string, Hc in Hn. cbn [String.length] in Hn. lia. }
      exists (c +:+ ws). split; [now constructor|]. split; [|exact Hl].
      rewrite app_assoc_string. now rewrite <- Hr.
    + exists EmptyString. split; [constructor|]. split; [reflexivity|exact E].
Qed.

(** *** The closing fence *)

Lemma closes_iff s :
  Re.closes s = true
  <-> exists ws t, all_space ws /\ s = ws +:+ Re.fence +:+ t.
Proof.
  split.
  - intros H. destruct (lstrip_spec s) as (ws & Hws & Hs & _).
    unfold Re.closes, Py.startswith in H.
    destruct (Py.strip_prefix Re.fence (Py.lstrip s)) as [t|] eqn:E;
      [|discriminate].
    apply strip_prefix_Some in E. exists ws, t. split; [exact Hws|].
    now rewrite <- E.
  - intros (ws & t & Hws & ->). unfold Re.closes.
    rewrite lstrip_all_space by exact Hws.
    rewrite lstrip_no_space by reflexivity. reflexivity.
Qed.

(** *** The body of the block *)

Lemma lazy_brace_sound s : forall g,
  Re.lazy_brace s = Some g ->
  exists body rest,
    g = body +:+ "}" /\ s = body +:+ "}" +:+ rest
    /\ Re.closes rest = true
    /\ forall body' rest',
         s = body' +:+ "}" +:+ rest' -> Re.closes rest' = true ->
         (String.length body <= String.length body')%nat.
Proof.
  induction s as [|c s IH]; intros g H; [discriminate|].
  cbn [Re.lazy_brace] in H.
  destruct (Ascii.eqb c "}" && Re.closes s) eqn:E.
  - inversion H; subst g. apply andb_prop in E as [Ec Es].
    apply Ascii.eqb_eq in Ec. subst c. exists EmptyString, s.
    repeat split; auto. intros. cbn. lia.
  - destruct (Re.lazy_brace s) as [g'|] eqn:El; [|discriminate].
    cbn in H. inversion H; subst g.
    destruct (IH g' eq_refl) as (body & rest & -> & -> & Hc & Hmin).
    exists (String c body), rest. repeat split; auto.
    intros body' rest' Heq Hc'. destruct body' as [|c' body'].
    + rewrite ?app_cons, ?app_nil in *. inversion Heq; subst.
      rewrite Ascii.eqb_refl, Hc' in E. discriminate.
    + rewrite app_cons in Heq. inversion Heq; subst.
      cbn [String.length]. apply le_n_S. now apply (Hmin body' rest').
Qed.

Lemma lazy_brace_complete s :
  Re.lazy_brace s = None ->
  forall body rest,
    s = body +:+ "}" +:+ rest -> Re.closes rest = true -> False.
Proof.
  induction s as [|c s IH]; intros H body rest Heq Hc.
  - destruct body; rewrite ?app_cons, ?app_nil in Heq; discriminate.
  - cbn [Re.lazy_brace] in H.
    destruct (Ascii.eqb c "}" && Re.closes s) eqn:E; [discriminate|].
    destruct (Re.lazy_brace s) eqn:El; [discriminate|].
    destruct body as [|c' body].
    + rewrite ?app_cons, ?app_nil in *. inversion Heq; subst.
      rewrite Ascii.eqb_refl, Hc in E. discriminate.
    + rewrite app_cons in Heq. inversion Heq; subst.
      now apply (IH eq_refl body rest).
Qed.

(** *** The block behind the opening fence *)

Lemma lstrip_brace t : Py.lstrip (String "{" t) = String "{" t.
Proof. apply lstrip_no_space. reflexivity. Qed.

Lemma braced_app body rest :
  braced body +:+ rest = String "{" (body +:+ "}" +:+ rest).
Proof. unfold braced. now rewrite app_cons, app_assoc_string. Qed.

Lemma object_block_at_sound s g :
  Re.object_block_at s = Some g ->
  exists ws1 body rest,
    all_space ws1 /\ g = braced body
    /\ s = Re.json_fence +:+ ws1 +:+ braced body +:+ rest
    /\ Re.closes rest = true
    /\ forall ws1' body' rest',
         all_space ws1' ->
         s = Re.json_fence +:+ ws1' +:+ braced body' +:+ rest' ->
         Re.closes rest' = true ->
         (String.length body <= String.length body')%nat.
Proof.
  unfold Re.object_block_at.
  destruct (Py.strip_prefix Re.json_fence s) as [r|] eqn:E; [|discriminate].
  apply strip_prefix_Some in E. subst s.
  destruct (lstrip_spec r) as (ws1 & Hws & Hr & _).
  destruct (Py.lstrip r) as [|c r'] eqn:El; [discriminate|].
  destruct (Ascii.ascii_dec c "{") as [->|Hc].
  2:{ destruct c as [[] [] [] [] [] [] [] []]; try discriminate.
      now contradiction Hc. }
  intros H. destruct (Re.lazy_brace r') as [g'|] eqn:Eb; [|discriminate].
  cbn in H. inversion H; subst g.
  destruct (lazy_brace_sound _ _ Eb) as (body & rest & -> & -> & Hc & Hmin).
  exists ws1, body, rest. split; [exact Hws|]. split; [reflexivity|].
  split; [now rewrite braced_app, <- Hr|]. split; [exact Hc|].
  intros ws1' body' rest' Hws' Heq Hc'.
  apply app_inv_head_string in Heq.
  assert (Hl : Py.lstrip r = String "{" (body' +:+ "}" +:+ rest')).
  { rewrite Heq, lstrip_all_space by exact Hws'.
    rewrite braced_app. apply lstrip_brace. }
  rewrite El in Hl. inversion Hl as [Hb]. now apply (Hmin body' rest').
Qed.

Lemma object_block_at_complete s :
  Re.object_block_at s = None ->
  forall ws1 body rest,
    all_space ws1 ->
    s = Re.json_fence +:+ ws1 +:+ braced body +:+ rest ->
    Re.closes rest = true -> False.
Proof.
  intros H ws1 body rest Hws -> Hc. unfold Re.object_block_at in H.
  rewrite strip_prefix_app, lstrip_all_space in H by exact Hws.
  rewrite braced_app, lstrip_brace in H.
  destruct (Re.lazy_brace (body +:+ "}" +:+ rest)) eqn:E; [discriminate|].
  now apply (lazy_brace_complete _ E body rest).
Qed.

(** *** The leftmost match *)

Lemma object_match_head text body :
  object_match text EmptyString body
  <-> exists ws1 rest,
        all_space ws1
        /\ text = Re.json_fence +:+ ws1 +:+ braced body +:+ rest
        /\ Re.closes rest = true.
Proof.
  unfold object_match, fenced. split.
  - intros (ws1 & ws2 & after & H1 & H2 & ->).
    exists ws1, (ws2 +:+ Re.fence +:+ after). split; [exact H1|].
    split; [reflexivity|]. apply closes_iff. eauto.
  - intros (ws1 & rest & H1 & -> & Hc).
    apply closes_iff in Hc as (ws2 & after & H2 & ->).
    exists ws1, ws2, after. auto.
Qed.

Lemma object_match_tail c text c' before body :
  object_match (String c text) (String c' before) body
  <-> c = c' /\ object_match text before body.
Proof.
  unfold object_match, fenced. split.
  - intros (ws1 & ws2 & after & H1 & H2 & E). rewrite app_cons in E.
    inversion E; subst. split; [reflexivity|]. eauto 6.
  - intros (-> & ws1 & ws2 & after & H1 & H2 & ->).
    exists ws1, ws2, after. rewrite app_cons. auto.
Qed.

Lemma object_match_nonempty before body :
  ~ object_match EmptyString before body.
Proof.
  intros (ws1 & ws2 & after & _ & _ & E). unfold fenced in E.
  destruct before; rewrite ?app_cons, ?app_nil in E; discriminate.
Qed.

Lemma search_sound text : forall g,
  Re.search Re.object_block_at text = Some g ->
  exists before body, first_object_match text before body /\ g = braced body.
Proof.
  induction text as [|c text IH]; intros g H; [discriminate|].
  cbn [Re.search] in H.
  destruct (Re.object_block_at (String c text)) as [g0|] eqn:E.
  - inversion H; subst g0.
    destruct (object_block_at_sound _ _ E)
      as (ws1 & body & rest & Hws & -> & Hs & Hc & Hmin).
    exists EmptyString, body. split; [|reflexivity]. split.
    { apply object_match_head. eauto. }
    intros before' body' Hm. destruct before' as [|c' before'].
    + right. split; [reflexivity|].
      apply object_match_head in Hm as (ws1' & rest' & H1 & H2 & H3).
      now apply (Hmin ws1' body' rest').
    + left. cbn. lia.
  - destruct (IH g H) as (before & body & [Hm Hmin] & ->).
    exists (String c before), body. split; [|reflexivity]. split.
    { now apply object_match_tail. }
    intros before' body' Hm'. destruct before' as [|c' before'].
    + exfalso.
      apply object_match_head in Hm' as (ws1' & rest' & H1 & H2 & H3).
      now apply (object_block_at_complete _ E ws1' body' rest').
    + apply object_match_tail in Hm' as [_ Hm'].
      destruct (Hmin _ _ Hm') as [Hl|[Hl Hb]]; cbn [String.length];
        [left|right]; lia.
Qed.

Lemma search_complete text :
  Re.search Re.object_block_at text = None ->
  forall before body, ~ object_match text before body.
Proof.
  induction text as [|c text IH]; intros H before body Hm.
  - now apply (object_match_nonempty before body).
  - cbn [Re.search] in H.
    destruct (Re.object_block_at (String c text)) eqn:E; [discriminate|].
    destruct before as [|c' before].
    + apply object_match_head in Hm as (ws1 & rest & H1 & H2 & H3).
      now apply (object_block_at_complete _ E ws1 body rest).
    + apply object_match_tail in Hm as [_ Hm]. now apply (IH H before body).
Qed.

Lemma first_object_match_unique text b1 y1 b2 y2 :
  first_object_match text b1 y1 -> first_object_match text b2 y2 ->
  b1 = b2 /\ y1 = y2.
Proof.
  intros [M1 N1] [M2 N2].
  pose proof (N1 _ _ M2) as L1. pose proof (N2 _ _ M1) as L2.
  assert (Hb : String.length b1 = String.length b2) by lia.
  assert (Hy : String.length y1 = String.length y2) by lia.
  destruct M1 as (w1 & v1 & a1 & Hw1 & Hv1 & E1).
  destruct M2 as (w2 & v2 & a2 & Hw2 & Hv2 & E2).
  unfold fenced in E1, E2. rewrite E1 in E2.
  apply app_eq_length in E2 as [-> E2]; [|exact Hb]. split; [reflexivity|].
  apply app_inv_head_string in E2.
  apply (f_equal Py.lstrip) in E2.
  rewrite (lstrip_all_space w1), (lstrip_all_space w2) in E2 by assumption.
  rewrite !braced_app, !lstrip_brace in E2.
  inversion E2 as [E]. now apply app_eq_length in E as [-> _].
Qed.

(** C2, as stated, fails twice. An answer that is no JSON at all gives the
    empty object, which has neither [is_downstream] nor [reason]; and an
    answer that is JSON as a whole, but holds a fenced block that is not,
    gives the empty object too and not the parse of the whole. *)
Lemma C2_parse_failure_yields_empty_object :
  let prose := "I think this repository uses the dataset." in
  let nested := Py.dq "{'note': '```json {oops} ```'}" in
  let w := world_with [] [] in
  (Json.loads prose = None
   /\ fst (FineFilterGithub.extract_json_from_text (lib := fragment) prose w)
      = Returns (JObj [])
   /\ Dict.lookup "is_downstream" [] = None
   /\ Dict.lookup "reason" [] = None)
  /\ (Json.loads nested = Some (JObj [("note", JStr "```json {oops} ```")])
      /\ fst (FineFilterGithub.extract_json_from_text (lib := fragment)
                nested w)
         = Returns (JObj [])).
Proof. cbv zeta. repeat split; vm_compute; reflexivity. Qed.

Section Gate.
Context {lib : Library}.

Lemma extract_json_from_text_returns text w :
  exists v w',
    FineFilterGithub.extract_json_from_text text w = (Returns v, w')
    /\ replies w' = replies w /\ completions w' = completions w.
Proof.
  unfold FineFilterGithub.extract_json_from_text.
  destruct (Re.search Re.object_block_at text) as [g|].
  - unfold try_except, or_raise. destruct (json_loads g); cbn;
      eexists _, _; (split; [reflexivity|]); cbn; auto.
  - unfold try_except, or_raise. destruct (json_loads text); cbn;
      eexists _, _; (split; [reflexivity|]); cbn; auto.
Qed.

(** C2, amended. Safe-default parsing. For every text the parser of the
    classification gate returns, and what it returns is settled by the
    pattern of the code. Either the pattern matches: then, for the
    leftmost match and the shortest body there, the parser returns the
    parse of the object between the fences when it parses, and the empty
    object when it does not. Or the pattern matches nowhere: then the
    parser returns the parse of the whole text when it parses, and the
    empty object when it does not. The error is printed and not
    recorded. There is one such match at most. And once its prompt is
    built, the gate returns what the parser makes of the stripped answer
    when the chat model answers with a text; the verdict
    [is_downstream=false] with the error in [reason] is what it returns
    when the call fails and when the answer has no content. *)
Theorem C2_safe_default_parsing (text : string) (w : world) :
  ((exists before body,
       first_object_match text before body
       /\ FineFilterGithub.extract_json_from_text text w
          = match json_loads (braced body) with
            | Some v => (Returns v, w)
            | None =>
                (Returns (JObj []),
                 emit (Printed "Error parsing JSON from code block") w)
            end)
   \/ ((forall before body, ~ object_match text before body)
       /\ FineFilterGithub.extract_json_from_text text w
          = match json_loads text with
            | Some v => (Returns v, w)
            | None =>
                (Returns (JObj []),
                 emit (Printed "Error parsing JSON from full text") w)
            end))
  /\ (forall b1 y1 b2 y2,
      first_object_match text b1 y1 -> first_object_match text b2 y2 ->
      b1 = b2 /\ y1 = y2)
  /\ (forall repo_info dataset_info key prompt w1 c rest,
      FineFilterGithub.build_prompt repo_info dataset_info w
      = (Returns prompt, w1) ->
      completions w1 = c :: rest ->
      let w2 := emit (Prompted "gpt-4o" prompt) (set_completions rest w1) in
      FineFilterGithub.check_downstream_usage repo_info dataset_info key w
      = match c with
        | Completion content =>
            FineFilterGithub.extract_json_from_text (Py.strip content) w2
        | NoContent =>
            (Returns
               (JObj [("is_downstream", JBool false);
                      ("reason",
                       JStr ("Error calling OpenAI API: "
                             +:+ "'NoneType' object has no attribute "
                             +:+ "'strip'"))]), w2)
        | ChatFails msg =>
            (Returns
               (JObj [("is_downstream", JBool false);
                      ("reason",
                       JStr ("Error calling OpenAI API: " +:+ msg))]), w2)
        end).
Proof.
  split; [|split].
  - unfold FineFilterGithub.extract_json_from_text.
    destruct (Re.search Re.object_block_at text) as [g|] eqn:E.
    + left. destruct (search_sound _ _ E) as (before & body & Hm & ->).
      exists before, body. split; [exact Hm|].
      now destruct (json_loads (braced body)).
    + right. split; [exact (search_complete _ E)|].
      now destruct (json_loads text).
  - apply first_object_match_unique.
  - intros repo_info dataset_info key prompt w1 c rest Hp Hc. cbv zeta.
    unfold FineFilterGithub.check_downstream_usage.
    rewrite (bind_returns _ _ _ _ _ Hp).
    unfold try_except, bind at 1, chat_create. rewrite Hc.
    destruct c as [content| |msg]; [|reflexivity|reflexivity].
    unfold bind at 1. cbn [py_strip ret].
    destruct (extract_json_from_text_returns (Py.strip content)
                (emit (Prompted "gpt-4o" prompt) (set_completions rest w1)))
      as (v & w' & H & _).
    rewrite (bind_returns _ _ _ _ _ H). now rewrite H.
Qed.

End Gate.

Lemma C2_witness :
  fst (FineFilterGithub.check_downstream_usage (lib := fragment)
         (repo_record "brset-seg" []) sample_dataset_info "sk-xxx"
         (world_with [] [NoContent]))
  = Returns
      (JObj [("is_downstream", JBool false);
             ("reason",
              JStr ("Error calling OpenAI API: "
                    +:+ "'NoneType' object has no attribute 'strip'"))]).
Proof.
  pose proof (proj2 (proj2 (C2_safe_default_parsing (lib := fragment)
                              EmptyString (world_with [] [NoContent])))
                (repo_record "brset-seg" []) sample_dataset_info "sk-xxx"
                _ _ NoContent [] eq_refl eq_refl) as H.
  cbv zeta in H. rewrite H. reflexivity.
Defined.

(** White space is what [str.isspace] holds of, wide spaces included. *)
Example wide_spaces_are_white_space :
  fst (FineFilterGithub.extract_json_from_text (lib := fragment)
         ("Verdict: ```json" +:+ Py.utf8 0x3000
          +:+ Py.dq "{'is_downstream': true}" +:+ Py.utf8 0xA0 +:+ "```")
         (world_with [] []))
  = Returns (JObj [("is_downstream", JBool true)]).
Proof. vm_compute. reflexivity. Qed.

(** ** The source adapters *)

Lemma fatal_cases r :
  fatal r = true ->
  (status_code r =? 200) = false /\ (status_code r =? 429) = false
  /\ (status_code r =? 503) = false /\ CrawlGithub.rate_limited r = false.
Proof.
  unfold fatal, retryable, is_2xx. intros H.
  apply andb_prop in H as [H1 H2]. apply negb_true_iff in H1, H2.
  apply orb_false_elim in H2 as [H2 H3]. apply orb_false_elim in H2 as [H2 H4].
  repeat split; auto.
  destruct (Z.eqb_spec (status_code r) 200) as [E|]; [|reflexivity].
  rewrite E in H1. discriminate.
Qed.

Section Adapters.
Context {lib : Library}.

(** C6. Fatal-status short-circuit. When the next reply is neither a
    success nor of a retryable class, each of the three searches makes
    that one request, prints the status and the body, sleeps not at all,
    asks nothing again and returns: the code-host search and the
    competition-catalog search what they have gathered so far, the hub
    search the empty list. *)
Theorem C6_fatal_status_returns_at_once (r : response)
  (rest : list http_outcome) (w : world) :
  replies w = Reply r :: rest ->
  fatal r = true ->
  (forall pages page keyword start_date end_date per_page all_repos,
      CrawlGithub.search_pages (S pages) page keyword start_date end_date
        per_page all_repos w
      = (Returns all_repos,
         emit (Printed ("Error " +:+ Py.str_of_int (status_code r) +:+ ": "
                        +:+ text r))
           (emit (Requested CrawlGithub.GITHUB_SEARCH_URL
                    (CrawlGithub.search_params keyword start_date end_date
                       per_page page))
              (set_replies rest w))))
  /\ (forall left attempt keyword max_retries,
      CrawlHuggingface.attempts (S left) attempt keyword max_retries w
      = (Returns (JArr []),
         emit (Printed ("[FAIL] Could not fetch datasets for keyword '"
                        +:+ keyword +:+ "' after "
                        +:+ Py.str_of_int (Z.of_nat max_retries)
                        +:+ " attempts."))
           (emit (Printed ("[ERROR] Failed with status "
                           +:+ Py.str_of_int (status_code r) +:+ ": "
                           +:+ text r))
              (emit (Requested CrawlHuggingface.HUGGINGFACE_DATASETS_URL
                       [("search", keyword)])
                 (set_replies rest w)))))
  /\ (forall fuel keyword per_page max_pages page attempt all_datasets,
      CrawlKaggle.crawl (S fuel) keyword per_page max_pages page attempt
        all_datasets w
      = (Returns all_datasets,
         emit (Printed ("[ERROR] Status "
                        +:+ Py.str_of_int (status_code r) +:+ ": "
                        +:+ text r))
           (emit (Requested CrawlKaggle.KAGGLE_DATASETS_URL
                    [("search", keyword); ("page", Py.str_of_int page);
                     ("pageSize", Py.str_of_int per_page)])
              (set_replies rest w)))).
Proof.
  intros Hw Hf. destruct (fatal_cases r Hf) as (H200 & H429 & H503 & Hrl).
  repeat split.
  - intros. cbn [CrawlGithub.search_pages].
    unfold bind at 1, replies_left. rewrite Hw. cbn [length].
    cbn [CrawlGithub.request_page]. unfold bind at 1. unfold bind at 1.
    unfold requests_get. rewrite Hw, Hrl, H200. reflexivity.
  - intros. cbn [CrawlHuggingface.attempts].
    unfold bind at 1, requests_get. rewrite Hw, H200, H429. reflexivity.
  - intros. cbn [CrawlKaggle.crawl]. unfold bind at 1, try_except.
    unfold CrawlKaggle.try_page, bind at 1, requests_get.
    rewrite Hw, H200, H429, H503. reflexivity.
Qed.

End Adapters.

Lemma C6_witness :
  fatal not_found = true
  /\ CrawlHuggingface.search_datasets_by_keyword (lib := fragment) "BRSET"
       (Some "hf_xxx") 5 (world_with [Reply not_found] [])
     = (Returns (JArr []),
        {| replies := []; completions := []; clock := 0;
           last_request_time := 0;
           trace :=
             [Requested "https://huggingface.co/api/datasets"
                [("search", "BRSET")];
              Printed "[ERROR] Failed with status 404: Not Found";
              Printed ("[FAIL] Could not fetch datasets for keyword 'BRSET'"
                       +:+ " after 5 attempts.")] |}).
Proof.
  split; [reflexivity|].
  exact (proj1 (proj2 (C6_fatal_status_returns_at_once (lib := fragment)
                         not_found [] (world_with [Reply not_found] [])
                         eq_refl eq_refl))
           4%nat 0 "BRSET" 5%nat).
Defined.

(** ** Backoff *)

Lemma sleeps_app t1 t2 : sleeps (t1 ++ t2) = sleeps t1 ++ sleeps t2.
Proof.
  induction t1 as [|e t1 IH]; [reflexivity|].
  destruct e; cbn; now rewrite ?IH.
Qed.

Lemma header_int_hint {S} dflt r h (w : S) :
  hint_of dflt r = Some h ->
  header_int "Retry-After" dflt (headers r) w = (Returns h, w).
Proof.
  unfold hint_of, header_int. destruct (header "Retry-After" (headers r)).
  - now intros ->.
  - now intros [= ->].
Qed.

Lemma map_seq_shift (f : nat -> Z) n :
  map f (seq 0 (S n)) = f 0%nat :: map (fun k => f (S k)) (seq 0 n).
Proof. cbn. f_equal. rewrite <- seq_shift. now rewrite map_map. Qed.

Lemma hub_backoff_S h a n :
  hub_backoff h a (S n) = Z.min (h * 2 ^ a) 60 :: hub_backoff h (a + 1) n.
Proof.
  unfold hub_backoff. rewrite map_seq_shift. f_equal.
  - now rewrite Z.add_0_r.
  - apply map_ext. intros k. do 3 f_equal. lia.
Qed.

Lemma kaggle_backoff_S h a n :
  kaggle_backoff h a (S n) = Z.max (h * 2 ^ a) 5 :: kaggle_backoff h (a + 1) n.
Proof.
  unfold kaggle_backoff. rewrite map_seq_shift. f_equal.
  - now rewrite Z.add_0_r.
  - apply map_ext. intros k. do 3 f_equal. lia.
Qed.

Lemma scaled_mono h a b : 0 <= h -> 0 <= a <= b -> h * 2 ^ a <= h * 2 ^ b.
Proof.
  intros Hh Hab. apply Z.mul_le_mono_nonneg_l; [assumption|].
  apply Z.pow_le_mono_r; lia.
Qed.

Lemma nondecreasing_map_seq (f : nat -> Z) n :
  (forall i j, (i <= j)%nat -> f i <= f j) -> nondecreasing (map f (seq 0 n)).
Proof.
  intros Hf i j x y Hij Hi Hj.
  rewrite list_lookup_fmap in Hi, Hj.
  destruct (seq 0 n !! i) as [i'|] eqn:Ei; [|discriminate].
  destruct (seq 0 n !! j) as [j'|] eqn:Ej; [|discriminate].
  apply lookup_seq in Ei as [-> _]. apply lookup_seq in Ej as [-> _].
  cbn in Hi, Hj. injection Hi as <-. injection Hj as <-. apply Hf. lia.
Qed.

Lemma hub_backoff_nondecreasing h a n :
  0 <= h -> 0 <= a -> nondecreasing (hub_backoff h a n).
Proof.
  intros Hh Ha. apply nondecreasing_map_seq. intros i j Hij.
  apply Z.min_le_compat_r, scaled_mono; lia.
Qed.

Lemma kaggle_backoff_nondecreasing h a n :
  0 <= h -> 0 <= a -> nondecreasing (kaggle_backoff h a n).
Proof.
  intros Hh Ha. apply nondecreasing_map_seq. intros i j Hij.
  apply Z.max_le_compat_r, scaled_mono; lia.
Qed.

Lemma hub_backoff_capped h a n : Forall (fun s => s <= 60) (hub_backoff h a n).
Proof.
  unfold hub_backoff. apply Forall_forall. intros x Hx.
  apply list_elem_of_fmap in Hx as (k & -> & _). apply Z.le_min_r.
Qed.

(** C8, as stated, fails: the hint is read anew from every reply, so a
    second 429 with a smaller hint is slept on for a shorter time than the
    first. *)
Lemma C8_sleeps_decrease_with_the_hint :
  sleeps (trace (snd (CrawlHuggingface.search_datasets_by_keyword
                        (lib := fragment) "BRSET" None 5
                        (world_with [Reply (too_many_requests "30");
                                     Reply (too_many_requests "1");
                                     Reply no_datasets] []))))
  = [30; 2]
  /\ ~ nondecreasing [30; 2].
Proof.
  split; [vm_compute; reflexivity|].
  intros H. specialize (H 0%nat 1%nat 30 2). cbn in H.
  assert (30 <= 2) by (apply H; [lia|reflexivity|reflexivity]). lia.
Qed.

Section Backoff.
Context {lib : Library}.

Lemma hub_throttled rs : forall h left attempt keyword max_retries w rest,
  0 <= h -> 0 <= attempt ->
  Forall (throttled 5 h) rs ->
  replies w = map Reply rs ++ rest ->
  exists w',
    CrawlHuggingface.attempts (length rs + left) attempt keyword
      max_retries w
    = CrawlHuggingface.attempts left (attempt + Z.of_nat (length rs))
        keyword max_retries w'
    /\ replies w' = rest
    /\ sleeps (trace w')
       = sleeps (trace w) ++ hub_backoff h attempt (length rs).
Proof.
  induction rs as [|r rs IH];
    intros h left attempt keyword max_retries w rest Hh Ha Hrs Hw.
  - exists w. cbn. rewrite Z.add_0_r, app_nil_r. auto.
  - inversion Hrs as [|? ? [Hs Hhint] Hrs']; subst.
    cbn [length Nat.add CrawlHuggingface.attempts].
    unfold bind at 1, requests_get. rewrite Hw. cbn [map app].
    rewrite Hs. cbn [Z.eqb Pos.eqb].
    unfold bind at 1. erewrite header_int_hint by eassumption.
    unfold bind at 1. cbn [print]. unfold bind at 1, time_sleep.
    assert (Hwait : 0 <= Z.min (h * 2 ^ attempt) 60).
    { apply Z.min_glb; [|lia]. apply Z.mul_nonneg_nonneg; [lia|].
      apply Z.pow_nonneg. lia. }
    destruct (Z.ltb_spec (Z.min (h * 2 ^ attempt) 60) 0) as [|_]; [lia|].
    match goal with
    | |- context [CrawlHuggingface.attempts _ (attempt + 1) _ _ ?w1] =>
        destruct (IH h left (attempt + 1) keyword max_retries w1 rest)
          as (w' & Hrun & Hrest & Hsl); [lia|lia|assumption|reflexivity|]
    end.
    exists w'. split; [|split].
    + replace (attempt + Z.of_nat (S (length rs)))
        with (attempt + 1 + Z.of_nat (length rs)) by lia.
      exact Hrun.
    + exact Hrest.
    + rewrite Hsl. cbn [trace emit set_clock set_replies].
      rewrite !sleeps_app, hub_backoff_S. cbn [sleeps].
      rewrite !app_nil_r, <- app_assoc. reflexivity.
Qed.

Lemma kaggle_throttled rs :
  forall h fuel attempt keyword per_page max_pages page all_datasets w rest,
  0 <= h -> 0 <= attempt ->
  Forall (throttled 5 h) rs ->
  replies w = map Reply rs ++ rest ->
  exists w',
    CrawlKaggle.crawl (length rs + fuel) keyword per_page max_pages page
      attempt all_datasets w
    = CrawlKaggle.crawl fuel keyword per_page max_pages page
        (attempt + Z.of_nat (length rs)) all_datasets w'
    /\ replies w' = rest
    /\ sleeps (trace w')
       = sleeps (trace w) ++ kaggle_backoff h attempt (length rs).
Proof.
  induction rs as [|r rs IH];
    intros h fuel attempt keyword per_page max_pages page all_datasets w
      rest Hh Ha Hrs Hw.
  - exists w. cbn. rewrite Z.add_0_r, app_nil_r. auto.
  - inversion Hrs as [|? ? [Hs Hhint] Hrs']; subst.
    cbn [length Nat.add CrawlKaggle.crawl].
    unfold bind at 1, try_except, CrawlKaggle.try_page.
    unfold bind at 1, requests_get. rewrite Hw. cbn [map app].
    rewrite Hs. cbn [Z.eqb Pos.eqb].
    unfold bind at 1. erewrite header_int_hint by eassumption.
    unfold bind at 1. cbn [print]. unfold bind at 1, time_sleep.
    assert (Hwait : 0 <= Z.max (h * 2 ^ attempt) 5) by lia.
    destruct (Z.ltb_spec (Z.max (h * 2 ^ attempt) 5) 0) as [|_]; [lia|].
    cbn [ret].
    match goal with
    | |- context [CrawlKaggle.crawl _ _ _ _ _ (attempt + 1) _ ?w1] =>
        destruct (IH h fuel (attempt + 1) keyword per_page max_pages page
                    all_datasets w1 rest)
          as (w' & Hrun & Hrest & Hsl); [lia|lia|assumption|reflexivity|]
    end.
    exists w'. split; [|split].
    + replace (attempt + Z.of_nat (S (length rs)))
        with (attempt + 1 + Z.of_nat (length rs)) by lia.
      exact Hrun.
    + exact Hrest.
    + rewrite Hsl. cbn [trace emit set_clock set_replies].
      rewrite !sleeps_app, kaggle_backoff_S. cbn [sleeps].
      rewrite !app_nil_r, <- app_assoc. reflexivity.
Qed.

(** C8, amended. Backoff monotonicity. Over 429 replies in a row that all
    carry the same hint [h >= 0], or none (then [h] is the default 5),
    the hub search sleeps [min (h * 2^a) 60] at attempt [a] and the
    competition-catalog search [max (h * 2^a) 5]; both sequences are
    non-decreasing in the attempt number, and no sleep of the hub search
    is longer than 60 seconds. *)
Theorem C8_backoff_monotone (rs : list response) (h : Z)
  (rest : list http_outcome) (w : world) :
  0 <= h ->
  Forall (throttled 5 h) rs ->
  replies w = map Reply rs ++ rest ->
  (forall left keyword hf_token,
      exists w',
        CrawlHuggingface.search_datasets_by_keyword keyword hf_token
          (length rs + left) w
        = CrawlHuggingface.attempts left (Z.of_nat (length rs)) keyword
            (length rs + left) w'
        /\ replies w' = rest
        /\ sleeps (trace w')
           = sleeps (trace w) ++ hub_backoff h 0 (length rs))
  /\ (forall fuel keyword per_page max_pages page all_datasets,
      exists w',
        CrawlKaggle.crawl (length rs + fuel) keyword per_page max_pages
          page 0 all_datasets w
        = CrawlKaggle.crawl fuel keyword per_page max_pages page
            (Z.of_nat (length rs)) all_datasets w'
        /\ replies w' = rest
        /\ sleeps (trace w')
           = sleeps (trace w) ++ kaggle_backoff h 0 (length rs))
  /\ nondecreasing (hub_backoff h 0 (length rs))
  /\ Forall (fun s => s <= 60) (hub_backoff h 0 (length rs))
  /\ nondecreasing (kaggle_backoff h 0 (length rs)).
Proof.
  intros Hh Hrs Hw. split; [|split; [|split; [|split]]].
  - intros left keyword hf_token.
    unfold CrawlHuggingface.search_datasets_by_keyword.
    destruct (hub_throttled rs h left 0 keyword (length rs + left) w rest)
      as (w' & H1 & H2 & H3); try assumption; [lia|].
    exists w'. rewrite Z.add_0_l in H1. auto.
  - intros fuel keyword per_page max_pages page all_datasets.
    destruct (kaggle_throttled rs h fuel 0 keyword per_page max_pages page
                all_datasets w rest)
      as (w' & H1 & H2 & H3); try assumption; [lia|].
    exists w'. rewrite Z.add_0_l in H1. auto.
  - apply hub_backoff_nondecreasing; lia.
  - apply hub_backoff_capped.
  - apply kaggle_backoff_nondecreasing; lia.
Qed.

End Backoff.

Lemma C8_witness :
  let rs := [too_many_requests "30"; too_many_requests "30";
             too_many_requests "30"] in
  exists w',
    CrawlHuggingface.search_datasets_by_keyword (lib := fragment) "BRSET"
      None 5 (world_with (map Reply rs ++ [Reply no_datasets]) [])
    = CrawlHuggingface.attempts (lib := fragment) 2 3 "BRSET" 5 w'
    /\ replies w' = [Reply no_datasets]
    /\ sleeps (trace w') = [30; 60; 60].
Proof.
  cbv zeta.
  destruct (C8_backoff_monotone (lib := fragment)
              [too_many_requests "30"; too_many_requests "30";
               too_many_requests "30"] 30 [Reply no_datasets]
              (world_with (map Reply [too_many_requests "30";
                                      too_many_requests "30";
                                      too_many_requests "30"]
                           ++ [Reply no_datasets]) []))
    as [Hhub _].
  - lia.
  - repeat constructor.
  - reflexivity.
  - destruct (Hhub 2%nat "BRSET" None) as (w' & H1 & H2 & H3).
    exists w'. auto.
Defined.

(** ** Replies are only ever taken *)

Lemma shrinking_ret {A} (a : A) : shrinking (ret a).
Proof. intros w o w' [= <- <-]. lia. Qed.

Lemma shrinking_raise {A} e : shrinking (raise (A := A) e).
Proof. intros w o w' [= <- <-]. lia. Qed.

Lemma shrinking_hang {A} : shrinking (hang (A := A)).
Proof. intros w o w' [= <- <-]. lia. Qed.

Lemma shrinking_print msg : shrinking (print msg).
Proof. intros w o w' [= <- <-]. cbn. lia. Qed.

Lemma shrinking_time_time : shrinking time_time.
Proof. intros w o w' [= <- <-]. lia. Qed.

Lemma shrinking_replies_left : shrinking replies_left.
Proof. intros w o w' [= <- <-]. lia. Qed.

Lemma shrinking_time_sleep s : shrinking (time_sleep s).
Proof.
  intros w o w'. unfold time_sleep. destruct (s <? 0); intros [= <- <-];
    cbn; lia.
Qed.

Lemma shrinking_requests_get url params : shrinking (requests_get url params).
Proof.
  intros w o w'. unfold requests_get.
  destruct (replies w) as [|[r|e] rest] eqn:E; intros [= <- <-]; cbn;
    try rewrite E; cbn; lia.
Qed.

Lemma taking_requests_get url params : taking (requests_get url params).
Proof.
  intros w a w'. unfold requests_get.
  destruct (replies w) as [|[r|e] rest] eqn:E; intros [= <- <-]; cbn; lia.
Qed.

Lemma shrinking_or_raise {A} e (o : option A) : shrinking (or_raise e o).
Proof. destruct o; [apply shrinking_ret|apply shrinking_raise]. Qed.

Lemma shrinking_bind {A B} (m : Net A) (k : A -> Net B) :
  shrinking m -> (forall a, shrinking (k a)) -> shrinking (bind m k).
Proof.
  intros Hm Hk w o w'. unfold bind.
  destruct (m w) as [[a|e|] w1] eqn:E; intros H.
  - apply Hm in E. apply Hk in H. lia.
  - injection H as <- <-. now apply Hm in E.
  - injection H as <- <-. now apply Hm in E.
Qed.

Lemma shrinking_try {A} (m : Net A) class h :
  shrinking m -> (forall e, shrinking (h e)) ->
  shrinking (try_except m class h).
Proof.
  intros Hm Hh w o w'. unfold try_except.
  destruct (m w) as [[a|e|] w1] eqn:E; intros H.
  - injection H as <- <-. now apply Hm in E.
  - destruct (class e).
    + apply Hm in E. apply Hh in H. lia.
    + injection H as <- <-. now apply Hm in E.
  - injection H as <- <-. now apply Hm in E.
Qed.

Lemma shrinking_if {A} (b : bool) (m1 m2 : Net A) :
  shrinking m1 -> shrinking m2 -> shrinking (if b then m1 else m2).
Proof. now destruct b. Qed.

Lemma taking_bind_l {A B} (m : Net A) (k : A -> Net B) :
  taking m -> (forall a, shrinking (k a)) -> taking (bind m k).
Proof.
  intros Hm Hk w b w'. unfold bind.
  destruct (m w) as [[a|e|] w1] eqn:E; intros H; try discriminate.
  apply Hm in E. apply Hk in H. lia.
Qed.

Lemma taking_bind_r {A B} (m : Net A) (k : A -> Net B) :
  shrinking m -> (forall a, taking (k a)) -> taking (bind m k).
Proof.
  intros Hm Hk w b w'. unfold bind.
  destruct (m w) as [[a|e|] w1] eqn:E; intros H; try discriminate.
  apply Hm in E. apply Hk in H. lia.
Qed.

Lemma shrinking_header_int name dflt hs : shrinking (header_int name dflt hs).
Proof.
  unfold header_int. destruct (header name hs);
    [apply shrinking_or_raise|apply shrinking_ret].
Qed.

Lemma shrinking_py_get_default k dflt v :
  shrinking (py_get_default (S := world) k dflt v).
Proof. destruct v; try apply shrinking_raise. apply shrinking_ret. Qed.

Lemma shrinking_py_get k v : shrinking (py_get (S := world) k v).
Proof. apply shrinking_py_get_default. Qed.

Lemma shrinking_py_len v : shrinking (py_len (S := world) v).
Proof. destruct v; try apply shrinking_raise; apply shrinking_ret. Qed.

Lemma shrinking_py_iter v : shrinking (py_iter (S := world) v).
Proof. destruct v; try apply shrinking_raise; apply shrinking_ret. Qed.

Lemma shrinking_py_index k v : shrinking (py_index (S := world) k v).
Proof. destruct v; try apply shrinking_raise. apply shrinking_or_raise. Qed.

Create HintDb shrink.
#[local] Hint Resolve shrinking_ret shrinking_raise shrinking_hang
  shrinking_print shrinking_time_time shrinking_replies_left
  shrinking_time_sleep shrinking_requests_get shrinking_or_raise
  shrinking_header_int shrinking_py_get_default shrinking_py_get
  shrinking_py_len shrinking_py_iter shrinking_py_index : shrink.

Ltac shrink :=
  repeat first
    [ solve [auto with shrink]
    | apply shrinking_bind; [|intros ?]
    | apply shrinking_try; [|intros ?]
    | apply shrinking_if
    | match goal with
      | |- shrinking (match ?x with _ => _ end) => destruct x
      end ].

(** ** Date-range partitioning *)

Lemma slices_bounded n : forall current end_date step,
  Forall (fun ab => snd ab - fst ab <= step) (slices n current end_date step).
Proof.
  induction n as [|n IH]; intros current end_date step; cbn [slices];
    [constructor|].
  destruct (current <? end_date); constructor; [cbn; lia|apply IH].
Qed.

Lemma slices_covers n : forall current end_date step,
  0 < step -> current <= end_date ->
  (current < end_date -> (end_date - current) / step < Z.of_nat n) ->
  covers current end_date (slices n current end_date step).
Proof.
  induction n as [|n IH]; intros current end_date step Hs Hle Hn.
  - cbn [slices covers]. destruct (Z.eq_dec current end_date); [assumption|].
    exfalso. assert (0 <= (end_date - current) / step)
      by (apply Z.div_pos; lia). lia.
  - cbn [slices]. destruct (Z.ltb_spec current end_date) as [Hlt|Hge].
    + cbn [covers]. split; [reflexivity|]. split; [lia|].
      apply IH; [assumption|lia|]. intros Hnext. specialize (Hn Hlt).
      destruct (Z.min_spec (current + step) end_date) as [[Hm Heq]|[Hm Heq]];
        rewrite Heq in *; [|lia].
      replace (end_date - (current + step))
        with (end_date - current + (-1) * step) by lia.
      rewrite Z.div_add by lia. lia.
    + cbn [covers]. lia.
Qed.

Section Partition.
Context {lib : Library}.

Lemma shrinking_response_json r : shrinking (response_json r).
Proof. unfold response_json. auto with shrink. Qed.

Lemma shrinking_check_rate_limit hs :
  shrinking (CrawlGithub.check_rate_limit hs).
Proof. unfold CrawlGithub.check_rate_limit. shrink. Qed.

Lemma shrinking_request_page fuel : forall params,
  shrinking (CrawlGithub.request_page fuel params).
Proof.
  induction fuel as [|fuel IH]; intros params; cbn [CrawlGithub.request_page];
    [auto with shrink|].
  apply shrinking_bind; [auto with shrink|]. intros r.
  apply shrinking_if.
  - apply shrinking_bind; [apply shrinking_check_rate_limit|].
    intros []; [apply IH|auto with shrink].
  - shrink.
Qed.

Lemma taking_request_page fuel : forall params,
  taking (CrawlGithub.request_page fuel params).
Proof.
  destruct fuel as [|fuel]; intros params; cbn [CrawlGithub.request_page].
  - intros w a w' [=].
  - apply taking_bind_l; [apply taking_requests_get|]. intros r.
    apply shrinking_if.
    + apply shrinking_bind; [apply shrinking_check_rate_limit|].
      intros []; [apply shrinking_request_page|auto with shrink].
    + shrink.
Qed.

Lemma shrinking_search_pages pages :
  forall page keyword start_date end_date per_page all_repos,
  shrinking (CrawlGithub.search_pages pages page keyword start_date
               end_date per_page all_repos).
Proof.
  induction pages as [|pages IH]; intros; cbn [CrawlGithub.search_pages];
    [auto with shrink|].
  apply shrinking_bind; [auto with shrink|]. intros fuel.
  apply shrinking_bind; [apply shrinking_request_page|]. intros [r|];
    [|auto with shrink].
  apply shrinking_bind; [apply shrinking_response_json|]. intros body.
  apply shrinking_bind; [auto with shrink|]. intros items.
  apply shrinking_if; [auto with shrink|].
  apply shrinking_bind; [auto with shrink|]. intros new.
  apply shrinking_bind; [auto with shrink|]. intros n.
  apply shrinking_bind; [auto with shrink|]. intros _. apply IH.
Qed.

(** A search that returns has made at least one request. *)
Lemma taking_search keyword github_token start_date end_date per_page pages :
  taking (CrawlGithub.search_repositories_with_date_range keyword
            github_token start_date end_date per_page (S pages)).
Proof.
  unfold CrawlGithub.search_repositories_with_date_range.
  cbn [CrawlGithub.search_pages].
  apply taking_bind_r; [auto with shrink|]. intros fuel.
  apply taking_bind_l; [apply taking_request_page|]. intros [r|];
    [|auto with shrink].
  apply shrinking_bind; [apply shrinking_response_json|]. intros body.
  apply shrinking_bind; [auto with shrink|]. intros items.
  apply shrinking_if; [auto with shrink|].
  apply shrinking_bind; [auto with shrink|]. intros new.
  apply shrinking_bind; [auto with shrink|]. intros n.
  apply shrinking_bind; [auto with shrink|]. intros _.
  apply shrinking_search_pages.
Qed.

(** The loop, with fuel for the replies that are left, runs one search
    per slice. *)
Lemma partition_loop_slices n :
  forall fuel keyword github_token current end_date interval_days acc w,
  0 < Date.timedelta_days interval_days ->
  (current < end_date ->
   (end_date - current) / Date.timedelta_days interval_days < Z.of_nat n) ->
  (length (replies w) < fuel)%nat ->
  CrawlGithub.partition_loop fuel keyword github_token current end_date
    interval_days acc w
  = search_all keyword github_token
      (slices n current end_date (Date.timedelta_days interval_days)) acc w.
Proof.
  induction n as [|n IH];
    intros fuel keyword github_token current end_date interval_days acc w
      Hs Hn Hf;
    (destruct fuel as [|fuel]; [lia|]);
    cbn [CrawlGithub.partition_loop slices].
  - destruct (Z.ltb_spec current end_date) as [Hlt|Hge]; [|reflexivity].
    exfalso. specialize (Hn Hlt).
    assert (0 <= (end_date - current) / Date.timedelta_days interval_days)
      by (apply Z.div_pos; lia). lia.
  - destruct (Z.ltb_spec current end_date) as [Hlt|Hge]; [|reflexivity].
    cbn [search_all]. unfold bind at 1 3. cbn [print].
    unfold bind at 1 2.
    destruct (CrawlGithub.search_repositories_with_date_range _ _ _ _ _ _ _)
      as [[repos|e|] w1] eqn:E; try reflexivity.
    apply taking_search in E. cbn [replies emit] in E.
    apply IH; [assumption| |lia].
    intros Hnext. specialize (Hn Hlt).
    destruct (Z.min_spec (current + Date.timedelta_days interval_days)
                end_date) as [[Hm Heq]|[Hm Heq]]; rewrite Heq in *; [|lia].
    replace (end_date - (current + Date.timedelta_days interval_days))
      with (end_date - current + (-1) * Date.timedelta_days interval_days)
      by lia.
    rewrite Z.div_add by lia. lia.
Qed.

(** C9. Date-range partitioning. For a start date before the end date
    and a positive interval length, the code-host search runs one paged
    keyword search per sub-interval of [sub_intervals], in their order,
    and returns the concatenation of what they return; the sub-intervals
    are non-empty, each starts where the one before ends, the first at the
    start date and the last up to the end date, and none is longer than
    [interval_days] days. *)
Theorem C9_date_range_partitioning (keyword github_token : string)
  (start_date end_date interval_days : Z) (w : world) :
  start_date < end_date ->
  0 < interval_days ->
  CrawlGithub.partition_and_search keyword github_token start_date end_date
    interval_days w
  = search_all keyword github_token
      (sub_intervals start_date end_date interval_days) [] w
  /\ covers start_date end_date
       (sub_intervals start_date end_date interval_days)
  /\ Forall (fun ab => snd ab - fst ab <= Date.timedelta_days interval_days)
       (sub_intervals start_date end_date interval_days).
Proof.
  intros Hlt Hi.
  assert (Hs : 0 < Date.timedelta_days interval_days)
    by (unfold Date.timedelta_days, Date.day; lia).
  assert (Hd : 0 <= (end_date - start_date)
                    / Date.timedelta_days interval_days)
    by (apply Z.div_pos; lia).
  split; [|split].
  - unfold CrawlGithub.partition_and_search, sub_intervals.
    unfold bind, replies_left.
    apply partition_loop_slices; [assumption| |lia].
    intros _. rewrite Z2Nat.id by lia. lia.
  - unfold sub_intervals. apply slices_covers; [assumption|lia|].
    intros _. rewrite Z2Nat.id by lia. lia.
  - apply slices_bounded.
Qed.

End Partition.

Lemma C9_witness :
  let start_date := Date.datetime 2025 3 1 in
  let end_date := Date.datetime 2025 4 15 in
  map (fun ab => (Date.strftime_ymd (fst ab), Date.strftime_ymd (snd ab)))
    (sub_intervals start_date end_date 30)
  = [("2025-03-01", "2025-03-31"); ("2025-03-31", "2025-04-15")]
  /\ fst (CrawlGithub.partition_and_search (lib := fragment) "BRSET"
            "ghp_xxx" start_date end_date 30 (world_with two_partitions []))
     = Returns
         (map (fun n => JObj [("name", JStr n);
                              ("full_name", JStr ("lab/" +:+ n))])
            ["brset-seg"; "retina"; "atlas"]).
Proof.
  cbv zeta. split; [vm_compute; reflexivity|].
  destruct (C9_date_range_partitioning (lib := fragment) "BRSET" "ghp_xxx"
              (Date.datetime 2025 3 1) (Date.datetime 2025 4 15) 30
              (world_with two_partitions []))
    as (Hrun & _ & _).
  - vm_compute. reflexivity.
  - lia.
  - rewrite Hrun. vm_compute. reflexivity.
Defined.

(** ** Enrichment *)

Lemma bind_inv {S A B} (m : M S A) (k : A -> M S B) w b w' :
  bind m k w = (Returns b, w') ->
  exists a w1, m w = (Returns a, w1) /\ k a w1 = (Returns b, w').
Proof.
  unfold bind. destruct (m w) as [[a|e|] w1]; try discriminate. eauto.
Qed.

Ltac bind_inv H :=
  let a := fresh "a" in
  let w := fresh "w" in
  let E := fresh "E" in
  apply bind_inv in H as (a & w & E & H).

Section Enrichment.
Context {lib : Library}.

Lemma process_each_github_length repos :
  forall i total github_token acc w out w',
  ProcessGithub.process_each repos i total github_token acc w
  = (Returns out, w') ->
  length out = (length acc + length repos)%nat.
Proof.
  induction repos as [|repo repos IH]; intros i total tok acc w out w' H.
  - injection H as <- _. cbn. lia.
  - cbn [ProcessGithub.process_each] in H. bind_inv H. bind_inv H.
    apply IH in H. rewrite H, length_app. cbn. lia.
Qed.

Lemma process_each_huggingface_length data :
  forall idx total acc w out w',
  ProcessHuggingface.process_each data idx total acc w = (Returns out, w') ->
  length out = (length acc + length data)%nat.
Proof.
  induction data as [|entry data IH]; intros idx total acc w out w' H.
  - injection H as <- _. cbn. lia.
  - cbn [ProcessHuggingface.process_each] in H. do 6 bind_inv H.
    apply IH in H. rewrite H, length_app. cbn. lia.
Qed.

Lemma collect_length completed :
  forall datasets acc w out w',
  ProcessKaggle.collect completed datasets acc w = (Returns out, w') ->
  (length acc <= length out <= length acc + length completed)%nat.
Proof.
  induction completed as [|i completed IH]; intros datasets acc w out w' H.
  - injection H as <- _. cbn. lia.
  - cbn [ProcessKaggle.collect] in H.
    destruct (datasets !! i) as [ds|].
    + bind_inv H. apply IH in H. rewrite length_app in H.
      destruct a; cbn in H |- *; lia.
    + apply IH in H. cbn. lia.
Qed.

Lemma header_int_value {S} name dflt hs v (w : S) :
  header_value name dflt hs = Some v ->
  header_int name dflt hs w = (Returns v, w).
Proof.
  unfold header_value, header_int. destruct (header name hs).
  - now intros ->.
  - now intros [= ->].
Qed.

(** A header that reads as an integer does so whatever the default. *)
Lemma header_int_defined {S} name dflt dflt' hs v :
  header_value name dflt hs = Some v ->
  exists v', forall w : S, header_int name dflt' hs w = (Returns v', w).
Proof.
  unfold header_value, header_int. destruct (header name hs).
  - intros ->. eauto.
  - intros _. eauto.
Qed.

Lemma settled_cases r :
  settled r = true ->
  (status_code r =? 403) = false /\ (status_code r =? 429) = false
  /\ exists remaining reset,
       header_value "X-RateLimit-Remaining" 1 (headers r) = Some remaining
       /\ (remaining =? 0) = false
       /\ header_value "X-RateLimit-Reset" 0 (headers r) = Some reset.
Proof.
  unfold settled. intros H.
  apply andb_prop in H as [H Hh]. apply andb_prop in H as [H403 H429].
  apply negb_true_iff in H403, H429.
  destruct (header_value "X-RateLimit-Remaining" 1 (headers r))
    as [remaining|]; [|discriminate].
  destruct (header_value "X-RateLimit-Reset" 0 (headers r))
    as [reset|]; [|discriminate].
  apply negb_true_iff in Hh. eauto 8.
Qed.

Lemma requests_app t1 t2 : requests (t1 ++ t2) = requests t1 ++ requests t2.
Proof.
  induction t1 as [|e t1 IH]; [reflexivity|].
  destruct e; cbn; now rewrite ?IH.
Qed.

(** One turn of the readme fetch on a settling reply: the text of a 200,
    nothing otherwise, one request and no sleep. *)
Lemma fetch_loop_settled fuel name url w r rest :
  replies w = Reply r :: rest -> settled r = true ->
  exists w',
    ProcessGithub.fetch_loop (S fuel) name url w
    = (Returns (if status_code r =? 200 then Some (text r) else None), w')
    /\ replies w' = rest
    /\ sleeps (trace w') = sleeps (trace w)
    /\ length (requests (trace w')) = S (length (requests (trace w))).
Proof.
  intros Hw Hs.
  destruct (settled_cases r Hs)
    as (H403 & H429 & remaining & reset & Hrem & Hnz & Hres).
  destruct (header_int_defined (S := world) "X-RateLimit-Reset" 0
              (clock w) (headers r) reset Hres) as (reset' & Hreset).
  cbn [ProcessGithub.fetch_loop].
  unfold bind at 1, try_except, bind at 1, requests_get. rewrite Hw.
  rewrite (bind_returns _ _ _ _ _ (header_int_value _ _ _ _ _ Hrem)).
  unfold bind at 1. cbn [time_time].
  rewrite (bind_returns _ _ _ _ _ (Hreset _)).
  rewrite Hnz, H403, H429. cbn [orb].
  destruct (status_code r =? 200);
    [|destruct (status_code r =? 404)];
    cbn; eexists; (split; [reflexivity|]); cbn;
    rewrite ?sleeps_app, ?requests_app, ?length_app; cbn;
    rewrite ?app_nil_r; repeat split; lia.
Qed.

(** The readme fetch answered by a settling reply: the text of a success,
    nothing otherwise, and one reply taken. *)
Lemma fetch_repo_readme_settled name github_token w r rest :
  replies w = Reply r :: rest -> settled r = true ->
  exists w',
    ProcessGithub.fetch_repo_readme name github_token w
    = (Returns (if status_code r =? 200 then Some (text r) else None), w')
    /\ replies w' = rest.
Proof.
  intros Hw Hs.
  unfold ProcessGithub.fetch_repo_readme, bind at 1, replies_left.
  rewrite Hw. cbn [length].
  destruct (fetch_loop_settled (S (length rest))
              (py_str name)
              (ProcessGithub.GITHUB_API_BASE +:+ "/repos/" +:+ py_str name
               +:+ "/readme") w r rest Hw Hs) as (w' & H & Hr & _).
  exists w'. split; [exact H|exact Hr].
Qed.
Lemma process_repository_settled d github_token w r rest :
  license_ok d = true ->
  replies w = Reply r :: rest -> settled r = true ->
  exists w',
    ProcessGithub.process_repository (JObj d) github_token w
    = (Returns (enriched_repo d (readme_of r)), w')
    /\ replies w' = rest.
Proof.
  intros Hl Hw Hd. unfold ProcessGithub.process_repository.
  cbn [py_get py_get_default]. unfold bind at 1. cbn [ret].
  unfold bind at 1. cbn [ret]. unfold bind at 1. cbn [ret].
  assert (Hlic : forall w0 : world,
             (if truthy (Dict.get_default "license" JNull d)
              then (l <- py_get_default "license" (JObj []) (JObj d) ;;
                    py_get "name" l)
              else ret JNull) w0
             = (Returns (license_name d), w0)).
  { intros w0. unfold license_ok, license_name, Dict.get in *.
    destruct (truthy (Dict.get_default "license" JNull d)) eqn:Et.
    - cbn [py_get_default]. unfold bind. cbn [ret].
      unfold Dict.get_default in *.
      destruct (Dict.lookup "license" d) as [v|]; [|discriminate].
      destruct v; try (rewrite Et in Hl; discriminate).
      rewrite Et. reflexivity.
    - destruct (Dict.get_default "license" JNull d); try reflexivity.
      now rewrite Et. }
  rewrite (bind_returns _ _ _ _ _ (Hlic w)).
  unfold bind at 1. cbn [ret]. unfold bind at 1. cbn [ret].
  destruct (fetch_repo_readme_settled
              (Dict.get_default "full_name" (JStr EmptyString) d)
              github_token w r rest Hw Hd) as (w' & Hf & Hr).
  rewrite (bind_returns _ _ _ _ _ Hf). exists w'. split; [|exact Hr].
  unfold readme_of, enriched_repo. cbn [ret].
  destruct (status_code r =? 200); [|reflexivity].
  cbn [andb]. now destruct (String.eqb (text r) EmptyString).
Qed.

Lemma process_each_github_settled ds :
  forall rs i total github_token acc w rest,
  length rs = length ds ->
  Forall (fun d => license_ok d = true) ds ->
  Forall (fun r => settled r = true) rs ->
  replies w = map Reply rs ++ rest ->
  exists w',
    ProcessGithub.process_each (map JObj ds) i total github_token acc w
    = (Returns (acc ++ zip_with (fun d r => enriched_repo d (readme_of r))
                         ds rs), w')
    /\ replies w' = rest.
Proof.
  induction ds as [|d ds IH]; intros rs i total tok acc w rest Hlen Hl Hd Hw.
  - destruct rs; [|discriminate]. exists w. cbn. rewrite app_nil_r. auto.
  - destruct rs as [|r rs]; [discriminate|].
    inversion Hl; inversion Hd; subst. cbn [map app] in Hw.
    destruct (process_repository_settled d tok w r (map Reply rs ++ rest))
      as (w1 & Hp & Hr1); try assumption.
    cbn [map ProcessGithub.process_each].
    rewrite (bind_returns _ _ _ _ _ Hp).
    assert (Hprint : exists w2,
               (if (i mod 10 =? 0) || (i =? total)
                then print ("[PROGRESS] Processed " +:+ Py.str_of_int i
                            +:+ "/" +:+ Py.str_of_int total
                            +:+ " repositories")
                else ret tt) w1 = (Returns tt, w2)
               /\ replies w2 = map Reply rs ++ rest).
    { destruct ((i mod 10 =? 0) || (i =? total)); eexists;
        (split; [reflexivity|]); cbn; exact Hr1. }
    destruct Hprint as (w2 & Hpr & Hr2).
    rewrite (bind_returns _ _ _ _ _ Hpr).
    destruct (IH rs (i + 1) total tok
                (acc ++ [enriched_repo d (readme_of r)]) w2 rest)
      as (w' & Hrun & Hr'); try assumption.
    { cbn in Hlen. lia. }
    exists w'. split; [|exact Hr']. rewrite Hrun, <- app_assoc. reflexivity.
Qed.

Lemma dead_hub_cases r :
  dead_hub r = true ->
  (status_code r =? 200) = false /\ (status_code r =? 429) = false
  /\ (status_code r =? 500) = false /\ (status_code r =? 503) = false.
Proof.
  unfold dead_hub. intros H. repeat (apply andb_prop in H as [H ?]).
  repeat match goal with
         | H : negb _ = true |- _ => apply negb_true_iff in H
         end.
  auto.
Qed.

(** A request of the hub worker answered by a dead reply. *)
Lemma safe_request_dead url w r rest :
  replies w = Reply r :: rest -> dead_hub r = true ->
  exists w',
    ProcessHuggingface.safe_request url 2 w = (Returns None, w')
    /\ replies w' = rest.
Proof.
  intros Hw Hd.
  destruct (dead_hub_cases r Hd) as (H200 & H429 & H500 & H503).
  unfold ProcessHuggingface.safe_request, bind at 1, replies_left.
  rewrite Hw. cbn [length ProcessHuggingface.request_loop].
  unfold bind at 1, try_except, bind at 1, requests_get. rewrite Hw.
  rewrite H200, H429, H500, H503. cbn. eauto.
Qed.

Lemma bind_print {B} msg (k : unit -> Net B) w :
  bind (print msg) k w = k tt (emit (Printed msg) w).
Proof. reflexivity. Qed.

Lemma fetch_dataset_card_dead id w r rest :
  replies w = Reply r :: rest -> dead_hub r = true ->
  exists w',
    ProcessHuggingface.fetch_dataset_card id w = (Returns JNull, w')
    /\ replies w' = rest.
Proof.
  intros Hw Hd. unfold ProcessHuggingface.fetch_dataset_card.
  destruct (safe_request_dead (ProcessHuggingface.HF_CARD_URL (py_str id))
              w r rest Hw Hd) as (w1 & Hs & Hr).
  rewrite (bind_returns _ _ _ _ _ Hs), bind_print.
  eexists. split; [reflexivity|]. exact Hr.
Qed.

Lemma fetch_recursive_file_paths_dead id w r rest :
  replies w = Reply r :: rest -> dead_hub r = true ->
  exists w',
    ProcessHuggingface.fetch_recursive_file_paths id w = (Returns [], w')
    /\ replies w' = rest.
Proof.
  intros Hw Hd. unfold ProcessHuggingface.fetch_recursive_file_paths.
  unfold bind at 1, replies_left. rewrite Hw.
  cbn [length ProcessHuggingface.fetch_paths truthy String.eqb negb].
  destruct (safe_request_dead
              (ProcessHuggingface.HF_TREE_BASE_URL (py_str id))
              w r rest Hw Hd) as (w1 & Hs & Hr).
  rewrite (bind_returns _ _ _ _ _ Hs), bind_print.
  eexists. split; [reflexivity|]. exact Hr.
Qed.

Lemma process_each_huggingface_dead ds :
  forall rs idx total acc w rest,
  length rs = (2 * length ds)%nat ->
  Forall (fun d => exists license, forall w0 : world,
              ProcessHuggingface.extract_license
                (Dict.get_default "tags" (JArr []) d) w0
              = (Returns license, w0)) ds ->
  Forall (fun r => dead_hub r = true) rs ->
  replies w = map Reply rs ++ rest ->
  exists out w',
    ProcessHuggingface.process_each (map JObj ds) idx total acc w
    = (Returns (acc ++ out), w')
    /\ replies w' = rest
    /\ Forall2 (fun d r => exists license,
                    r = JObj [("id", Dict.get "id" d); ("license", license);
                              ("dataset_card", JNull);
                              ("files", JArr [])]) ds out.
Proof.
  induction ds as [|d ds IH]; intros rs idx total acc w rest Hlen Hl Hd Hw.
  - destruct rs; [|discriminate]. exists [], w. cbn. rewrite app_nil_r.
    repeat split; auto.
  - destruct rs as [|r1 [|r2 rs]]; try (cbn in Hlen; lia).
    inversion Hl as [|? ? (license & Hlic) Hl']; subst.
    inversion Hd as [|? ? Hd1 Hd2]; subst.
    inversion Hd2 as [|? ? Hd2' Hd3]; subst.
    cbn [map app] in Hw.
    cbn [map ProcessHuggingface.process_each py_get py_get_default].
    unfold bind at 1. cbn [ret]. unfold bind at 1. cbn [ret].
    rewrite (bind_returns _ _ _ _ _ (Hlic w)).
    destruct (fetch_dataset_card_dead (Dict.get_default "id" JNull d)
                w r1 (Reply r2 :: map Reply rs ++ rest) Hw Hd1)
      as (w1 & Hs1 & Hr1).
    rewrite (bind_returns _ _ _ _ _ Hs1).
    destruct (fetch_recursive_file_paths_dead
                (Dict.get_default "id" JNull d)
                w1 r2 (map Reply rs ++ rest) Hr1 Hd2')
      as (w2 & Hs2 & Hr2).
    rewrite (bind_returns _ _ _ _ _ Hs2), bind_print.
    match goal with
    | |- context [ProcessHuggingface.process_each _ _ _ ?acc' ?w3] =>
        destruct (IH rs (idx + 1) total acc' w3 rest)
          as (out & w' & Hrun & Hr' & HF); try assumption;
          try (cbn in Hlen; lia)
    end.
    eexists (_ :: out), w'. split; [|split; [exact Hr'|]].
    + rewrite Hrun, <- app_assoc. reflexivity.
    + constructor; [|exact HF]. exists license. reflexivity.
Qed.

Lemma dead_catalog_cases r :
  dead_catalog r = true ->
  (status_code r =? 200) = false /\ (status_code r =? 429) = false
  /\ (status_code r =? 503) = false.
Proof.
  unfold dead_catalog. intros H. repeat (apply andb_prop in H as [H ?]).
  repeat match goal with
         | H : negb _ = true |- _ => apply negb_true_iff in H
         end.
  auto.
Qed.

Lemma rate_limited_get_reply url w r rest :
  replies w = Reply r :: rest ->
  exists w',
    ProcessKaggle.rate_limited_get url w = (Returns r, w')
    /\ replies w' = rest.
Proof.
  intros Hw. unfold ProcessKaggle.rate_limited_get.
  unfold bind at 1. cbn [time_time]. unfold bind at 1.
  cbn [ProcessKaggle.get_last_request_time].
  assert (Hpace : exists w1,
             (if clock w - last_request_time w
                 <? ProcessKaggle.RATE_LIMIT_INTERVAL
              then
                print ("[RATE] Sleeping "
                       +:+ Py.str_of_int
                             (ProcessKaggle.RATE_LIMIT_INTERVAL
                              - (clock w - last_request_time w))
                       +:+ "s before next request...") ;;
                time_sleep (ProcessKaggle.RATE_LIMIT_INTERVAL
                            - (clock w - last_request_time w))
              else ret tt) w = (Returns tt, w1)
             /\ replies w1 = Reply r :: rest).
  { destruct (Z.ltb_spec (clock w - last_request_time w)
                ProcessKaggle.RATE_LIMIT_INTERVAL) as [Hlt|Hge].
    - rewrite bind_print. unfold time_sleep.
      destruct (Z.ltb_spec (ProcessKaggle.RATE_LIMIT_INTERVAL
                            - (clock w - last_request_time w)) 0); [lia|].
      eexists. split; [reflexivity|]. exact Hw.
    - eexists. split; [reflexivity|]. exact Hw. }
  destruct Hpace as (w1 & Hp & Hr1).
  rewrite (bind_returns _ _ _ _ _ Hp).
  unfold bind at 1, try_except, requests_get. rewrite Hr1.
  cbn. eexists. split; [reflexivity|]. reflexivity.
Qed.

Lemma robust_request_dead url w r rest :
  replies w = Reply r :: rest -> dead_catalog r = true ->
  exists w',
    ProcessKaggle.robust_request url 10 w = (Returns (JObj []), w')
    /\ replies w' = rest.
Proof.
  intros Hw Hd.
  destruct (dead_catalog_cases r Hd) as (H200 & H429 & H503).
  unfold ProcessKaggle.robust_request, bind at 1, replies_left.
  rewrite Hw. cbn [length ProcessKaggle.request_loop].
  destruct (rate_limited_get_reply url w r rest Hw) as (w1 & Hg & Hr1).
  rewrite (bind_returns _ _ _ _ _ Hg), H200, H429, H503, bind_print.
  eexists. split; [reflexivity|]. exact Hr1.
Qed.

Lemma get_or_pure a b d (w : world) :
  ProcessKaggle.get_or a b (JObj d) w = (Returns (get_or a b d), w).
Proof.
  unfold ProcessKaggle.get_or, get_or, py_or. cbn [py_get py_get_default].
  unfold bind. cbn [ret]. unfold Dict.get.
  now destruct (truthy (Dict.get_default a JNull d)).
Qed.

Lemma get_kaggle_dataset_card_dead ref w r rest :
  replies w = Reply r :: rest -> dead_catalog r = true ->
  exists w',
    ProcessKaggle.get_kaggle_dataset_card ref w
    = (Returns (JStr EmptyString), w')
    /\ replies w' = rest.
Proof.
  intros Hw Hd. unfold ProcessKaggle.get_kaggle_dataset_card.
  destruct (robust_request_dead (ProcessKaggle.view_url ref) w r rest Hw Hd)
    as (w1 & Hq & Hr).
  rewrite (bind_returns _ _ _ _ _ Hq). eexists. split; [reflexivity|].
  exact Hr.
Qed.

Lemma get_kaggle_dataset_files_dead ref w r rest :
  replies w = Reply r :: rest -> dead_catalog r = true ->
  exists w',
    ProcessKaggle.get_kaggle_dataset_files ref w = (Returns [], w')
    /\ replies w' = rest.
Proof.
  intros Hw Hd. unfold ProcessKaggle.get_kaggle_dataset_files.
  destruct (robust_request_dead (ProcessKaggle.view_url ref) w r rest Hw Hd)
    as (w1 & Hq & Hr).
  rewrite (bind_returns _ _ _ _ _ Hq). eexists. split; [reflexivity|].
  exact Hr.
Qed.

Lemma time_sleep_1 w :
  time_sleep 1 w = (Returns tt, emit (Slept 1) (set_clock (clock w + 1) w)).
Proof. reflexivity. Qed.

(** A dataset whose two fetches are answered by dead replies is kept,
    with an empty card and no files. *)
Lemma process_kaggle_dataset_dead d w r1 r2 rest :
  replies w = Reply r1 :: Reply r2 :: rest ->
  dead_catalog r1 = true -> dead_catalog r2 = true ->
  exists w',
    ProcessKaggle.process_kaggle_dataset (JObj d) w
    = (Returns (enriched_kaggle d (JStr EmptyString) []), w')
    /\ replies w' = rest.
Proof.
  intros Hw Hd1 Hd2. unfold ProcessKaggle.process_kaggle_dataset.
  cbn [py_get_default]. unfold bind at 1. cbn [ret]. rewrite bind_print.
  match goal with
  | |- context [ProcessKaggle.get_kaggle_dataset_card ?ref] =>
      match goal with
      | |- context [bind _ _ ?w0] =>
          destruct (get_kaggle_dataset_card_dead ref w0 r1
                      (Reply r2 :: rest) Hw Hd1) as (w1 & Hq1 & Hr1)
      end
  end.
  rewrite (bind_returns _ _ _ _ _ Hq1).
  rewrite (bind_returns _ _ _ _ _ (time_sleep_1 w1)).
  match goal with
  | |- context [ProcessKaggle.get_kaggle_dataset_files ?ref] =>
      match goal with
      | |- context [bind _ _ ?w0] =>
          destruct (get_kaggle_dataset_files_dead ref w0 r2 rest)
            as (w2 & Hq2 & Hr2); [exact Hr1|exact Hd2|]
      end
  end.
  rewrite (bind_returns _ _ _ _ _ Hq2).
  rewrite (bind_returns _ _ _ _ _ (get_or_pure _ _ d w2)).
  rewrite (bind_returns _ _ _ _ _ (get_or_pure _ _ d w2)).
  rewrite (bind_returns _ _ _ _ _ (get_or_pure _ _ d w2)).
  eexists. split; [reflexivity|]. exact Hr2.
Qed.

Lemma collect_dead completed :
  forall ds rs acc w rest,
  Forall (fun i => (i < length ds)%nat) completed ->
  length rs = (2 * length completed)%nat ->
  Forall (fun r => dead_catalog r = true) rs ->
  replies w = map Reply rs ++ rest ->
  exists out w',
    ProcessKaggle.collect completed (map JObj ds) acc w
    = (Returns (acc ++ out), w')
    /\ replies w' = rest
    /\ Forall2 (fun i r => exists d,
                    ds !! i = Some d
                    /\ r = enriched_kaggle d (JStr EmptyString) [])
         completed out.
Proof.
  induction completed as [|i completed IH];
    intros ds rs acc w rest Hi Hlen Hd Hw.
  - destruct rs; [|discriminate]. exists [], w. cbn. rewrite app_nil_r.
    repeat split; auto.
  - destruct rs as [|r1 [|r2 rs]]; try (cbn in Hlen; lia).
    inversion Hi as [|? ? Hi1 Hi2]; subst.
    inversion Hd as [|? ? Hd1 Hd2]; subst.
    inversion Hd2 as [|? ? Hd2' Hd3]; subst.
    cbn [map app] in Hw. cbn [ProcessKaggle.collect].
    destruct (lookup_lt_is_Some_2 ds i Hi1) as [d Hdi].
    rewrite list_lookup_fmap, Hdi. cbn [fmap option_fmap option_map].
    destruct (process_kaggle_dataset_dead d w r1 r2 (map Reply rs ++ rest)
                Hw Hd1 Hd2') as (w1 & Hp & Hr1).
    unfold bind at 1, try_except. rewrite (bind_returns _ _ _ _ _ Hp).
    cbn [ret].
    destruct (IH ds rs (acc ++ [enriched_kaggle d (JStr EmptyString) []])
                w1 rest) as (out & w' & Hrun & Hr' & HF); try assumption;
      try (cbn in Hlen; lia).
    eexists (_ :: out), w'. split; [|split; [exact Hr'|]].
    + rewrite Hrun, <- app_assoc. reflexivity.
    + constructor; [|exact HF]. exists d. auto.
Qed.


(** *** What the pool logs *)

Lemma pool_failures_app t1 t2 :
  pool_failures (t1 ++ t2) = (pool_failures t1 + pool_failures t2)%nat.
Proof.
  induction t1 as [|e t1 IH]; [reflexivity|].
  destruct e; cbn; rewrite ?IH; lia.
Qed.

Lemma quiet_ret {A} (a : A) : quiet (ret a).
Proof. intros w o w' [= <- <-]. reflexivity. Qed.

Lemma quiet_raise {A} e : quiet (raise (A := A) e).
Proof. intros w o w' [= <- <-]. reflexivity. Qed.

Lemma quiet_hang {A} : quiet (hang (A := A)).
Proof. intros w o w' [= <- <-]. reflexivity. Qed.

Lemma quiet_print msg :
  Py.startswith msg "[ERROR] Dataset processing failed" = false ->
  quiet (print msg).
Proof.
  intros H w o w' [= <- <-]. cbn. rewrite pool_failures_app. cbn.
  rewrite H. lia.
Qed.

Lemma quiet_time_time : quiet time_time.
Proof. intros w o w' [= <- <-]. reflexivity. Qed.

Lemma quiet_replies_left : quiet replies_left.
Proof. intros w o w' [= <- <-]. reflexivity. Qed.

Lemma quiet_get_last_request_time : quiet ProcessKaggle.get_last_request_time.
Proof. intros w o w' [= <- <-]. reflexivity. Qed.

Lemma quiet_put_last_request_time t :
  quiet (ProcessKaggle.put_last_request_time t).
Proof. intros w o w' [= <- <-]. reflexivity. Qed.

Lemma quiet_time_sleep s : quiet (time_sleep s).
Proof.
  intros w o w'. unfold time_sleep. destruct (s <? 0); intros [= <- <-];
    [reflexivity|]. cbn. rewrite pool_failures_app. cbn. lia.
Qed.

Lemma quiet_requests_get url params : quiet (requests_get url params).
Proof.
  intros w o w'. unfold requests_get.
  destruct (replies w) as [|[r|e] rest]; intros [= <- <-]; cbn;
    rewrite pool_failures_app; cbn; lia.
Qed.

Lemma quiet_or_raise {A} e (o : option A) : quiet (or_raise e o).
Proof. destruct o; [apply quiet_ret|apply quiet_raise]. Qed.

Lemma quiet_bind {A B} (m : Net A) (k : A -> Net B) :
  quiet m -> (forall a, quiet (k a)) -> quiet (bind m k).
Proof.
  intros Hm Hk w o w'. unfold bind.
  destruct (m w) as [[a|e|] w1] eqn:E; intros H.
  - apply Hm in E. apply Hk in H. congruence.
  - injection H as <- <-. now apply Hm in E.
  - injection H as <- <-. now apply Hm in E.
Qed.

Lemma quiet_try {A} (m : Net A) class h :
  quiet m -> (forall e, quiet (h e)) -> quiet (try_except m class h).
Proof.
  intros Hm Hh w o w'. unfold try_except.
  destruct (m w) as [[a|e|] w1] eqn:E; intros H.
  - injection H as <- <-. now apply Hm in E.
  - destruct (class e).
    + apply Hm in E. apply Hh in H. congruence.
    + injection H as <- <-. now apply Hm in E.
  - injection H as <- <-. now apply Hm in E.
Qed.

Lemma quiet_if {A} (b : bool) (m1 m2 : Net A) :
  quiet m1 -> quiet m2 -> quiet (if b then m1 else m2).
Proof. now destruct b. Qed.

Lemma quiet_header_int name dflt hs : quiet (header_int name dflt hs).
Proof.
  unfold header_int. destruct (header name hs);
    [apply quiet_or_raise|apply quiet_ret].
Qed.

Lemma quiet_py_get_default k dflt v :
  quiet (py_get_default (S := world) k dflt v).
Proof. destruct v; try apply quiet_raise. apply quiet_ret. Qed.

Lemma quiet_py_get k v : quiet (py_get (S := world) k v).
Proof. apply quiet_py_get_default. Qed.

Lemma quiet_py_iter v : quiet (py_iter (S := world) v).
Proof. destruct v; try apply quiet_raise; apply quiet_ret. Qed.

Lemma quiet_py_index k v : quiet (py_index (S := world) k v).
Proof. destruct v; try apply quiet_raise. apply quiet_or_raise. Qed.

Lemma quiet_response_json r : quiet (response_json (S := world) r).
Proof. apply quiet_or_raise. Qed.

Create HintDb quiet.
#[local] Hint Resolve quiet_ret quiet_raise quiet_hang quiet_time_time
  quiet_replies_left quiet_get_last_request_time
  quiet_put_last_request_time quiet_time_sleep quiet_requests_get
  quiet_or_raise quiet_header_int quiet_py_get_default quiet_py_get
  quiet_py_iter quiet_py_index quiet_response_json : quiet.

Ltac quiet :=
  repeat first
    [ solve [auto with quiet]
    | apply quiet_print; reflexivity
    | apply quiet_bind; [|intros ?]
    | apply quiet_try; [|intros ?]
    | apply quiet_if
    | match goal with
      | |- quiet (match ?x with _ => _ end) => destruct x
      end ].

Lemma quiet_rate_limited_get url : quiet (ProcessKaggle.rate_limited_get url).
Proof. unfold ProcessKaggle.rate_limited_get. quiet. Qed.

Lemma quiet_request_loop fuel : forall url delay attempt,
  quiet (ProcessKaggle.request_loop fuel url delay attempt).
Proof.
  induction fuel as [|fuel IH]; intros url delay attempt;
    cbn [ProcessKaggle.request_loop]; [apply quiet_hang|].
  pose proof quiet_rate_limited_get. quiet.
Qed.

Lemma quiet_robust_request url delay :
  quiet (ProcessKaggle.robust_request url delay).
Proof.
  unfold ProcessKaggle.robust_request. pose proof quiet_request_loop. quiet.
Qed.

Lemma quiet_names files : quiet (ProcessKaggle.names files).
Proof.
  induction files as [|file files IH]; cbn [ProcessKaggle.names]; quiet.
Qed.

(** A worker of the pool logs no worker as failed: its lines are others. *)
Lemma quiet_process_kaggle_dataset ds :
  quiet (ProcessKaggle.process_kaggle_dataset ds).
Proof.
  unfold ProcessKaggle.process_kaggle_dataset,
    ProcessKaggle.get_kaggle_dataset_card,
    ProcessKaggle.get_kaggle_dataset_files, ProcessKaggle.get_or.
  pose proof quiet_robust_request. pose proof quiet_names. quiet.
Qed.

(** Every task handed over by the pool is in the output or in the log. *)
Lemma collect_accounts completed :
  forall datasets acc w out w',
  Forall (fun i => (i < length datasets)%nat) completed ->
  ProcessKaggle.collect completed datasets acc w = (Returns out, w') ->
  (length out + pool_failures (trace w')
   = length acc + length completed + pool_failures (trace w))%nat.
Proof.
  induction completed as [|i completed IH];
    intros datasets acc w out w' Hi H.
  - injection H as <- <-. cbn. lia.
  - inversion Hi as [|? ? Hi1 Hi2]; subst. cbn [ProcessKaggle.collect] in H.
    destruct (lookup_lt_is_Some_2 datasets i Hi1) as [ds Hds].
    rewrite Hds in H. bind_inv H. apply (IH _ _ _ _ _ Hi2) in H.
    unfold try_except in E.
    destruct ((r <- ProcessKaggle.process_kaggle_dataset ds ;; ret (Some r))
                w) as [[x|e|] w1] eqn:Ep; [| |discriminate].
    + injection E as <- <-.
      assert (Hq : pool_failures (trace w1) = pool_failures (trace w)).
      { pose proof (quiet_process_kaggle_dataset ds) as Hq.
        revert Ep. apply quiet_bind; [exact Hq|intros ?; apply quiet_ret]. }
      unfold bind in Ep.
      destruct (ProcessKaggle.process_kaggle_dataset ds w) as [[r|?|] ?];
        try discriminate.
      injection Ep as <- <-. rewrite length_app in H. cbn in H |- *.
      lia.
    + assert (Hq : pool_failures (trace w1) = pool_failures (trace w)).
      { pose proof (quiet_process_kaggle_dataset ds) as Hq.
        revert Ep. apply quiet_bind; [exact Hq|intros ?; apply quiet_ret]. }
      cbn in E. injection E as <- <-. cbn [trace emit] in H.
      rewrite pool_failures_app, app_nil_r in H. cbn in H |- *. lia.
Qed.

(** *** The stages *)

Lemma collect_nothing completed : forall processed_datasets w,
  ProcessKaggle.collect completed [] processed_datasets w
  = (Returns processed_datasets, w).
Proof.
  induction completed as [|i completed IH]; intros processed_datasets w;
    [reflexivity|].
  cbn [ProcessKaggle.collect]. rewrite lookup_nil. apply IH.
Qed.

Lemma try_returns_load name content v s class (h : exn -> Sys json) :
  files s !! name = Some content -> json_loads content = Some v ->
  try_except (json_load name) class h s = (Returns v, s).
Proof.
  intros Hf Hj. unfold try_except.
  now rewrite (json_load_found _ _ _ _ Hf Hj).
Qed.

Lemma lift_print msg s :
  lift (print msg) s
  = (Returns tt,
     {| outside := emit (Printed msg) (outside s); files := files s |}).
Proof. reflexivity. Qed.

(** The code-host enrichment on a listing that is not empty, every readme
    fetch settled by its first reply. *)
Lemma clean_github_data_settled KEYWORD s listing ds rs rest :
  files s !! ("github_repos_" +:+ KEYWORD +:+ ".json") = Some listing ->
  json_loads listing = Some (JArr (map JObj ds)) ->
  ds <> [] ->
  length rs = length ds ->
  Forall (fun d => license_ok d = true) ds ->
  Forall (fun r => settled r = true) rs ->
  replies (outside s) = map Reply rs ++ rest ->
  exists s',
    ProcessGithub.clean_github_data KEYWORD s = (Returns tt, s')
    /\ files s'
       = <["processed_github_repos_" +:+ KEYWORD +:+ ".json"
           := json_dumps 4
                (JArr (zip_with (fun d r => enriched_repo d (readme_of r))
                         ds rs))]> (files s)
    /\ replies (outside s') = rest.
Proof.
  intros Hf Hj Hne Hlen Hl Hs Hw. unfold ProcessGithub.clean_github_data.
  rewrite (bind_returns _ _ _ _ _ (try_returns_load _ _ _ _ _ _ Hf Hj)).
  replace (truthy (JArr (map JObj ds))) with true
    by (destruct ds; [contradiction|reflexivity]).
  cbn [py_len]. unfold bind at 1. cbn [ret].
  rewrite (bind_returns _ _ _ _ _ (lift_print _ _)).
  match goal with
  | |- context [bind _ _ ?s0] =>
      destruct (process_each_github_settled ds rs 1
                  (Z.of_nat (length (map JObj ds))) "ghp_xxx" []
                  (outside s0) rest Hlen Hl Hs Hw) as (w' & Hrun & Hr);
      assert (Hrun' : ProcessGithub.process_repositories
                        (JArr (map JObj ds)) "ghp_xxx" (outside s0)
                      = (Returns (zip_with
                                    (fun d r => enriched_repo d (readme_of r))
                                    ds rs), w')) by exact Hrun
  end.
  rewrite (bind_returns _ _ _ _ _ (lift_returns _ _ _ _ Hrun')).
  unfold ProcessGithub.save_processed_repositories, json_dump, write_file,
    bind, lift, print. cbn.
  eexists. split; [reflexivity|]. split; [reflexivity|]. exact Hr.
Qed.

(** On an empty listing the code-host and the hub enrichment write
    nothing; the competition-catalog enrichment writes the empty list. *)
Lemma clean_github_data_nothing KEYWORD s listing :
  files s !! ("github_repos_" +:+ KEYWORD +:+ ".json") = Some listing ->
  json_loads listing = Some (JArr []) ->
  exists msg,
    ProcessGithub.clean_github_data KEYWORD s
    = (Returns tt,
       {| outside := emit (Printed msg) (outside s); files := files s |}).
Proof.
  intros Hf Hj. unfold ProcessGithub.clean_github_data.
  rewrite (bind_returns _ _ _ _ _ (try_returns_load _ _ _ _ _ _ Hf Hj)).
  eexists. reflexivity.
Qed.

Lemma clean_huggingface_data_nothing KEYWORD s listing :
  files s !! ("huggingface_datasets_" +:+ KEYWORD +:+ ".json")
  = Some listing ->
  json_loads listing = Some (JArr []) ->
  exists msg,
    ProcessHuggingface.clean_huggingface_data KEYWORD s
    = (Returns tt,
       {| outside := emit (Printed msg) (outside s); files := files s |}).
Proof.
  intros Hf Hj. unfold ProcessHuggingface.clean_huggingface_data.
  rewrite (bind_returns _ _ _ _ _ (try_returns_load _ _ _ _ _ _ Hf Hj)).
  eexists. reflexivity.
Qed.

(** The competition-catalog enrichment on a readable listing and a pool
    that returns. *)
Lemma clean_kaggle_data_saves KEYWORD completed s listing tasks out w' :
  files s !! ("kaggle_datasets_" +:+ KEYWORD +:+ ".json") = Some listing ->
  json_loads listing = Some (JArr tasks) ->
  ProcessKaggle.collect completed tasks [] (outside s) = (Returns out, w') ->
  exists s',
    ProcessKaggle.clean_kaggle_data KEYWORD completed s = (Returns tt, s')
    /\ files s'
       = <["processed_kaggle_" +:+ KEYWORD +:+ ".json"
           := json_dumps 4 (JArr out)]> (files s).
Proof.
  intros Hf Hj Hrun.
  unfold ProcessKaggle.clean_kaggle_data,
    ProcessKaggle.process_kaggle_datasets_file.
  unfold bind at 1, try_except at 1.
  rewrite (bind_returns _ _ _ _ _ (json_load_found _ _ _ _ Hf Hj)).
  cbn [ret py_iter]. unfold bind at 1. cbn [ret].
  rewrite (bind_returns _ _ _ _ _ (lift_returns _ _ _ _ Hrun)).
  unfold try_except, json_dump, write_file, bind, lift, print. cbn.
  eexists. split; reflexivity.
Qed.

(** The hub enrichment on a listing that is not empty, every fetch
    answered by a final failure. *)
Lemma clean_huggingface_data_dead KEYWORD s listing ds rs rest :
  files s !! ("huggingface_datasets_" +:+ KEYWORD +:+ ".json")
  = Some listing ->
  json_loads listing = Some (JArr (map JObj ds)) ->
  ds <> [] ->
  length rs = (2 * length ds)%nat ->
  Forall (fun d => exists license, forall w0 : world,
              ProcessHuggingface.extract_license
                (Dict.get_default "tags" (JArr []) d) w0
              = (Returns license, w0)) ds ->
  Forall (fun r => dead_hub r = true) rs ->
  replies (outside s) = map Reply rs ++ rest ->
  exists out s',
    ProcessHuggingface.clean_huggingface_data KEYWORD s = (Returns tt, s')
    /\ files s'
       = <["processed_huggingface_" +:+ KEYWORD +:+ ".json"
           := json_dumps 2 (JArr out)]> (files s)
    /\ Forall2 (fun d r => exists license,
                    r = JObj [("id", Dict.get "id" d); ("license", license);
                              ("dataset_card", JNull);
                              ("files", JArr [])]) ds out.
Proof.
  intros Hf Hj Hne Hlen Hl Hd Hw.
  unfold ProcessHuggingface.clean_huggingface_data.
  rewrite (bind_returns _ _ _ _ _ (try_returns_load _ _ _ _ _ _ Hf Hj)).
  replace (truthy (JArr (map JObj ds))) with true
    by (destruct ds; [contradiction|reflexivity]).
  cbn [py_len]. unfold bind at 1. cbn [ret].
  rewrite (bind_returns _ _ _ _ _ (lift_print _ _)).
  match goal with
  | |- context [bind _ _ ?s0] =>
      destruct (process_each_huggingface_dead ds rs 1
                  (Z.of_nat (length (map JObj ds))) [] (outside s0) rest
                  Hlen Hl Hd Hw) as (out & w' & Hrun & Hr & HF);
      assert (Hrun' : ProcessHuggingface.process_datasets
                        (JArr (map JObj ds)) (outside s0)
                      = (Returns out, w')) by exact Hrun
  end.
  rewrite (bind_returns _ _ _ _ _ (lift_returns _ _ _ _ Hrun')).
  unfold ProcessHuggingface.save_to_json, json_dump, write_file,
    bind, lift, print. cbn.
  eexists out, _. split; [reflexivity|]. split; [reflexivity|exact HF].
Qed.

End Enrichment.


Section Conservation.
Context {lib : Library}.


End Conservation.


(** ** Idempotence of the stages *)

Lemma put_put out wr1 wr2 fs :
  put out wr2 (put out wr1 fs)
  = put out (match wr2 with Some c => Some c | None => wr1 end) fs.
Proof.
  destruct wr2 as [c2|], wr1 as [c1|]; cbn; try reflexivity.
  apply insert_insert_eq.
Qed.

Lemma put_agrees out wr fs fs0 :
  (forall n, n <> out -> fs !! n = fs0 !! n) ->
  forall n, n <> out -> put out wr fs !! n = put out wr fs0 !! n.
Proof.
  intros H n Hn. destruct wr as [c|]; cbn; [|auto].
  rewrite !lookup_insert_ne by congruence. auto.
Qed.

Lemma replaces_ret {A} out (a : A) : replaces out (ret a).
Proof. intros s. exists (Returns a), (outside s), None. reflexivity. Qed.

Lemma replaces_raise {A} out e : replaces (A := A) out (raise e).
Proof. intros s. exists (Raises e), (outside s), None. reflexivity. Qed.

Lemma replaces_lift {A} out (m : Net A) : replaces out (lift m).
Proof.
  intros s. destruct (m (outside s)) as [r o'] eqn:E.
  exists r, o', None. intros fs' _. unfold lift. cbn. now rewrite E.
Qed.

Lemma replaces_read out name : name <> out -> replaces out (read_file name).
Proof.
  intros Hne s. unfold read_file.
  destruct (files s !! name) as [c|] eqn:E.
  - exists (Returns c), (outside s), None. intros fs' H. cbn.
    now rewrite (H name Hne), E.
  - exists (Raises FileNotFoundError), (outside s), None. intros fs' H. cbn.
    now rewrite (H name Hne), E.
Qed.

Lemma replaces_write out content : replaces out (write_file out content).
Proof.
  intros s. exists (Returns tt), (emit (Wrote out) (outside s)), (Some content).
  reflexivity.
Qed.

Lemma replaces_or_raise {A} out e (o : option A) : replaces out (or_raise e o).
Proof. destruct o; [apply replaces_ret|apply replaces_raise]. Qed.

Lemma replaces_bind {A B} out (m : Sys A) (k : A -> Sys B) :
  replaces out m -> (forall a, replaces out (k a)) -> replaces out (bind m k).
Proof.
  intros Hm Hk s. destruct (Hm s) as (r & o1 & wr1 & H1).
  destruct r as [a|e|].
  - destruct (Hk a {| outside := o1; files := put out wr1 (files s) |})
      as (r2 & o2 & wr2 & H2). cbn in H2.
    exists r2, o2, (match wr2 with Some c => Some c | None => wr1 end).
    intros fs' Hfs. unfold bind. rewrite (H1 fs' Hfs).
    rewrite (H2 (put out wr1 fs')) by now apply put_agrees.
    now rewrite put_put.
  - exists (Raises e), o1, wr1. intros fs' Hfs. unfold bind.
    now rewrite (H1 fs' Hfs).
  - exists Hangs, o1, wr1. intros fs' Hfs. unfold bind.
    now rewrite (H1 fs' Hfs).
Qed.

Lemma replaces_try {A} out (m : Sys A) class h :
  replaces out m -> (forall e, replaces out (h e)) ->
  replaces out (try_except m class h).
Proof.
  intros Hm Hh s. destruct (Hm s) as (r & o1 & wr1 & H1).
  destruct r as [a|e|].
  - exists (Returns a), o1, wr1. intros fs' Hfs. unfold try_except.
    now rewrite (H1 fs' Hfs).
  - destruct (class e) eqn:Ec.
    + destruct (Hh e {| outside := o1; files := put out wr1 (files s) |})
        as (r2 & o2 & wr2 & H2). cbn in H2.
      exists r2, o2, (match wr2 with Some c => Some c | None => wr1 end).
      intros fs' Hfs. unfold try_except. rewrite (H1 fs' Hfs), Ec.
      rewrite (H2 (put out wr1 fs')) by now apply put_agrees.
      now rewrite put_put.
    + exists (Raises e), o1, wr1. intros fs' Hfs. unfold try_except.
      now rewrite (H1 fs' Hfs), Ec.
  - exists Hangs, o1, wr1. intros fs' Hfs. unfold try_except.
    now rewrite (H1 fs' Hfs).
Qed.

Lemma replaces_if {A} out (b : bool) (m1 m2 : Sys A) :
  replaces out m1 -> replaces out m2 -> replaces out (if b then m1 else m2).
Proof. now destruct b. Qed.

(** A stage that replaces its output is idempotent. *)
Lemma replaces_idempotent out (stage : Sys unit) :
  replaces out stage -> idempotent stage.
Proof.
  intros H s. destruct (H s) as (r & o' & wr & Hrun).
  assert (H1 : stage s = (r, {| outside := o'; files := put out wr (files s) |})).
  { destruct s as [o fs]. apply (Hrun fs). auto. }
  rewrite H1. unfold restarted. cbn [snd files].
  rewrite (Hrun (put out wr (files s))).
  - cbn [snd files]. rewrite put_put. now destruct wr.
  - intros n Hn. destruct wr as [c|]; cbn; [|reflexivity].
    now apply lookup_insert_ne.
Qed.

Lemma replaces_py_len out v : replaces out (py_len (S := system) v).
Proof. destruct v; try apply replaces_raise; apply replaces_ret. Qed.

Lemma replaces_py_iter out v : replaces out (py_iter (S := system) v).
Proof. destruct v; try apply replaces_raise; apply replaces_ret. Qed.

Ltac replaces :=
  repeat first
    [ apply replaces_ret
    | apply replaces_raise
    | apply replaces_lift
    | apply replaces_or_raise
    | apply replaces_py_len
    | apply replaces_py_iter
    | apply replaces_write
    | apply replaces_read; first [assumption | discriminate]
    | apply replaces_bind; [|intros ?]
    | apply replaces_try; [|intros ?]
    | apply replaces_if
    | match goal with
      | |- replaces _ (match ?x with _ => _ end) => destruct x
      end ].

Section Idempotence.
Context {lib : Library}.

Lemma search_github_replaces KEYWORD :
  replaces ("github_repos_" +:+ KEYWORD +:+ ".json")
    (CrawlGithub.search_github KEYWORD).
Proof.
  unfold CrawlGithub.search_github, CrawlGithub.save_repositories_to_file,
    json_dump. replaces.
Qed.

Lemma search_huggingface_replaces KEYWORD :
  replaces ("huggingface_datasets_" +:+ KEYWORD +:+ ".json")
    (CrawlHuggingface.search_huggingface KEYWORD).
Proof.
  unfold CrawlHuggingface.search_huggingface,
    CrawlHuggingface.save_datasets_to_file, json_dump. replaces.
Qed.

Lemma search_kaggle_replaces KEYWORD :
  replaces ("kaggle_datasets_" +:+ KEYWORD +:+ ".json")
    (CrawlKaggle.search_kaggle KEYWORD).
Proof.
  unfold CrawlKaggle.search_kaggle, CrawlKaggle.save_datasets_to_file,
    json_dump. replaces.
Qed.

Lemma clean_github_data_replaces KEYWORD :
  replaces ("processed_github_repos_" +:+ KEYWORD +:+ ".json")
    (ProcessGithub.clean_github_data KEYWORD).
Proof.
  unfold ProcessGithub.clean_github_data,
    ProcessGithub.save_processed_repositories, json_dump, json_load.
  replaces.
Qed.

Lemma clean_huggingface_data_replaces KEYWORD :
  replaces ("processed_huggingface_" +:+ KEYWORD +:+ ".json")
    (ProcessHuggingface.clean_huggingface_data KEYWORD).
Proof.
  unfold ProcessHuggingface.clean_huggingface_data,
    ProcessHuggingface.save_to_json, json_dump, json_load. replaces.
Qed.

Lemma clean_kaggle_data_replaces KEYWORD completed :
  replaces ("processed_kaggle_" +:+ KEYWORD +:+ ".json")
    (ProcessKaggle.clean_kaggle_data KEYWORD completed).
Proof.
  unfold ProcessKaggle.clean_kaggle_data,
    ProcessKaggle.process_kaggle_datasets_file, json_dump, json_load.
  replaces.
Qed.

Lemma filter_github_replaces input output key dataset_info :
  input <> output ->
  replaces output
    (FineFilterGithub.filter_github input output key dataset_info).
Proof.
  intros Hne. unfold FineFilterGithub.filter_github,
    FineFilterGithub.process_repos_file, json_dump, json_load. replaces.
Qed.

Lemma filter_huggingface_replaces input output key dataset_info :
  input <> output ->
  replaces output
    (FineFilterHuggingface.filter_huggingface input output key dataset_info).
Proof.
  intros Hne. unfold FineFilterHuggingface.filter_huggingface,
    FineFilterHuggingface.process_datasets_file, json_dump, json_load.
  replaces.
Qed.

Lemma filter_kaggle_replaces input output key dataset_info :
  input <> output ->
  replaces output
    (FineFilterKaggle.filter_kaggle input output key dataset_info).
Proof.
  intros Hne. unfold FineFilterKaggle.filter_kaggle,
    FineFilterKaggle.process_kaggle_datasets_file, json_dump, json_load.
  replaces.
Qed.

Lemma check_github_replaces KEYWORD :
  replaces ("violations_github_" +:+ KEYWORD +:+ ".json")
    (ComplianceGithub.check_github KEYWORD).
Proof.
  unfold ComplianceGithub.check_github,
    ComplianceGithub.save_violations_to_file, json_dump, json_load.
  replaces.
Qed.

Lemma check_huggingface_replaces KEYWORD :
  replaces ("violations_huggingface_" +:+ KEYWORD +:+ ".json")
    (ComplianceHuggingface.check_huggingface KEYWORD).
Proof.
  unfold ComplianceHuggingface.check_huggingface,
    ComplianceHuggingface.save_violations_to_file, json_dump, json_load.
  replaces.
Qed.

Lemma original_license_formalization_replaces {texts : Texts} st :
  replaces (Agent.profile_name (RepresentativeTerm st))
    (Agent.original_license_formalization st).
Proof.
  assert (Hne : LicenseTermExtract.LICENSE_TERMS
                <> Agent.profile_name (RepresentativeTerm st)).
  { unfold LicenseTermExtract.LICENSE_TERMS, Agent.profile_name.
    rewrite app_cons. discriminate. }
  unfold Agent.original_license_formalization,
    LicenseTermExtract.extract_license_terms, LicenseTermExtract.py_keys,
    py_index, json_dump, json_load.
  replaces.
Qed.

End Idempotence.

(** C5, as stated, fails for the pooled enrichment: the records are
    appended as the workers complete. A second run on the same input and
    the same replies in which the second worker completes first writes the
    records in the other order. *)
Lemma C5_completion_order_changes_the_artifact :
  let first := snd (ProcessKaggle.clean_kaggle_data (lib := fragment) "BRSET"
                      [0%nat; 1%nat] two_datasets) in
  let second := snd (ProcessKaggle.clean_kaggle_data (lib := fragment) "BRSET"
                       [1%nat; 0%nat] (restarted two_datasets first)) in
  files (restarted two_datasets first) !! "kaggle_datasets_BRSET.json"
  = files two_datasets !! "kaggle_datasets_BRSET.json"
  /\ (json_loads (Library := fragment)
        <$> files first !! "processed_kaggle_BRSET.json")
     = Some (Some (JArr [enriched_kaggle [("ref", JStr "lab/brset")]
                           (JStr EmptyString) [];
                         enriched_kaggle [("ref", JStr "lab/retina")]
                           (JStr EmptyString) []]))
  /\ (json_loads (Library := fragment)
        <$> files second !! "processed_kaggle_BRSET.json")
     = Some (Some (JArr [enriched_kaggle [("ref", JStr "lab/retina")]
                           (JStr EmptyString) [];
                         enriched_kaggle [("ref", JStr "lab/brset")]
                           (JStr EmptyString) []]))
  /\ files second !! "processed_kaggle_BRSET.json"
     <> files first !! "processed_kaggle_BRSET.json".
Proof.
  cbv zeta. repeat split; try (vm_compute; reflexivity).
  vm_compute. discriminate.
Qed.

Section Stages.
Context {lib : Library}.

(** C5, amended. Stage idempotence. Each stage, run a second time in the
    same outside world (the same replies of the mocked dependency) on the
    files the first run left, leaves the same files: it reads no output of
    its own and replaces the artifact it writes. This holds of the three
    searches, the three enrichments, the three classifications, the
    license formalization and the two compliance merges; for the pooled
    competition-catalog enrichment it holds when the workers complete in
    the same order in both runs. *)
Theorem C5_stage_idempotence (KEYWORD : string) :
  idempotent (CrawlGithub.search_github KEYWORD)
  /\ idempotent (CrawlHuggingface.search_huggingface KEYWORD)
  /\ idempotent (CrawlKaggle.search_kaggle KEYWORD)
  /\ idempotent (ProcessGithub.clean_github_data KEYWORD)
  /\ idempotent (ProcessHuggingface.clean_huggingface_data KEYWORD)
  /\ (forall completed,
      idempotent (ProcessKaggle.clean_kaggle_data KEYWORD completed))
  /\ (forall input output key dataset_info,
      input <> output ->
      idempotent (FineFilterGithub.filter_github input output key
                    dataset_info)
      /\ idempotent (FineFilterHuggingface.filter_huggingface input output
                       key dataset_info)
      /\ idempotent (FineFilterKaggle.filter_kaggle input output key
                       dataset_info))
  /\ idempotent (ComplianceGithub.check_github KEYWORD)
  /\ idempotent (ComplianceHuggingface.check_huggingface KEYWORD)
  /\ (forall (texts : Texts) (st : State),
      idempotent (Agent.original_license_formalization st)).
Proof.
  repeat split; intros;
    eauto using replaces_idempotent, original_license_formalization_replaces,
      search_github_replaces,
      search_huggingface_replaces, search_kaggle_replaces,
      clean_github_data_replaces, clean_huggingface_data_replaces,
      clean_kaggle_data_replaces, filter_github_replaces,
      filter_huggingface_replaces, filter_kaggle_replaces,
      check_github_replaces, check_huggingface_replaces.
Qed.

End Stages.

Lemma C5_witness :
  "processed_github_repos_BRSET.json" <> "final_processed_repos_BRSET.json"
  /\ let stage := FineFilterGithub.filter_github (lib := fragment)
                    "processed_github_repos_BRSET.json"
                    "final_processed_repos_BRSET.json" "sk-xxx"
                    sample_dataset_info in
     let first := snd (stage classification_input) in
     files (snd (stage (restarted classification_input first)))
     = files first
     /\ (json_loads (Library := fragment)
           <$> files first !! "final_processed_repos_BRSET.json")
        = Some (Some (JArr [JObj [("name", JStr "brset-seg");
                                  ("full_name", JStr "lab/brset-seg");
                                  ("downstream_usage", verdict true "x")]])).
Proof.
  assert (Hne : "processed_github_repos_BRSET.json"
                <> "final_processed_repos_BRSET.json") by discriminate.
  split; [exact Hne|]. cbv zeta. split.
  - exact (proj1 (proj1 (proj2 (proj2 (proj2 (proj2 (proj2 (proj2
             (C5_stage_idempotence (lib := fragment) "BRSET")))))))
             "processed_github_repos_BRSET.json"
             "final_processed_repos_BRSET.json" "sk-xxx" sample_dataset_info
             Hne) classification_input).
  - vm_compute. reflexivity.
Defined.

(** ** A missing input artifact *)

Section Missing.
Context {lib : Library}.

Lemma json_load_missing name s :
  files s !! name = None -> json_load name s = (Raises FileNotFoundError, s).
Proof.
  intros H. unfold json_load, bind, read_file. now rewrite H.
Qed.

(** The enrichment and the classification stages log a missing input and
    end without a result and without an error. *)
Lemma clean_github_data_missing KEYWORD s :
  files s !! ("github_repos_" +:+ KEYWORD +:+ ".json") = None ->
  ProcessGithub.clean_github_data KEYWORD s
  = (Returns tt,
     {| outside :=
          emit (Printed "No repository data to process.")
            (emit (Printed ("[ERROR] Failed to load " +:+ "github_repos_"
                            +:+ KEYWORD +:+ ".json"))
               (outside s));
        files := files s |}).
Proof.
  intros H. unfold ProcessGithub.clean_github_data, bind at 1, try_except.
  now rewrite (json_load_missing _ _ H).
Qed.

Lemma clean_huggingface_data_missing KEYWORD s :
  files s !! ("huggingface_datasets_" +:+ KEYWORD +:+ ".json") = None ->
  ProcessHuggingface.clean_huggingface_data KEYWORD s
  = (Returns tt,
     {| outside :=
          emit (Printed "No datasets to process.")
            (emit (Printed "[ERROR] Failed to load input file") (outside s));
        files := files s |}).
Proof.
  intros H.
  unfold ProcessHuggingface.clean_huggingface_data, bind at 1, try_except.
  now rewrite (json_load_missing _ _ H).
Qed.

Lemma clean_kaggle_data_missing KEYWORD completed s :
  files s !! ("kaggle_datasets_" +:+ KEYWORD +:+ ".json") = None ->
  ProcessKaggle.clean_kaggle_data KEYWORD completed s
  = (Returns tt,
     {| outside :=
          emit (Printed ("[ERROR] Failed to load " +:+ "kaggle_datasets_"
                         +:+ KEYWORD +:+ ".json"))
            (outside s);
        files := files s |}).
Proof.
  intros H. unfold ProcessKaggle.clean_kaggle_data,
    ProcessKaggle.process_kaggle_datasets_file, bind at 1, try_except,
    bind at 1.
  now rewrite (json_load_missing _ _ H).
Qed.

Lemma filter_github_missing input output key dataset_info s :
  files s !! input = None ->
  FineFilterGithub.filter_github input output key dataset_info s
  = (Returns tt,
     {| outside := emit (Printed ("Error loading " +:+ input)) (outside s);
        files := files s |}).
Proof.
  intros H. unfold FineFilterGithub.filter_github,
    FineFilterGithub.process_repos_file, bind at 1, try_except, bind at 1.
  now rewrite (json_load_missing _ _ H).
Qed.

Lemma filter_huggingface_missing input output key dataset_info s :
  files s !! input = None ->
  FineFilterHuggingface.filter_huggingface input output key dataset_info s
  = (Returns tt,
     {| outside := emit (Printed ("Error loading " +:+ input)) (outside s);
        files := files s |}).
Proof.
  intros H. unfold FineFilterHuggingface.filter_huggingface,
    FineFilterHuggingface.process_datasets_file, bind at 1, try_except,
    bind at 1.
  now rewrite (json_load_missing _ _ H).
Qed.

Lemma filter_kaggle_missing input output key dataset_info s :
  files s !! input = None ->
  FineFilterKaggle.filter_kaggle input output key dataset_info s
  = (Returns tt,
     {| outside := emit (Printed ("Error loading " +:+ input)) (outside s);
        files := files s |}).
Proof.
  intros H. unfold FineFilterKaggle.filter_kaggle,
    FineFilterKaggle.process_kaggle_datasets_file, bind at 1, try_except,
    bind at 1.
  now rewrite (json_load_missing _ _ H).
Qed.

(** The compliance stages open their inputs unguarded. *)
Lemma check_github_missing KEYWORD s :
  files s !! ("extracted_dataset_info_with_license_analysis_"
              +:+ KEYWORD +:+ ".json") = None
  \/ ((exists content info,
          files s !! ("extracted_dataset_info_with_license_analysis_"
                      +:+ KEYWORD +:+ ".json") = Some content
          /\ json_loads content = Some info)
      /\ files s !! ("final_processed_repos_" +:+ KEYWORD +:+ ".json")
         = None) ->
  ComplianceGithub.check_github KEYWORD s = (Raises FileNotFoundError, s).
Proof.
  intros [H|[(content & info & Hc & Hi) H]];
    unfold ComplianceGithub.check_github, bind at 1.
  - now rewrite (json_load_missing _ _ H).
  - unfold json_load at 1, bind at 1, read_file. rewrite Hc, Hi.
    cbn [or_raise ret]. unfold bind at 1.
    now rewrite (json_load_missing _ _ H).
Qed.

Lemma check_huggingface_missing KEYWORD s :
  files s !! ("extracted_dataset_info_with_license_analysis_"
              +:+ KEYWORD +:+ ".json") = None
  \/ ((exists content info,
          files s !! ("extracted_dataset_info_with_license_analysis_"
                      +:+ KEYWORD +:+ ".json") = Some content
          /\ json_loads content = Some info)
      /\ files s !! ("final_processed_huggingface_" +:+ KEYWORD +:+ ".json")
         = None) ->
  ComplianceHuggingface.check_huggingface KEYWORD s
  = (Raises FileNotFoundError, s).
Proof.
  intros [H|[(content & info & Hc & Hi) H]];
    unfold ComplianceHuggingface.check_huggingface, bind at 1.
  - now rewrite (json_load_missing _ _ H).
  - unfold json_load at 1, bind at 1, read_file. rewrite Hc, Hi.
    cbn [or_raise ret]. unfold bind at 1.
    now rewrite (json_load_missing _ _ H).
Qed.

End Missing.

(** C4. Missing input artifact. The claim holds for the enrichment and the
    classification stages and fails for the compliance stages: without the
    classified artifact (or the license profile) [check_github] and
    [check_huggingface] end in [FileNotFoundError], where the enrichment of
    the same keyword logs the missing file and returns. *)
Theorem C4_compliance_raises_on_missing_artifact :
  ComplianceGithub.check_github (lib := fragment) "BRSET" no_artifacts
  = (Raises FileNotFoundError, no_artifacts)
  /\ ComplianceGithub.check_github (lib := fragment) "BRSET"
       only_the_license_profile
     = (Raises FileNotFoundError, only_the_license_profile)
  /\ ComplianceHuggingface.check_huggingface (lib := fragment) "BRSET"
       only_the_license_profile
     = (Raises FileNotFoundError, only_the_license_profile)
  /\ fst (ProcessGithub.clean_github_data (lib := fragment) "BRSET"
            no_artifacts) = Returns tt
  /\ trace (outside (snd (ProcessGithub.clean_github_data (lib := fragment)
                            "BRSET" no_artifacts)))
     = [Printed "[ERROR] Failed to load github_repos_BRSET.json";
        Printed "No repository data to process."]
  /\ fst (FineFilterGithub.filter_github (lib := fragment)
            "processed_github_repos_BRSET.json"
            "final_processed_repos_BRSET.json" "sk-xxx" sample_dataset_info
            no_artifacts) = Returns tt.
Proof.
  split; [|split; [|split]].
  - apply (check_github_missing (lib := fragment) "BRSET" no_artifacts).
    left. vm_compute. reflexivity.
  - apply (check_github_missing (lib := fragment) "BRSET"
             only_the_license_profile).
    right. split; [|vm_compute; reflexivity].
    exists (Json.dumps 2 (JObj license_profile)), (JObj license_profile).
    split; vm_compute; reflexivity.
  - apply (check_huggingface_missing (lib := fragment) "BRSET"
             only_the_license_profile).
    right. split; [|vm_compute; reflexivity].
    exists (Json.dumps 2 (JObj license_profile)), (JObj license_profile).
    split; vm_compute; reflexivity.
  - repeat split; vm_compute; reflexivity.
Qed.

(** * Further properties of the code *)

(** ** Strings as lists of characters *)

Lemma chars_app a b :
  list_ascii_of_string (a +:+ b)
  = list_ascii_of_string a ++ list_ascii_of_string b.
Proof.
  induction a as [|c a IH]; [reflexivity|].
  rewrite app_cons. cbn. now rewrite IH.
Qed.

Lemma chars_inj a b :
  list_ascii_of_string a = list_ascii_of_string b -> a = b.
Proof.
  intros H. rewrite <- (string_of_list_ascii_of_string a),
    <- (string_of_list_ascii_of_string b). now rewrite H.
Qed.

Lemma chars_length s : length (list_ascii_of_string s) = String.length s.
Proof. induction s; cbn; congruence. Qed.

Lemma chars_take n s :
  list_ascii_of_string (Py.take n s) = take n (list_ascii_of_string s).
Proof.
  revert s; induction n as [|n IH]; intros [|c s]; cbn; try reflexivity.
  now rewrite IH.
Qed.

Lemma chars_rev_onto s acc :
  list_ascii_of_string (Py.rev_onto s acc)
  = rev (list_ascii_of_string s) ++ list_ascii_of_string acc.
Proof.
  revert acc; induction s as [|c s IH]; intros acc; cbn; [reflexivity|].
  rewrite IH. cbn. now rewrite <- app_assoc.
Qed.

Lemma chars_rev s :
  list_ascii_of_string (Py.rev s) = rev (list_ascii_of_string s).
Proof. unfold Py.rev. rewrite chars_rev_onto. cbn. apply app_nil_r. Qed.

Lemma endswith_app s p :
  Str.endswith s p = true -> exists k, s = k +:+ p.
Proof.
  unfold Str.endswith, Py.startswith. intros H.
  destruct (Py.strip_prefix (Py.rev p) (Py.rev s)) as [r|] eqn:E;
    [|discriminate].
  apply strip_prefix_Some in E. exists (Py.rev r).
  apply chars_inj. rewrite chars_app, chars_rev.
  apply (f_equal list_ascii_of_string) in E.
  rewrite chars_app, !chars_rev in E.
  apply (f_equal (@rev ascii)) in E.
  rewrite rev_app_distr, !rev_involutive in E. exact E.
Qed.

(** ** File names and their stems *)

Lemma rfind_absent c l : forall i last,
  Forall (fun x => Ascii.eqb x c = false) l -> Str.rfind c l i last = last.
Proof.
  induction l as [|x l IH]; intros i last H; cbn; [reflexivity|].
  inversion H as [|? ? Hx Hl]; subst. rewrite Hx. now apply IH.
Qed.

Lemma rfind_last c l1 l2 : forall i last,
  Forall (fun x => Ascii.eqb x c = false) l2 ->
  Str.rfind c (l1 ++ c :: l2) i last = Some (i + length l1)%nat.
Proof.
  induction l1 as [|x l1 IH]; intros i last H; cbn.
  - rewrite Ascii.eqb_refl, rfind_absent by assumption. f_equal. lia.
  - rewrite IH by assumption. f_equal. lia.
Qed.

Lemma take_app_string a b : Py.take (String.length a) (a +:+ b) = a.
Proof.
  induction a as [|c a IH]; [now destruct b|].
  rewrite app_cons. cbn. now rewrite IH.
Qed.

(** The stem of a name that ends in [.json] is what stands before. *)
Lemma stem_json a : a <> EmptyString -> Str.stem (a +:+ ".json") = a.
Proof.
  intros Ha. unfold Str.stem. rewrite chars_app.
  change (list_ascii_of_string ".json")
    with ("."%char :: list_ascii_of_string "json").
  rewrite rfind_last by (repeat constructor).
  rewrite chars_length, length_app_string. cbn [String.length Nat.add].
  destruct a as [|c a]; [contradiction|]. cbn [String.length].
  replace ((0 <? S (String.length a))%nat
           && (S (String.length a) <? S (String.length a) + 5 - 1)%nat)
    with true.
  - apply (take_app_string (String c a)).
  - symmetry. apply andb_true_intro. split; apply Nat.ltb_lt; lia.
Qed.

Lemma infer_keyword_round_trip prefix k :
  prefix <> EmptyString ->
  Scripts.infer_keyword_from_filename prefix (prefix +:+ k +:+ ".json") = k.
Proof.
  intros Hp. unfold Scripts.infer_keyword_from_filename.
  assert (E : prefix +:+ k +:+ ".json" = (prefix +:+ k) +:+ ".json").
  { apply chars_inj. rewrite !chars_app. now rewrite app_assoc. }
  rewrite E, stem_json, strip_prefix_app; [reflexivity|].
  destruct prefix; [contradiction|discriminate].
Qed.

Lemma matches_round_trip prefix name :
  prefix <> EmptyString ->
  Scripts.matches prefix name = true ->
  prefix +:+ Scripts.infer_keyword_from_filename prefix name +:+ ".json"
  = name.
Proof.
  intros Hp H. unfold Scripts.matches in H.
  destruct (Py.strip_prefix prefix name) as [rest|] eqn:E; [|discriminate].
  apply strip_prefix_Some in E. apply endswith_app in H as [k ->].
  subst name. now rewrite infer_keyword_round_trip.
Qed.

(** ** Stripping characters *)

Lemma head_rev_last {A} (l : list A) : head (rev l) = last l.
Proof.
  destruct l as [|x l] using rev_ind; [reflexivity|].
  rewrite rev_app_distr, last_snoc. reflexivity.
Qed.

Lemma lstrip_in_split cs l :
  exists k, l = k ++ Str.lstrip_in cs l.
Proof.
  induction l as [|c l [k IH]]; [now exists []|]. cbn.
  destruct (Str.mem c cs); [|now exists []].
  exists (c :: k). cbn. now f_equal.
Qed.

Lemma lstrip_in_head cs l c :
  head (Str.lstrip_in cs l) = Some c -> Str.mem c cs = false.
Proof.
  induction l as [|x l IH]; cbn; [discriminate|].
  destruct (Str.mem x cs) eqn:E; [exact IH|].
  cbn. intros H. now inversion H; subst.
Qed.

Lemma lstrip_in_id cs l :
  (forall c, head l = Some c -> Str.mem c cs = false) ->
  Str.lstrip_in cs l = l.
Proof.
  destruct l as [|x l]; [reflexivity|]. cbn. intros H.
  now rewrite (H x eq_refl).
Qed.

Lemma rstrip_in_split cs l :
  exists k, l = Str.rstrip_in cs l ++ k.
Proof.
  unfold Str.rstrip_in. destruct (lstrip_in_split cs (rev l)) as [k Hk].
  exists (rev k). rewrite <- rev_app_distr, <- Hk. now rewrite rev_involutive.
Qed.

Lemma rstrip_in_last cs l c :
  last (Str.rstrip_in cs l) = Some c -> Str.mem c cs = false.
Proof.
  unfold Str.rstrip_in. rewrite <- head_rev_last, rev_involutive.
  apply lstrip_in_head.
Qed.

Lemma rstrip_in_id cs l :
  (forall c, last l = Some c -> Str.mem c cs = false) ->
  Str.rstrip_in cs l = l.
Proof.
  intros H. unfold Str.rstrip_in. rewrite lstrip_in_id.
  - apply rev_involutive.
  - intros c. rewrite head_rev_last. apply H.
Qed.

(** What [strip] leaves: a piece of the text that neither begins nor ends
    with one of the characters. *)
Lemma strip_in_spec cs l :
  let t := Str.rstrip_in cs (Str.lstrip_in cs l) in
  (exists a b, l = a ++ t ++ b)
  /\ (forall c, head t = Some c -> Str.mem c cs = false)
  /\ (forall c, last t = Some c -> Str.mem c cs = false).
Proof.
  cbv zeta. destruct (lstrip_in_split cs l) as [a Ha].
  destruct (rstrip_in_split cs (Str.lstrip_in cs l)) as [b Hb].
  split; [|split].
  - exists a, b. now rewrite <- Hb.
  - intros c Hc. apply (lstrip_in_head cs l). rewrite Hb.
    destruct (Str.rstrip_in cs (Str.lstrip_in cs l)); [discriminate|].
    exact Hc.
  - apply rstrip_in_last.
Qed.

(** ** [safe_name] *)

Lemma sub_runs_kept l : forall b,
  Forall (fun c => Scripts.kept c = true) (Scripts.sub_runs b l).
Proof.
  induction l as [|c l IH]; intros b; cbn; [constructor|].
  destruct (Scripts.kept c) eqn:E; [constructor; auto|].
  destruct b; [apply IH|]. constructor; [reflexivity|apply IH].
Qed.

Lemma sub_runs_id l : forall b,
  Forall (fun c => Scripts.kept c = true) l -> Scripts.sub_runs b l = l.
Proof.
  induction l as [|c l IH]; intros b H; cbn; [reflexivity|].
  inversion H as [|? ? Hc Hl]; subst. rewrite Hc. f_equal. now apply IH.
Qed.

Lemma chars_slice_to n s :
  0 <= n ->
  list_ascii_of_string (Str.slice_to n s)
  = take (Z.to_nat n) (list_ascii_of_string s).
Proof.
  intros Hn. unfold Str.slice_to.
  destruct (0 <=? n) eqn:E; [apply chars_take|]. apply Z.leb_gt in E. lia.
Qed.

Lemma safe_name_spec s maxlen :
  0 <= maxlen ->
  let t := list_ascii_of_string (Scripts.safe_name s maxlen) in
  Forall (fun c => Scripts.kept c = true) t
  /\ Z.of_nat (length t) <= maxlen
  /\ (forall c, head t = Some c -> Str.mem c "._-" = false)
  /\ (forall c, last t = Some c -> Str.mem c "._-" = false).
Proof.
  intros Hn. cbv zeta. unfold Scripts.safe_name, Str.strip.
  rewrite list_ascii_of_string_of_list_ascii, chars_slice_to by assumption.
  rewrite list_ascii_of_string_of_list_ascii.
  set (l := take (Z.to_nat maxlen)
              (Scripts.sub_runs false (list_ascii_of_string s))).
  destruct (strip_in_spec "._-" l) as ((a & b & Hab) & Hh & Hl).
  assert (Hk : Forall (fun c => Scripts.kept c = true) l)
    by (apply Forall_take, sub_runs_kept).
  assert (Hlen : (length l <= Z.to_nat maxlen)%nat)
    by (unfold l; rewrite length_take; lia).
  split; [|split; [|split]]; try assumption.
  - rewrite Hab in Hk. apply Forall_app in Hk as (_ & Hk).
    now apply Forall_app in Hk as (Hk & _).
  - rewrite Hab, !length_app in Hlen. lia.
Qed.

Lemma safe_name_fixed t maxlen :
  0 <= maxlen ->
  Forall (fun c => Scripts.kept c = true) (list_ascii_of_string t) ->
  Z.of_nat (String.length t) <= maxlen ->
  (forall c, head (list_ascii_of_string t) = Some c
             -> Str.mem c "._-" = false) ->
  (forall c, last (list_ascii_of_string t) = Some c
             -> Str.mem c "._-" = false) ->
  Scripts.safe_name t maxlen = t.
Proof.
  intros Hn Hk Hlen Hh Hl. unfold Scripts.safe_name, Str.strip.
  rewrite sub_runs_id, string_of_list_ascii_of_string by assumption.
  rewrite chars_slice_to by assumption.
  rewrite take_ge by (rewrite chars_length; lia).
  rewrite lstrip_in_id, rstrip_in_id by assumption.
  apply string_of_list_ascii_of_string.
Qed.

(** X1. [safe_name], the same in both scripts, on ASCII text and with a
    length bound that is not negative: the name it returns has only
    letters, digits, underscores, hyphens and dots, is no longer than the
    bound, neither begins nor ends with a dot, an underscore or a hyphen,
    and is left as it is when [safe_name] is applied to it again. *)
Theorem X1_safe_name_is_safe_and_stable (s : string) (maxlen : Z) :
  Str.is_ascii s = true ->
  0 <= maxlen ->
  let t := StatisticsHuggingface.safe_name s maxlen in
  StatisticsKaggleViolations.safe_name s maxlen = t
  /\ Forall (fun c => Scripts.kept c = true) (list_ascii_of_string t)
  /\ Z.of_nat (String.length t) <= maxlen
  /\ (forall c, head (list_ascii_of_string t) = Some c
                -> Str.mem c "._-" = false)
  /\ (forall c, last (list_ascii_of_string t) = Some c
                -> Str.mem c "._-" = false)
  /\ StatisticsHuggingface.safe_name t maxlen = t.
Proof.
  intros _ Hn. cbv zeta. unfold StatisticsHuggingface.safe_name,
    StatisticsKaggleViolations.safe_name.
  destruct (safe_name_spec s maxlen Hn) as (Hk & Hlen & Hh & Hl).
  rewrite chars_length in Hlen.
  repeat split; try assumption.
  now apply safe_name_fixed.
Qed.

Lemma X1_witness :
  StatisticsHuggingface.safe_name "..BRSET v2//raw.." 100 = "BRSET_v2_raw"
  /\ StatisticsHuggingface.safe_name "BRSET_v2_raw" 100 = "BRSET_v2_raw".
Proof.
  split; [vm_compute; reflexivity|].
  destruct (X1_safe_name_is_safe_and_stable "..BRSET v2//raw.." 100)
    as (_ & _ & _ & _ & _ & H); [reflexivity|lia|].
  exact H.
Defined.

(** ** Collecting the files of a directory *)

Lemma leb_total : Total (fun a b => Is_true (String.leb a b)).
Proof.
  intros a b. destruct (String.leb_total a b) as [H|H]; rewrite H; cbn; auto.
Qed.

Lemma map_fmap {A B} (f : A -> B) l : map f l = f <$> l.
Proof. induction l; cbn; congruence. Qed.

Lemma in_directory (base_dir : gmap string string) f :
  In f (map fst (map_to_list base_dir)) <-> is_Some (base_dir !! f).
Proof.
  rewrite in_map_iff. split.
  - intros ([k v] & <- & H). apply list_elem_of_In, elem_of_map_to_list in H.
    cbn. eauto.
  - intros [v H]. exists (f, v). split; [reflexivity|].
    now apply list_elem_of_In, elem_of_map_to_list.
Qed.

Lemma sorted_spec prefix (base_dir : gmap string string) :
  let files :=
    Scripts.sorted (List.filter (Scripts.matches prefix)
                      (map fst (map_to_list base_dir))) in
  Sorted (fun a b => Is_true (String.leb a b)) files
  /\ NoDup files
  /\ (forall f, In f files
                <-> is_Some (base_dir !! f)
                    /\ Scripts.matches prefix f = true).
Proof.
  cbv zeta. unfold Scripts.sorted.
  set (l := List.filter _ _).
  pose proof (merge_sort_Permutation (fun a b => Is_true (String.leb a b)) l)
    as Hp.
  split; [|split].
  - apply (@Sorted_merge_sort _ _ _ leb_total).
  - rewrite Hp. unfold l. apply NoDup_ListNoDup, List.NoDup_filter.
    apply NoDup_ListNoDup. rewrite map_fmap. apply NoDup_fst_map_to_list.
  - intros f. rewrite <- in_directory, <- filter_In. fold l.
    rewrite <- !list_elem_of_In. now rewrite Hp.
Qed.

(** X2. The files [collect_files] returns name their keyword. With a
    keyword, the one file looked for is named after [safe_name] of the
    keyword, and [infer_keyword_from_filename] gives that name back; the
    file is returned when the directory has it, and [FileNotFoundError] is
    raised when not. Without a keyword, every file of the directory named
    [final_processed_huggingface_*.json] is returned once, in the order of
    the names, each being the prefix, its inferred keyword and [.json]; when
    there is none, [FileNotFoundError] is raised, so the list returned is
    never empty. *)
Theorem X2_collected_files_name_their_keyword {S} (keyword : string)
  (base_dir : gmap string string) (w : S) :
  Str.is_ascii keyword = true ->
  let run := StatisticsHuggingface.collect_files keyword base_dir w in
  let infer := StatisticsHuggingface.infer_keyword_from_filename in
  (keyword <> EmptyString ->
   let fname := StatisticsHuggingface.prefix
                +:+ StatisticsHuggingface.safe_name keyword 100
                +:+ ".json" in
   run = (match base_dir !! fname with
          | Some _ => Returns [fname]
          | None => Raises FileNotFoundError
          end, w)
   /\ infer fname = StatisticsHuggingface.safe_name keyword 100)
  /\ (keyword = EmptyString ->
      (exists files,
          run = (Returns files, w)
          /\ files <> []
          /\ Sorted (fun a b => Is_true (String.leb a b)) files
          /\ NoDup files
          /\ (forall f, In f files
                        <-> is_Some (base_dir !! f)
                            /\ Scripts.matches StatisticsHuggingface.prefix f
                               = true)
          /\ Forall (fun f => StatisticsHuggingface.prefix +:+ infer f
                              +:+ ".json" = f) files)
      \/ (run = (Raises FileNotFoundError, w)
          /\ forall f, is_Some (base_dir !! f) ->
                       Scripts.matches StatisticsHuggingface.prefix f
                       = false)).
Proof.
  intros _. cbv zeta. split.
  - intros Hk. split.
    + unfold StatisticsHuggingface.collect_files, Scripts.collect_files.
      destruct (String.eqb_spec keyword EmptyString) as [E|_];
        [contradiction|]. cbn [negb].
      unfold StatisticsHuggingface.safe_name.
      now destruct (base_dir !! _).
    + apply infer_keyword_round_trip. discriminate.
  - intros ->.
    unfold StatisticsHuggingface.collect_files, Scripts.collect_files.
    cbn [String.eqb negb].
    destruct (sorted_spec StatisticsHuggingface.prefix base_dir)
      as (Hs & Hn & Hi).
    destruct (Scripts.sorted _) as [|f files] eqn:E.
    + right. split; [reflexivity|]. intros f Hf.
      destruct (Scripts.matches StatisticsHuggingface.prefix f) eqn:Hm;
        [|reflexivity].
      destruct (proj2 (Hi f) (conj Hf Hm)).
    + left. exists (f :: files). repeat split; try assumption.
      * discriminate.
      * apply Hi; assumption.
      * apply Hi; assumption.
      * intros [H1 H2]. apply Hi. auto.
      * apply Forall_forall. intros g Hg.
        apply list_elem_of_In, Hi in Hg as [_ Hg].
        apply matches_round_trip; [discriminate|exact Hg].
Qed.

Lemma X2_witness :
  let base_dir : gmap string string :=
    list_to_map [("final_processed_huggingface_BRSET_v2.json", "[]");
                 ("notes.txt", "x")] in
  StatisticsHuggingface.collect_files "BRSET v2" base_dir tt
  = (Returns ["final_processed_huggingface_BRSET_v2.json"], tt)
  /\ StatisticsHuggingface.infer_keyword_from_filename
       "final_processed_huggingface_BRSET_v2.json" = "BRSET_v2".
Proof.
  cbv zeta.
  destruct (X2_collected_files_name_their_keyword "BRSET v2"
              (list_to_map [("final_processed_huggingface_BRSET_v2.json",
                             "[]"); ("notes.txt", "x")]) tt eq_refl)
    as [H _].
  destruct (H ltac:(discriminate)) as [H1 H2].
  split; [rewrite H1; vm_compute; reflexivity|exact H2].
Defined.

(** ** Counting *)

Lemma count_fine_countable {S} items : forall fine (w : S),
  Forall (fun r => countable r = true) items ->
  StatisticsHuggingface.count_fine items fine w
  = (Returns (fine + length (List.filter marked items))%nat, w).
Proof.
  induction items as [|r items IH]; intros fine w H.
  - cbn. now rewrite Nat.add_0_r.
  - inversion H as [|? ? Hr Hi]; subst. cbn [List.filter].
    destruct r as [| | | | |d];
      try (cbn; rewrite IH by assumption; reflexivity).
    cbn [StatisticsHuggingface.count_fine].
    unfold countable, readable, marked, flag_of, usage_of in *.
    unfold bind at 1. cbn [ret].
    destruct (Dict.get_default "downstream_usage" (JObj []) d) as [| | | | |u];
      try discriminate.
    cbn [py_get_default]. unfold bind at 1. cbn [ret].
    rewrite IH by assumption.
    destruct (truthy (Dict.get_default "is_downstream" (JBool false) u));
      cbn [length]; do 2 f_equal; lia.
Qed.

Lemma count_fine_raises {S} before : forall d after fine (w : S),
  Forall (fun r => countable r = true) before ->
  readable (JObj d) = false ->
  StatisticsHuggingface.count_fine (before ++ JObj d :: after) fine w
  = (Raises AttributeError, w).
Proof.
  induction before as [|r before IH]; intros d after fine w H Hd.
  - cbn [app StatisticsHuggingface.count_fine].
    unfold readable, usage_of in Hd. unfold bind at 1. cbn [ret].
    destruct (Dict.get_default "downstream_usage" (JObj []) d);
      try discriminate; reflexivity.
  - inversion H as [|? ? Hr Hi]; subst. cbn [app].
    destruct r as [| | | | |d0];
      try (cbn; rewrite IH by assumption; reflexivity).
    cbn [StatisticsHuggingface.count_fine].
    unfold countable, readable, usage_of in Hr.
    unfold bind at 1. cbn [ret].
    destruct (Dict.get_default "downstream_usage" (JObj []) d0);
      try discriminate.
    cbn [py_get_default]. unfold bind at 1. cbn [ret].
    now apply IH.
Qed.

Lemma count_coarse_and_fine_countable {S} items (w : S) :
  Forall (fun r => countable r = true) items ->
  StatisticsHuggingface.count_coarse_and_fine
    (StatisticsHuggingface.normalize_items (JArr items)) w
  = (Returns (length items, length (List.filter marked items)), w).
Proof.
  intros H. unfold StatisticsHuggingface.count_coarse_and_fine. cbn.
  unfold bind. now rewrite count_fine_countable.
Qed.

Lemma readable_countable r : readable r = true -> countable r = true.
Proof. now destruct r. Qed.

(** X3. What [count_coarse_and_fine] counts. On the items of a JSON
    list in which every dict has an object (or nothing) under
    [downstream_usage], [coarse] is the number of items and [fine] the
    number of dicts whose [is_downstream] is truthy, items that are not
    dicts being passed over; so [fine] is never more than [coarse]. A
    dict whose [downstream_usage] is anything but an object ends the count
    in [AttributeError]. *)
Theorem X3_coarse_and_fine_counts {S} (items : list json) (w : S) :
  Forall (fun r => countable r = true) items ->
  StatisticsHuggingface.count_coarse_and_fine
    (StatisticsHuggingface.normalize_items (JArr items)) w
  = (Returns (length items, length (List.filter marked items)), w)
  /\ (length (List.filter marked items) <= length items)%nat
  /\ (forall d after,
      readable (JObj d) = false ->
      StatisticsHuggingface.count_coarse_and_fine
        (StatisticsHuggingface.normalize_items
           (JArr (items ++ JObj d :: after))) w
      = (Raises AttributeError, w)).
Proof.
  intros H. split; [|split].
  - now apply count_coarse_and_fine_countable.
  - apply filter_length_le.
  - intros d after Hd.
    unfold StatisticsHuggingface.count_coarse_and_fine. cbn.
    unfold bind. now rewrite count_fine_raises.
Qed.

Lemma X3_witness :
  StatisticsHuggingface.count_coarse_and_fine
    (StatisticsHuggingface.normalize_items (JArr (JNum 7 :: five_records)))
    tt
  = (Returns (6%nat, 2%nat), tt).
Proof.
  destruct (X3_coarse_and_fine_counts (JNum 7 :: five_records) tt)
    as (H & _).
  - repeat constructor.
  - exact H.
Defined.

Section ScriptCounts.
Context {lib : Library}.

(** X4. The script and the hub compliance stage read the same artifact
    and agree on it. On records whose verdicts can be read, and with an
    answer of the violation check for each marked one, the hub merge
    returns as many records as [count_coarse_and_fine] counts as
    [fine]. *)
Theorem X4_fine_is_the_size_of_the_violation_report (records : list json)
  (info : json) (w : world) :
  Forall (fun r => readable r = true) records ->
  (length (List.filter marked records) <= length (completions w))%nat ->
  exists out w',
    ComplianceHuggingface.analyze_downstream_usage (JArr records) info w
    = (Returns out, w')
    /\ StatisticsHuggingface.count_coarse_and_fine
         (StatisticsHuggingface.normalize_items (JArr records)) w
       = (Returns (length records, length out), w).
Proof.
  intros Hr Hc.
  destruct (analyze_each_huggingface records 1
              (Z.of_nat (length records)) info [] w Hr Hc)
    as (out & w' & Hout & HF).
  exists out, w'. split.
  - unfold ComplianceHuggingface.analyze_downstream_usage.
    cbn [py_len py_iter]. unfold bind at 1. cbn [ret].
    unfold bind at 1. cbn [ret]. exact Hout.
  - apply Forall2_length in HF. rewrite <- HF.
    apply count_coarse_and_fine_countable.
    eapply Forall_impl; [exact Hr|]. apply readable_countable.
Qed.

End ScriptCounts.

Lemma X4_witness :
  exists out w',
    ComplianceHuggingface.analyze_downstream_usage (lib := fragment)
      (JArr five_records) (JObj license_profile) (world_with [] two_answers)
    = (Returns out, w')
    /\ length out = 2%nat.
Proof.
  destruct (X4_fine_is_the_size_of_the_violation_report (lib := fragment)
              five_records (JObj license_profile)
              (world_with [] two_answers))
    as (out & w' & H1 & H2).
  - repeat constructor.
  - cbn. lia.
  - exists out, w'. split; [exact H1|].
    vm_compute in H2. now inversion H2.
Defined.

(** ** Counting violations by rule *)

Lemma increment_RULES (f : string -> Z) r :
  existsb (String.eqb r) StatisticsKaggleViolations.RULES = true ->
  StatisticsKaggleViolations.increment r
    (map (fun k => (k, f k)) StatisticsKaggleViolations.RULES)
  = map (fun k => (k, f k + (if String.eqb r k then 1 else 0)))
      StatisticsKaggleViolations.RULES.
Proof.
  cbn [existsb StatisticsKaggleViolations.RULES]. intros H.
  repeat (apply orb_prop in H as [H|H];
          [apply String.eqb_eq in H; subst r; cbn;
           repeat f_equal; lia|]).
  discriminate.
Qed.

Lemma in_RULES_Some v r :
  StatisticsKaggleViolations.in_RULES v = Some r ->
  v = JStr r
  /\ existsb (String.eqb r) StatisticsKaggleViolations.RULES = true.
Proof.
  destruct v; try discriminate. unfold StatisticsKaggleViolations.in_RULES.
  destruct (existsb _ _) eqn:E; [|discriminate].
  intros H. inversion H; subst. auto.
Qed.

Lemma in_RULES_None v k :
  StatisticsKaggleViolations.in_RULES v = None ->
  In k StatisticsKaggleViolations.RULES ->
  eq_str v k = false.
Proof.
  destruct v; try reflexivity. unfold StatisticsKaggleViolations.in_RULES.
  destruct (existsb _ _) eqn:E; [discriminate|]. intros _ Hk. cbn.
  destruct (String.eqb_spec s k) as [->|]; [|reflexivity].
  assert (existsb (String.eqb k) StatisticsKaggleViolations.RULES = true)
    by (apply existsb_exists; exists k; split;
        [assumption|apply String.eqb_refl]).
  congruence.
Qed.

Lemma count_entries_RULES vs : forall f : string -> Z,
  StatisticsKaggleViolations.count_entries vs
    (map (fun k => (k, f k)) StatisticsKaggleViolations.RULES)
  = map (fun k => (k, f k + Z.of_nat (length (List.filter (breaks k) vs))))
      StatisticsKaggleViolations.RULES.
Proof.
  induction vs as [|v vs IH]; intros f.
  - cbn [StatisticsKaggleViolations.count_entries List.filter length].
    apply map_ext. intros k. f_equal. lia.
  - destruct v as [| | | | |e];
      try (cbn [StatisticsKaggleViolations.count_entries List.filter breaks];
           apply IH).
    cbn [StatisticsKaggleViolations.count_entries].
    destruct (StatisticsKaggleViolations.in_RULES (Dict.get "rule" e))
      as [r|] eqn:E.
    + apply in_RULES_Some in E as [Er Hr].
      rewrite increment_RULES, IH by assumption.
      apply map_ext. intros k. cbn [List.filter breaks]. rewrite Er.
      cbn [eq_str]. destruct (String.eqb r k); cbn [length]; f_equal; lia.
    + rewrite IH. apply map_ext_in. intros k Hk.
      cbn [List.filter breaks]. now rewrite (in_RULES_None _ _ E Hk).
Qed.

Lemma count_items_RULES items : forall f : string -> Z,
  StatisticsKaggleViolations.count_items items
    (map (fun k => (k, f k)) StatisticsKaggleViolations.RULES)
  = map (fun k => (k, f k + Z.of_nat (length (List.filter (breaks k)
                                            (violation_entries items)))))
      StatisticsKaggleViolations.RULES.
Proof.
  induction items as [|repo items IH]; intros f.
  - cbn [StatisticsKaggleViolations.count_items violation_entries flat_map
         List.filter length].
    apply map_ext. intros k. f_equal. lia.
  - destruct repo as [| | | | |d];
      try (cbn [StatisticsKaggleViolations.count_items violation_entries
                flat_map app]; apply IH).
    cbn [StatisticsKaggleViolations.count_items violation_entries flat_map].
    destruct (py_or (Dict.get "violations" d) (JArr [])) as [| | | |vs|];
      try (cbn [app]; apply IH).
    rewrite count_entries_RULES, IH. apply map_ext. intros k.
    fold (violation_entries items).
    rewrite List.filter_app, length_app. f_equal. lia.
Qed.

Lemma count_rule_violations_spec items :
  StatisticsKaggleViolations.count_rule_violations items
  = map (fun r => (r, Z.of_nat (length (List.filter (breaks r)
                                         (violation_entries items)))))
      StatisticsKaggleViolations.RULES.
Proof.
  unfold StatisticsKaggleViolations.count_rule_violations.
  rewrite (count_items_RULES items (fun _ => 0)). apply map_ext.
  intros k. reflexivity.
Qed.

(** X5. [count_rule_violations] counts entries, by rule. For each of
    the four rules of [RULES], in their order, the counter holds the number
    of entries with that rule among the dict entries of the [violations]
    lists of the dict items; entries with any other rule, entries and items
    that are not dicts, and [violations] that are not lists are passed
    over. The counts of two lists of items put end to end are the sums of
    their counts, rule by rule. *)
Theorem X5_violations_are_counted_by_rule (items : list json) :
  StatisticsKaggleViolations.count_rule_violations items
  = map (fun r => (r, Z.of_nat (length (List.filter (breaks r)
                                         (violation_entries items)))))
      StatisticsKaggleViolations.RULES
  /\ (forall more,
      StatisticsKaggleViolations.count_rule_violations (items ++ more)
      = add_counts (StatisticsKaggleViolations.count_rule_violations items)
          (StatisticsKaggleViolations.count_rule_violations more)).
Proof.
  split; [apply count_rule_violations_spec|]. intros more.
  rewrite !count_rule_violations_spec. unfold violation_entries.
  rewrite flat_map_app. cbn [map StatisticsKaggleViolations.RULES add_counts
    zip_with fst snd].
  rewrite !List.filter_app, !length_app, !Nat2Z.inj_add. reflexivity.
Qed.

(** ** Open-source platforms named in a text *)

(** X6. [check_open_source_intro] lists the platform names that occur
    in the text, in the order of [open_pattern] (not of their occurrence),
    joined by a comma and a space, with nothing after the last one; it
    answers [N/A] when none occurs. The search is for the lower-case names
    as they are. *)
Theorem X6_platforms_are_listed_in_a_fixed_order (content : string) :
  ComplianceOpenSource.check_open_source_intro content
  = match List.filter (fun i => Py.contains i content)
            ComplianceOpenSource.open_pattern with
    | [] => "N/A"
    | found => Py.join ", " found
    end.
Proof.
  unfold ComplianceOpenSource.check_open_source_intro.
  cbn [ComplianceOpenSource.scan ComplianceOpenSource.open_pattern
       List.filter].
  generalize (Py.contains "physionet" content),
    (Py.contains "github" content), (Py.contains "huggingface" content),
    (Py.contains "kaggle" content), (Py.contains "zenodo" content),
    (Py.contains "tfhub" content), (Py.contains "monai" content).
  intros [] [] [] [] [] [] []; vm_compute; reflexivity.
Qed.

(** ** The license terms *)

Section LicenseTerms.
Context {lib : Library} {texts : Texts}.

Lemma listed_lookup l (terms : dict) :
  LicenseTermExtract.listed (JStr l) (map fst terms)
  = Dict.mem l terms.
Proof.
  unfold Dict.mem. induction terms as [|[k v] terms IH]; [reflexivity|].
  cbn. destruct (String.eqb l k); [reflexivity|]. exact IH.
Qed.

Lemma terms_loaded s content terms :
  files s !! LicenseTermExtract.LICENSE_TERMS = Some content ->
  json_loads content = Some (JObj terms) ->
  json_load LicenseTermExtract.LICENSE_TERMS s = (Returns (JObj terms), s).
Proof.
  intros Hf Hj. unfold json_load, bind, read_file. now rewrite Hf, Hj.
Qed.

(** What the chat model's answer, or the failure of the call, becomes. *)
Lemma detect_license_rules_answer license_text w c cs :
  completions w = c :: cs ->
  LicenseTermExtract.detect_license_rules license_text w
  = (Returns (analysis_of c),
     emit (Prompted "gpt-4o" (LicenseTermExtract.prompt license_text))
       (set_completions cs w)).
Proof.
  intros Hc. unfold LicenseTermExtract.detect_license_rules, try_except,
    bind, chat_create. rewrite Hc. now destruct c.
Qed.

End LicenseTerms.

Section LicenseFormalization.
Context {lib : Library} {texts : Texts}.

Lemma extract_license_terms_known l content terms analysis s :
  files s !! LicenseTermExtract.LICENSE_TERMS = Some content ->
  json_loads content = Some (JObj terms) ->
  Dict.lookup l terms = Some analysis ->
  LicenseTermExtract.extract_license_terms (JStr l) s
  = (Returns (JObj [("license", JStr l); ("license_analysis", analysis)]),
     s).
Proof.
  intros Hf Hj Hl. unfold LicenseTermExtract.extract_license_terms.
  rewrite (bind_returns _ _ _ _ _ (terms_loaded _ _ _ Hf Hj)).
  cbn [LicenseTermExtract.py_keys]. unfold bind at 1. cbn [ret].
  rewrite listed_lookup. unfold Dict.mem. rewrite Hl.
  cbn [py_str py_index]. unfold bind, or_raise. now rewrite Hl.
Qed.

Lemma extract_license_terms_custom l content terms c cs s :
  files s !! LicenseTermExtract.LICENSE_TERMS = Some content ->
  json_loads content = Some (JObj terms) ->
  Dict.lookup l terms = None ->
  Py.startswith l "http" = false ->
  completions (outside s) = c :: cs ->
  LicenseTermExtract.extract_license_terms (JStr l) s
  = (Returns (JObj [("license", JStr "Custom License");
                    ("license_analysis", analysis_of c)]),
     {| outside := prompted l cs (outside s); files := files s |}).
Proof.
  intros Hf Hj Hl Hh Hc. unfold LicenseTermExtract.extract_license_terms.
  rewrite (bind_returns _ _ _ _ _ (terms_loaded _ _ _ Hf Hj)).
  cbn [LicenseTermExtract.py_keys]. unfold bind at 1. cbn [ret].
  rewrite listed_lookup. unfold Dict.mem. rewrite Hl, Hh.
  unfold bind at 1. cbn [ret]. unfold bind at 1, lift.
  rewrite (detect_license_rules_answer l (outside s) c cs Hc).
  reflexivity.
Qed.

(** X7. Where the license terms come from. With the table of known
    licenses readable as a JSON object: a license that the table lists is
    answered from the table, under its own name, without a request, a chat
    call or any other effect; a license that it does not list and that is
    not a URL is answered as [Custom License] with what one chat call
    gives, be it the JSON of the answer, a message that the answer had
    none, or the error of a failed call or of an answer without content;
    and for an unlisted URL whose page is
    answered with a status from 400 to 599 the error is raised and the
    chat model is not called. *)
Theorem X7_license_terms_by_table_or_chat_model (l content : string)
  (terms : dict) (s : system) :
  files s !! LicenseTermExtract.LICENSE_TERMS = Some content ->
  json_loads content = Some (JObj terms) ->
  (forall analysis,
      Dict.lookup l terms = Some analysis ->
      LicenseTermExtract.extract_license_terms (JStr l) s
      = (Returns (JObj [("license", JStr l);
                        ("license_analysis", analysis)]), s))
  /\ (forall c cs,
      Dict.lookup l terms = None ->
      Py.startswith l "http" = false ->
      completions (outside s) = c :: cs ->
      LicenseTermExtract.extract_license_terms (JStr l) s
      = (Returns (JObj [("license", JStr "Custom License");
                        ("license_analysis", analysis_of c)]),
         {| outside := prompted l cs (outside s); files := files s |}))
  /\ (forall r rest,
      Dict.lookup l terms = None ->
      Py.startswith l "http" = true ->
      replies (outside s) = Reply r :: rest ->
      400 <= status_code r < 600 ->
      LicenseTermExtract.extract_license_terms (JStr l) s
      = (Raises ConnectionError,
         {| outside := emit (Requested l []) (set_replies rest (outside s));
            files := files s |})).
Proof.
  intros Hf Hj. split; [|split].
  - intros analysis Hl. now apply (extract_license_terms_known l content terms).
  - intros c cs Hl Hh Hc.
    now apply (extract_license_terms_custom l content terms).
  - intros r rest Hl Hh Hr Hs.
    unfold LicenseTermExtract.extract_license_terms.
    rewrite (bind_returns _ _ _ _ _ (terms_loaded _ _ _ Hf Hj)).
    cbn [LicenseTermExtract.py_keys]. unfold bind at 1. cbn [ret].
    rewrite listed_lookup. unfold Dict.mem. rewrite Hl, Hh.
    unfold bind at 1, lift, LicenseTermExtract.extract_license_text,
      bind at 1, requests_get. rewrite Hr.
    unfold bind at 1, raise_for_status.
    replace ((400 <=? status_code r) && (status_code r <? 600)) with true
      by (symmetry; apply andb_true_intro; split;
          [apply Z.leb_le|apply Z.ltb_lt]; lia).
    reflexivity.
Qed.

End LicenseFormalization.

Lemma X7_witness :
  LicenseTermExtract.extract_license_terms (lib := fragment)
    (texts := plain_texts) (JStr "CC-BY-NC-ND-4.0") (with_license_table [])
  = (Returns (JObj [("license", JStr "CC-BY-NC-ND-4.0");
                    ("license_analysis",
                     JObj [("non_commercial", JBool true);
                           ("open_source", JBool false)])]),
     with_license_table []).
Proof.
  destruct (X7_license_terms_by_table_or_chat_model (lib := fragment)
              (texts := plain_texts) "CC-BY-NC-ND-4.0" license_table
              known_terms (with_license_table []))
    as (H & _).
  - reflexivity.
  - vm_compute. reflexivity.
  - apply H. reflexivity.
Defined.

(** ** The graph *)

Section Graph.
Context {lib : Library} {texts : Texts}.
Variable crawl_citation : string -> string -> Sys unit.
Variable check_open_source : string -> Sys unit.

Lemma formalization_custom st content terms c cs s :
  files s !! LicenseTermExtract.LICENSE_TERMS = Some content ->
  json_loads content = Some (JObj terms) ->
  Dict.lookup (License st) terms = None ->
  Py.startswith (License st) "http" = false ->
  completions (outside s) = c :: cs ->
  Agent.original_license_formalization st s
  = (Returns tt,
     formalized st (profile_of st (JStr "Custom License") (analysis_of c))
       (prompted (License st) cs (outside s)) (files s)).
Proof.
  intros Hf Hj Hl Hh Hc. unfold Agent.original_license_formalization.
  rewrite (bind_returns _ _ _ _ _
             (extract_license_terms_custom _ _ _ _ _ _ Hf Hj Hl Hh Hc)).
  reflexivity.
Qed.

(** X8. The graph on a custom license. When the license of the state
    is not in the table of known licenses and is not a URL, the first node
    asks the chat model once and writes the license profile with
    [Custom License] and whatever came of the answer as
    [license_analysis]; the second node reads that profile back. If the
    analysis is an object, the node ends in [KeyError] when it has no
    [open_source], does nothing when [open_source] is falsy, and runs the
    citation crawl and then the open-source check when it is truthy. If
    the analysis is not an object, as when the chat call failed or its
    answer had no JSON, so that the analysis is a message, the node ends in
    [TypeError]. The profile is there in all these cases. *)
Theorem X8_graph_on_a_custom_license (st : State) (content : string)
  (terms : dict) (c : chat_outcome) (cs : list chat_outcome) (s : system) :
  let profile := profile_of st (JStr "Custom License") (analysis_of c) in
  let s1 := formalized st profile (prompted (License st) cs (outside s))
              (files s) in
  files s !! LicenseTermExtract.LICENSE_TERMS = Some content ->
  json_loads content = Some (JObj terms) ->
  Dict.lookup (License st) terms = None ->
  Py.startswith (License st) "http" = false ->
  completions (outside s) = c :: cs ->
  json_loads (json_dumps 2 profile) = Some profile ->
  Agent.original_license_formalization st s = (Returns tt, s1)
  /\ Agent.graph crawl_citation check_open_source st s
     = match analysis_of c with
       | JObj analysis =>
           match Dict.lookup "open_source" analysis with
           | Some open_source =>
               if truthy open_source
               then (crawl_citation (RepresentativeTerm st) (Title st) ;;
                     check_open_source (RepresentativeTerm st)) s1
               else (Returns tt, s1)
           | None => (Raises KeyError, s1)
           end
       | _ => (Raises TypeError, s1)
       end.
Proof.
  cbv zeta. intros Hf Hj Hl Hh Hc Hrt.
  pose proof (formalization_custom st content terms c cs s Hf Hj Hl Hh Hc)
    as H1.
  split; [exact H1|]. unfold Agent.graph.
  rewrite (bind_returns _ _ _ _ _ H1). unfold Agent.compliance_citation.
  unfold json_load at 1, bind at 1, bind at 1, read_file.
  cbn [files formalized]. rewrite lookup_insert_eq. rewrite Hrt.
  cbn [or_raise ret]. cbn [profile_of py_index].
  unfold bind at 1. cbn. 
  destruct (analysis_of c) as [| | | | |analysis]; try reflexivity.
  cbn [py_index]. unfold bind at 1, or_raise.
  destruct (Dict.lookup "open_source" analysis) as [open_source|];
    [|reflexivity].
  cbn [ret]. now destruct (truthy open_source).
Qed.

End Graph.

Lemma X8_witness :
  Agent.graph (lib := fragment) (texts := plain_texts) no_crawl no_check
    brset (with_license_table [ChatFails "Connection error."])
  = (Raises TypeError,
     formalized (lib := fragment) brset
       (profile_of brset (JStr "Custom License")
          (JStr "Error calling OpenAI API: Connection error."))
       (prompted "For research use only." []
          (outside (with_license_table [ChatFails "Connection error."])))
       (files (with_license_table []))).
Proof.
  destruct (X8_graph_on_a_custom_license (lib := fragment)
              (texts := plain_texts) no_crawl no_check brset license_table
              known_terms (ChatFails "Connection error.") []
              (with_license_table [ChatFails "Connection error."]))
    as (_ & H).
  - reflexivity.
  - vm_compute. reflexivity.
  - reflexivity.
  - reflexivity.
  - reflexivity.
  - vm_compute. reflexivity.
  - exact H.
Defined.

(** ** The classification nodes of the graph *)

Lemma bind_ext {S A B} (m : M S A) (k1 k2 : A -> M S B) s :
  (forall a s', k1 a s' = k2 a s') -> bind m k1 s = bind m k2 s.
Proof. intros H. unfold bind. destruct (m s) as [[a|e|] s']; auto. Qed.

Section Nodes.
Context {lib : Library} {texts : Texts}.

Lemma dataset_info_agrees st st' :
  RepresentativeTerm st = RepresentativeTerm st' ->
  Title st = Title st' ->
  Website st = Website st' ->
  Description st = Description st' ->
  (forall repo, FineFilterGithub.build_prompt repo (Agent.dataset_info st)
                = FineFilterGithub.build_prompt repo (Agent.dataset_info st'))
  /\ (forall ds, FineFilterHuggingface.build_prompt ds (Agent.dataset_info st)
                 = FineFilterHuggingface.build_prompt ds
                     (Agent.dataset_info st'))
  /\ (forall ds, FineFilterKaggle.build_prompt ds (Agent.dataset_info st)
                 = FineFilterKaggle.build_prompt ds (Agent.dataset_info st')).
Proof.
  destruct st, st'. cbn. intros -> -> -> ->. repeat split.
Qed.


Lemma classify_each_github_agrees i1 i2 key :
  (forall repo, FineFilterGithub.build_prompt repo i1
                = FineFilterGithub.build_prompt repo i2) ->
  forall repos index total,
    FineFilterGithub.classify_each repos index total i1 key
    = FineFilterGithub.classify_each repos index total i2 key.
Proof.
  intros H repos. induction repos as [|repo rest IH]; intros index total;
    [reflexivity|].
  cbn [FineFilterGithub.classify_each].
  unfold FineFilterGithub.check_downstream_usage.
  now rewrite (H repo), (IH (index + 1) total).
Qed.

Lemma classify_each_huggingface_agrees i1 i2 key :
  (forall ds, FineFilterHuggingface.build_prompt ds i1
              = FineFilterHuggingface.build_prompt ds i2) ->
  forall datasets index total,
    FineFilterHuggingface.classify_each datasets index total i1 key
    = FineFilterHuggingface.classify_each datasets index total i2 key.
Proof.
  intros H datasets. induction datasets as [|ds rest IH];
    intros index total; [reflexivity|].
  cbn [FineFilterHuggingface.classify_each].
  unfold FineFilterHuggingface.check_downstream_usage_hf.
  now rewrite (H ds), (IH (index + 1) total).
Qed.

Lemma classify_each_kaggle_agrees i1 i2 key :
  (forall ds, FineFilterKaggle.build_prompt ds i1
              = FineFilterKaggle.build_prompt ds i2) ->
  forall datasets index total,
    FineFilterKaggle.classify_each datasets index total i1 key
    = FineFilterKaggle.classify_each datasets index total i2 key.
Proof.
  intros H datasets. induction datasets as [|ds rest IH];
    intros index total; [reflexivity|].
  cbn [FineFilterKaggle.classify_each].
  unfold FineFilterKaggle.check_downstream_usage_kaggle.
  now rewrite (H ds), (IH (index + 1) total).
Qed.

(** X9. What the classification nodes take from the state. The three
    nodes read [RepresentativeTerm], [Title], [Website] and [Description]
    and nothing else: on two states that agree on these four they do the
    same, prompt for prompt and file for file, whatever [Keywords],
    [Citation] and [License] are. The keywords are stored under a key that
    no prompt reads. *)
Theorem X9_keywords_do_not_reach_the_chat_model (st st' : State)
  (s : system) :
  RepresentativeTerm st = RepresentativeTerm st' ->
  Title st = Title st' ->
  Website st = Website st' ->
  Description st = Description st' ->
  Agent.fine_filter_github st s = Agent.fine_filter_github st' s
  /\ Agent.fine_filter_huggingface st s = Agent.fine_filter_huggingface st' s
  /\ Agent.fine_filter_kaggle st s = Agent.fine_filter_kaggle st' s.
Proof.
  intros Hr Ht Hw Hd.
  destruct (dataset_info_agrees st st' Hr Ht Hw Hd) as (Hg & Hh & Hk).
  unfold Agent.fine_filter_github, Agent.fine_filter_huggingface,
    Agent.fine_filter_kaggle. rewrite <- Hr. split; [|split].
  - unfold FineFilterGithub.filter_github, FineFilterGithub.process_repos_file.
    apply bind_ext. intros [data|] s1; [|reflexivity].
    apply bind_ext. intros items s2. apply bind_ext. intros total s3.
    now rewrite (classify_each_github_agrees _ _ Agent.OPENAI_API_KEY Hg).
  - unfold FineFilterHuggingface.filter_huggingface, FineFilterHuggingface.process_datasets_file.
    apply bind_ext. intros [data|] s1; [|reflexivity].
    apply bind_ext. intros items s2. apply bind_ext. intros total s3.
    now rewrite (classify_each_huggingface_agrees _ _ Agent.OPENAI_API_KEY Hh).
  - unfold FineFilterKaggle.filter_kaggle, FineFilterKaggle.process_kaggle_datasets_file.
    apply bind_ext. intros [data|] s1; [|reflexivity].
    apply bind_ext. intros items s2. apply bind_ext. intros total s3.
    now rewrite (classify_each_kaggle_agrees _ _ Agent.OPENAI_API_KEY Hk).
Qed.

End Nodes.

Lemma X9_witness :
  Agent.fine_filter_github (lib := fragment) brset classification_input
  = Agent.fine_filter_github (lib := fragment) brset_otherwise
      classification_input.
Proof.
  apply (X9_keywords_do_not_reach_the_chat_model (lib := fragment) brset
           brset_otherwise classification_input); reflexivity.
Defined.

(** ** The artifacts of the hub along the graph *)

Lemma replaces_elsewhere {A} out (m : Sys A) s n :
  replaces out m -> n <> out -> files (snd (m s)) !! n = files s !! n.
Proof.
  intros H Hn. destruct s as [o fs].
  destruct (H {| outside := o; files := fs |}) as (r & o' & wr & Hrun).
  specialize (Hrun fs (fun _ _ => eq_refl)). cbn in Hrun. rewrite Hrun. cbn.
  destruct wr; cbn; [apply lookup_insert_ne; congruence|reflexivity].
Qed.

Ltac names_differ :=
  let H := fresh in
  intros H;
  first
    [ repeat rewrite app_cons in H; discriminate H
    | apply (f_equal String.length) in H;
      repeat rewrite length_app_string in H; cbn in H; lia ].

Section HubArtifacts.
Context {lib : Library}.

(** X10. Along the nodes of the graph, the artifacts of the hub do not
    meet. The classification node reads
    [processed_huggingface_datasets_<term>.json], which the enrichment node
    does not write: unless that file was there before, the classification
    after the enrichment prints one line and ends, without a chat call and
    without writing. And the classification node
    writes [final_processed_datasets_<term>.json], which the compliance node
    does not read: unless [final_processed_huggingface_<term>.json] was
    there before, the compliance node after the classification ends in
    [FileNotFoundError], the license profile being readable. *)
Theorem X10_hub_artifacts_do_not_meet (st : State) (s : system) :
  let term := RepresentativeTerm st in
  (files s !! ("processed_huggingface_datasets_" +:+ term +:+ ".json")
   = None ->
   let s1 := snd (Agent.process_huggingface st s) in
   exists msg,
     Agent.fine_filter_huggingface st s1
     = (Returns tt,
        {| outside := emit (Printed msg) (outside s1);
           files := files s1 |}))
  /\ (forall content info,
      files s !! ("final_processed_huggingface_" +:+ term +:+ ".json")
      = None ->
      files s !! Agent.profile_name term = Some content ->
      json_loads content = Some info ->
      let s2 := snd (Agent.fine_filter_huggingface st s) in
      Agent.compliance_huggingface st s2 = (Raises FileNotFoundError, s2)).
Proof.
  cbv zeta. split.
  - intros H. unfold Agent.fine_filter_huggingface.
    rewrite filter_huggingface_missing.
    + eexists. reflexivity.
    + rewrite <- H. apply replaces_elsewhere
        with (out := "processed_huggingface_"
                     +:+ RepresentativeTerm st +:+ ".json").
      * apply clean_huggingface_data_replaces.
      * names_differ.
  - intros content info H Hp Hi. unfold Agent.compliance_huggingface.
    apply check_huggingface_missing. right.
    assert (Hr : replaces ("final_processed_datasets_"
                           +:+ RepresentativeTerm st +:+ ".json")
                   (Agent.fine_filter_huggingface st)).
    { apply filter_huggingface_replaces. names_differ. }
    split.
    + exists content, info. split; [|exact Hi]. rewrite <- Hp.
      apply (replaces_elsewhere _ _ _ _ Hr). names_differ.
    + rewrite <- H. apply (replaces_elsewhere _ _ _ _ Hr). names_differ.
Qed.

End HubArtifacts.

Lemma X10_witness :
  let s1 := snd (Agent.process_huggingface (lib := fragment) brset
                   hub_listing) in
  is_Some (files s1 !! "processed_huggingface_BRSET.json")
  /\ fst (Agent.fine_filter_huggingface (lib := fragment) brset s1)
     = Returns tt
  /\ files (snd (Agent.fine_filter_huggingface (lib := fragment) brset s1))
     = files s1
  /\ completions
       (outside (snd (Agent.fine_filter_huggingface (lib := fragment) brset
                        s1)))
     = completions (outside hub_listing).
Proof.
  cbv zeta.
  destruct (proj1 (X10_hub_artifacts_do_not_meet (lib := fragment) brset
                     hub_listing) eq_refl) as [msg H].
  rewrite H.
  split; [vm_compute; eauto|]. split; [reflexivity|]. split; [reflexivity|].
  vm_compute. reflexivity.
Defined.


(** ** The hub search is bounded *)

Ltac bounded_end :=
  unfold bounded; cbn; eexists; rewrite <- ?app_assoc;
  (split; [reflexivity|]);
  (split; [cbn; lia|]);
  (split; [cbn; repeat constructor|intros _; cbn; discriminate]).

Section HubSearch.
Context {lib : Library}.

Lemma attempts_bounded keyword max_retries : forall left attempt w,
  bounded left 60 w
    (CrawlHuggingface.attempts left attempt keyword max_retries w).
Proof.
  induction left as [|left IH]; intros attempt w.
  - bounded_end.
  - cbn [CrawlHuggingface.attempts]. unfold bind at 1, requests_get.
    destruct (replies w) as [|[r|e] rest] eqn:Hw.
    + unfold bounded. rewrite Hw. cbn. eexists. split; [reflexivity|]. cbn.
      split; [lia|]. split; [constructor|lia].
    + destruct (status_code r =? 200).
      * unfold bind at 1, response_json, or_raise.
        destruct (json_loads (text r)) as [items|]; [|bounded_end].
        cbn [ret]. unfold bind at 1. destruct items; bounded_end.
      * destruct (status_code r =? 429); [|bounded_end].
        assert (Hsleep : forall retry_after,
          bounded (S left) 60 w
            ((print ("[WARN] Rate limit hit (429). Sleeping "
                     +:+ Py.str_of_int (Z.min (retry_after * 2 ^ attempt) 60)
                     +:+ "s... (Attempt " +:+ Py.str_of_int (attempt + 1)
                     +:+ "/" +:+ Py.str_of_int (Z.of_nat max_retries)
                     +:+ ")") ;;
              time_sleep (Z.min (retry_after * 2 ^ attempt) 60) ;;
              CrawlHuggingface.attempts left (attempt + 1) keyword
                max_retries)
               (emit (Requested CrawlHuggingface.HUGGINGFACE_DATASETS_URL
                        [("search", keyword)]) (set_replies rest w)))).
        { intros retry_after. rewrite bind_print.
          unfold bind at 1, time_sleep.
          destruct (Z.ltb_spec (Z.min (retry_after * 2 ^ attempt) 60) 0)
            as [Hneg|Hpos]; [unfold bounded; rewrite Hw; bounded_end|].
          match goal with
          | |- context [CrawlHuggingface.attempts _ _ _ _ ?w3] =>
              destruct (IH (attempt + 1) w3) as (t & Ht & Hn & Hs & Hh)
          end.
          unfold bounded. eexists. rewrite Ht.
          cbn [trace emit set_clock set_replies].
          rewrite <- !app_assoc. split; [reflexivity|].
          rewrite requests_app, sleeps_app, length_app.
          split; [cbn; lia|]. split.
          - cbn. constructor; [lia|exact Hs].
          - intros Hl. apply Hh. rewrite Hw in Hl. cbn in *. lia. }
        unfold bind at 1, header_int.
        destruct (header "Retry-After" (headers r)) as [v|];
          [|apply Hsleep].
        unfold or_raise. destruct (Py.int_of_str v) as [n|];
          [apply Hsleep|bounded_end].
    + bounded_end.
Qed.

(** X11. The hub search is bounded, whatever it is answered. The
    search of a keyword with [max_retries] attempts makes at most
    [max_retries] requests and sleeps at most 60 seconds at a time; and it
    comes to an end, by returning or by raising, whenever at least
    [max_retries] replies are there to be had. *)
Theorem X11_hub_search_is_bounded (keyword : string)
  (hf_token : option string) (max_retries : nat) (w : world) :
  bounded max_retries 60 w
    (CrawlHuggingface.search_datasets_by_keyword keyword hf_token
       max_retries w).
Proof. apply attempts_bounded. Qed.

End HubSearch.

(** ** Pacing of the competition-catalog requests *)

Section Pacing.
Context {lib : Library}.

Lemma rate_limited_get_paced url w r rest :
  replies w = Reply r :: rest ->
  exists w',
    ProcessKaggle.rate_limited_get url w = (Returns r, w')
    /\ clock w'
       = Z.max (clock w)
           (last_request_time w + ProcessKaggle.RATE_LIMIT_INTERVAL)
    /\ last_request_time w' = clock w'
    /\ replies w' = rest
    /\ completions w' = completions w
    /\ requests (trace w') = requests (trace w) ++ [(url, [])].
Proof.
  intros Hw. unfold ProcessKaggle.rate_limited_get.
  unfold bind at 1. cbn [time_time]. unfold bind at 1.
  cbn [ProcessKaggle.get_last_request_time]. unfold bind at 1.
  destruct (Z.ltb_spec (clock w - last_request_time w)
              ProcessKaggle.RATE_LIMIT_INTERVAL) as [Hlt|Hge].
  - rewrite bind_print. unfold time_sleep.
    destruct (Z.ltb_spec (ProcessKaggle.RATE_LIMIT_INTERVAL
                          - (clock w - last_request_time w)) 0); [lia|].
    unfold bind at 1, try_except, requests_get.
    cbn [replies emit set_clock]. rewrite Hw. cbn.
    eexists. split; [reflexivity|]. cbn.
    rewrite !requests_app. cbn. rewrite !app_nil_r.
    repeat split; lia.
  - cbn [ret]. unfold bind at 1, try_except, requests_get. rewrite Hw. cbn.
    eexists. split; [reflexivity|]. cbn. rewrite requests_app. cbn.
    repeat split; lia.
Qed.

(** X12. The requests of the competition-catalog enrichment are paced.
    A call of [rate_limited_get] that is answered makes its one request
    when the clock is at the later of now and [RATE_LIMIT_INTERVAL] seconds
    after the request before, and notes that moment as the time of the
    last request; so of two calls in a row the second is made at least
    [RATE_LIMIT_INTERVAL] seconds after the first. *)
Theorem X12_catalog_requests_are_paced (url1 url2 : string) (w : world)
  (r1 r2 : response) (rest : list http_outcome) :
  replies w = Reply r1 :: Reply r2 :: rest ->
  exists w1 w2,
    ProcessKaggle.rate_limited_get url1 w = (Returns r1, w1)
    /\ clock w1
       = Z.max (clock w)
           (last_request_time w + ProcessKaggle.RATE_LIMIT_INTERVAL)
    /\ last_request_time w1 = clock w1
    /\ ProcessKaggle.rate_limited_get url2 w1 = (Returns r2, w2)
    /\ clock w1 + ProcessKaggle.RATE_LIMIT_INTERVAL <= clock w2
    /\ requests (trace w2)
       = requests (trace w) ++ [(url1, []); (url2, [])].
Proof.
  intros Hw.
  destruct (rate_limited_get_paced url1 w r1 (Reply r2 :: rest) Hw)
    as (w1 & H1 & Hc1 & Hl1 & Hr1 & _ & Hq1).
  destruct (rate_limited_get_paced url2 w1 r2 rest Hr1)
    as (w2 & H2 & Hc2 & Hl2 & Hr2 & _ & Hq2).
  exists w1, w2. repeat split; try assumption.
  - lia.
  - rewrite Hq2, Hq1, <- app_assoc. reflexivity.
Qed.

End Pacing.

Lemma X12_witness :
  exists w1 w2,
    ProcessKaggle.rate_limited_get "https://www.kaggle.com/a"
      (world_with [Reply not_found; Reply no_datasets] [])
    = (Returns not_found, w1)
    /\ ProcessKaggle.rate_limited_get "https://www.kaggle.com/b" w1
       = (Returns no_datasets, w2)
    /\ sleeps (trace w2) = [3; 3].
Proof.
  destruct (X12_catalog_requests_are_paced "https://www.kaggle.com/a"
              "https://www.kaggle.com/b"
              (world_with [Reply not_found; Reply no_datasets] [])
              not_found no_datasets [] eq_refl)
    as (w1 & w2 & H1 & _ & _ & H2 & _ & _).
  exists w1, w2. split; [exact H1|]. split; [exact H2|].
  vm_compute in H1. inversion H1; subst w1. clear H1.
  vm_compute in H2. inversion H2; subst w2. reflexivity.
Defined.

(** ** The classification keeps every record *)

Section Classification.
Context {lib : Library}.

Lemma gate_answers (build : json -> json -> Net string) model r info w c cs :
  promptable build info r ->
  completions w = c :: cs ->
  exists v w',
    (prompt <- build r info ;;
     try_except
       (content <- chat_create model prompt ;;
        output_text <- py_strip content ;;
        result <- FineFilterGithub.extract_json_from_text output_text ;;
        ret result)
       is_Exception
       (fun e => ret (FineFilterGithub.api_failure e))) w
    = (Returns v, w')
    /\ completions w' = cs.
Proof.
  intros [p Hp] Hc. rewrite (bind_returns _ _ _ _ _ (Hp w)).
  unfold try_except, bind at 1, chat_create. rewrite Hc.
  destruct c as [content| |msg]; [|cbn; eauto..].
  unfold bind at 1. cbn [py_strip ret].
  destruct (extract_json_from_text_returns (Py.strip content)
              (emit (Prompted model p) (set_completions cs w)))
    as (v & w' & H & _ & Hcs).
  rewrite (bind_returns _ _ _ _ _ H). cbn. eauto.
Qed.

Lemma classify_each_github repos : forall index total info key done w,
  Forall (promptable FineFilterGithub.build_prompt info) repos ->
  (length repos <= length (completions w))%nat ->
  exists out w',
    FineFilterGithub.classify_each repos index total info key done w
    = (Returns (done ++ out), w')
    /\ Forall2 verdict_added repos out.
Proof.
  induction repos as [|r repos IH]; intros index total info key done w Hp Hc.
  - exists [], w. cbn. rewrite app_nil_r. auto.
  - inversion Hp as [|? ? Hr Hrs]; subst.
    destruct r as [| | | | |d];
      try (destruct Hr as [p Hb]; specialize (Hb w);
           unfold FineFilterGithub.build_prompt, bind in Hb; cbn in Hb;
           discriminate Hb).
    destruct (completions w) as [|c cs] eqn:Ecs; [cbn in Hc; lia|].
    cbn [FineFilterGithub.classify_each py_get py_get_default].
    unfold bind at 1. cbn [ret]. rewrite bind_print.
    unfold FineFilterGithub.check_downstream_usage.
    match goal with
    | |- context [emit (Printed ?msg) w] =>
        destruct (gate_answers FineFilterGithub.build_prompt "gpt-4o"
                    (JObj d) info (emit (Printed msg) w) c cs Hr Ecs)
          as (v & w1 & Hv & Hcs)
    end.
    rewrite (bind_returns _ _ _ _ _ Hv).
    cbn [FineFilterGithub.py_setitem]. unfold bind at 1. cbn [ret].
    destruct (IH (index + 1) total info key
                (done ++ [JObj (Dict.set "downstream_usage" v d)]) w1 Hrs)
      as (out & w' & Hout & HF).
    { rewrite Hcs. cbn in Hc. lia. }
    exists (JObj (Dict.set "downstream_usage" v d) :: out), w'. split.
    + rewrite Hout, <- app_assoc. reflexivity.
    + constructor; [|exact HF]. exists d, v. auto.
Qed.


Lemma gate_answers_hub r info key w c cs :
  promptable FineFilterHuggingface.build_prompt info r ->
  completions w = c :: cs ->
  exists v w',
    FineFilterHuggingface.check_downstream_usage_hf r info key w
    = (Returns v, w')
    /\ completions w' = cs.
Proof.
  apply (gate_answers FineFilterHuggingface.build_prompt "gpt-4o-mini").
Qed.

Lemma gate_answers_kaggle r info key w c cs :
  promptable FineFilterKaggle.build_prompt info r ->
  completions w = c :: cs ->
  exists v w',
    FineFilterKaggle.check_downstream_usage_kaggle r info key w
    = (Returns v, w')
    /\ completions w' = cs.
Proof.
  intros [p Hp] Hc. unfold FineFilterKaggle.check_downstream_usage_kaggle.
  rewrite (bind_returns _ _ _ _ _ (Hp w)).
  unfold try_except, bind at 1, chat_create. rewrite Hc.
  destruct c as [content| |msg]; [|cbn; eauto..].
  unfold bind at 1. cbn [py_strip ret].
  destruct (extract_json_from_text_returns (Py.strip content)
              (emit (Prompted "gpt-4o-mini" p) (set_completions cs w)))
    as (v & w' & H & _ & Hcs).
  unfold FineFilterKaggle.extract_json_from_text. rewrite H. eauto.
Qed.

Lemma classify_each_huggingface datasets :
  forall index total info key done w,
  Forall (promptable FineFilterHuggingface.build_prompt info) datasets ->
  (length datasets <= length (completions w))%nat ->
  exists out w',
    FineFilterHuggingface.classify_each datasets index total info key done w
    = (Returns (done ++ out), w')
    /\ Forall2 hub_classified datasets out.
Proof.
  induction datasets as [|r datasets IH];
    intros index total info key done w Hp Hc.
  - exists [], w. cbn. rewrite app_nil_r. auto.
  - inversion Hp as [|? ? Hr Hrs]; subst.
    destruct r as [| | | | |d];
      try (destruct Hr as [p Hb]; specialize (Hb w);
           unfold FineFilterHuggingface.build_prompt, bind in Hb;
           cbn in Hb; discriminate Hb).
    destruct (completions w) as [|c cs] eqn:Ecs; [cbn in Hc; lia|].
    cbn [FineFilterHuggingface.classify_each py_get py_get_default].
    unfold bind at 1. cbn [ret]. rewrite bind_print.
    match goal with
    | |- context [emit (Printed ?msg) w] =>
        destruct (gate_answers_hub (JObj d) info key (emit (Printed msg) w)
                    c cs Hr Ecs)
          as (v & w1 & Hv & Hcs)
    end.
    rewrite (bind_returns _ _ _ _ _ Hv).
    unfold bind at 1. cbn [ret]. unfold bind at 1. cbn [ret].
    unfold bind at 1. cbn [ret].
    match goal with
    | |- context [FineFilterHuggingface.classify_each _ _ _ _ _
                    (done ++ [?r']) _] =>
        destruct (IH (index + 1) total info key (done ++ [r']) w1 Hrs)
          as (out & w' & Hout & HF);
        [rewrite Hcs; cbn in Hc; lia|];
        exists (r' :: out), w'
    end.
    split.
    + rewrite Hout, <- app_assoc. reflexivity.
    + constructor; [|exact HF]. exists d, v. auto.
Qed.

Lemma classify_each_kaggle datasets :
  forall index total info key done w,
  Forall (promptable FineFilterKaggle.build_prompt info) datasets ->
  (length datasets <= length (completions w))%nat ->
  exists out w',
    FineFilterKaggle.classify_each datasets index total info key done w
    = (Returns (done ++ out), w')
    /\ Forall2 kaggle_classified datasets out.
Proof.
  induction datasets as [|r datasets IH];
    intros index total info key done w Hp Hc.
  - exists [], w. cbn. rewrite app_nil_r. auto.
  - inversion Hp as [|? ? Hr Hrs]; subst.
    destruct r as [| | | | |d];
      try (destruct Hr as [p Hb]; specialize (Hb w);
           unfold FineFilterKaggle.build_prompt, bind in Hb;
           cbn in Hb; discriminate Hb).
    destruct (completions w) as [|c cs] eqn:Ecs; [cbn in Hc; lia|].
    cbn [FineFilterKaggle.classify_each py_get py_get_default].
    unfold bind at 1. cbn [ret]. rewrite bind_print.
    match goal with
    | |- context [emit (Printed ?msg) w] =>
        destruct (gate_answers_kaggle (JObj d) info key
                    (emit (Printed msg) w) c cs Hr Ecs)
          as (v & w1 & Hv & Hcs)
    end.
    rewrite (bind_returns _ _ _ _ _ Hv).
    unfold bind at 1. cbn [ret]. unfold bind at 1. cbn [ret].
    unfold bind at 1. cbn [ret].
    match goal with
    | |- context [FineFilterKaggle.classify_each _ _ _ _ _
                    (done ++ [?r']) _] =>
        destruct (IH (index + 1) total info key (done ++ [r']) w1 Hrs)
          as (out & w' & Hout & HF);
        [rewrite Hcs; cbn in Hc; lia|];
        exists (r' :: out), w'
    end.
    split.
    + rewrite Hout, <- app_assoc. reflexivity.
    + constructor; [|exact HF]. exists d, v. auto.
Qed.

(** X13. The classification keeps every record. When the prompt of
    every record can be built and the chat model answers, or fails, once
    for each, the loop of each of the three classification stages returns
    one record for each record it was given, in the same order: for the code
    host the record itself with its verdict put under [downstream_usage];
    for the hub a record of [id], [license], [dataset_card] and the
    verdict, so without the list of files; for the competition catalog a
    record of [ref], [title], the license name and the verdict. *)
Theorem X13_classification_keeps_every_record (records : list json)
  (info : json) (key : string) (w : world) :
  (length records <= length (completions w))%nat ->
  (Forall (promptable FineFilterGithub.build_prompt info) records ->
   exists out w',
     FineFilterGithub.classify_each records 1
       (Z.of_nat (length records)) info key [] w
     = (Returns out, w')
     /\ Forall2 verdict_added records out)
  /\ (Forall (promptable FineFilterHuggingface.build_prompt info) records ->
      exists out w',
        FineFilterHuggingface.classify_each records 1
          (Z.of_nat (length records)) info key [] w
        = (Returns out, w')
        /\ Forall2 hub_classified records out)
  /\ (Forall (promptable FineFilterKaggle.build_prompt info) records ->
      exists out w',
        FineFilterKaggle.classify_each records 1
          (Z.of_nat (length records)) info key [] w
        = (Returns out, w')
        /\ Forall2 kaggle_classified records out).
Proof.
  intros Hc. split; [|split]; intros Hp.
  - now apply (classify_each_github records 1 _ info key []).
  - now apply (classify_each_huggingface records 1 _ info key []).
  - now apply (classify_each_kaggle records 1 _ info key []).
Qed.

End Classification.

Ltac promptable_by_running build r info :=
  exists (match fst (build r info (world_with [] [])) with
          | Returns p => p
          | _ => EmptyString
          end);
  intros ?; vm_compute; reflexivity.

Lemma X13_witness :
  exists out w',
    FineFilterGithub.classify_each (lib := fragment) two_repos 1 2
      sample_dataset_info "sk-xxx" []
      (world_with [] an_answer_and_a_failure)
    = (Returns out, w')
    /\ Forall2 verdict_added two_repos out.
Proof.
  destruct (X13_classification_keeps_every_record (lib := fragment)
              two_repos sample_dataset_info "sk-xxx"
              (world_with [] an_answer_and_a_failure))
    as (H & _ & _); [cbn; lia|].
  apply H. repeat constructor;
    promptable_by_running (FineFilterGithub.build_prompt (lib := fragment))
      (repo_record "atlas" []) sample_dataset_info
    || promptable_by_running
         (FineFilterGithub.build_prompt (lib := fragment))
         (repo_record "brset-seg" []) sample_dataset_info.
Defined.

(** ** The violation report *)

Section Report.
Context {lib : Library}.

Lemma violation_report_shape record info w c cs :
  completions w = c :: cs ->
  exists w',
    ComplianceGithub.check_license_violation_with_openai record info w
    = (Returns (report_of c), w')
    /\ completions w' = cs.
Proof.
  intros Hc.
  unfold ComplianceGithub.check_license_violation_with_openai,
    ComplianceGithub.ask, try_except, bind at 1, chat_create.
  rewrite Hc. destruct c as [content| |msg]; cbn [report_of].
  2,3: eexists; split; reflexivity.
  unfold bind at 1. cbn [py_strip ret].
  destruct (String.eqb (Py.strip content) EmptyString).
  { destruct record; cbn; eexists; split; reflexivity. }
  unfold bind, try_except, or_raise.
  destruct (json_loads _) as [res|]; cbn.
  2:{ eexists. split; reflexivity. }
  destruct (ComplianceGithub.well_shaped res); cbn;
    eexists; split; reflexivity.
Qed.

Lemma report_of_shape c : ComplianceGithub.well_shaped (report_of c) = true.
Proof.
  destruct c as [content| |msg]; [|reflexivity..]. cbn [report_of].
  destruct (String.eqb (Py.strip content) EmptyString); [reflexivity|].
  destruct (json_loads _) as [res|]; [|reflexivity].
  now destruct (ComplianceGithub.well_shaped res) eqn:E.
Qed.

(** X14. What the violation check reports. Whenever the chat model
    answers or the call fails, the violation check of the code host and
    that of the hub return the same report, without raising, and it is a
    dict with [has_violation] and [violations]. On an answer with a text
    that is not blank, the report is the parse of the stripped inside of
    the first json fence of the stripped answer, or of the stripped answer
    when it has no fence, if that parses to a dict with the two fields.
    In every other case it is the report of no violation: a failed call,
    an answer without content, a blank answer, a text that does not
    parse, JSON of another shape. *)
Theorem X14_violation_report_has_its_fields (record info : json)
  (w : world) (c : chat_outcome) (cs : list chat_outcome) :
  completions w = c :: cs ->
  exists v w',
    ComplianceGithub.check_license_violation_with_openai record info w
    = (Returns v, w')
    /\ ComplianceHuggingface.check_license_violation_with_openai record
         info w
       = (Returns v, w')
    /\ ComplianceGithub.well_shaped v = true
    /\ completions w' = cs
    /\ match c with
       | Completion content =>
           let answer := Py.strip content in
           let json_str :=
             Py.strip match Re.search Re.block_at answer with
                      | Some inside => inside
                      | None => answer
                      end in
           if String.eqb answer EmptyString
           then v = ComplianceGithub.no_violation
           else match json_loads json_str with
                | Some result =>
                    if ComplianceGithub.well_shaped result
                    then v = result
                    else v = ComplianceGithub.no_violation
                | None => v = ComplianceGithub.no_violation
                end
       | NoContent | ChatFails _ => v = ComplianceGithub.no_violation
       end.
Proof.
  intros Hc.
  destruct (violation_report_shape record info w c cs Hc) as (w' & Hv & Hcs).
  exists (report_of c), w'. split; [exact Hv|]. split; [exact Hv|].
  split; [apply report_of_shape|]. split; [exact Hcs|].
  destruct c as [content| |msg]; [|reflexivity..]. cbn [report_of].
  destruct (String.eqb (Py.strip content) EmptyString); [reflexivity|].
  destruct (Re.search Re.block_at (Py.strip content));
    (destruct (json_loads _) as [res|]; [|reflexivity];
     now destruct (ComplianceGithub.well_shaped res)).
Qed.

End Report.

Lemma X14_witness :
  exists w',
    ComplianceGithub.check_license_violation_with_openai (lib := fragment)
      (repo_record "atlas" []) (JObj license_profile)
      (world_with []
         [Completion
            (Py.dq ("```json {'has_violation': true, "
                    +:+ "'violations': []} ```"))])
    = (Returns (JObj [("has_violation", JBool true); ("violations", JArr [])]),
       w').
Proof.
  destruct (X14_violation_report_has_its_fields (lib := fragment)
              (repo_record "atlas" []) (JObj license_profile)
              (world_with []
                 [Completion
                    (Py.dq ("```json {'has_violation': true, "
                            +:+ "'violations': []} ```"))])
              _ [] eq_refl)
    as (v & w' & H & _ & _ & _ & Hv).
  exists w'. rewrite H. vm_compute in Hv. now rewrite Hv.
Defined.

(** ** Paging *)

Section Paging.
Context {lib : Library}.

Lemma map_seq_S {A} (f : nat -> A) n :
  map f (seq 0 (S n)) = f 0%nat :: map (fun k => f (S k)) (seq 0 n).
Proof. cbn [seq map]. now rewrite <- seq_shift, map_map. Qed.

Lemma kaggle_requests_S keyword per_page page n :
  kaggle_requests keyword per_page page (S n)
  = (CrawlKaggle.KAGGLE_DATASETS_URL,
     [("search", keyword); ("page", Py.str_of_int page);
      ("pageSize", Py.str_of_int per_page)])
    :: kaggle_requests keyword per_page (page + 1) n.
Proof.
  unfold kaggle_requests. rewrite map_seq_S. rewrite Z.add_0_r.
  f_equal. apply map_ext. intros i.
  now replace (page + Z.of_nat (S i)) with (page + 1 + Z.of_nat i) by lia.
Qed.

Lemma crawl_pages rs : forall pages fuel keyword per_page page all_datasets
                              w rest,
  Forall2 lists rs pages ->
  Forall (fun p => p <> []) pages ->
  replies w = map Reply rs ++ rest ->
  exists w',
    CrawlKaggle.crawl (length rs + fuel) keyword per_page None page 0
      all_datasets w
    = CrawlKaggle.crawl fuel keyword per_page None
        (page + Z.of_nat (length rs)) 0 (all_datasets ++ concat pages) w'
    /\ replies w' = rest
    /\ requests (trace w')
       = requests (trace w)
         ++ kaggle_requests keyword per_page page (length rs)
    /\ sleeps (trace w') = sleeps (trace w).
Proof.
  induction rs as [|r rs IH];
    intros pages fuel keyword per_page page all_datasets w rest HF Hne Hw.
  - inversion HF; subst. exists w. cbn. rewrite Z.add_0_r, !app_nil_r. auto.
  - inversion HF as [|? items ? pages' [Hs Hj] HF']; subst.
    inversion Hne as [|? ? Hi Hne']; subst.
    cbn [length Nat.add CrawlKaggle.crawl].
    unfold bind at 1, try_except, CrawlKaggle.try_page, bind at 1,
      requests_get.
    rewrite Hw. cbn [map app]. rewrite Hs. cbn [Z.eqb Pos.eqb].
    unfold bind at 1, response_json. rewrite Hj. cbn [or_raise ret].
    destruct items as [|item items]; [contradiction|].
    cbn [truthy negb py_iter py_len]. unfold bind at 1. cbn [ret].
    unfold bind at 1. cbn [ret]. rewrite bind_print. cbn [ret].
    cbn [CrawlKaggle.past_limit].
    match goal with
    | |- context [CrawlKaggle.crawl _ _ _ _ (page + 1) 0 _ ?w1] =>
        destruct (IH pages' fuel keyword per_page (page + 1)
                    (all_datasets ++ item :: items) w1 rest HF' Hne'
                    eq_refl)
          as (w' & Hrun & Hrest & Hreq & Hsl)
    end.
    exists w'. split; [|split; [|split]].
    + rewrite Hrun. cbn [concat].
      replace (page + 1 + Z.of_nat (length rs))
        with (page + Z.of_nat (S (length rs))) by lia.
      now rewrite <- app_assoc.
    + exact Hrest.
    + rewrite Hreq. cbn [trace emit set_replies].
      rewrite !requests_app, kaggle_requests_S. cbn [requests].
      rewrite app_nil_r, <- app_assoc. reflexivity.
    + rewrite Hsl. cbn [trace emit set_replies].
      rewrite !sleeps_app. cbn [sleeps]. now rewrite !app_nil_r.
Qed.

(** X15. The search of the competition catalog returns the pages end
    to end. With no limit on the pages, and answered by successes that
    list items until one lists none, the search asks for the pages 1, 2,
    ... in turn, one request each and without sleeping, stops at the empty
    page, and returns the items of all pages in the order of the pages;
    the replies behind the empty page are left alone. *)
Theorem X15_catalog_search_returns_the_pages (rs : list response)
  (pages : list (list json)) (last : response) (rest : list http_outcome)
  (keyword kaggle_username kaggle_key : string) (per_page : Z) (w : world) :
  Forall2 lists rs pages ->
  Forall (fun p => p <> []) pages ->
  lists last [] ->
  replies w = map Reply rs ++ Reply last :: rest ->
  exists w',
    CrawlKaggle.search_datasets_by_keyword keyword kaggle_username
      kaggle_key per_page None w
    = (Returns (concat pages), w')
    /\ replies w' = rest
    /\ requests (trace w')
       = requests (trace w)
         ++ kaggle_requests keyword per_page 1 (S (length rs))
    /\ sleeps (trace w') = sleeps (trace w).
Proof.
  intros HF Hne [Hs Hj] Hw.
  unfold CrawlKaggle.search_datasets_by_keyword. cbn [CrawlKaggle.past_limit].
  unfold bind at 1, replies_left. rewrite Hw, length_app, length_map.
  cbn [length].
  replace (S (length rs + S (length rest)))
    with (length rs + S (S (length rest)))%nat by lia.
  destruct (crawl_pages rs pages (S (S (length rest))) keyword per_page 1 []
              w (Reply last :: rest) HF Hne Hw)
    as (w1 & Hrun & Hrest & Hreq & Hsl).
  rewrite Hrun. cbn [app CrawlKaggle.crawl].
  unfold bind at 1, try_except, CrawlKaggle.try_page, bind at 1,
    requests_get.
  rewrite Hrest, Hs. cbn [Z.eqb Pos.eqb].
  unfold bind at 1, response_json. rewrite Hj. cbn [or_raise ret].
  cbn [truthy negb]. rewrite bind_print. cbn [ret].
  eexists. split; [reflexivity|]. cbn [replies trace emit set_replies].
  split; [reflexivity|]. split.
  - rewrite !requests_app, Hreq. cbn [requests]. rewrite app_nil_r.
    rewrite <- app_assoc. f_equal.
    unfold kaggle_requests. rewrite seq_S, map_app. reflexivity.
  - rewrite !sleeps_app, Hsl. cbn [sleeps]. now rewrite !app_nil_r.
Qed.

End Paging.

Lemma X15_witness :
  exists w',
    CrawlKaggle.search_datasets_by_keyword (lib := fragment) "BRSET" "xxx"
      "xxx" 100 None (world_with [Reply a_page; Reply no_datasets] [])
    = (Returns [JObj [("ref", JStr "lab/brset")]], w').
Proof.
  destruct (X15_catalog_search_returns_the_pages (lib := fragment)
              [a_page] [[JObj [("ref", JStr "lab/brset")]]] no_datasets []
              "BRSET" "xxx" "xxx" 100
              (world_with [Reply a_page; Reply no_datasets] []))
    as (w' & H & _).
  - constructor; [|constructor]. split; vm_compute; reflexivity.
  - constructor; [discriminate|constructor].
  - split; vm_compute; reflexivity.
  - reflexivity.
  - exists w'. exact H.
Defined.

Section CodeHostPaging.
Context {lib : Library}.

Lemma github_requests_S keyword start_date end_date per_page page n :
  github_requests keyword start_date end_date per_page page (S n)
  = (CrawlGithub.GITHUB_SEARCH_URL,
     CrawlGithub.search_params keyword start_date end_date per_page page)
    :: github_requests keyword start_date end_date per_page (page + 1) n.
Proof.
  unfold github_requests. rewrite map_seq_S. rewrite Z.add_0_r.
  f_equal. apply map_ext. intros i.
  now replace (page + Z.of_nat (S i)) with (page + 1 + Z.of_nat i) by lia.
Qed.

(** One turn of the loop over the pages, answered by a page. *)
Lemma request_page_success params w r rest :
  replies w = Reply r :: rest ->
  status_code r = 200 ->
  (fuel <- replies_left ;; CrawlGithub.request_page fuel params) w
  = (Returns (Some r),
     emit (Requested CrawlGithub.GITHUB_SEARCH_URL params)
       (set_replies rest w)).
Proof.
  intros Hw Hs. unfold bind at 1, replies_left. rewrite Hw.
  cbn [length CrawlGithub.request_page]. unfold bind at 1, requests_get.
  rewrite Hw. unfold CrawlGithub.rate_limited. rewrite Hs. reflexivity.
Qed.

Lemma search_pages_pages rs :
  forall pages more page keyword start_date end_date per_page all_repos w
         rest,
  Forall2 lists_items rs pages ->
  Forall (fun p => p <> []) pages ->
  replies w = map Reply rs ++ rest ->
  exists w',
    CrawlGithub.search_pages (length rs + more) page keyword start_date
      end_date per_page all_repos w
    = CrawlGithub.search_pages more (page + Z.of_nat (length rs)) keyword
        start_date end_date per_page (all_repos ++ concat pages) w'
    /\ replies w' = rest
    /\ requests (trace w')
       = requests (trace w)
         ++ github_requests keyword start_date end_date per_page page
              (length rs)
    /\ sleeps (trace w') = sleeps (trace w).
Proof.
  induction rs as [|r rs IH];
    intros pages more page keyword start_date end_date per_page all_repos w
      rest HF Hne Hw.
  - inversion HF; subst. exists w. cbn. rewrite Z.add_0_r, !app_nil_r. auto.
  - inversion HF as [|? items ? pages' (Hs & body & Hj & Hitems) HF']; subst.
    inversion Hne as [|? ? Hi Hne']; subst.
    cbn [length Nat.add CrawlGithub.search_pages].
    cbn [map app] in Hw.
    pose proof (request_page_success
                  (CrawlGithub.search_params keyword start_date end_date
                     per_page page) w r _ Hw Hs) as Hpage.
    unfold bind at 1 in Hpage. unfold bind at 1.
    destruct (replies_left w) as [[fuel| |] w0] eqn:Hfuel;
      try discriminate.
    unfold bind at 1. rewrite Hpage.
    unfold bind at 1, response_json. rewrite Hj. cbn [or_raise ret].
    cbn [py_get_default]. unfold bind at 1. cbn [ret]. rewrite Hitems.
    destruct items as [|item items]; [contradiction|].
    cbn [truthy negb py_iter py_len]. unfold bind at 1. cbn [ret].
    unfold bind at 1. cbn [ret]. rewrite bind_print.
    match goal with
    | |- context [CrawlGithub.search_pages _ (page + 1) _ _ _ _ _ ?w1] =>
        destruct (IH pages' more (page + 1) keyword start_date end_date
                    per_page (all_repos ++ item :: items) w1 rest HF' Hne'
                    eq_refl)
          as (w' & Hrun & Hrest & Hreq & Hsl)
    end.
    exists w'. split; [|split; [|split]].
    + rewrite Hrun. cbn [concat].
      replace (page + 1 + Z.of_nat (length rs))
        with (page + Z.of_nat (S (length rs))) by lia.
      now rewrite <- app_assoc.
    + exact Hrest.
    + rewrite Hreq. cbn [trace emit set_replies].
      rewrite !requests_app, github_requests_S. cbn [requests].
      rewrite app_nil_r, <- app_assoc. reflexivity.
    + rewrite Hsl. cbn [trace emit set_replies].
      rewrite !sleeps_app. cbn [sleeps]. now rewrite !app_nil_r.
Qed.

End CodeHostPaging.

Section CodeHostSearch.
Context {lib : Library}.

(** X16. The search of one date slice returns its pages end to end and
    stops at [max_pages]. Answered by successes that list items, the
    search asks for the pages 1, 2, ... in turn, one request each and
    without sleeping, and returns the items of the pages in their order:
    after [max_pages] pages, whatever else there may be to fetch, the
    replies behind them being left alone; or before that, at the first
    page that lists no items. *)
Theorem X16_slice_search_returns_the_pages (rs : list response)
  (pages : list (list json)) (rest : list http_outcome)
  (keyword github_token start_date end_date : string) (per_page : Z)
  (max_pages : nat) (w : world) :
  Forall2 lists_items rs pages ->
  Forall (fun p => p <> []) pages ->
  replies w = map Reply rs ++ rest ->
  (length rs = max_pages ->
   exists w',
     CrawlGithub.search_repositories_with_date_range keyword github_token
       start_date end_date per_page max_pages w
     = (Returns (concat pages), w')
     /\ replies w' = rest
     /\ requests (trace w')
        = requests (trace w)
          ++ github_requests keyword start_date end_date per_page 1
               max_pages
     /\ sleeps (trace w') = sleeps (trace w))
  /\ (forall last rest',
      (length rs < max_pages)%nat ->
      rest = Reply last :: rest' ->
      lists_items last [] ->
      exists w',
        CrawlGithub.search_repositories_with_date_range keyword
          github_token start_date end_date per_page max_pages w
        = (Returns (concat pages), w')
        /\ replies w' = rest'
        /\ requests (trace w')
           = requests (trace w)
             ++ github_requests keyword start_date end_date per_page 1
                  (S (length rs))
        /\ sleeps (trace w') = sleeps (trace w)).
Proof.
  intros HF Hne Hw. unfold CrawlGithub.search_repositories_with_date_range.
  split.
  - intros <-.
    destruct (search_pages_pages rs pages 0 1 keyword start_date end_date
                per_page [] w rest HF Hne Hw)
      as (w' & Hrun & Hrest & Hreq & Hsl).
    rewrite Nat.add_0_r in Hrun. exists w'. rewrite Hrun. cbn. auto.
  - intros last rest' Hlt -> (Hs & body & Hj & Hitems).
    destruct (search_pages_pages rs pages (max_pages - length rs) 1 keyword
                start_date end_date per_page [] w _ HF Hne Hw)
      as (w1 & Hrun & Hrest & Hreq & Hsl).
    replace (length rs + (max_pages - length rs))%nat with max_pages
      in Hrun by lia.
    rewrite Hrun.
    destruct (max_pages - length rs)%nat as [|more] eqn:E; [lia|].
    cbn [CrawlGithub.search_pages app].
    pose proof (request_page_success
                  (CrawlGithub.search_params keyword start_date end_date
                     per_page (1 + Z.of_nat (length rs))) w1 last rest'
                  Hrest Hs) as Hpage.
    unfold bind at 1 in Hpage. unfold bind at 1.
    destruct (replies_left w1) as [[fuel| |] w0] eqn:Hfuel;
      try discriminate.
    unfold bind at 1. rewrite Hpage.
    unfold bind at 1, response_json. rewrite Hj. cbn [or_raise ret].
    cbn [py_get_default]. unfold bind at 1. cbn [ret]. rewrite Hitems.
    cbn [truthy negb ret].
    eexists. split; [reflexivity|]. cbn [replies trace emit set_replies].
    split; [reflexivity|]. split.
    + rewrite requests_app, Hreq. cbn [requests].
      rewrite <- app_assoc. f_equal.
      unfold github_requests. rewrite seq_S, map_app. reflexivity.
    + rewrite sleeps_app, Hsl. cbn [sleeps]. now rewrite app_nil_r.
Qed.

(** X17. A rate limit that is not waited for. A 403 reply that speaks
    of a rate limit, but whose headers do not say that no requests remain,
    is neither waited for nor reported: when its body is a JSON object
    without items, as an error message is, the search of the date slice
    ends there with what it has gathered, after that one request, without
    a sleep and without a word, and the pages from this one on are not
    fetched. *)
Theorem X17_rate_limit_that_is_not_waited_for (r : response)
  (rest : list http_outcome) (w : world) (remaining reset : Z) (body : dict)
  (pages : nat) (page : Z) (keyword start_date end_date : string)
  (per_page : Z) (all_repos : list json) :
  replies w = Reply r :: rest ->
  CrawlGithub.rate_limited r = true ->
  header_value "X-RateLimit-Remaining" 1 (headers r) = Some remaining ->
  remaining <> 0 ->
  header_value "X-RateLimit-Reset" (clock w + 60) (headers r) = Some reset ->
  json_loads (text r) = Some (JObj body) ->
  truthy (Dict.get_default "items" (JArr []) body) = false ->
  CrawlGithub.search_pages (S pages) page keyword start_date end_date
    per_page all_repos w
  = (Returns all_repos,
     emit (Requested CrawlGithub.GITHUB_SEARCH_URL
             (CrawlGithub.search_params keyword start_date end_date per_page
                page))
       (set_replies rest w)).
Proof.
  intros Hw Hrl Hrem Hn Hreset Hj Hitems.
  cbn [CrawlGithub.search_pages]. unfold bind at 1, replies_left.
  rewrite Hw. cbn [length CrawlGithub.request_page].
  unfold bind at 1. unfold bind at 1, requests_get. rewrite Hw, Hrl.
  unfold bind at 1, CrawlGithub.check_rate_limit. unfold bind at 1.
  rewrite (header_int_value _ _ _ _ _ Hrem).
  unfold bind at 1. cbn [time_time]. unfold bind at 1.
  cbn [clock emit set_replies].
  rewrite (header_int_value _ _ _ _ _ Hreset).
  destruct (Z.eqb_spec remaining 0) as [|_]; [contradiction|].
  cbn [ret]. unfold bind at 1, response_json. rewrite Hj.
  cbn [or_raise ret py_get_default]. unfold bind at 1. cbn [ret].
  now rewrite Hitems.
Qed.

End CodeHostSearch.

Lemma X16_witness :
  fst (CrawlGithub.search_repositories_with_date_range (lib := fragment)
         "BRSET" "ghp_xxx" "2025-03-01" "2025-03-31" 100 1
         (world_with two_partitions []))
  = Returns (map (fun n => JObj [("name", JStr n);
                                ("full_name", JStr ("lab/" +:+ n))])
               ["brset-seg"; "retina"]).
Proof.
  destruct (X16_slice_search_returns_the_pages (lib := fragment)
              [found ["brset-seg"; "retina"]]
              [map (fun n => JObj [("name", JStr n);
                                   ("full_name", JStr ("lab/" +:+ n))])
                 ["brset-seg"; "retina"]]
              [Reply (found []); Reply (found ["atlas"]); Reply (found [])]
              "BRSET" "ghp_xxx" "2025-03-01" "2025-03-31" 100 1
              (world_with two_partitions []))
    as [H _].
  - constructor; [|constructor]. split; [reflexivity|].
    eexists. split; vm_compute; reflexivity.
  - constructor; [discriminate|constructor].
  - reflexivity.
  - destruct (H eq_refl) as (w' & Hrun & _). rewrite Hrun. reflexivity.
Defined.

Lemma X17_witness :
  fst (CrawlGithub.search_pages (lib := fragment) 10 1 "BRSET" "2025-03-01"
         "2025-03-31" 100 []
         (world_with [Reply secondary_rate_limit; Reply (found ["atlas"])]
            []))
  = Returns []
  /\ replies
       (snd (CrawlGithub.search_pages (lib := fragment) 10 1 "BRSET"
               "2025-03-01" "2025-03-31" 100 []
               (world_with [Reply secondary_rate_limit;
                            Reply (found ["atlas"])] [])))
     = [Reply (found ["atlas"])].
Proof.
  rewrite (X17_rate_limit_that_is_not_waited_for (lib := fragment)
             secondary_rate_limit [Reply (found ["atlas"])]
             (world_with [Reply secondary_rate_limit;
                          Reply (found ["atlas"])] [])
             17 60
             [("message", JStr "You have exceeded a secondary rate limit.")]
             9 1 "BRSET" "2025-03-01" "2025-03-31" 100 []);
    try (vm_compute; reflexivity); [|discriminate].
  split; reflexivity.
Defined.

(** ** The readme fetch does not give up *)

Section Readme.
Context {lib : Library}.

Lemma fetch_loop_refused rs : forall fuel name url w rest,
  Forall (fun r => refusal r = true) rs ->
  replies w = map Reply rs ++ rest ->
  exists w',
    ProcessGithub.fetch_loop (length rs + fuel) name url w
    = ProcessGithub.fetch_loop fuel name url w'
    /\ replies w' = rest
    /\ sleeps (trace w') = sleeps (trace w) ++ repeat 5 (length rs)
    /\ length (requests (trace w'))
       = (length (requests (trace w)) + length rs)%nat.
Proof.
  induction rs as [|r rs IH]; intros fuel name url w rest Hr Hw.
  - exists w. cbn. rewrite app_nil_r. auto.
  - inversion Hr as [|? ? Hr1 Hr2]; subst.
    unfold refusal in Hr1. apply andb_prop in Hr1 as [Hs Hh].
    destruct (header "X-RateLimit-Remaining" (headers r)) eqn:Hrem;
      [discriminate|].
    destruct (header "X-RateLimit-Reset" (headers r)) eqn:Hres;
      [discriminate|].
    cbn [length Nat.add ProcessGithub.fetch_loop].
    unfold bind at 1, try_except, bind at 1, requests_get.
    rewrite Hw. cbn [map app]. unfold header_int. rewrite Hrem, Hres.
    cbn [bind ret time_time]. unfold bind at 1. cbn [ret].
    unfold bind at 1. cbn [time_time]. unfold bind at 1. cbn [ret].
    replace ((1 =? 0) || (status_code r =? 403) || (status_code r =? 429))
      with true by (cbn [Z.eqb orb]; now rewrite Hs).
    cbn [print]. unfold time_sleep. rewrite Z.sub_diag.
    change (Z.max 0 0 + 5) with 5. cbn [Z.ltb Z.compare ret].
    match goal with
    | |- context [ProcessGithub.fetch_loop _ _ _ ?w1] =>
        destruct (IH fuel name url w1 rest Hr2 eq_refl)
          as (w' & Hrun & Hrest & Hsl & Hreq)
    end.
    exists w'. split; [exact Hrun|]. split; [exact Hrest|]. split.
    + rewrite Hsl. cbn [trace emit set_clock set_replies].
      rewrite !sleeps_app. cbn [sleeps repeat length].
      rewrite !app_nil_r, <- app_assoc. reflexivity.
    + rewrite Hreq. cbn [trace emit set_clock set_replies].
      rewrite !requests_app, !length_app. cbn. lia.
Qed.

(** X18. The readme fetch does not give up. Answered by any number
    of 403 and 429 replies without rate-limit headers, the fetch of a
    readme sleeps 5 seconds on each one and asks again, however many there
    are, until a reply settles it: then it returns the text of a success,
    and no readme on a failure of another kind. *)
Theorem X18_readme_fetch_does_not_give_up (rs : list response)
  (r : response) (rest : list http_outcome) (name : json)
  (github_token : string) (w : world) :
  Forall (fun r => refusal r = true) rs ->
  settled r = true ->
  replies w = map Reply rs ++ Reply r :: rest ->
  exists w',
    ProcessGithub.fetch_repo_readme name github_token w
    = (Returns (if status_code r =? 200 then Some (text r) else None), w')
    /\ replies w' = rest
    /\ sleeps (trace w') = sleeps (trace w) ++ repeat 5 (length rs)
    /\ length (requests (trace w'))
       = (length (requests (trace w)) + S (length rs))%nat.
Proof.
  intros Hr Hs Hw.
  destruct (fetch_loop_refused rs (S (S (length rest))) (py_str name)
              (ProcessGithub.GITHUB_API_BASE +:+ "/repos/" +:+ py_str name
               +:+ "/readme") w (Reply r :: rest) Hr Hw)
    as (w1 & Hrun & Hrest & Hsl & Hreq).
  destruct (fetch_loop_settled (S (length rest)) (py_str name)
              (ProcessGithub.GITHUB_API_BASE +:+ "/repos/" +:+ py_str name
               +:+ "/readme") w1 r rest Hrest Hs)
    as (w' & Hf & Hr' & Hsl' & Hreq').
  exists w'. split; [|split; [exact Hr'|split]].
  - rewrite <- Hf, <- Hrun.
    unfold ProcessGithub.fetch_repo_readme, bind at 1, replies_left.
    rewrite Hw, length_app, length_map. cbn [length].
    now replace (S (length rs + S (length rest)))
      with (length rs + S (S (length rest)))%nat by lia.
  - now rewrite Hsl', Hsl.
  - rewrite Hreq', Hreq. lia.
Qed.

End Readme.

Lemma X18_witness :
  exists w',
    ProcessGithub.fetch_repo_readme (lib := fragment) (JStr "lab/atlas")
      "ghp_xxx"
      (world_with [Reply forbidden; Reply forbidden; Reply a_readme] [])
    = (Returns (Some "# Atlas"), w')
    /\ sleeps (trace w') = [5; 5].
Proof.
  destruct (X18_readme_fetch_does_not_give_up (lib := fragment)
              [forbidden; forbidden] a_readme [] (JStr "lab/atlas")
              "ghp_xxx"
              (world_with [Reply forbidden; Reply forbidden; Reply a_readme]
                 []))
    as (w' & H & _ & Hs & _).
  - repeat constructor.
  - reflexivity.
  - reflexivity.
  - exists w'. split; [exact H|exact Hs].
Defined.

(** ** The walk over the files of a hub dataset *)

Section TreeWalk.
Context {lib : Library}.

Lemma fetch_paths_S fuel dataset_id path :
  ProcessHuggingface.fetch_paths (S fuel) dataset_id path
  = (let url := ProcessHuggingface.HF_TREE_BASE_URL (py_str dataset_id) in
     let url := if truthy path then url +:+ "/" +:+ py_str path else url in
     response <- ProcessHuggingface.safe_request url 2 ;;
     match response with
     | None =>
         print ("[WARN] Failed to fetch files for " +:+ py_str dataset_id
                +:+ " at path '" +:+ py_str path +:+ "'") ;;
         ret []
     | Some r =>
         items <- response_json r ;;
         its <- py_iter items ;;
         each_item fuel dataset_id its []
     end).
Proof. reflexivity. Qed.

Lemma safe_request_success url w r rest :
  replies w = Reply r :: rest ->
  status_code r = 200 ->
  exists w',
    ProcessHuggingface.safe_request url 2 w = (Returns (Some r), w')
    /\ replies w' = rest.
Proof.
  intros Hw Hs. unfold ProcessHuggingface.safe_request, bind at 1,
    replies_left. rewrite Hw.
  cbn [length ProcessHuggingface.request_loop].
  unfold bind at 1, try_except, bind at 1, requests_get. rewrite Hw, Hs.
  cbn. eauto.
Qed.

Lemma list_max_le_each l n x :
  (list_max l <= n)%nat -> In x l -> (x <= n)%nat.
Proof.
  intros H Hx. apply list_max_le in H. rewrite List.Forall_forall in H.
  auto.
Qed.

Lemma each_item_walk fuel dataset_id :
  (forall f es path w rs rest,
      fuel = S f ->
      forallb well_formed es = true ->
      Forall (fun e => (depth e <= f)%nat) es ->
      Forall2 lists rs (map item_of es :: flat_map listings_under es) ->
      replies w = map Reply rs ++ rest ->
      exists w',
        ProcessHuggingface.fetch_paths fuel dataset_id path w
        = (Returns (flat_map paths_of es), w')
        /\ replies w' = rest) ->
  forall es all_files w rs rest,
    forallb well_formed es = true ->
    Forall (fun e => (depth e <= fuel)%nat) es ->
    Forall2 lists rs (flat_map listings_under es) ->
    replies w = map Reply rs ++ rest ->
    exists w',
      each_item fuel dataset_id (map item_of es) all_files w
      = (Returns (all_files ++ flat_map paths_of es), w')
      /\ replies w' = rest.
Proof.
  intros Hdeeper es.
  induction es as [|[item under] es IH];
    intros all_files w rs rest Hwf Hd HF Hw.
  - inversion HF; subst. exists w. cbn. rewrite app_nil_r. auto.
  - cbn [forallb well_formed] in Hwf.
    apply andb_prop in Hwf as [Hwf1 Hwf2].
    apply andb_prop in Hwf1 as [Hty Hshape].
    inversion Hd as [|? ? Hd1 Hd2]; subst.
    cbn [flat_map paths_of listings_under depth] in *.
    cbn [map item_of each_item py_index].
    unfold Dict.mem in Hty. unfold is_file, is_directory, Dict.get,
      Dict.get_default in *.
    destruct (Dict.lookup "type" item) as [ty|] eqn:Ety; [|discriminate].
    unfold bind at 1. cbn [or_raise ret].
    destruct (eq_str ty "file") eqn:Efile.
    + unfold Dict.mem in Hshape.
      destruct (Dict.lookup "path" item) as [p|] eqn:Ep; [|discriminate].
      unfold bind at 1. cbn [or_raise ret].
      destruct (IH (all_files ++ [p]) w rs rest Hwf2 Hd2 HF Hw)
        as (w' & Hrun & Hrest).
      exists w'. split; [|exact Hrest].
      fold (each_item fuel dataset_id). rewrite Hrun.
      cbn [app]. now rewrite <- app_assoc.
    + destruct (eq_str ty "directory") eqn:Edir.
      * apply andb_prop in Hshape as [Hpath Hunder].
        unfold Dict.mem in Hpath.
        destruct (Dict.lookup "path" item) as [p|] eqn:Ep; [|discriminate].
        unfold bind at 1. cbn [or_raise ret].
        destruct fuel as [|f]; [lia|].
        apply Forall2_app_inv_r in HF
          as (rs1 & rs2 & HF1 & HF2 & ->).
        rewrite map_app, <- app_assoc in Hw.
        destruct (Hdeeper f under p w rs1 (map Reply rs2 ++ rest) eq_refl
                    Hunder)
          as (w1 & Hsub & Hr1); [|exact HF1|exact Hw|].
        { apply Forall_forall. intros e He.
          apply (list_max_le_each (map depth under)); [lia|].
          apply in_map, list_elem_of_In, He. }
        rewrite (bind_returns _ _ _ _ _ Hsub).
        destruct (IH (all_files ++ flat_map paths_of under) w1 rs2 rest
                    Hwf2 Hd2 HF2 Hr1)
          as (w' & Hrun & Hrest).
        exists w'. split; [|exact Hrest].
        fold (each_item (S f) dataset_id). rewrite Hrun.
        now rewrite <- app_assoc.
      * destruct (IH all_files w rs rest Hwf2 Hd2 HF Hw)
          as (w' & Hrun & Hrest).
        exists w'. split; [|exact Hrest].
        fold (each_item fuel dataset_id). exact Hrun.
Qed.


Lemma fetch_paths_walk fuel : forall es dataset_id path w rs rest,
  forallb well_formed es = true ->
  Forall (fun e => (depth e <= fuel)%nat) es ->
  Forall2 lists rs (map item_of es :: flat_map listings_under es) ->
  replies w = map Reply rs ++ rest ->
  exists w',
    ProcessHuggingface.fetch_paths (S fuel) dataset_id path w
    = (Returns (flat_map paths_of es), w')
    /\ replies w' = rest.
Proof.
  induction fuel as [|fuel IH];
    intros es dataset_id path w rs rest Hwf Hd HF Hw;
    inversion HF as [|r ? rs' ? [Hs Hj] HF']; subst;
    rewrite fetch_paths_S; cbv zeta;
    cbn [map app] in Hw;
    match goal with
    | |- context [ProcessHuggingface.safe_request ?url 2] =>
        destruct (safe_request_success url w r _ Hw Hs) as (w1 & Hreq & Hr1)
    end;
    rewrite (bind_returns _ _ _ _ _ Hreq);
    unfold bind at 1, response_json; rewrite Hj; cbn [or_raise ret py_iter];
    unfold bind at 1; cbn [ret].
  - apply (each_item_walk 0 dataset_id) with (rs := rs');
      try assumption. intros; discriminate.
  - apply (each_item_walk (S fuel) dataset_id) with (rs := rs');
      try assumption.
    intros f es' path' w' rs0 rest0 [= <-]. apply IH.
Qed.

Lemma length_flat_map_member {A B} (f : A -> list B) l x :
  In x l -> (length (f x) <= length (flat_map f l))%nat.
Proof.
  induction l as [|y l IH]; [contradiction|]. cbn [flat_map].
  rewrite length_app. intros [->|H]; [lia|]. specialize (IH H). lia.
Qed.

Lemma depth_le_listings n : forall e,
  (depth e <= n)%nat -> (depth e <= length (listings_under e))%nat.
Proof.
  induction n as [|n IH]; intros [item under]; cbn [depth listings_under].
  - lia.
  - destruct (is_file item); [lia|]. destruct (is_directory item); [|lia].
    intros H. cbn [length]. apply le_n_S. apply list_max_le.
    apply List.Forall_forall. intros k Hk.
    apply in_map_iff in Hk as (u & <- & Hu).
    transitivity (length (listings_under u)).
    + apply IH. apply (list_max_le_each (map depth under)); [lia|].
      now apply in_map.
    + now apply length_flat_map_member.
Qed.

(** X19. The walk over the files of a hub dataset is depth first and
    complete. When every listing is answered by a success that lists the
    items of a directory, each item with a type and each file and directory
    with a path, the walk asks for the listing of the top directory and
    then, at each directory it meets, for the listings below it before
    going on; it returns the paths of all files, in that order, each once,
    and takes no reply beyond the listings of the tree. *)
Theorem X19_file_walk_is_depth_first (es : list entry) (rs : list response)
  (rest : list http_outcome) (dataset_id : json) (w : world) :
  forallb well_formed es = true ->
  Forall2 lists rs (map item_of es :: flat_map listings_under es) ->
  replies w = map Reply rs ++ rest ->
  exists w',
    ProcessHuggingface.fetch_recursive_file_paths dataset_id w
    = (Returns (flat_map paths_of es), w')
    /\ replies w' = rest.
Proof.
  intros Hwf HF Hw. unfold ProcessHuggingface.fetch_recursive_file_paths,
    bind at 1, replies_left.
  apply (fetch_paths_walk (length (replies w)) es) with (rs := rs);
    try assumption.
  apply Forall_forall. intros e He.
  transitivity (length (listings_under e)).
  - now apply (depth_le_listings (depth e)).
  - transitivity (length (flat_map listings_under es)).
    + apply length_flat_map_member. now apply list_elem_of_In.
    + apply Forall2_length in HF. rewrite Hw, length_app, length_map.
      cbn [length] in HF. lia.
Qed.

End TreeWalk.

Lemma X19_witness :
  exists w',
    ProcessHuggingface.fetch_recursive_file_paths (lib := fragment)
      (JStr "lab/brset") (world_with (map Reply small_tree_replies) [])
    = (Returns [JStr "README.md"; JStr "images/1.png"; JStr "images/2.png"],
       w').
Proof.
  destruct (X19_file_walk_is_depth_first (lib := fragment) small_tree
              small_tree_replies [] (JStr "lab/brset")
              (world_with (map Reply small_tree_replies) []))
    as (w' & H & _).
  - reflexivity.
  - repeat constructor; vm_compute; reflexivity.
  - reflexivity.
  - exists w'. exact H.
Defined.

(** ** The citation matcher *)

Section Matcher.
Context {lib : Library} {scholar : Scholar}.
Hypothesis ratio_le_hundred :
  forall a b, QArith_base.Qle (ratio a b) CrawlCitation.hundred.

Lemma scan_exact results paper_title : forall best_match highest_score w,
  Forall titled results ->
  QArith_base.Qlt highest_score CrawlCitation.hundred ->
  exists best_match' highest_score',
    CrawlCitation.scan results paper_title best_match highest_score w
    = (Returns (best_match', highest_score'), w)
    /\ (best_match' = best_match \/ In best_match' results)
    /\ match find (exact paper_title) results with
       | Some r =>
           best_match' = r
           /\ QArith_base.Qeq_bool highest_score' CrawlCitation.hundred
              = true
       | None =>
           QArith_base.Qeq_bool highest_score' CrawlCitation.hundred
           = false
       end.
Proof.
  induction results as [|r results IH]; intros best_match highest_score w Ht Hh.
  - exists best_match, highest_score. split; [reflexivity|].
    split; [now left|]. cbn.
    destruct (QArith_base.Qeq_bool highest_score CrawlCitation.hundred)
      eqn:E; [|reflexivity].
    apply QArith_base.Qeq_bool_iff in E.
    now apply QArith_base.Qlt_not_eq in Hh.
  - inversion Ht as [|? ? (d & t & -> & Hd) Ht']; subst.
    cbn [CrawlCitation.scan py_get_default find].
    unfold bind at 1. cbn [ret]. rewrite Hd. cbn [py_lower].
    unfold bind at 1. cbn [ret].
    unfold exact at 1. cbn [score_of]. rewrite Hd.
    set (s := ratio (Py.lower paper_title) (Py.lower t)).
    destruct (QArith_base.Qeq_bool s CrawlCitation.hundred) eqn:Es.
    + assert (Hgt : QArith_base.Qle_bool s highest_score = false).
      { destruct (QArith_base.Qle_bool s highest_score) eqn:E;
          [|reflexivity].
        apply QArith_base.Qle_bool_iff in E.
        apply QArith_base.Qeq_bool_iff in Es.
        exfalso. apply (QArith_base.Qlt_not_le _ _ Hh).
        now rewrite <- Es. }
      rewrite Hgt. cbn [negb]. eexists _, _. split; [reflexivity|].
      split; [right; now left|]. auto.
    + assert (Hnext : forall b h,
                 QArith_base.Qlt h CrawlCitation.hundred ->
                 (b = best_match \/ b = JObj d) ->
                 exists best_match' highest_score',
                   CrawlCitation.scan results paper_title b h w
                   = (Returns (best_match', highest_score'), w)
                   /\ (best_match' = best_match
                       \/ In best_match' (JObj d :: results))
                   /\ match find (exact paper_title) results with
                      | Some r =>
                          best_match' = r
                          /\ QArith_base.Qeq_bool highest_score'
                               CrawlCitation.hundred = true
                      | None =>
                          QArith_base.Qeq_bool highest_score'
                            CrawlCitation.hundred = false
                      end).
      { intros b h Hlt Hb.
        destruct (IH b h w Ht' Hlt) as (b' & h' & Hrun & Hin & Hf).
        exists b', h'. split; [exact Hrun|]. split; [|exact Hf].
        destruct Hin as [-> | Hin]; [|right; now right].
        destruct Hb as [-> | ->]; [now left|right; now left]. }
      destruct (QArith_base.Qle_bool s highest_score); cbn [negb].
      * apply Hnext; [assumption|now left].
      * apply Hnext; [|now right].
        destruct (proj1 (QArith_base.Qle_lteq _ _)
                    (ratio_le_hundred (Py.lower paper_title) (Py.lower t)))
          as [H|H]; [exact H|].
        apply QArith_base.Qeq_bool_iff in H. fold s in H. congruence.
Qed.


End Matcher.


(** ** Failed searches and empty listings *)

Section EmptyListings.
Context {lib : Library}.

(** X21. A hub search that fails overwrites the listing with the empty
    list. When the first reply is neither a success nor a 429, or when
    five 429 replies in a row use up the attempts, [search_huggingface]
    still writes its artifact: the empty list, over whatever an earlier
    search had found. *)
Theorem X21_failed_hub_search_overwrites_the_listing (KEYWORD : string)
  (s : system) :
  let name := "huggingface_datasets_" +:+ KEYWORD +:+ ".json" in
  (forall r rest,
      replies (outside s) = Reply r :: rest ->
      status_code r <> 200 ->
      status_code r <> 429 ->
      exists s',
        CrawlHuggingface.search_huggingface KEYWORD s = (Returns tt, s')
        /\ files s' = <[name := json_dumps 4 (JArr [])]> (files s)
        /\ replies (outside s') = rest)
  /\ (forall rs h rest,
      replies (outside s) = map Reply rs ++ rest ->
      Forall (throttled 5 h) rs ->
      0 <= h ->
      length rs = 5%nat ->
      exists s',
        CrawlHuggingface.search_huggingface KEYWORD s = (Returns tt, s')
        /\ files s' = <[name := json_dumps 4 (JArr [])]> (files s)
        /\ replies (outside s') = rest).
Proof.
  cbv zeta. split.
  - intros r rest Hw H200 H429.
    unfold CrawlHuggingface.search_huggingface, bind at 1, lift,
      CrawlHuggingface.search_datasets_by_keyword.
    cbn [CrawlHuggingface.attempts]. unfold bind at 1, requests_get.
    rewrite Hw.
    destruct (Z.eqb_spec (status_code r) 200) as [|_]; [contradiction|].
    destruct (Z.eqb_spec (status_code r) 429) as [|_]; [contradiction|].
    cbn. eexists. split; [reflexivity|]. cbn. auto.
  - intros rs h rest Hw Hrs Hh Hlen.
    unfold CrawlHuggingface.search_huggingface, bind at 1, lift,
      CrawlHuggingface.search_datasets_by_keyword.
    destruct (hub_throttled rs h 0 0 KEYWORD 5 (outside s) rest)
      as (w' & Hrun & Hrest & _); try assumption; [lia|].
    rewrite Hlen in Hrun. cbn [Nat.add] in Hrun. rewrite Hrun.
    cbn. eexists. split; [reflexivity|]. cbn. auto.
Qed.

(** X22. An empty listing and the artifact of an earlier run. On a
    listing that is the empty list, the enrichment of the code host and that
    of the hub print one line and write nothing, so
    that an enriched artifact of an earlier run stays as it is; the
    enrichment of the competition catalog writes the empty list over it. *)
Theorem X22_empty_listing_and_the_earlier_artifact (KEYWORD : string)
  (s : system) :
  (forall content,
      files s !! ("github_repos_" +:+ KEYWORD +:+ ".json") = Some content ->
      json_loads content = Some (JArr []) ->
      exists msg,
        ProcessGithub.clean_github_data KEYWORD s
        = (Returns tt,
           {| outside := emit (Printed msg) (outside s);
              files := files s |}))
  /\ (forall content,
      files s !! ("huggingface_datasets_" +:+ KEYWORD +:+ ".json")
      = Some content ->
      json_loads content = Some (JArr []) ->
      exists msg,
        ProcessHuggingface.clean_huggingface_data KEYWORD s
        = (Returns tt,
           {| outside := emit (Printed msg) (outside s);
              files := files s |}))
  /\ (forall content completed,
      files s !! ("kaggle_datasets_" +:+ KEYWORD +:+ ".json")
      = Some content ->
      json_loads content = Some (JArr []) ->
      exists s',
        ProcessKaggle.clean_kaggle_data KEYWORD completed s
        = (Returns tt, s')
        /\ files s'
           = <["processed_kaggle_" +:+ KEYWORD +:+ ".json"
               := json_dumps 4 (JArr [])]> (files s)).
Proof.
  split; [|split].
  - intros content Hf Hj.
    unfold ProcessGithub.clean_github_data, bind at 1, try_except,
      json_load, bind at 1, read_file.
    rewrite Hf, Hj. eexists. reflexivity.
  - intros content Hf Hj.
    unfold ProcessHuggingface.clean_huggingface_data, bind at 1, try_except,
      json_load, bind at 1, read_file.
    rewrite Hf, Hj. eexists. reflexivity.
  - intros content completed Hf Hj.
    unfold ProcessKaggle.clean_kaggle_data,
      ProcessKaggle.process_kaggle_datasets_file, bind at 1, try_except,
      bind at 1, json_load, bind at 1, read_file.
    rewrite Hf, Hj. cbn [or_raise ret py_iter].
    unfold bind at 1. cbn [ret]. unfold bind at 1, lift.
    rewrite collect_nothing. cbn. eexists. split; reflexivity.
Qed.

End EmptyListings.

Lemma X21_witness :
  files (snd (CrawlHuggingface.search_huggingface (lib := fragment) "BRSET"
                (system_with [Reply not_found] []
                   [("huggingface_datasets_BRSET.json",
                     Py.dq "[{'id': 'lab/brset'}]")])))
  !! "huggingface_datasets_BRSET.json"
  = Some "[]".
Proof.
  destruct (proj1 (X21_failed_hub_search_overwrites_the_listing
                     (lib := fragment) "BRSET"
                     (system_with [Reply not_found] []
                        [("huggingface_datasets_BRSET.json",
                          Py.dq "[{'id': 'lab/brset'}]")]))
              not_found [] eq_refl)
    as (s' & Hrun & Hfiles & _); [discriminate|discriminate|].
  rewrite Hrun. cbn [snd]. rewrite Hfiles. apply lookup_insert_eq.
Defined.

Lemma X22_witness :
  let s := system_with [] []
             [("github_repos_BRSET.json", "[]");
              ("processed_github_repos_BRSET.json",
               Py.dq "[{'name': 'atlas'}]")] in
  files (snd (ProcessGithub.clean_github_data (lib := fragment) "BRSET" s))
  = files s.
Proof.
  cbv zeta.
  destruct (proj1 (X22_empty_listing_and_the_earlier_artifact
                     (lib := fragment) "BRSET"
                     (system_with [] []
                        [("github_repos_BRSET.json", "[]");
                         ("processed_github_repos_BRSET.json",
                          Py.dq "[{'name': 'atlas'}]")]))
              "[]" eq_refl eq_refl) as [msg H].
  rewrite H. reflexivity.
Defined.
